(** * ixgbe SR-IOV control plane (src/src/ixgbe_sriov.c)

    A shallow embedding of the PF side of the ixgbe VF mailbox protocol, the
    per-VF policy handlers and the SR-IOV enable/disable lifecycle.

    Conventions.
    - [u32]/[int] values are [Z]; wrap-around is written out with [u32]
      where the C arithmetic can leave the 32-bit range.
    - [adapter->vfinfo] is [option (list vf_data_storage)]: [None] is the
      NULL pointer.  Indexing outside the table is undefined behaviour in C;
      the embedding returns [None] there.
    - [adapter->mv_list] is [option (list vf_macvlans)], the entries in the
      order the list adapter->vf_mvs.l is walked; [None] is the NULL
      pointer.  The list head is initialised only when the array is
      allocated and dangles once it is freed, so a walk of the list while
      the pointer is NULL is undefined behaviour in C; the embedding
      returns [None] there.
    - Device registers are a write log ([regfile]), newest write first;
      [IXGBE_READ_REG] returns the newest value written, 0 if none.
    - [ixgbe_write_mbx] appends the words it was given to the per-device
      log [mbx_out]; one entry is one message written to one VF.
    - The build modelled is CONFIG_PCI_IOV, HAVE_NDO_SET_VF_RSS_QUERY_EN,
      HAVE_XDP_SUPPORT, CONFIG_FCOE, IFLA_VF_MAX, IFLA_VF_VLAN_INFO_MAX,
      HAVE_NDO_SET_VF_TRUST, HAVE_NDO_SET_VF_LINK_STATE,
      HAVE_NDO_SET_VF_MIN_MAX_TX_RATE and HAVE_VF_SPOOFCHK_CONFIGURE, without
      HAVE_VLAN_RX_REGISTER and without IXGBE_DISABLE_VF_MQ, on a
      little-endian host.
    - State that only the administrative entry points and the periodic
      tasks touch is passed beside the adapter: the link ([ixgbe_link]),
      the multicast shadow table ([mta_state]) and the writes to the rate
      limiter and ethertype filter registers ([reg_writes], oldest write
      first, which keeps the order of a select/value pair of writes). *)

From Stdlib Require Import ZArith Lia Bool List.
From stdpp Require Import base option list.
Import ListNotations.
Local Open Scope Z_scope.

(** ** Constants of headers that are not part of this file

    Modelled from the spec: the headers (linux/errno.h, linux/if_ether.h,
    ixgbe_mbx.h, ixgbe_type.h, ixgbe.h) are not under src/.  Section 6 fixes
    the wire format (msgbuf[0]: low 16 bits the opcode, status bits for
    SUCCESS, FAILURE and CTS, a count/info field above the opcode); the
    numeric values are the ones of the driver's headers. *)

Module K.
(* linux/errno.h *)
Definition EPERM := 1.
Definition ENOMEM := 12.
Definition EINVAL := 22.
Definition ENOSPC := 28.
Definition EOPNOTSUPP := 95.
(* linux/if_ether.h, linux/if_vlan.h *)
Definition ETH_ALEN := 6.
Definition ETH_HLEN := 14.
Definition ETH_FRAME_LEN := 1514.
Definition ETH_FCS_LEN := 4.
Definition VLAN_VID_MASK := 0xfff.
Definition VLAN_PRIO_SHIFT := 13.
(* ixgbe_mbx.h *)
Definition IXGBE_VFMAILBOX_SIZE := 16.
Definition IXGBE_ERR_MBX := -100.
Definition IXGBE_VT_MSGTYPE_SUCCESS := 0x80000000.
Definition IXGBE_VT_MSGTYPE_FAILURE := 0x40000000.
Definition IXGBE_VT_MSGTYPE_CTS := 0x20000000.
Definition IXGBE_VT_MSGINFO_SHIFT := 16.
Definition IXGBE_VT_MSGINFO_MASK := Z.shiftl 0xFF IXGBE_VT_MSGINFO_SHIFT.
Definition IXGBE_VF_RESET := 0x01.
Definition IXGBE_VF_SET_MAC_ADDR := 0x02.
Definition IXGBE_VF_SET_MULTICAST := 0x03.
Definition IXGBE_VF_SET_VLAN := 0x04.
Definition IXGBE_VF_SET_LPE := 0x05.
Definition IXGBE_VF_SET_MACVLAN := 0x06.
Definition IXGBE_VF_API_NEGOTIATE := 0x08.
Definition IXGBE_VF_GET_QUEUES := 0x09.
Definition IXGBE_VF_GET_RETA := 0x0a.
Definition IXGBE_VF_GET_RSS_KEY := 0x0b.
Definition IXGBE_VF_UPDATE_XCAST_MODE := 0x0c.
Definition IXGBE_VF_GET_LINK_STATE := 0x10.
Definition IXGBE_VF_PERMADDR_MSG_LEN := 4.
Definition IXGBE_VF_TX_QUEUES := 1%nat.
Definition IXGBE_VF_RX_QUEUES := 2%nat.
Definition IXGBE_VF_TRANS_VLAN := 3%nat.
Definition IXGBE_VF_DEF_QUEUE := 4%nat.
Definition IXGBE_PF_CONTROL_MSG := 0x0100.
(* enum ixgbe_pfvf_api_rev *)
Definition ixgbe_mbox_api_10 := 0.
Definition ixgbe_mbox_api_20 := 1.
Definition ixgbe_mbox_api_11 := 2.
Definition ixgbe_mbox_api_12 := 3.
Definition ixgbe_mbox_api_13 := 4.
(* enum ixgbevf_xcast_modes *)
Definition IXGBEVF_XCAST_MODE_NONE := 0.
Definition IXGBEVF_XCAST_MODE_MULTI := 1.
Definition IXGBEVF_XCAST_MODE_ALLMULTI := 2.
Definition IXGBEVF_XCAST_MODE_PROMISC := 3.
(* ixgbe_type.h *)
Definition IXGBE_VLVF_ENTRIES := 64%nat.
Definition IXGBE_VLVF_VLANID_MASK := 0x00000FFF.
Definition IXGBE_MHADD_MFS_MASK := 0xFFFF0000.
Definition IXGBE_MHADD_MFS_SHIFT := 16.
Definition IXGBE_VMOLR_UPE := 0x00400000.
Definition IXGBE_VMOLR_VPE := 0x00800000.
Definition IXGBE_VMOLR_AUPE := 0x01000000.
Definition IXGBE_VMOLR_ROMPE := 0x02000000.
Definition IXGBE_VMOLR_BAM := 0x08000000.
Definition IXGBE_VMOLR_MPE := 0x10000000.
Definition IXGBE_FCTRL_UPE := 0x00000200.
Definition IXGBE_VMVIR_VLANA_DEFAULT := 0x40000000.
Definition IXGBE_QDE_ENABLE := 0x00000001.
Definition IXGBE_QDE_HIDE_VLAN := 0x00000002.
Definition IXGBE_QDE_IDX_SHIFT := 8.
Definition IXGBE_QDE_WRITE := 0x00010000.
Definition IXGBE_TXDCTL_ENABLE := 0x02000000.
Definition IXGBE_GPIE_VTMODE_MASK := 0x0000C000.
Definition IXGBE_VT_CTL_POOL_MASK := Z.shiftl 0x3F 7.
Definition IXGBE_PFDTXGSWC_VT_LBEN := 0x1.
(* ixgbe.h, ixgbe_sriov.h, ixgbe_dcb.h, ixgbe_fcoe.h *)
Definition IXGBE_MAX_JUMBO_FRAME_SIZE := 9728.
Definition IXGBE_FCOE_JUMBO_FRAME_SIZE := 3072.
Definition IXGBE_MAX_VF_MC_ENTRIES := 30.
Definition IXGBE_MAX_PF_MACVLANS := 15.
Definition IXGBE_DCB_MAX_TRAFFIC_CLASS := 8.
Definition IXGBE_RSS_KEY_SIZE := 40.
End K.
Import K.

(** Modelled from the spec: ixgbe_sriov.h, which defines the VF-count limits,
    is not under src/.  The values are the ones of the table in the comment
    of [ixgbe_pci_sriov_enable] (Num_TCs / MAX_VFs: 1 / 63, <=4 / 31,
    >4 / 15) and of section 4.1 (hard cap 63). *)
Definition IXGBE_MAX_VFS_DRV_LIMIT := 63.
Definition IXGBE_MAX_VFS_1TC := IXGBE_MAX_VFS_DRV_LIMIT.
Definition IXGBE_MAX_VFS_4TC := 31.
Definition IXGBE_MAX_VFS_8TC := 15.

(** enum ixgbe_mac_type, in declaration order *)
Inductive ixgbe_mac_type :=
  | ixgbe_mac_unknown | ixgbe_mac_82598EB | ixgbe_mac_82599EB | ixgbe_mac_X540
  | ixgbe_mac_X550 | ixgbe_mac_X550EM_x | ixgbe_mac_X550EM_a | ixgbe_mac_E610.

Definition mac_rank (t : ixgbe_mac_type) : Z :=
  match t with
  | ixgbe_mac_unknown => 0 | ixgbe_mac_82598EB => 1 | ixgbe_mac_82599EB => 2
  | ixgbe_mac_X540 => 3 | ixgbe_mac_X550 => 4 | ixgbe_mac_X550EM_x => 5
  | ixgbe_mac_X550EM_a => 6 | ixgbe_mac_E610 => 7
  end.

Global Instance ixgbe_mac_type_eq_dec : EqDecision ixgbe_mac_type.
Proof. solve_decision. Defined.

(** ** Machine integers *)

Definition u32 (x : Z) : Z := x mod 2 ^ 32.
(* (int)x for a u32 x *)
Definition to_int (x : Z) : Z :=
  let y := u32 x in if y <? 2 ^ 31 then y else y - 2 ^ 32.
(* BIT(n) and 1 << n on 32-bit operands *)
Definition BIT (n : Z) : Z := u32 (Z.shiftl 1 n).
(* ~x on a u32 *)
Definition not32 (x : Z) : Z := Z.lxor (u32 x) 0xFFFFFFFF.
(* C truth value *)
Definition truthy (x : Z) : bool := negb (x =? 0).

(* __ALIGN_MASK(x, mask) = (x + mask) & ~mask, at mask := ~vmdq->mask *)
Definition ALIGN_MASK (x mask : Z) : Z := Z.land (x + mask) (Z.lnot mask).
Definition q_per_pool_of (vmdq_mask : Z) : Z := ALIGN_MASK 1 (Z.lnot vmdq_mask).

(** ** Ethernet addresses (unsigned char[ETH_ALEN]) *)

Record ether_addr := EthAddr { o0 : Z; o1 : Z; o2 : Z; o3 : Z; o4 : Z; o5 : Z }.

Global Instance ether_addr_eq_dec : EqDecision ether_addr.
Proof. solve_decision. Defined.

Definition zero_addr : ether_addr := EthAddr 0 0 0 0 0 0.

(* linux/etherdevice.h *)
Definition is_zero_ether_addr (a : ether_addr) : bool :=
  (o0 a =? 0) && (o1 a =? 0) && (o2 a =? 0) && (o3 a =? 0) && (o4 a =? 0) && (o5 a =? 0).
Definition is_multicast_ether_addr (a : ether_addr) : bool :=
  negb (Z.land 0x01 (o0 a) =? 0).
Definition is_valid_ether_addr (a : ether_addr) : bool :=
  negb (is_multicast_ether_addr a) && negb (is_zero_ether_addr a).

(* memcmp(a, b, ETH_ALEN) != 0 *)
Definition memcmp_ne (a b : ether_addr) : bool := negb (bool_decide (a = b)).

Definition byte_of (w : Z) (k : Z) : Z := Z.land (Z.shiftr w (8 * k)) 0xFF.

(* the six bytes at &msgbuf[1], read on a little-endian host *)
Definition mac_of_words (w1 w2 : Z) : ether_addr :=
  EthAddr (byte_of w1 0) (byte_of w1 1) (byte_of w1 2) (byte_of w1 3)
          (byte_of w2 0) (byte_of w2 1).

(* memcpy(&msgbuf[1], mac, ETH_ALEN) into two zeroed words *)
Definition words_of_mac (a : ether_addr) : Z * Z :=
  (Z.lor (Z.land (o0 a) 0xFF)
     (Z.lor (Z.shiftl (Z.land (o1 a) 0xFF) 8)
        (Z.lor (Z.shiftl (Z.land (o2 a) 0xFF) 16) (Z.shiftl (Z.land (o3 a) 0xFF) 24))),
   Z.lor (Z.land (o4 a) 0xFF) (Z.shiftl (Z.land (o5 a) 0xFF) 8)).

(** ** Device registers *)

Inductive reg :=
  | IXGBE_PFDTXGSWC | IXGBE_GCR_EXT | IXGBE_GPIE | IXGBE_VT_CTL
  | IXGBE_MAXFRS | IXGBE_FCTRL | IXGBE_QDE
  | IXGBE_VMOLR (i : Z) | IXGBE_VFRE (i : Z) | IXGBE_VFTE (i : Z)
  | IXGBE_VMECM (i : Z) | IXGBE_VMVIR (i : Z)
  | IXGBE_VLVF (i : Z) | IXGBE_VLVFB (i : Z) | IXGBE_VFTA (i : Z)
  | IXGBE_PVFTXDCTL (i : Z) | IXGBE_PFMBMEM (vf word : Z)
  | IXGBE_PVFTDWBAHn (q_per_pool vf i : Z) | IXGBE_PVFTDWBALn (q_per_pool vf i : Z).

Global Instance reg_eq_dec : EqDecision reg.
Proof. solve_decision. Defined.

Definition regfile := list (reg * Z).

Fixpoint read_reg (rf : regfile) (r : reg) : Z :=
  match rf with
  | [] => 0
  | (r', v) :: rest => if bool_decide (r' = r) then v else read_reg rest r
  end.

Definition write_reg (rf : regfile) (r : reg) (v : Z) : regfile := (r, u32 v) :: rf.

(** hw->mac.ops: the function pointers this file calls.  They act on the
    device registers only; the optional ones may be NULL. *)
Record ixgbe_mac_operations := {
  set_vfta : regfile -> Z -> Z -> bool -> bool -> regfile * Z;
  set_mac_anti_spoofing : regfile -> bool -> Z -> regfile;
  set_vlan_anti_spoofing : regfile -> bool -> Z -> regfile;
  disable_mdd : option (regfile -> regfile)
}.

Record ixgbe_hw := {
  mac_type : ixgbe_mac_type;
  mc_filter_type : Z;
  num_rar_entries : Z;
  regs : regfile;
  mbx_out : list (nat * list Z)
}.

Definition hw_set_regs (hw : ixgbe_hw) (rf : regfile) : ixgbe_hw :=
  {| mac_type := mac_type hw; mc_filter_type := mc_filter_type hw;
     num_rar_entries := num_rar_entries hw; regs := rf; mbx_out := mbx_out hw |}.

(* ixgbe_write_mbx(hw, msg, size, vf) *)
Definition ixgbe_write_mbx (hw : ixgbe_hw) (msg : list Z) (size : nat) (vf : nat) : ixgbe_hw :=
  {| mac_type := mac_type hw; mc_filter_type := mc_filter_type hw;
     num_rar_entries := num_rar_entries hw; regs := regs hw;
     mbx_out := mbx_out hw ++ [(vf, take size msg)] |}.

(** ** Per-VF and per-device software state *)

Record vf_data_storage := {
  vfdev : option Z;
  vf_mac_addresses : ether_addr;
  vf_mc_hashes : list Z;
  num_vf_mc_hashes : Z;
  clear_to_send : bool;
  pf_set_mac : bool;
  pf_vlan : Z;
  pf_qos : Z;
  tx_rate : Z;
  link_enable : bool;
  link_state : Z;
  spoofchk_enabled : bool;
  rss_query_enabled : bool;
  trusted : bool;
  xcast_mode : Z;
  vf_api : Z
}.

(* kcalloc'ed, all-zero element *)
Definition vf_zero : vf_data_storage :=
  {| vfdev := None; vf_mac_addresses := zero_addr; vf_mc_hashes := replicate 30 0;
     num_vf_mc_hashes := 0; clear_to_send := false; pf_set_mac := false;
     pf_vlan := 0; pf_qos := 0; tx_rate := 0; link_enable := false; link_state := 0;
     spoofchk_enabled := false; rss_query_enabled := false; trusted := false;
     xcast_mode := 0; vf_api := 0 |}.

Record vf_macvlans := {
  mv_vf : Z;
  mv_free : bool;
  mv_is_macvlan : bool;
  mv_vf_macvlan : ether_addr
}.

(* the bits of adapter->flags and adapter->flags2 that this file uses *)
Record ixgbe_flags := {
  IXGBE_FLAG_SRIOV_CAPABLE : bool;
  IXGBE_FLAG_SRIOV_ENABLED : bool;
  IXGBE_FLAG_VMDQ_ENABLED : bool;
  IXGBE_FLAG_SRIOV_L2SWITCH_ENABLE : bool;
  IXGBE_FLAG_SRIOV_REPLICATION_ENABLE : bool;
  IXGBE_FLAG_MDD_ENABLED : bool
}.

Global Instance ixgbe_flags_eq_dec : EqDecision ixgbe_flags.
Proof. solve_decision. Defined.

Record ixgbe_flags2 := {
  IXGBE_FLAG2_RSC_CAPABLE : bool;
  IXGBE_FLAG2_RSC_ENABLED : bool;
  IXGBE_FLAG2_VLAN_PROMISC : bool
}.

Record ixgbe_ring_feature := { rf_limit : Z; rf_offset : Z; rf_mask : Z }.

Record net_device := {
  mtu : Z;
  num_tc : Z;
  NETIF_F_FCOE_MTU : bool;
  prio_tc_map : list Z
}.

(* the PCI core's view of the physical function *)
Record pci_dev := {
  sriov_num_vfs : Z;          (* pci_num_vf() *)
  vfs_assigned : bool;        (* pci_vfs_assigned() != 0 *)
  sriov_cap : bool;           (* pci_find_ext_capability(PCI_EXT_CAP_ID_SRIOV) != 0 *)
  (* the devices pci_get_device() yields for the VF device id:
     handle, is_virtfn, physfn == pdev *)
  bus_vf_devices : list (Z * bool * bool)
}.

(* outcome of the two kcalloc calls of the enable path *)
Record kmem := { kcalloc_vfinfo_ok : bool; kcalloc_mv_list_ok : bool }.

Definition vf_set_mac (r : vf_data_storage) (m : ether_addr) : vf_data_storage :=
  {| vfdev := vfdev r; vf_mac_addresses := m; vf_mc_hashes := vf_mc_hashes r;
     num_vf_mc_hashes := num_vf_mc_hashes r; clear_to_send := clear_to_send r;
     pf_set_mac := pf_set_mac r; pf_vlan := pf_vlan r; pf_qos := pf_qos r;
     tx_rate := tx_rate r; link_enable := link_enable r; link_state := link_state r;
     spoofchk_enabled := spoofchk_enabled r; rss_query_enabled := rss_query_enabled r;
     trusted := trusted r; xcast_mode := xcast_mode r; vf_api := vf_api r |}.

Definition vf_set_vfdev (r : vf_data_storage) (d : option Z) : vf_data_storage :=
  {| vfdev := d; vf_mac_addresses := vf_mac_addresses r; vf_mc_hashes := vf_mc_hashes r;
     num_vf_mc_hashes := num_vf_mc_hashes r; clear_to_send := clear_to_send r;
     pf_set_mac := pf_set_mac r; pf_vlan := pf_vlan r; pf_qos := pf_qos r;
     tx_rate := tx_rate r; link_enable := link_enable r; link_state := link_state r;
     spoofchk_enabled := spoofchk_enabled r; rss_query_enabled := rss_query_enabled r;
     trusted := trusted r; xcast_mode := xcast_mode r; vf_api := vf_api r |}.

Definition vf_set_mc (r : vf_data_storage) (n : Z) (hs : list Z) : vf_data_storage :=
  {| vfdev := vfdev r; vf_mac_addresses := vf_mac_addresses r; vf_mc_hashes := hs;
     num_vf_mc_hashes := n; clear_to_send := clear_to_send r;
     pf_set_mac := pf_set_mac r; pf_vlan := pf_vlan r; pf_qos := pf_qos r;
     tx_rate := tx_rate r; link_enable := link_enable r; link_state := link_state r;
     spoofchk_enabled := spoofchk_enabled r; rss_query_enabled := rss_query_enabled r;
     trusted := trusted r; xcast_mode := xcast_mode r; vf_api := vf_api r |}.

Definition vf_set_cts (r : vf_data_storage) (b : bool) : vf_data_storage :=
  {| vfdev := vfdev r; vf_mac_addresses := vf_mac_addresses r; vf_mc_hashes := vf_mc_hashes r;
     num_vf_mc_hashes := num_vf_mc_hashes r; clear_to_send := b;
     pf_set_mac := pf_set_mac r; pf_vlan := pf_vlan r; pf_qos := pf_qos r;
     tx_rate := tx_rate r; link_enable := link_enable r; link_state := link_state r;
     spoofchk_enabled := spoofchk_enabled r; rss_query_enabled := rss_query_enabled r;
     trusted := trusted r; xcast_mode := xcast_mode r; vf_api := vf_api r |}.

Definition vf_set_pf_set_mac (r : vf_data_storage) (b : bool) : vf_data_storage :=
  {| vfdev := vfdev r; vf_mac_addresses := vf_mac_addresses r; vf_mc_hashes := vf_mc_hashes r;
     num_vf_mc_hashes := num_vf_mc_hashes r; clear_to_send := clear_to_send r;
     pf_set_mac := b; pf_vlan := pf_vlan r; pf_qos := pf_qos r;
     tx_rate := tx_rate r; link_enable := link_enable r; link_state := link_state r;
     spoofchk_enabled := spoofchk_enabled r; rss_query_enabled := rss_query_enabled r;
     trusted := trusted r; xcast_mode := xcast_mode r; vf_api := vf_api r |}.

Definition vf_set_xcast (r : vf_data_storage) (m : Z) : vf_data_storage :=
  {| vfdev := vfdev r; vf_mac_addresses := vf_mac_addresses r; vf_mc_hashes := vf_mc_hashes r;
     num_vf_mc_hashes := num_vf_mc_hashes r; clear_to_send := clear_to_send r;
     pf_set_mac := pf_set_mac r; pf_vlan := pf_vlan r; pf_qos := pf_qos r;
     tx_rate := tx_rate r; link_enable := link_enable r; link_state := link_state r;
     spoofchk_enabled := spoofchk_enabled r; rss_query_enabled := rss_query_enabled r;
     trusted := trusted r; xcast_mode := m; vf_api := vf_api r |}.

Definition vf_set_api (r : vf_data_storage) (v : Z) : vf_data_storage :=
  {| vfdev := vfdev r; vf_mac_addresses := vf_mac_addresses r; vf_mc_hashes := vf_mc_hashes r;
     num_vf_mc_hashes := num_vf_mc_hashes r; clear_to_send := clear_to_send r;
     pf_set_mac := pf_set_mac r; pf_vlan := pf_vlan r; pf_qos := pf_qos r;
     tx_rate := tx_rate r; link_enable := link_enable r; link_state := link_state r;
     spoofchk_enabled := spoofchk_enabled r; rss_query_enabled := rss_query_enabled r;
     trusted := trusted r; xcast_mode := xcast_mode r; vf_api := v |}.

Definition vf_set_trusted (r : vf_data_storage) (b : bool) : vf_data_storage :=
  {| vfdev := vfdev r; vf_mac_addresses := vf_mac_addresses r; vf_mc_hashes := vf_mc_hashes r;
     num_vf_mc_hashes := num_vf_mc_hashes r; clear_to_send := clear_to_send r;
     pf_set_mac := pf_set_mac r; pf_vlan := pf_vlan r; pf_qos := pf_qos r;
     tx_rate := tx_rate r; link_enable := link_enable r; link_state := link_state r;
     spoofchk_enabled := spoofchk_enabled r; rss_query_enabled := rss_query_enabled r;
     trusted := b; xcast_mode := xcast_mode r; vf_api := vf_api r |}.

(* the per-VF defaults written by the loop that ends __ixgbe_enable_sriov *)
Definition vf_enable_defaults (r : vf_data_storage) : vf_data_storage :=
  {| vfdev := vfdev r; vf_mac_addresses := vf_mac_addresses r; vf_mc_hashes := vf_mc_hashes r;
     num_vf_mc_hashes := num_vf_mc_hashes r; clear_to_send := clear_to_send r;
     pf_set_mac := pf_set_mac r; pf_vlan := pf_vlan r; pf_qos := pf_qos r;
     tx_rate := tx_rate r; link_enable := true; link_state := link_state r;
     spoofchk_enabled := true; rss_query_enabled := false;
     trusted := false; xcast_mode := IXGBEVF_XCAST_MODE_NONE; vf_api := vf_api r |}.

(* for (i = from; i < from + n; i++) body *)
Fixpoint for_loop {S : Type} (n : nat) (from : Z) (body : Z -> S -> S) (s : S) : S :=
  match n with
  | O => s
  | Datatypes.S k => for_loop k (from + 1) body (body from s)
  end.

Fixpoint for_loop_opt {S : Type} (n : nat) (from : Z) (body : Z -> S -> option S) (s : S)
  : option S :=
  match n with
  | O => Some s
  | Datatypes.S k => s' ← body from s; for_loop_opt k (from + 1) body s'
  end.

Section Driver.

(** [E] is the state kept by ixgbe_main.c behind [ixgbe_add_mac_filter] and
    [ixgbe_del_mac_filter]: adapter->mac_table and the receive-address
    registers it mirrors. *)
Context {E : Type}.

Record ixgbe_adapter := {
  flags : ixgbe_flags;
  flags2 : ixgbe_flags2;
  num_vfs : Z;
  max_vfs : Z;
  vfinfo : option (list vf_data_storage);
  mv_list : option (list vf_macvlans);
  vmdq : ixgbe_ring_feature;          (* ring_feature[RING_F_VMDQ] *)
  pg_tcs : Z;                         (* dcb_cfg.num_tcs.pg_tcs *)
  pfc_tcs : Z;                        (* dcb_cfg.num_tcs.pfc_tcs *)
  vt_mode : bool;                     (* dcb_cfg.vt_mode *)
  netdev : net_device;
  default_up : Z;
  xdp_prog : bool;
  active_vlans : list Z;
  rss_indir_tbl : list Z;
  rss_key : list Z;
  hw : ixgbe_hw;
  pdev : pci_dev;
  mac_table : E
}.

Definition set_flags (a : ixgbe_adapter) (f : ixgbe_flags) : ixgbe_adapter :=
  {| flags := f; flags2 := flags2 a; num_vfs := num_vfs a; max_vfs := max_vfs a;
     vfinfo := vfinfo a; mv_list := mv_list a; vmdq := vmdq a; pg_tcs := pg_tcs a;
     pfc_tcs := pfc_tcs a; vt_mode := vt_mode a; netdev := netdev a;
     default_up := default_up a; xdp_prog := xdp_prog a; active_vlans := active_vlans a;
     rss_indir_tbl := rss_indir_tbl a; rss_key := rss_key a; hw := hw a; pdev := pdev a;
     mac_table := mac_table a |}.

Definition set_flags2 (a : ixgbe_adapter) (f : ixgbe_flags2) : ixgbe_adapter :=
  {| flags := flags a; flags2 := f; num_vfs := num_vfs a; max_vfs := max_vfs a;
     vfinfo := vfinfo a; mv_list := mv_list a; vmdq := vmdq a; pg_tcs := pg_tcs a;
     pfc_tcs := pfc_tcs a; vt_mode := vt_mode a; netdev := netdev a;
     default_up := default_up a; xdp_prog := xdp_prog a; active_vlans := active_vlans a;
     rss_indir_tbl := rss_indir_tbl a; rss_key := rss_key a; hw := hw a; pdev := pdev a;
     mac_table := mac_table a |}.

Definition set_num_vfs (a : ixgbe_adapter) (n : Z) : ixgbe_adapter :=
  {| flags := flags a; flags2 := flags2 a; num_vfs := n; max_vfs := max_vfs a;
     vfinfo := vfinfo a; mv_list := mv_list a; vmdq := vmdq a; pg_tcs := pg_tcs a;
     pfc_tcs := pfc_tcs a; vt_mode := vt_mode a; netdev := netdev a;
     default_up := default_up a; xdp_prog := xdp_prog a; active_vlans := active_vlans a;
     rss_indir_tbl := rss_indir_tbl a; rss_key := rss_key a; hw := hw a; pdev := pdev a;
     mac_table := mac_table a |}.

Definition set_vfinfo (a : ixgbe_adapter) (t : option (list vf_data_storage)) : ixgbe_adapter :=
  {| flags := flags a; flags2 := flags2 a; num_vfs := num_vfs a; max_vfs := max_vfs a;
     vfinfo := t; mv_list := mv_list a; vmdq := vmdq a; pg_tcs := pg_tcs a;
     pfc_tcs := pfc_tcs a; vt_mode := vt_mode a; netdev := netdev a;
     default_up := default_up a; xdp_prog := xdp_prog a; active_vlans := active_vlans a;
     rss_indir_tbl := rss_indir_tbl a; rss_key := rss_key a; hw := hw a; pdev := pdev a;
     mac_table := mac_table a |}.

Definition set_mv_list (a : ixgbe_adapter) (l : option (list vf_macvlans)) : ixgbe_adapter :=
  {| flags := flags a; flags2 := flags2 a; num_vfs := num_vfs a; max_vfs := max_vfs a;
     vfinfo := vfinfo a; mv_list := l; vmdq := vmdq a; pg_tcs := pg_tcs a;
     pfc_tcs := pfc_tcs a; vt_mode := vt_mode a; netdev := netdev a;
     default_up := default_up a; xdp_prog := xdp_prog a; active_vlans := active_vlans a;
     rss_indir_tbl := rss_indir_tbl a; rss_key := rss_key a; hw := hw a; pdev := pdev a;
     mac_table := mac_table a |}.

Definition set_vmdq (a : ixgbe_adapter) (v : ixgbe_ring_feature) : ixgbe_adapter :=
  {| flags := flags a; flags2 := flags2 a; num_vfs := num_vfs a; max_vfs := max_vfs a;
     vfinfo := vfinfo a; mv_list := mv_list a; vmdq := v; pg_tcs := pg_tcs a;
     pfc_tcs := pfc_tcs a; vt_mode := vt_mode a; netdev := netdev a;
     default_up := default_up a; xdp_prog := xdp_prog a; active_vlans := active_vlans a;
     rss_indir_tbl := rss_indir_tbl a; rss_key := rss_key a; hw := hw a; pdev := pdev a;
     mac_table := mac_table a |}.

Definition set_dcb (a : ixgbe_adapter) (pg pfc : Z) (vt : bool) : ixgbe_adapter :=
  {| flags := flags a; flags2 := flags2 a; num_vfs := num_vfs a; max_vfs := max_vfs a;
     vfinfo := vfinfo a; mv_list := mv_list a; vmdq := vmdq a; pg_tcs := pg;
     pfc_tcs := pfc; vt_mode := vt; netdev := netdev a;
     default_up := default_up a; xdp_prog := xdp_prog a; active_vlans := active_vlans a;
     rss_indir_tbl := rss_indir_tbl a; rss_key := rss_key a; hw := hw a; pdev := pdev a;
     mac_table := mac_table a |}.

Definition set_hw (a : ixgbe_adapter) (h : ixgbe_hw) : ixgbe_adapter :=
  {| flags := flags a; flags2 := flags2 a; num_vfs := num_vfs a; max_vfs := max_vfs a;
     vfinfo := vfinfo a; mv_list := mv_list a; vmdq := vmdq a; pg_tcs := pg_tcs a;
     pfc_tcs := pfc_tcs a; vt_mode := vt_mode a; netdev := netdev a;
     default_up := default_up a; xdp_prog := xdp_prog a; active_vlans := active_vlans a;
     rss_indir_tbl := rss_indir_tbl a; rss_key := rss_key a; hw := h; pdev := pdev a;
     mac_table := mac_table a |}.

Definition set_pdev (a : ixgbe_adapter) (p : pci_dev) : ixgbe_adapter :=
  {| flags := flags a; flags2 := flags2 a; num_vfs := num_vfs a; max_vfs := max_vfs a;
     vfinfo := vfinfo a; mv_list := mv_list a; vmdq := vmdq a; pg_tcs := pg_tcs a;
     pfc_tcs := pfc_tcs a; vt_mode := vt_mode a; netdev := netdev a;
     default_up := default_up a; xdp_prog := xdp_prog a; active_vlans := active_vlans a;
     rss_indir_tbl := rss_indir_tbl a; rss_key := rss_key a; hw := hw a; pdev := p;
     mac_table := mac_table a |}.

Definition set_mac_table (a : ixgbe_adapter) (t : E) : ixgbe_adapter :=
  {| flags := flags a; flags2 := flags2 a; num_vfs := num_vfs a; max_vfs := max_vfs a;
     vfinfo := vfinfo a; mv_list := mv_list a; vmdq := vmdq a; pg_tcs := pg_tcs a;
     pfc_tcs := pfc_tcs a; vt_mode := vt_mode a; netdev := netdev a;
     default_up := default_up a; xdp_prog := xdp_prog a; active_vlans := active_vlans a;
     rss_indir_tbl := rss_indir_tbl a; rss_key := rss_key a; hw := hw a; pdev := pdev a;
     mac_table := t |}.

(** Register and table access *)

Definition IXGBE_READ_REG (a : ixgbe_adapter) (r : reg) : Z := read_reg (regs (hw a)) r.
Definition IXGBE_WRITE_REG (a : ixgbe_adapter) (r : reg) (v : Z) : ixgbe_adapter :=
  set_hw a (hw_set_regs (hw a) (write_reg (regs (hw a)) r v)).
Definition set_regs (a : ixgbe_adapter) (rf : regfile) : ixgbe_adapter :=
  set_hw a (hw_set_regs (hw a) rf).
Definition write_mbx (a : ixgbe_adapter) (msg : list Z) (size : nat) (vf : nat) : ixgbe_adapter :=
  set_hw a (ixgbe_write_mbx (hw a) msg size vf).

(* &adapter->vfinfo[vf] *)
Definition vf_get (a : ixgbe_adapter) (vf : nat) : option vf_data_storage :=
  t ← vfinfo a; t !! vf.
Definition vf_put (a : ixgbe_adapter) (vf : nat) (r : vf_data_storage) : ixgbe_adapter :=
  set_vfinfo a (t ← vfinfo a; Some (<[vf := r]> t)).

(* VMDQ_P(p) *)
Definition VMDQ_P (a : ixgbe_adapter) (p : Z) : Z := p + rf_offset (vmdq a).
(* test_bit(vid, adapter->active_vlans) *)
Definition vlan_active (a : ixgbe_adapter) (vid : Z) : bool :=
  existsb (Z.eqb vid) (active_vlans a).
(* netdev_get_num_tc, as the u8 the callers store it in *)
Definition netdev_get_num_tc (a : ixgbe_adapter) : Z := num_tc (netdev a) mod 256.
Definition netdev_get_prio_tc_map (a : ixgbe_adapter) (up : Z) : Z :=
  nth (Z.to_nat up) (prio_tc_map (netdev a)) 0.

(** ** Collaborators outside this file

    Each one reads the adapter and returns the part of the state it owns. *)

Variable ops : ixgbe_mac_operations.
Variable ixgbe_add_mac_filter : ixgbe_adapter -> ether_addr -> nat -> E * regfile * Z.
Variable ixgbe_del_mac_filter : ixgbe_adapter -> ether_addr -> nat -> E * regfile * Z.
Variable ixgbe_write_mc_addr_list : ixgbe_adapter -> regfile.
Variable ixgbe_set_rx_mode : ixgbe_adapter -> E * regfile * ixgbe_flags2.
Variable ixgbe_update_pf_promisc_vlvf : ixgbe_adapter -> Z -> regfile.
Variable ixgbe_rss_indir_tbl_entries : ixgbe_adapter -> Z.
Variable ixgbe_sriov_reinit : ixgbe_adapter -> ixgbe_adapter.
Variable pci_enable_sriov : pci_dev -> Z -> pci_dev * Z.
Variable pci_disable_sriov : pci_dev -> pci_dev.

Definition add_mac_filter (a : ixgbe_adapter) (m : ether_addr) (vf : nat) : ixgbe_adapter * Z :=
  let '(t, rf, rc) := ixgbe_add_mac_filter a m vf in (set_regs (set_mac_table a t) rf, rc).
Definition del_mac_filter (a : ixgbe_adapter) (m : ether_addr) (vf : nat) : ixgbe_adapter * Z :=
  let '(t, rf, rc) := ixgbe_del_mac_filter a m vf in (set_regs (set_mac_table a t) rf, rc).
Definition mac_set_vfta (a : ixgbe_adapter) (vid vind : Z) (vlan_on bypass : bool)
  : ixgbe_adapter * Z :=
  let '(rf, rc) := set_vfta ops (regs (hw a)) vid vind vlan_on bypass in (set_regs a rf, rc).


(** ** SR-IOV lifecycle *)

Definition fresh_macvlan : vf_macvlans :=
  {| mv_vf := -1; mv_free := true; mv_is_macvlan := false; mv_vf_macvlan := zero_addr |}.

(* A negative count reaches kcalloc as a huge size and the allocation fails. *)
Definition ixgbe_alloc_vf_macvlans (mem : kmem) (a : ixgbe_adapter) (n : Z) : ixgbe_adapter :=
  let num_vf_macvlans :=
    to_int (num_rar_entries (hw a) - (IXGBE_MAX_PF_MACVLANS + 1 + n)) in
  if num_vf_macvlans =? 0 then a
  else if (0 <? num_vf_macvlans) && kcalloc_mv_list_ok mem then
    set_mv_list a (Some (replicate (Z.to_nat num_vf_macvlans) fresh_macvlan))
  else a.

Definition __ixgbe_enable_sriov (mem : kmem) (a : ixgbe_adapter) (n : Z)
  : ixgbe_adapter * Z :=
  if xdp_prog a then (a, - EINVAL) else
  let f := flags a in
  let a := set_flags a
    {| IXGBE_FLAG_SRIOV_CAPABLE := IXGBE_FLAG_SRIOV_CAPABLE f;
       IXGBE_FLAG_SRIOV_ENABLED := true;
       IXGBE_FLAG_VMDQ_ENABLED := true;
       IXGBE_FLAG_SRIOV_L2SWITCH_ENABLE := IXGBE_FLAG_SRIOV_L2SWITCH_ENABLE f;
       IXGBE_FLAG_SRIOV_REPLICATION_ENABLE := IXGBE_FLAG_SRIOV_REPLICATION_ENABLE f;
       IXGBE_FLAG_MDD_ENABLED := IXGBE_FLAG_MDD_ENABLED f |} in
  let a := if rf_limit (vmdq a) =? 0
           then set_vmdq a {| rf_limit := 1; rf_offset := rf_offset (vmdq a);
                              rf_mask := rf_mask (vmdq a) |}
           else a in
  if negb (kcalloc_vfinfo_ok mem) then (set_vfinfo a None, - ENOMEM) else
  let a := set_vfinfo a (Some (replicate (Z.to_nat n) vf_zero)) in
  let a := IXGBE_WRITE_REG a IXGBE_PFDTXGSWC IXGBE_PFDTXGSWC_VT_LBEN in
  let a := set_num_vfs a n in
  let a := ixgbe_alloc_vf_macvlans mem a n in
  let a := set_vmdq a {| rf_limit := rf_limit (vmdq a); rf_offset := n;
                         rf_mask := rf_mask (vmdq a) |} in
  let f := flags a in
  let a := set_flags a
    {| IXGBE_FLAG_SRIOV_CAPABLE := IXGBE_FLAG_SRIOV_CAPABLE f;
       IXGBE_FLAG_SRIOV_ENABLED := IXGBE_FLAG_SRIOV_ENABLED f;
       IXGBE_FLAG_VMDQ_ENABLED := IXGBE_FLAG_VMDQ_ENABLED f;
       IXGBE_FLAG_SRIOV_L2SWITCH_ENABLE := true;
       IXGBE_FLAG_SRIOV_REPLICATION_ENABLE := true;
       IXGBE_FLAG_MDD_ENABLED := IXGBE_FLAG_MDD_ENABLED f |} in
  let a :=
    if bool_decide (mac_type (hw a) = ixgbe_mac_82599EB) && (num_vfs a <? 16)
    then set_dcb a IXGBE_DCB_MAX_TRAFFIC_CLASS IXGBE_DCB_MAX_TRAFFIC_CLASS true
    else if num_vfs a <? 32 then set_dcb a 4 4 true
    else set_dcb a 1 1 true in
  let a := set_flags2 a
    {| IXGBE_FLAG2_RSC_CAPABLE := false; IXGBE_FLAG2_RSC_ENABLED := false;
       IXGBE_FLAG2_VLAN_PROMISC := IXGBE_FLAG2_VLAN_PROMISC (flags2 a) |} in
  let a := set_vfinfo a (t ← vfinfo a; Some (fmap (M := list) vf_enable_defaults t)) in
  (a, 0).

(* The walk over the VF devices on the bus; [vf] counts the ones taken.
   Taking one writes vfinfo[vf]. *)
Fixpoint ixgbe_get_vfs_walk (devs : list (Z * bool * bool)) (n : Z) (vf : nat)
    (tbl : option (list vf_data_storage)) : option (option (list vf_data_storage)) :=
  match devs with
  | [] => Some tbl
  | (handle, is_virtfn, physfn_is_pdev) :: rest =>
      if negb is_virtfn then ixgbe_get_vfs_walk rest n vf tbl
      else if negb physfn_is_pdev then ixgbe_get_vfs_walk rest n vf tbl
      else if n <=? Z.of_nat vf then ixgbe_get_vfs_walk rest n vf tbl
      else t ← tbl; r ← t !! vf;
           ixgbe_get_vfs_walk rest n (Datatypes.S vf)
             (Some (<[vf := vf_set_vfdev r (Some handle)]> t))
  end.

Definition ixgbe_get_vfs (a : ixgbe_adapter) : option ixgbe_adapter :=
  if negb (sriov_cap (pdev a)) then Some a else
  tbl ← ixgbe_get_vfs_walk (bus_vf_devices (pdev a)) (num_vfs a) 0 (vfinfo a);
  Some (set_vfinfo a tbl).

(** The loop that drops the VF device references reads vfinfo[0..num_vfs-1]
    and the table is freed right after it, so only its memory accesses are
    kept: the call is undefined when the table is shorter than [num_vfs]. *)
Definition ixgbe_disable_sriov (a : ixgbe_adapter) : option (ixgbe_adapter * Z) :=
  let n := num_vfs a in
  let a := set_num_vfs a 0 in
  let table_ok :=
    if n <=? 0 then true
    else match vfinfo a with
         | Some t => n <=? Z.of_nat (length t)
         | None => false
         end in
  if negb table_ok then None else
  let a := set_vfinfo a None in
  let a := set_mv_list a None in
  if negb (IXGBE_FLAG_SRIOV_ENABLED (flags a)) then Some (a, 0) else
  let a := match disable_mdd ops with
           | Some f => if negb (IXGBE_FLAG_MDD_ENABLED (flags a))
                       then set_regs a (f (regs (hw a))) else a
           | None => a
           end in
  if vfs_assigned (pdev a) then Some (a, - EPERM) else
  let a := set_pdev a (pci_disable_sriov (pdev a)) in
  let a := IXGBE_WRITE_REG a IXGBE_GCR_EXT 0 in
  let gpie := Z.land (IXGBE_READ_REG a IXGBE_GPIE) (not32 IXGBE_GPIE_VTMODE_MASK) in
  let a := IXGBE_WRITE_REG a IXGBE_GPIE gpie in
  let vmdctl := Z.land (IXGBE_READ_REG a IXGBE_VT_CTL) (not32 IXGBE_VT_CTL_POOL_MASK) in
  let a := IXGBE_WRITE_REG a IXGBE_VT_CTL vmdctl in
  let f := flags a in
  let a := set_flags a
    {| IXGBE_FLAG_SRIOV_CAPABLE := IXGBE_FLAG_SRIOV_CAPABLE f;
       IXGBE_FLAG_SRIOV_ENABLED := false;
       IXGBE_FLAG_VMDQ_ENABLED :=
         if rf_limit (vmdq a) =? 1 then false else IXGBE_FLAG_VMDQ_ENABLED f;
       IXGBE_FLAG_SRIOV_L2SWITCH_ENABLE := IXGBE_FLAG_SRIOV_L2SWITCH_ENABLE f;
       IXGBE_FLAG_SRIOV_REPLICATION_ENABLE := IXGBE_FLAG_SRIOV_REPLICATION_ENABLE f;
       IXGBE_FLAG_MDD_ENABLED := IXGBE_FLAG_MDD_ENABLED f |} in
  let a := set_vmdq a {| rf_limit := rf_limit (vmdq a); rf_offset := 0;
                         rf_mask := rf_mask (vmdq a) |} in
  Some (a, 0).

Definition ixgbe_vf_configuration (a : ixgbe_adapter) (event_mask : Z) : option ixgbe_adapter :=
  let vfn := Z.to_nat (Z.land event_mask 0x3f) in
  let enable := negb (Z.land event_mask 0x10000000 =? 0) in
  if enable then r ← vf_get a vfn; Some (vf_put a vfn (vf_set_mac r zero_addr))
  else Some a.

(* the three-way test on num_tc; true when the request goes to err_out *)
Definition tc_limit_exceeded (tcs n : Z) : bool :=
  if 4 <? tcs then IXGBE_MAX_VFS_8TC <? n
  else if (1 <? tcs) && (tcs <=? 4) then IXGBE_MAX_VFS_4TC <? n
  else IXGBE_MAX_VFS_1TC <? n.

Definition ixgbe_pci_sriov_enable (mem : kmem) (a : ixgbe_adapter) (n : Z)
  : option (ixgbe_adapter * Z) :=
  let pre_existing_vfs := sriov_num_vfs (pdev a) in
  if negb (IXGBE_FLAG_SRIOV_CAPABLE (flags a)) then Some (a, - EOPNOTSUPP) else
  if num_vfs a =? n then Some (a, - EINVAL) else
  if truthy pre_existing_vfs && (pre_existing_vfs =? n) then Some (a, n) else
  '(a, err) ← (if truthy pre_existing_vfs && negb (pre_existing_vfs =? n)
               then ixgbe_disable_sriov a else Some (a, 0));
  if truthy err then Some (a, err) else
  if tc_limit_exceeded (netdev_get_num_tc a) n then Some (a, - EPERM) else
  let '(a, err) := __ixgbe_enable_sriov mem a n in
  if truthy err then Some (a, err) else
  a ← for_loop_opt (Z.to_nat (num_vfs a)) 0
         (fun i a => ixgbe_vf_configuration a (Z.lor i 0x10000000)) a;
  let a := ixgbe_sriov_reinit a in
  let '(p, err) := pci_enable_sriov (pdev a) n in
  let a := set_pdev a p in
  if truthy err then Some (a, err) else
  a ← ixgbe_get_vfs a;
  Some (a, n).

Definition ixgbe_pci_sriov_disable (a : ixgbe_adapter) : option (ixgbe_adapter * Z) :=
  let current_flags := flags a in
  if (num_vfs a =? 0) && (sriov_num_vfs (pdev a) =? 0) then Some (a, - EINVAL) else
  '(a, err) ← ixgbe_disable_sriov a;
  if negb (truthy err) && negb (bool_decide (current_flags = flags a))
  then Some (ixgbe_sriov_reinit a, err)
  else Some (a, err).

Definition ixgbe_pci_sriov_configure (mem : kmem) (a : ixgbe_adapter) (n : Z)
  : option (ixgbe_adapter * Z) :=
  if n =? 0 then ixgbe_pci_sriov_disable a else ixgbe_pci_sriov_enable mem a n.

(** ** VF policy engine *)

(* msgbuf[i] *)
Definition word (msgbuf : list Z) (i : nat) : Z := nth i msgbuf 0.
(* (msgbuf[0] & IXGBE_VT_MSGINFO_MASK) >> IXGBE_VT_MSGINFO_SHIFT *)
Definition msginfo (msgbuf : list Z) : Z :=
  Z.shiftr (Z.land (word msgbuf 0) IXGBE_VT_MSGINFO_MASK) IXGBE_VT_MSGINFO_SHIFT.
(* the u16 array that starts at &msgbuf[1] *)
Definition hash_list (msgbuf : list Z) (i : nat) : Z :=
  Z.land (Z.shiftr (word msgbuf (1 + i / 2)) (16 * Z.of_nat (i mod 2))) 0xFFFF.

Definition ixgbe_set_vf_multicasts (a : ixgbe_adapter) (msgbuf : list Z) (vf : nat)
  : option (ixgbe_adapter * Z) :=
  let entries := msginfo msgbuf in
  r ← vf_get a vf;
  let vmolr := IXGBE_READ_REG a (IXGBE_VMOLR (Z.of_nat vf)) in
  let entries := Z.min entries IXGBE_MAX_VF_MC_ENTRIES in
  let n := Z.to_nat entries in
  let hashes := (hash_list msgbuf <$> seq 0 n) ++ drop n (vf_mc_hashes r) in
  let a := vf_put a vf (vf_set_mc r entries hashes) in
  let vmolr := Z.lor vmolr IXGBE_VMOLR_ROMPE in
  let a := IXGBE_WRITE_REG a (IXGBE_VMOLR (Z.of_nat vf)) vmolr in
  let a := set_regs a (ixgbe_write_mc_addr_list a) in
  Some (a, 0).

Definition ixgbe_set_vf_vlan (a : ixgbe_adapter) (add : Z) (vid : Z) (vf : Z)
  : ixgbe_adapter * Z :=
  let '(a, err) :=
    if truthy add && vlan_active a vid
    then mac_set_vfta a vid (VMDQ_P a 0) true false
    else (a, 0) in
  if truthy err then (a, err) else
  let '(a, err) := mac_set_vfta a vid vf (truthy add) false in
  if truthy add && negb (truthy err) then (a, err) else
  let a := if vlan_active a vid || IXGBE_FLAG2_VLAN_PROMISC (flags2 a)
           then set_regs a (ixgbe_update_pf_promisc_vlvf a vid) else a in
  (a, err).

(* dev->mtu + ETH_HLEN, raised to the FCoE frame size when FCoE MTU is on *)
Definition pf_max_frame (a : ixgbe_adapter) : Z :=
  let f := mtu (netdev a) + ETH_HLEN in
  if NETIF_F_FCOE_MTU (netdev a) then Z.max f IXGBE_FCOE_JUMBO_FRAME_SIZE else f.

(* the stored device-wide maximum frame size: the MFS field of MAXFRS *)
Definition max_frs_of (a : ixgbe_adapter) : Z :=
  Z.shiftr (Z.land (IXGBE_READ_REG a IXGBE_MAXFRS) IXGBE_MHADD_MFS_MASK) IXGBE_MHADD_MFS_SHIFT.

Definition ixgbe_set_vf_lpe (a : ixgbe_adapter) (max_frame : Z) (vf : nat)
  : option (ixgbe_adapter * Z) :=
  '(a, err) ←
    (if bool_decide (mac_type (hw a) = ixgbe_mac_82599EB) then
       r ← vf_get a vf;
       let legacy :=
         if (ETH_FRAME_LEN <? pf_max_frame a) || (ETH_FRAME_LEN + ETH_FCS_LEN <? max_frame)
         then - EINVAL else 0 in
       let err :=
         if (vf_api r =? ixgbe_mbox_api_11) || (vf_api r =? ixgbe_mbox_api_12)
            || (vf_api r =? ixgbe_mbox_api_13)
         then (if ETH_FRAME_LEN <? pf_max_frame a then 0 else legacy)
         else legacy in
       let vf_shift := Z.of_nat vf mod 32 in
       let reg_offset := Z.of_nat vf / 32 in
       let vfre := IXGBE_READ_REG a (IXGBE_VFRE reg_offset) in
       let vfre := if truthy err then Z.land vfre (not32 (BIT vf_shift))
                   else Z.lor vfre (BIT vf_shift) in
       let a := IXGBE_WRITE_REG a (IXGBE_VFRE reg_offset) vfre in
       Some (a, err)
     else Some (a, 0));
  if truthy err then Some (a, err) else
  let max_frs := max_frs_of a in
  let a := if max_frs <? max_frame
           then IXGBE_WRITE_REG a IXGBE_MAXFRS (Z.shiftl max_frame IXGBE_MHADD_MFS_SHIFT)
           else a in
  Some (a, 0).

Definition ixgbe_set_vmolr (a : ixgbe_adapter) (vf : Z) (aupe : bool) : ixgbe_adapter :=
  let vmolr := IXGBE_READ_REG a (IXGBE_VMOLR vf) in
  let vmolr := Z.lor vmolr IXGBE_VMOLR_BAM in
  let vmolr := if aupe then Z.lor vmolr IXGBE_VMOLR_AUPE
               else Z.land vmolr (not32 IXGBE_VMOLR_AUPE) in
  IXGBE_WRITE_REG a (IXGBE_VMOLR vf) vmolr.

Definition ixgbe_set_vmvir (a : ixgbe_adapter) (vid qos : Z) (vf : Z) : ixgbe_adapter :=
  let vid := vid mod 2 ^ 16 in
  let qos := qos mod 2 ^ 16 in
  let vmvir := Z.lor (Z.lor vid (Z.shiftl qos VLAN_PRIO_SHIFT)) IXGBE_VMVIR_VLANA_DEFAULT in
  IXGBE_WRITE_REG a (IXGBE_VMVIR vf) vmvir.

Definition ixgbe_clear_vmvir (a : ixgbe_adapter) (vf : Z) : ixgbe_adapter :=
  IXGBE_WRITE_REG a (IXGBE_VMVIR vf) 0.

(** One pass of the loop of [ixgbe_clear_vf_vlans] at entry [i].  bits[] has
    two elements, so the pass is undefined when VMDQ_P(0) / 32 is not 0 or 1
    and the test on bits[] is reached. *)
Definition clear_vf_vlans_entry (vf : nat) (i : Z) (a : ixgbe_adapter) : option ixgbe_adapter :=
  let pool_mask := not32 (BIT (VMDQ_P a 0 mod 32)) in
  let vlvfb_mask := BIT (Z.of_nat vf mod 32) in
  let word := u32 (i * 2 + Z.of_nat vf / 32) in
  let vlvfb := IXGBE_READ_REG a (IXGBE_VLVFB word) in
  if Z.land vlvfb vlvfb_mask =? 0 then Some a else
  let vlvfb := Z.lxor vlvfb vlvfb_mask in
  let other := IXGBE_READ_REG a (IXGBE_VLVFB (Z.lxor word 1)) in
  let bits (k : Z) := if k =? word mod 2 then vlvfb else other in
  let p := VMDQ_P a 0 / 32 in
  if negb ((0 <=? p) && (p <=? 1)) then None else
  let update_vlvfb (a : ixgbe_adapter) (vlvfb : Z) :=
    IXGBE_WRITE_REG a (IXGBE_VLVFB word) vlvfb in
  let update_vlvf (a : ixgbe_adapter) :=
    let a := IXGBE_WRITE_REG a (IXGBE_VLVF i) 0 in
    update_vlvfb a (if negb (IXGBE_FLAG2_VLAN_PROMISC (flags2 a)) then 0 else vlvfb) in
  if truthy (bits (Z.lxor p 1)) || truthy (Z.land (bits p) pool_mask)
  then Some (update_vlvfb a vlvfb) else
  if truthy (bits 0) || truthy (bits 1) then Some (update_vlvf a) else
  let vlvf := IXGBE_READ_REG a (IXGBE_VLVF i) in
  if negb (truthy vlvf) then Some (update_vlvfb a vlvfb) else
  let vid := Z.land vlvf VLAN_VID_MASK in
  let mask := BIT (vid mod 32) in
  let vfta := IXGBE_READ_REG a (IXGBE_VFTA (vid / 32)) in
  let a := if truthy (Z.land vfta mask)
           then IXGBE_WRITE_REG a (IXGBE_VFTA (vid / 32)) (Z.lxor vfta mask) else a in
  Some (update_vlvf a).

(* for (i = n; i--;) : entries n-1 down to 0 *)
Fixpoint clear_vf_vlans_from (n : nat) (vf : nat) (a : ixgbe_adapter) : option ixgbe_adapter :=
  match n with
  | O => Some a
  | Datatypes.S i => a' ← clear_vf_vlans_entry vf (Z.of_nat i) a; clear_vf_vlans_from i vf a'
  end.

Definition ixgbe_clear_vf_vlans (a : ixgbe_adapter) (vf : nat) : option ixgbe_adapter :=
  clear_vf_vlans_from IXGBE_VLVF_ENTRIES vf a.

(** The list walk of [ixgbe_set_vf_macvlan] that releases the entries of
    [vf]; [k] is the position reached.  The list head adapter->vf_mvs.l is
    initialised only together with the array, in ixgbe_alloc_vf_macvlans,
    and it dangles once ixgbe_disable_sriov has freed the array: walking it
    while adapter->mv_list is NULL is undefined behaviour in C, and the
    embedding returns [None] there. *)
Definition macvlan_release_entry (vf : nat) (k : Z) (a : ixgbe_adapter)
  : option ixgbe_adapter :=
  l ← mv_list a;
  e ← l !! Z.to_nat k;
  if mv_vf e =? Z.of_nat vf then
    let e' := {| mv_vf := -1; mv_free := true; mv_is_macvlan := false;
                 mv_vf_macvlan := mv_vf_macvlan e |} in
    let a := set_mv_list a (Some (<[Z.to_nat k := e']> l)) in
    Some (fst (del_mac_filter a (mv_vf_macvlan e) vf))
  else Some a.

(* the entry the second walk stops at: the first free one, else the last *)
Definition macvlan_find_free (l : list vf_macvlans) : option (nat * vf_macvlans) :=
  match list_find (fun e => mv_free e = true) l with
  | Some ie => Some ie
  | None => match last l with
            | Some e => Some (pred (length l), e)
            | None => None
            end
  end.

Definition ixgbe_set_vf_macvlan (a : ixgbe_adapter) (vf : nat) (index : Z)
    (mac_addr : ether_addr) : option (ixgbe_adapter * Z) :=
  l ← mv_list a;
  a ← (if index <=? 1
       then for_loop_opt (length l) 0 (macvlan_release_entry vf) a
       else Some a);
  if index =? 0 then Some (a, 0) else
  l ← mv_list a;
  match macvlan_find_free l with
  | None => Some (a, - ENOSPC)
  | Some (k, entry) =>
      if negb (mv_free entry) then Some (a, - ENOSPC) else
      let '(a, retval) := add_mac_filter a mac_addr vf in
      if retval <? 0 then Some (a, retval) else
      let e' := {| mv_vf := Z.of_nat vf; mv_free := false; mv_is_macvlan := true;
                   mv_vf_macvlan := mac_addr |} in
      Some (set_mv_list a (Some (<[k := e']> l)), 0)
  end.

Definition q_per_pool (a : ixgbe_adapter) : Z := u32 (q_per_pool_of (rf_mask (vmdq a))).

Definition ixgbe_set_vf_mac (a : ixgbe_adapter) (vf : nat) (mac_addr : ether_addr)
  : option (ixgbe_adapter * Z) :=
  r ← vf_get a vf;
  let a := fst (del_mac_filter a (vf_mac_addresses r) vf) in
  let '(a, retval) := add_mac_filter a mac_addr vf in
  let a := if 0 <=? retval then vf_put a vf (vf_set_mac r mac_addr)
           else vf_put a vf (vf_set_mac r zero_addr) in
  Some (a, retval).

Definition ixgbe_write_qde (a : ixgbe_adapter) (vf : nat) (qde : Z) : ixgbe_adapter :=
  for_loop (Z.to_nat (q_per_pool a)) (Z.of_nat vf * q_per_pool a)
    (fun i a =>
       let reg := Z.lor IXGBE_QDE_WRITE qde in
       let reg := Z.lor reg (Z.shiftl i IXGBE_QDE_IDX_SHIFT) in
       IXGBE_WRITE_REG a IXGBE_QDE reg) a.

Definition ixgbe_set_vf_rx_tx (a : ixgbe_adapter) (vf : nat) : option ixgbe_adapter :=
  let vf_shift := Z.of_nat vf mod 32 in
  let reg_offset := Z.of_nat vf / 32 in
  let reg_cur_tx := IXGBE_READ_REG a (IXGBE_VFTE reg_offset) in
  let reg_cur_rx := IXGBE_READ_REG a (IXGBE_VFRE reg_offset) in
  r ← vf_get a vf;
  let reg_req_tx := if link_enable r then Z.lor reg_cur_tx (BIT vf_shift)
                    else Z.land reg_cur_tx (not32 (BIT vf_shift)) in
  let reg_req_rx := if link_enable r then Z.lor reg_cur_rx (BIT vf_shift)
                    else Z.land reg_cur_rx (not32 (BIT vf_shift)) in
  let reg_req_rx :=
    if bool_decide (mac_type (hw a) = ixgbe_mac_82599EB) && (ETH_FRAME_LEN <? pf_max_frame a)
    then Z.land reg_cur_rx (not32 (BIT vf_shift)) else reg_req_rx in
  let a := if negb (reg_cur_tx =? reg_req_tx)
           then IXGBE_WRITE_REG a (IXGBE_VFTE reg_offset) reg_req_tx else a in
  let a := if negb (reg_cur_rx =? reg_req_rx)
           then IXGBE_WRITE_REG a (IXGBE_VFRE reg_offset) reg_req_rx else a in
  Some a.

(** ** Reset handshake *)

Definition set_rx_mode (a : ixgbe_adapter) : ixgbe_adapter :=
  let '(t, rf, f2) := ixgbe_set_rx_mode a in
  set_flags2 (set_regs (set_mac_table a t) rf) f2.

(* "add back PF assigned VLAN or VLAN 0", "reset offloads to defaults" and
   "set outgoing tags for VFs" of ixgbe_vf_reset_event *)
Definition reset_vf_offloads (a : ixgbe_adapter) (vf : nat) (vfinfo0 : vf_data_storage)
  : ixgbe_adapter :=
  let num_tcs := netdev_get_num_tc a in
  let zvf := Z.of_nat vf in
  let a := fst (ixgbe_set_vf_vlan a 1 (pf_vlan vfinfo0) zvf) in
  let a := ixgbe_set_vmolr a zvf (pf_vlan vfinfo0 =? 0) in
  if (pf_vlan vfinfo0 =? 0) && (pf_qos vfinfo0 =? 0) && (num_tcs =? 0)
  then ixgbe_clear_vmvir a zvf
  else if truthy (pf_qos vfinfo0) || (num_tcs =? 0)
       then ixgbe_set_vmvir a (pf_vlan vfinfo0) (pf_qos vfinfo0) zvf
       else ixgbe_set_vmvir a (pf_vlan vfinfo0) (default_up a) zvf.

(* "Flush and reset the mta with the new values" and the two filter
   removals that follow it *)
Definition reset_vf_filters (a : ixgbe_adapter) (vf : nat) (vfinfo0 : vf_data_storage)
  : option ixgbe_adapter :=
  let a := set_rx_mode a in
  let a := fst (del_mac_filter a (vf_mac_addresses vfinfo0) vf) in
  fst <$> ixgbe_set_vf_macvlan a vf 0 zero_addr.

(* the X550 block: "Restart each queue for given VF" and "Clear VF's
   mailbox memory" *)
Definition reset_vf_queues_and_mailbox (a : ixgbe_adapter) (vf : nat) : ixgbe_adapter :=
  let zvf := Z.of_nat vf in
  let a := for_loop (Z.to_nat (q_per_pool a)) 0
    (fun queue a =>
       let reg_idx := u32 (zvf * q_per_pool a + queue) in
       let reg_val := IXGBE_READ_REG a (IXGBE_PVFTXDCTL reg_idx) in
       if truthy reg_val then
         let reg_val := Z.lor reg_val IXGBE_TXDCTL_ENABLE in
         let a := IXGBE_WRITE_REG a (IXGBE_PVFTXDCTL reg_idx) reg_val in
         let reg_val := Z.land reg_val (not32 IXGBE_TXDCTL_ENABLE) in
         IXGBE_WRITE_REG a (IXGBE_PVFTXDCTL reg_idx) reg_val
       else a) a in
  for_loop (Z.to_nat IXGBE_VFMAILBOX_SIZE) 0
    (fun w a => IXGBE_WRITE_REG a (IXGBE_PFMBMEM zvf w) 0) a.

(* ixgbe_vf_reset_event from "add back PF assigned VLAN or VLAN 0" on;
   [vfinfo0] is the record read on entry *)
Definition vf_reset_event_rest (a : ixgbe_adapter) (vf : nat) (vfinfo0 : vf_data_storage)
  : option ixgbe_adapter :=
  let a := reset_vf_offloads a vf vfinfo0 in
  (* reset multicast table array for vf *)
  let a := vf_put a vf (vf_set_mc vfinfo0 0 (vf_mc_hashes vfinfo0)) in
  a ← reset_vf_filters a vf vfinfo0;
  (* reset VF api back to unknown *)
  r ← vf_get a vf;
  let a := vf_put a vf (vf_set_api r ixgbe_mbox_api_10) in
  if mac_rank ixgbe_mac_X550 <=? mac_rank (mac_type (hw a))
  then Some (reset_vf_queues_and_mailbox a vf)
  else Some a.

Definition ixgbe_vf_reset_event (a : ixgbe_adapter) (vf : nat) : option ixgbe_adapter :=
  vfinfo0 ← vf_get a vf;
  (* remove VLAN filters belonging to this VF *)
  a ← ixgbe_clear_vf_vlans a vf;
  vf_reset_event_rest a vf vfinfo0.

(* the VMECM bit and the TDWBAL/TDWBAH registers written after
   clear_to_send is set *)
Definition reset_vf_tx_regs (a : ixgbe_adapter) (vf : nat) : ixgbe_adapter :=
  let vf_shift := Z.of_nat vf mod 32 in
  let reg_offset := Z.of_nat vf / 32 in
  let reg := IXGBE_READ_REG a (IXGBE_VMECM reg_offset) in
  let reg := Z.lor reg (BIT vf_shift) in
  let a := IXGBE_WRITE_REG a (IXGBE_VMECM reg_offset) reg in
  for_loop (Z.to_nat (q_per_pool a)) 0
    (fun i a =>
       let a := IXGBE_WRITE_REG a (IXGBE_PVFTDWBAHn (q_per_pool a) (Z.of_nat vf) i) 0 in
       IXGBE_WRITE_REG a (IXGBE_PVFTDWBALn (q_per_pool a) (Z.of_nat vf) i) 0) a.

(* the four words of the reply to a reset *)
Definition reset_reply (r : vf_data_storage) (mcft : Z) : list Z :=
  let vf_mac := vf_mac_addresses r in
  if negb (is_zero_ether_addr vf_mac) && pf_set_mac r
  then [Z.lor IXGBE_VF_RESET IXGBE_VT_MSGTYPE_SUCCESS;
        fst (words_of_mac vf_mac); snd (words_of_mac vf_mac); mcft]
  else [Z.lor IXGBE_VF_RESET IXGBE_VT_MSGTYPE_FAILURE; 0; 0; mcft].

(* ixgbe_vf_reset_msg from "force drop enable for all VF Rx queues" on *)
Definition vf_reset_finish (a : ixgbe_adapter) (vf : nat) : option (ixgbe_adapter * Z) :=
  (* force drop enable for all VF Rx queues *)
  r ← vf_get a vf;
  let reg := IXGBE_QDE_ENABLE in
  let reg := if truthy (pf_vlan r) then Z.lor reg IXGBE_QDE_HIDE_VLAN else reg in
  let a := ixgbe_write_qde a vf reg in
  (* set transmit and receive for vf *)
  a ← ixgbe_set_vf_rx_tx a vf;
  (* enable VF mailbox for further messages *)
  r ← vf_get a vf;
  let a := vf_put a vf (vf_set_cts r true) in
  let a := reset_vf_tx_regs a vf in
  (* reply to reset with ack and vf mac address *)
  r ← vf_get a vf;
  let msgbuf := reset_reply r (mc_filter_type (hw a)) in
  let a := write_mbx a msgbuf (Z.to_nat IXGBE_VF_PERMADDR_MSG_LEN) vf in
  Some (a, 0).

(** [vf_mac] in the source points into vfinfo[vf]: the address handed to
    [ixgbe_set_vf_mac] and the one tested for the reply are both read from
    the record at that moment. *)
(* ixgbe_vf_reset_msg from "set vf mac address" on *)
Definition vf_reset_msg_rest (a : ixgbe_adapter) (vf : nat) : option (ixgbe_adapter * Z) :=
  (* set vf mac address *)
  r ← vf_get a vf;
  a ← (if negb (is_zero_ether_addr (vf_mac_addresses r))
       then fst <$> ixgbe_set_vf_mac a vf (vf_mac_addresses r)
       else Some a);
  vf_reset_finish a vf.

Definition ixgbe_vf_reset_msg (a : ixgbe_adapter) (vf : nat) : option (ixgbe_adapter * Z) :=
  (* reset the filters for the device *)
  a ← ixgbe_vf_reset_event a vf;
  vf_reset_msg_rest a vf.

(** ** Mailbox message handlers

    A handler returns the adapter, the message buffer it may have written
    into, and its C return value. *)

Definition handler_result : Type := option (ixgbe_adapter * list Z * Z).

Definition ixgbe_set_vf_mac_addr (a : ixgbe_adapter) (msgbuf : list Z) (vf : nat)
  : handler_result :=
  let new_mac := mac_of_words (word msgbuf 1) (word msgbuf 2) in
  if negb (is_valid_ether_addr new_mac) then Some (a, msgbuf, -1) else
  r ← vf_get a vf;
  if pf_set_mac r && negb (trusted r) && memcmp_ne (vf_mac_addresses r) new_mac
  then Some (a, msgbuf, -1) else
  '(a, rc) ← ixgbe_set_vf_mac a vf new_mac;
  Some (a, msgbuf, if rc <? 0 then 1 else 0).

Definition ixgbe_set_vf_vlan_msg (a : ixgbe_adapter) (msgbuf : list Z) (vf : nat)
  : handler_result :=
  let add := msginfo msgbuf in
  let vid := Z.land (word msgbuf 1) IXGBE_VLVF_VLANID_MASK in
  let tcs := netdev_get_num_tc a in
  r ← vf_get a vf;
  if truthy (pf_vlan r) || truthy tcs then Some (a, msgbuf, -1) else
  (* VLAN 0 is a special case, don't allow it to be removed *)
  if negb (truthy vid) && negb (truthy add) then Some (a, msgbuf, 0) else
  let '(a, err) := ixgbe_set_vf_vlan a add vid (Z.of_nat vf) in
  Some (a, msgbuf, err).

Definition ixgbe_set_vf_macvlan_msg (a : ixgbe_adapter) (msgbuf : list Z) (vf : nat)
  : handler_result :=
  let new_mac := mac_of_words (word msgbuf 1) (word msgbuf 2) in
  let index := msginfo msgbuf in
  r ← vf_get a vf;
  if pf_set_mac r && negb (trusted r) && (0 <? index) then Some (a, msgbuf, -1) else
  if truthy index && negb (is_valid_ether_addr new_mac) then Some (a, msgbuf, -1) else
  let a :=
    if truthy index && spoofchk_enabled r then
      let rf := set_mac_anti_spoofing ops (regs (hw a)) false (Z.of_nat vf) in
      let rf := set_vlan_anti_spoofing ops rf false (Z.of_nat vf) in
      set_regs a rf
    else a in
  '(a, err) ← ixgbe_set_vf_macvlan a vf index new_mac;
  Some (a, msgbuf, if err <? 0 then 1 else 0).

Definition ixgbe_negotiate_vf_api (a : ixgbe_adapter) (msgbuf : list Z) (vf : nat)
  : handler_result :=
  let api := to_int (word msgbuf 1) in
  if (api =? ixgbe_mbox_api_10) || (api =? ixgbe_mbox_api_11)
     || (api =? ixgbe_mbox_api_12) || (api =? ixgbe_mbox_api_13)
  then r ← vf_get a vf; Some (vf_put a vf (vf_set_api r api), msgbuf, 0)
  else Some (a, msgbuf, -1).

Definition ixgbe_get_vf_queues (a : ixgbe_adapter) (msgbuf : list Z) (vf : nat)
  : handler_result :=
  let num_tcs := netdev_get_num_tc a in
  r ← vf_get a vf;
  if negb ((vf_api r =? ixgbe_mbox_api_20) || (vf_api r =? ixgbe_mbox_api_11)
           || (vf_api r =? ixgbe_mbox_api_12) || (vf_api r =? ixgbe_mbox_api_13))
  then Some (a, msgbuf, -1) else
  (* only allow 1 Tx queue for bandwidth limiting *)
  let msgbuf := <[IXGBE_VF_TX_QUEUES := q_per_pool a]> msgbuf in
  let msgbuf := <[IXGBE_VF_RX_QUEUES := q_per_pool a]> msgbuf in
  let default_tc := if 1 <? num_tcs then u32 (netdev_get_prio_tc_map a (default_up a)) else 0 in
  let msgbuf :=
    if truthy num_tcs then <[IXGBE_VF_TRANS_VLAN := num_tcs]> msgbuf
    else if truthy (pf_vlan r) || truthy (pf_qos r) then <[IXGBE_VF_TRANS_VLAN := 1]> msgbuf
    else <[IXGBE_VF_TRANS_VLAN := 0]> msgbuf in
  let msgbuf := <[IXGBE_VF_DEF_QUEUE := default_tc]> msgbuf in
  Some (a, msgbuf, 0).

(* out_buf[i], sixteen 2-bit entries per word *)
Definition reta_word (reta : list Z) (i : nat) : Z :=
  fold_left (fun acc j =>
               Z.lor acc (u32 (Z.shiftl (Z.land (nth (16 * i + j) reta 0) 0x3) (2 * Z.of_nat j))))
            (seq 0 16) 0.

(* Writing past msgbuf[15] overruns the caller's buffer: undefined. *)
Definition ixgbe_get_vf_reta (a : ixgbe_adapter) (msgbuf : list Z) (vf : nat)
  : handler_result :=
  let reta_size := u32 (ixgbe_rss_indir_tbl_entries a) in
  r ← vf_get a vf;
  if negb (rss_query_enabled r) then Some (a, msgbuf, - EPERM) else
  if negb ((vf_api r =? ixgbe_mbox_api_12) || (vf_api r =? ixgbe_mbox_api_13))
  then Some (a, msgbuf, - EOPNOTSUPP) else
  let n := Z.to_nat (reta_size / 16) in
  if 15 <? Z.of_nat n then None else
  let msgbuf := take 1 msgbuf ++ (reta_word (rss_indir_tbl a) <$> seq 0 n)
                  ++ drop (1 + n) msgbuf in
  Some (a, msgbuf, 0).

Definition ixgbe_get_vf_rss_key (a : ixgbe_adapter) (msgbuf : list Z) (vf : nat)
  : handler_result :=
  r ← vf_get a vf;
  if negb (rss_query_enabled r) then Some (a, msgbuf, - EPERM) else
  if negb ((vf_api r =? ixgbe_mbox_api_12) || (vf_api r =? ixgbe_mbox_api_13))
  then Some (a, msgbuf, - EOPNOTSUPP) else
  let nwords := Z.to_nat (IXGBE_RSS_KEY_SIZE / 4) in
  let key := take nwords (rss_key a ++ replicate nwords 0) in
  Some (a, take 1 msgbuf ++ key ++ drop (1 + nwords) msgbuf, 0).

Definition ixgbe_update_vf_xcast_mode (a : ixgbe_adapter) (msgbuf : list Z) (vf : nat)
  : handler_result :=
  let xcast_mode0 := to_int (word msgbuf 1) in
  r ← vf_get a vf;
  (* verify the PF is supporting the correct APIs *)
  let api_ok :=
    if vf_api r =? ixgbe_mbox_api_12
    then negb (xcast_mode0 =? IXGBEVF_XCAST_MODE_PROMISC)  (* promisc introduced in 1.3 *)
    else vf_api r =? ixgbe_mbox_api_13 in
  if negb api_ok then Some (a, msgbuf, - EOPNOTSUPP) else
  let xcast_mode1 :=
    if (IXGBEVF_XCAST_MODE_MULTI <? xcast_mode0) && negb (trusted r)
    then IXGBEVF_XCAST_MODE_MULTI else xcast_mode0 in
  let out := Some (a, <[1%nat := u32 xcast_mode1]> msgbuf, 0) in
  if xcast_mode r =? xcast_mode1 then out else
  let all5 := Z.lor IXGBE_VMOLR_BAM (Z.lor IXGBE_VMOLR_ROMPE
                (Z.lor IXGBE_VMOLR_MPE (Z.lor IXGBE_VMOLR_UPE IXGBE_VMOLR_VPE))) in
  let sel : (Z * Z) + Z :=   (* (disable, enable), or the error returned *)
    if xcast_mode1 =? IXGBEVF_XCAST_MODE_NONE then inl (all5, 0)
    else if xcast_mode1 =? IXGBEVF_XCAST_MODE_MULTI then
      inl (Z.lor IXGBE_VMOLR_MPE (Z.lor IXGBE_VMOLR_UPE IXGBE_VMOLR_VPE),
           Z.lor IXGBE_VMOLR_BAM IXGBE_VMOLR_ROMPE)
    else if xcast_mode1 =? IXGBEVF_XCAST_MODE_ALLMULTI then
      inl (Z.lor IXGBE_VMOLR_UPE IXGBE_VMOLR_VPE,
           Z.lor IXGBE_VMOLR_BAM (Z.lor IXGBE_VMOLR_ROMPE IXGBE_VMOLR_MPE))
    else if xcast_mode1 =? IXGBEVF_XCAST_MODE_PROMISC then
      if mac_rank (mac_type (hw a)) <=? mac_rank ixgbe_mac_82599EB then inr (- EOPNOTSUPP)
      else
        let fctrl := IXGBE_READ_REG a IXGBE_FCTRL in
        if negb (truthy (Z.land fctrl IXGBE_FCTRL_UPE))
        then inr (- EPERM)   (* VF promisc requires PF in promisc *)
        else inl (0, all5)
    else inr (- EOPNOTSUPP) in
  match sel with
  | inr err => Some (a, msgbuf, err)
  | inl (disable, enable) =>
      let vmolr := IXGBE_READ_REG a (IXGBE_VMOLR (Z.of_nat vf)) in
      let vmolr := Z.land vmolr (not32 disable) in
      let vmolr := Z.lor vmolr enable in
      let a := IXGBE_WRITE_REG a (IXGBE_VMOLR (Z.of_nat vf)) vmolr in
      let a := vf_put a vf (vf_set_xcast r xcast_mode1) in
      Some (a, <[1%nat := u32 xcast_mode1]> msgbuf, 0)
  end.

Definition ixgbe_get_vf_link_state (a : ixgbe_adapter) (msgbuf : list Z) (vf : nat)
  : handler_result :=
  r ← vf_get a vf;
  if negb ((vf_api r =? ixgbe_mbox_api_12) || (vf_api r =? ixgbe_mbox_api_13))
  then Some (a, msgbuf, - EOPNOTSUPP) else
  Some (a, <[1%nat := if link_enable r then 1 else 0]> msgbuf, 0).

(** ** Mailbox protocol engine *)

(* the tag the engine puts on its answer: the request word, the status bit
   chosen by the handler's return value, and CTS *)
Definition reply_word (w retval : Z) : Z :=
  Z.lor (Z.lor w (if truthy retval then IXGBE_VT_MSGTYPE_FAILURE
                  else IXGBE_VT_MSGTYPE_SUCCESS))
        IXGBE_VT_MSGTYPE_CTS.

(** What [ixgbe_rcv_msg_from_vf] does with one message once the
    clear-to-send gate is passed: [inl] is the handler's outcome on the way
    to the common reply, [inr] an early return. *)
Definition dispatch (a : ixgbe_adapter) (msgbuf : list Z) (vf : nat)
  : option (ixgbe_adapter * list Z * Z + ixgbe_adapter * Z) :=
  let op := Z.land (word msgbuf 0) 0xFFFF in
  if op =? IXGBE_VF_SET_MAC_ADDR then inl <$> ixgbe_set_vf_mac_addr a msgbuf vf
  else if op =? IXGBE_VF_SET_MULTICAST then
    '(a, rc) ← ixgbe_set_vf_multicasts a msgbuf vf; Some (inl (a, msgbuf, rc))
  else if op =? IXGBE_VF_SET_VLAN then inl <$> ixgbe_set_vf_vlan_msg a msgbuf vf
  else if op =? IXGBE_VF_SET_LPE then
    if IXGBE_MAX_JUMBO_FRAME_SIZE <? word msgbuf 1 then Some (inr (a, - EINVAL))
    else '(a, rc) ← ixgbe_set_vf_lpe a (word msgbuf 1) vf; Some (inl (a, msgbuf, rc))
  else if op =? IXGBE_VF_SET_MACVLAN then inl <$> ixgbe_set_vf_macvlan_msg a msgbuf vf
  else if op =? IXGBE_VF_API_NEGOTIATE then inl <$> ixgbe_negotiate_vf_api a msgbuf vf
  else if op =? IXGBE_VF_GET_QUEUES then inl <$> ixgbe_get_vf_queues a msgbuf vf
  else if op =? IXGBE_VF_GET_RETA then inl <$> ixgbe_get_vf_reta a msgbuf vf
  else if op =? IXGBE_VF_GET_RSS_KEY then inl <$> ixgbe_get_vf_rss_key a msgbuf vf
  else if op =? IXGBE_VF_UPDATE_XCAST_MODE then inl <$> ixgbe_update_vf_xcast_mode a msgbuf vf
  else if op =? IXGBE_VF_GET_LINK_STATE then inl <$> ixgbe_get_vf_link_state a msgbuf vf
  else Some (inl (a, msgbuf, IXGBE_ERR_MBX)).

(** [mbx_ret] and [mbx_buf] are what the call to ixgbe_read_mbx gave: its
    return value and the words it put in the 16-word buffer. *)
Definition ixgbe_rcv_msg_from_vf (a : ixgbe_adapter) (vf : nat) (mbx_ret : Z)
    (mbx_buf : list Z) : option (ixgbe_adapter * Z) :=
  let mbx_size := Z.to_nat IXGBE_VFMAILBOX_SIZE in
  let msgbuf := take mbx_size (mbx_buf ++ replicate mbx_size 0) in
  let retval := mbx_ret in
  if truthy retval then Some (a, retval) else
  (* this is a message we already processed, do nothing *)
  if truthy (Z.land (word msgbuf 0)
               (Z.lor IXGBE_VT_MSGTYPE_SUCCESS IXGBE_VT_MSGTYPE_FAILURE))
  then Some (a, retval) else
  if word msgbuf 0 =? IXGBE_VF_RESET then ixgbe_vf_reset_msg a vf else
  r ← vf_get a vf;
  if negb (clear_to_send r) then
    let msgbuf := <[0%nat := Z.lor (word msgbuf 0) IXGBE_VT_MSGTYPE_FAILURE]> msgbuf in
    Some (write_mbx a msgbuf 1 vf, retval)
  else
  d ← dispatch a msgbuf vf;
  match d with
  | inr early => Some early
  | inl (a, msgbuf, retval) =>
      (* notify the VF of the results of what it sent us *)
      let msgbuf := <[0%nat := reply_word (word msgbuf 0) retval]> msgbuf in
      Some (write_mbx a msgbuf mbx_size vf, retval)
  end.

(** ** Administrative entry points: trust and MAC *)

Definition ixgbe_rcv_ack_from_vf (a : ixgbe_adapter) (vf : nat) : option ixgbe_adapter :=
  let msg := IXGBE_VT_MSGTYPE_FAILURE in
  r ← vf_get a vf;
  (* if device isn't clear to send it shouldn't be reading either *)
  if negb (clear_to_send r) then Some (write_mbx a [msg] 1 vf) else Some a.

Definition ixgbe_ping_vf (a : ixgbe_adapter) (vf : nat) : option ixgbe_adapter :=
  r ← vf_get a vf;
  let ping := IXGBE_PF_CONTROL_MSG in
  let ping := if clear_to_send r then Z.lor ping IXGBE_VT_MSGTYPE_CTS else ping in
  Some (write_mbx a [ping] 1 vf).

Definition ixgbe_ndo_set_vf_trust (a : ixgbe_adapter) (vf : Z) (setting : bool)
  : option (ixgbe_adapter * Z) :=
  if (vf <? 0) || (num_vfs a <=? vf) then Some (a, - EINVAL) else
  let v := Z.to_nat vf in
  r ← vf_get a v;
  (* nothing to do *)
  if bool_decide (trusted r = setting) then Some (a, 0) else
  let a := vf_put a v (vf_set_trusted r setting) in
  (* reset VF to reconfigure features *)
  r ← vf_get a v;
  let a := vf_put a v (vf_set_cts r false) in
  a ← ixgbe_ping_vf a v;
  Some (a, 0).


Definition ixgbe_ndo_set_vf_mac (a : ixgbe_adapter) (vf : Z) (mac : ether_addr)
  : option (ixgbe_adapter * Z) :=
  if (vf <? 0) || (num_vfs a <=? vf) then Some (a, - EINVAL) else
  let v := Z.to_nat vf in
  if is_valid_ether_addr mac then
    '(a, retval) ← ixgbe_set_vf_mac a v mac;
    if 0 <=? retval
    then r ← vf_get a v; Some (vf_put a v (vf_set_pf_set_mac r true), retval)
    else Some (a, retval)
  else if is_zero_ether_addr mac then
    r ← vf_get a v;
    if is_zero_ether_addr (vf_mac_addresses r) then Some (a, 0) else
    let '(a, retval) := del_mac_filter a (vf_mac_addresses r) v in
    if 0 <=? retval
    then Some (vf_put a v (vf_set_mac (vf_set_pf_set_mac r false) mac), retval)
    else Some (a, retval)
  else Some (a, - EINVAL).

(** ** Constants of the entry points that follow

    Modelled from the spec: ixgbe_type.h, ixgbe.h and the kernel's uapi
    headers are not under src/.  Sections 3 and 4.3 name what they encode
    (administrative link state AUTO/ENABLE/DISABLE, the rate factor derived
    from the link speed, anti-spoofing, the shared multicast hash table);
    the numeric values are the ones of those headers. *)
Definition EPROTONOSUPPORT := 93.
Definition ETH_P_8021Q := 0x8100.
Definition ETH_P_PAUSE := 0x8808.
Definition IFLA_VF_LINK_STATE_AUTO := 0.
Definition IFLA_VF_LINK_STATE_ENABLE := 1.
Definition IFLA_VF_LINK_STATE_DISABLE := 2.
Definition IXGBE_LINK_SPEED_100_FULL := 0x0008.
Definition IXGBE_LINK_SPEED_1GB_FULL := 0x0020.
Definition IXGBE_LINK_SPEED_10GB_FULL := 0x0080.
Definition IXGBE_RTTBCNRC_RS_ENA := 0x80000000.
Definition IXGBE_RTTBCNRC_RF_DEC_MASK := 0x00003FFF.
Definition IXGBE_RTTBCNRC_RF_INT_SHIFT := 14.
Definition IXGBE_RTTBCNRC_RF_INT_MASK :=
  Z.shiftl IXGBE_RTTBCNRC_RF_DEC_MASK IXGBE_RTTBCNRC_RF_INT_SHIFT.
Definition IXGBE_ETQF_FILTER_EN := 0x80000000.
Definition IXGBE_ETQF_TX_ANTISPOOF := 0x20000000.
Definition IXGBE_ETQF_FILTER_LLDP := 5.
Definition IXGBE_ETQF_FILTER_FC := 7.
Definition IXGBE_ETH_P_LLDP := 0x88CC.
Definition IXGBE_MAX_MTA := 128.

(* htons on the little-endian host *)
Definition htons (x : Z) : Z := Z.lor (Z.shiftl (Z.land x 0xFF) 8) (Z.land (Z.shiftr x 8) 0xFF).

Definition vf_set_pf_vlan (r : vf_data_storage) (vlan qos : Z) : vf_data_storage :=
  {| vfdev := vfdev r; vf_mac_addresses := vf_mac_addresses r; vf_mc_hashes := vf_mc_hashes r;
     num_vf_mc_hashes := num_vf_mc_hashes r; clear_to_send := clear_to_send r;
     pf_set_mac := pf_set_mac r; pf_vlan := vlan; pf_qos := qos;
     tx_rate := tx_rate r; link_enable := link_enable r; link_state := link_state r;
     spoofchk_enabled := spoofchk_enabled r; rss_query_enabled := rss_query_enabled r;
     trusted := trusted r; xcast_mode := xcast_mode r; vf_api := vf_api r |}.

Definition vf_set_tx_rate (r : vf_data_storage) (rate : Z) : vf_data_storage :=
  {| vfdev := vfdev r; vf_mac_addresses := vf_mac_addresses r; vf_mc_hashes := vf_mc_hashes r;
     num_vf_mc_hashes := num_vf_mc_hashes r; clear_to_send := clear_to_send r;
     pf_set_mac := pf_set_mac r; pf_vlan := pf_vlan r; pf_qos := pf_qos r;
     tx_rate := rate; link_enable := link_enable r; link_state := link_state r;
     spoofchk_enabled := spoofchk_enabled r; rss_query_enabled := rss_query_enabled r;
     trusted := trusted r; xcast_mode := xcast_mode r; vf_api := vf_api r |}.

Definition vf_set_link_state (r : vf_data_storage) (state : Z) : vf_data_storage :=
  {| vfdev := vfdev r; vf_mac_addresses := vf_mac_addresses r; vf_mc_hashes := vf_mc_hashes r;
     num_vf_mc_hashes := num_vf_mc_hashes r; clear_to_send := clear_to_send r;
     pf_set_mac := pf_set_mac r; pf_vlan := pf_vlan r; pf_qos := pf_qos r;
     tx_rate := tx_rate r; link_enable := link_enable r; link_state := state;
     spoofchk_enabled := spoofchk_enabled r; rss_query_enabled := rss_query_enabled r;
     trusted := trusted r; xcast_mode := xcast_mode r; vf_api := vf_api r |}.

Definition vf_set_link_enable (r : vf_data_storage) (b : bool) : vf_data_storage :=
  {| vfdev := vfdev r; vf_mac_addresses := vf_mac_addresses r; vf_mc_hashes := vf_mc_hashes r;
     num_vf_mc_hashes := num_vf_mc_hashes r; clear_to_send := clear_to_send r;
     pf_set_mac := pf_set_mac r; pf_vlan := pf_vlan r; pf_qos := pf_qos r;
     tx_rate := tx_rate r; link_enable := b; link_state := link_state r;
     spoofchk_enabled := spoofchk_enabled r; rss_query_enabled := rss_query_enabled r;
     trusted := trusted r; xcast_mode := xcast_mode r; vf_api := vf_api r |}.

Definition vf_set_spoofchk (r : vf_data_storage) (b : bool) : vf_data_storage :=
  {| vfdev := vfdev r; vf_mac_addresses := vf_mac_addresses r; vf_mc_hashes := vf_mc_hashes r;
     num_vf_mc_hashes := num_vf_mc_hashes r; clear_to_send := clear_to_send r;
     pf_set_mac := pf_set_mac r; pf_vlan := pf_vlan r; pf_qos := pf_qos r;
     tx_rate := tx_rate r; link_enable := link_enable r; link_state := link_state r;
     spoofchk_enabled := b; rss_query_enabled := rss_query_enabled r;
     trusted := trusted r; xcast_mode := xcast_mode r; vf_api := vf_api r |}.

Definition vf_set_rss_query (r : vf_data_storage) (b : bool) : vf_data_storage :=
  {| vfdev := vfdev r; vf_mac_addresses := vf_mac_addresses r; vf_mc_hashes := vf_mc_hashes r;
     num_vf_mc_hashes := num_vf_mc_hashes r; clear_to_send := clear_to_send r;
     pf_set_mac := pf_set_mac r; pf_vlan := pf_vlan r; pf_qos := pf_qos r;
     tx_rate := tx_rate r; link_enable := link_enable r; link_state := link_state r;
     spoofchk_enabled := spoofchk_enabled r; rss_query_enabled := b;
     trusted := trusted r; xcast_mode := xcast_mode r; vf_api := vf_api r |}.

(** ** Enabling through the module parameter *)

Definition ixgbe_enable_sriov (mem : kmem) (a : ixgbe_adapter) : option ixgbe_adapter :=
  let pre_existing_vfs := sriov_num_vfs (pdev a) in
  if negb (truthy pre_existing_vfs) && negb (truthy (max_vfs a)) then Some a else
  let '(a, num_vfs, err) :=
    if truthy pre_existing_vfs then (a, u32 pre_existing_vfs, 0)
    else
      let num_vfs := Z.min (u32 (max_vfs a)) IXGBE_MAX_VFS_DRV_LIMIT in
      let '(p, err) := pci_enable_sriov (pdev a) num_vfs in
      (set_pdev a p, num_vfs, err) in
  if truthy err then Some a else
  let '(a, rc) := __ixgbe_enable_sriov mem a num_vfs in
  if negb (truthy rc) then ixgbe_get_vfs a
  else fst <$> ixgbe_disable_sriov a.

(** ** The shared multicast hash table *)

(* hw->mac.mta_shadow and hw->addr_ctrl.mta_in_use *)
Record mta_state := { mta_shadow : list Z; mta_in_use : Z }.

(* one pass of the inner loop of ixgbe_restore_vf_multicasts *)
Definition mta_add (hash : Z) (m : mta_state) : mta_state :=
  let vector_reg := Z.land (Z.shiftr hash 5) 0x7F in
  let vector_bit := Z.land hash 0x1F in
  {| mta_shadow := alter (fun w => Z.lor w (BIT vector_bit)) (Z.to_nat vector_reg)
                     (mta_shadow m);
     mta_in_use := u32 (mta_in_use m + 1) |}.

(* the body of the loop over the VFs; vf_mc_hashes[j] is undefined past the
   end of the array *)
Definition restore_vf_entry (i : Z) (s : ixgbe_adapter * mta_state)
  : option (ixgbe_adapter * mta_state) :=
  let '(a, m) := s in
  let vmolr := IXGBE_READ_REG a (IXGBE_VMOLR i) in
  vfinfo0 ← vf_get a (Z.to_nat i);
  m ← for_loop_opt (Z.to_nat (num_vf_mc_hashes vfinfo0)) 0
         (fun j m => h ← vf_mc_hashes vfinfo0 !! Z.to_nat j; Some (mta_add h m)) m;
  let vmolr := if truthy (num_vf_mc_hashes vfinfo0)
               then Z.lor vmolr IXGBE_VMOLR_ROMPE
               else Z.land vmolr (not32 IXGBE_VMOLR_ROMPE) in
  Some (IXGBE_WRITE_REG a (IXGBE_VMOLR i) vmolr, m).

Variable ixgbe_full_sync_mac_table : ixgbe_adapter -> E * regfile.

Definition ixgbe_restore_vf_multicasts (a : ixgbe_adapter) (m : mta_state)
  : option (ixgbe_adapter * mta_state) :=
  (* Clear mta_shadow *)
  let m := {| mta_shadow := replicate (Z.to_nat IXGBE_MAX_MTA) 0;
              mta_in_use := mta_in_use m |} in
  '(a, m) ← for_loop_opt (Z.to_nat (num_vfs a)) 0 restore_vf_entry (a, m);
  (* Restore any VF macvlans *)
  let '(t, rf) := ixgbe_full_sync_mac_table a in
  Some (set_regs (set_mac_table a t) rf, m).

(** ** Malicious-driver sweep and the polling task *)

(** The other members of hw->mac.ops that this file calls; each may be
    NULL.  [mdd_event] returns the two words it puts in vf_bitmap. *)
Record ixgbe_mac_operations_mdd := {
  mdd_event : option (regfile -> regfile * (Z * Z));
  restore_mdd_vf : option (regfile -> Z -> regfile);
  set_ethertype_anti_spoofing : option (regfile -> bool -> Z -> regfile)
}.

Variable ops2 : ixgbe_mac_operations_mdd.

(* the body of the scan for the VF the malicious event occurred on *)
Definition mdd_restart_vf (vf : Z) (a : ixgbe_adapter) : option ixgbe_adapter :=
  match restore_mdd_vf ops2 with
  | Some restore =>
      let a := set_regs a (restore (regs (hw a)) vf) in
      (* get the VF to rebuild its queues *)
      r ← vf_get a (Z.to_nat vf);
      let a := vf_put a (Z.to_nat vf) (vf_set_cts r false) in
      let ping := Z.lor IXGBE_PF_CONTROL_MSG IXGBE_VT_MSGTYPE_CTS in
      Some (write_mbx a [ping] 1 (Z.to_nat vf))
  | None => Some a
  end.

(* for (j = 0; j < 32 && vf_bitmap[i]; j++): vf_bitmap[i] is not written
   in the loop, so the second test is decided on entry *)
Definition mdd_scan_word (i : Z) (w : Z) (s : ixgbe_adapter * Z)
  : option (ixgbe_adapter * Z) :=
  if negb (truthy w) then Some s else
  for_loop_opt 32 0
    (fun j '(a, retval) =>
       if negb (truthy (Z.land w (BIT j))) then Some (a, retval)
       else a ← mdd_restart_vf (j + i * 32) a; Some (a, 1)) s.

Definition ixgbe_check_mdd_event (a : ixgbe_adapter) : option (ixgbe_adapter * Z) :=
  match mdd_event ops2 with
  | None => Some (a, 0)
  | Some event =>
      (* Did we have a malicious event *)
      let '(rf, (w0, w1)) := event (regs (hw a)) in
      let a := set_regs a rf in
      for_loop_opt 2 0 (fun i s => mdd_scan_word i (u32 (if i =? 0 then w0 else w1)) s) (a, 0)
  end.

(** The mailbox transport (ixgbe_mbx.c): the three pending tests clear the
    indication they find, [ixgbe_read_mbx] acknowledges the message; each
    returns the registers it leaves and its value. *)
Variable ixgbe_check_for_rst : ixgbe_adapter -> nat -> regfile * Z.
Variable ixgbe_check_for_msg : ixgbe_adapter -> nat -> regfile * Z.
Variable ixgbe_check_for_ack : ixgbe_adapter -> nat -> regfile * Z.
Variable ixgbe_read_mbx : ixgbe_adapter -> nat -> regfile * (Z * list Z).

(* one pass of the loop of ixgbe_msg_task *)
Definition msg_task_vf (i : Z) (a : ixgbe_adapter) : option ixgbe_adapter :=
  let vf := Z.to_nat i in
  (* process any reset requests *)
  let '(rf, rst) := ixgbe_check_for_rst a vf in
  let a := set_regs a rf in
  a ← (if negb (truthy rst) then ixgbe_vf_reset_event a vf else Some a);
  (* process any messages pending *)
  let '(rf, msg) := ixgbe_check_for_msg a vf in
  let a := set_regs a rf in
  a ← (if negb (truthy msg)
       then let '(rf, (mbx_ret, mbx_buf)) := ixgbe_read_mbx a vf in
            fst <$> ixgbe_rcv_msg_from_vf (set_regs a rf) vf mbx_ret mbx_buf
       else Some a);
  (* process any acks *)
  let '(rf, ack) := ixgbe_check_for_ack a vf in
  let a := set_regs a rf in
  if negb (truthy ack) then ixgbe_rcv_ack_from_vf a vf else Some a.

(* No callee writes adapter->num_vfs, so the bound of the loop is the one
   read on entry. *)
Definition ixgbe_msg_task (a : ixgbe_adapter) : option ixgbe_adapter :=
  match vfinfo a with
  | None => Some a
  | Some _ =>
      a ← (if IXGBE_FLAG_MDD_ENABLED (flags a)
           then fst <$> ixgbe_check_mdd_event a else Some a);
      for_loop_opt (Z.to_nat (num_vfs a)) 0 msg_task_vf a
  end.

Definition ixgbe_ping_all_vfs (a : ixgbe_adapter) : option ixgbe_adapter :=
  for_loop_opt (Z.to_nat (num_vfs a)) 0
    (fun i a =>
       r ← vf_get a (Z.to_nat i);
       let ping := IXGBE_PF_CONTROL_MSG in
       let ping := if clear_to_send r then Z.lor ping IXGBE_VT_MSGTYPE_CTS else ping in
       Some (write_mbx a [ping] 1 (Z.to_nat i))) a.

(** ** Administrative link state

    [down] is test_bit(__IXGBE_DOWN, adapter->state). *)

Definition ixgbe_set_vf_link_state (down : bool) (a : ixgbe_adapter) (vf : nat) (state : Z)
  : option ixgbe_adapter :=
  r ← vf_get a vf;
  let r := vf_set_link_state r state in
  let r :=
    if state =? IFLA_VF_LINK_STATE_AUTO then vf_set_link_enable r (negb down)
    else if state =? IFLA_VF_LINK_STATE_ENABLE then vf_set_link_enable r true
    else if state =? IFLA_VF_LINK_STATE_DISABLE then vf_set_link_enable r false
    else r in
  let a := vf_put a vf r in
  a ← ixgbe_set_vf_rx_tx a vf;
  (* restart the VF *)
  r ← vf_get a vf;
  let a := vf_put a vf (vf_set_cts r false) in
  ixgbe_ping_vf a vf.

Definition ixgbe_set_all_vfs (down : bool) (a : ixgbe_adapter) : option ixgbe_adapter :=
  for_loop_opt (Z.to_nat (num_vfs a)) 0
    (fun i a =>
       r ← vf_get a (Z.to_nat i);
       ixgbe_set_vf_link_state down a (Z.to_nat i) (link_state r)) a.

Definition ixgbe_ndo_set_vf_link_state (down : bool) (a : ixgbe_adapter) (vf : Z) (state : Z)
  : option (ixgbe_adapter * Z) :=
  if (vf <? 0) || (num_vfs a <=? vf) then Some (a, - EINVAL) else
  if state =? IFLA_VF_LINK_STATE_ENABLE then Some (a, 0)
  else if (state =? IFLA_VF_LINK_STATE_DISABLE) || (state =? IFLA_VF_LINK_STATE_AUTO)
       then a ← ixgbe_set_vf_link_state down a (Z.to_nat vf) state; Some (a, 0)
       else Some (a, - EINVAL).

(** ** Port VLAN *)

Definition ixgbe_enable_port_vlan (a : ixgbe_adapter) (vf : nat) (vlan qos : Z)
  : option (ixgbe_adapter * Z) :=
  let zvf := Z.of_nat vf in
  let '(a, err) := ixgbe_set_vf_vlan a 1 vlan zvf in
  if truthy err then Some (a, err) else
  (* Revoke tagless access via VLAN 0 *)
  let a := fst (ixgbe_set_vf_vlan a 0 0 zvf) in
  let a := ixgbe_set_vmvir a vlan qos zvf in
  let a := ixgbe_set_vmolr a zvf false in
  (* enable hide vlan on X550 *)
  let a := if mac_rank ixgbe_mac_X550 <=? mac_rank (mac_type (hw a))
           then ixgbe_write_qde a vf (Z.lor IXGBE_QDE_ENABLE IXGBE_QDE_HIDE_VLAN)
           else a in
  r ← vf_get a vf;
  Some (vf_put a vf (vf_set_pf_vlan r vlan qos), err).

Definition ixgbe_disable_port_vlan (a : ixgbe_adapter) (vf : nat)
  : option (ixgbe_adapter * Z) :=
  let zvf := Z.of_nat vf in
  r ← vf_get a vf;
  let '(a, err) := ixgbe_set_vf_vlan a 0 (pf_vlan r) zvf in
  (* Restore tagless access via VLAN 0 *)
  let a := fst (ixgbe_set_vf_vlan a 1 0 zvf) in
  let a := ixgbe_clear_vmvir a zvf in
  let a := ixgbe_set_vmolr a zvf true in
  (* disable hide VLAN on X550 *)
  let a := if mac_rank ixgbe_mac_X550 <=? mac_rank (mac_type (hw a))
           then ixgbe_write_qde a vf IXGBE_QDE_ENABLE
           else a in
  r ← vf_get a vf;
  Some (vf_put a vf (vf_set_pf_vlan r 0 0), err).

(* the prototype with vlan_proto (IFLA_VF_VLAN_INFO_MAX); [vlan] is a u16
   and [qos] a u8 *)
Definition ixgbe_ndo_set_vf_vlan (a : ixgbe_adapter) (vf : Z) (vlan qos : Z) (vlan_proto : Z)
  : option (ixgbe_adapter * Z) :=
  (* VLAN IDs accepted range 0-4094 *)
  if (vf <? 0) || (num_vfs a <=? vf) || (VLAN_VID_MASK - 1 <? vlan) || (7 <? qos)
  then Some (a, - EINVAL) else
  if negb (vlan_proto =? htons ETH_P_8021Q) then Some (a, - EPROTONOSUPPORT) else
  let v := Z.to_nat vf in
  if truthy vlan || truthy qos then
    r ← vf_get a v;
    '(a, err) ← (if truthy (pf_vlan r) then ixgbe_disable_port_vlan a v else Some (a, 0));
    if truthy err then Some (a, err) else
    ixgbe_enable_port_vlan a v vlan qos
  else ixgbe_disable_port_vlan a v.

(** ** Transmit rate limit

    [ixgbe_link] holds the fields of struct ixgbe_adapter that only the rate
    limiter reads.  The registers below are only written by this file; they
    are kept as the sequence of writes, oldest first (RTTBCNRC is the
    register of the queue last selected through RTTDQSEL). *)

Record ixgbe_link := { link_up : bool; link_speed : Z; vf_rate_link_speed : Z }.

Inductive reg_wo :=
  | IXGBE_RTTBCNRM | IXGBE_RTTDQSEL | IXGBE_RTTBCNRC | IXGBE_ETQF (i : Z).

Definition reg_writes := list (reg_wo * Z).

Definition write_wo (w : reg_writes) (r : reg_wo) (v : Z) : reg_writes := w ++ [(r, u32 v)].

Definition ixgbe_link_mbps (l : ixgbe_link) : Z :=
  if link_speed l =? IXGBE_LINK_SPEED_100_FULL then 100
  else if link_speed l =? IXGBE_LINK_SPEED_1GB_FULL then 1000
  else if link_speed l =? IXGBE_LINK_SPEED_10GB_FULL then 10000
  else 0.

(* the value written to RTTBCNRC for every Tx queue of the VF *)
Definition bcnrc_of (l : ixgbe_link) (r : vf_data_storage) : Z :=
  let tx_rate := tx_rate r mod 2 ^ 16 in
  if truthy tx_rate then
    (* start with base link speed value *)
    let bcnrc_val := u32 (vf_rate_link_speed l) in
    (* Calculate the rate factor values to set *)
    let bcnrc_val := u32 (Z.shiftl bcnrc_val IXGBE_RTTBCNRC_RF_INT_SHIFT) in
    let bcnrc_val := bcnrc_val / tx_rate in
    (* clear everything but the rate factor *)
    let bcnrc_val :=
      Z.land bcnrc_val (Z.lor IXGBE_RTTBCNRC_RF_INT_MASK IXGBE_RTTBCNRC_RF_DEC_MASK) in
    (* enable the rate scheduler *)
    Z.lor bcnrc_val IXGBE_RTTBCNRC_RS_ENA
  else 0.

Definition ixgbe_set_vf_rate_limit (a : ixgbe_adapter) (l : ixgbe_link) (w : reg_writes)
    (vf : nat) : option reg_writes :=
  r ← vf_get a vf;
  let bcnrc_val := bcnrc_of l r in
  let w := match mac_type (hw a) with
           | ixgbe_mac_82599EB => write_wo w IXGBE_RTTBCNRM 0x4
           | ixgbe_mac_X540 => write_wo w IXGBE_RTTBCNRM 0x14
           | _ => w
           end in
  (* determine how many queues per pool based on VMDq mask *)
  let queues_per_pool := q_per_pool_of (rf_mask (vmdq a)) mod 2 ^ 16 in
  (* write value for all Tx queues belonging to VF *)
  Some (for_loop (Z.to_nat queues_per_pool) 0
          (fun queue w =>
             let reg_idx := Z.of_nat vf * queues_per_pool + queue in
             let w := write_wo w IXGBE_RTTDQSEL reg_idx in
             write_wo w IXGBE_RTTBCNRC bcnrc_val) w).

Definition set_vf_rate_link_speed (l : ixgbe_link) (v : Z) : ixgbe_link :=
  {| link_up := link_up l; link_speed := link_speed l; vf_rate_link_speed := v |}.

Definition ixgbe_check_vf_rate_limit (a : ixgbe_adapter) (l : ixgbe_link) (w : reg_writes)
  : option (ixgbe_adapter * ixgbe_link * reg_writes) :=
  (* VF Tx rate limit was not set *)
  if negb (truthy (vf_rate_link_speed l)) then Some (a, l, w) else
  let l := if negb (ixgbe_link_mbps l =? vf_rate_link_speed l)
           then set_vf_rate_link_speed l 0 else l in
  '(a, w) ← for_loop_opt (Z.to_nat (num_vfs a)) 0
              (fun i '(a, w) =>
                 a ← (if negb (truthy (vf_rate_link_speed l))
                      then r ← vf_get a (Z.to_nat i);
                           Some (vf_put a (Z.to_nat i) (vf_set_tx_rate r 0))
                      else Some a);
                 w ← ixgbe_set_vf_rate_limit a l w (Z.to_nat i);
                 Some (a, w)) (a, w);
  Some (a, l, w).

Definition ixgbe_ndo_set_vf_bw (a : ixgbe_adapter) (l : ixgbe_link) (w : reg_writes)
    (vf : Z) (max_tx_rate : Z) : option (ixgbe_adapter * ixgbe_link * reg_writes * Z) :=
  (* verify VF is active *)
  if (vf <? 0) || (num_vfs a <=? vf) then Some (a, l, w, - EINVAL) else
  (* verify link is up *)
  if negb (link_up l) then Some (a, l, w, - EINVAL) else
  (* verify we are linked at 10Gbps *)
  let link_speed := ixgbe_link_mbps l in
  if negb (link_speed =? 10000) then Some (a, l, w, - EINVAL) else
  (* rate limit cannot be less than 10Mbs or greater than link speed *)
  if truthy max_tx_rate && ((max_tx_rate <=? 10) || (link_speed <? max_tx_rate))
  then Some (a, l, w, - EINVAL) else
  (* store values *)
  let l := set_vf_rate_link_speed l link_speed in
  r ← vf_get a (Z.to_nat vf);
  let a := vf_put a (Z.to_nat vf) (vf_set_tx_rate r max_tx_rate) in
  (* update hardware configuration *)
  w ← ixgbe_set_vf_rate_limit a l w (Z.to_nat vf);
  Some (a, l, w, 0).

(** ** Spoof checking, RSS query permission and the configuration read-back *)

Definition ixgbe_ndo_set_vf_spoofchk (a : ixgbe_adapter) (w : reg_writes) (vf : Z)
    (setting : bool) : option (ixgbe_adapter * reg_writes * Z) :=
  if (vf <? 0) || (num_vfs a <=? vf) then Some (a, w, - EINVAL) else
  r ← vf_get a (Z.to_nat vf);
  let a := vf_put a (Z.to_nat vf) (vf_set_spoofchk r setting) in
  (* configure MAC spoofing *)
  let a := set_regs a (set_mac_anti_spoofing ops (regs (hw a)) setting vf) in
  (* configure VLAN spoofing *)
  let a := set_regs a (set_vlan_anti_spoofing ops (regs (hw a)) setting vf) in
  match set_ethertype_anti_spoofing ops2 with
  | Some anti_spoofing =>
      let w := write_wo w (IXGBE_ETQF IXGBE_ETQF_FILTER_LLDP)
                 (Z.lor IXGBE_ETQF_FILTER_EN (Z.lor IXGBE_ETQF_TX_ANTISPOOF IXGBE_ETH_P_LLDP)) in
      let w := write_wo w (IXGBE_ETQF IXGBE_ETQF_FILTER_FC)
                 (Z.lor IXGBE_ETQF_FILTER_EN (Z.lor IXGBE_ETQF_TX_ANTISPOOF ETH_P_PAUSE)) in
      Some (set_regs a (anti_spoofing (regs (hw a)) setting vf), w, 0)
  | None => Some (a, w, 0)
  end.

Definition ixgbe_ndo_set_vf_rss_query_en (a : ixgbe_adapter) (vf : Z) (setting : bool)
  : option (ixgbe_adapter * Z) :=
  (* This operation is currently supported only for 82599 and x540 devices. *)
  if (mac_rank (mac_type (hw a)) <? mac_rank ixgbe_mac_82599EB)
     || (mac_rank ixgbe_mac_X550 <=? mac_rank (mac_type (hw a)))
  then Some (a, - EOPNOTSUPP) else
  if (vf <? 0) || (num_vfs a <=? vf) then Some (a, - EINVAL) else
  r ← vf_get a (Z.to_nat vf);
  Some (vf_put a (Z.to_nat vf) (vf_set_rss_query r setting), 0).

(* struct ifla_vf_info; [ivi_mac] is the first ETH_ALEN bytes of mac[] *)
Record ifla_vf_info := {
  ivi_vf : Z;
  ivi_mac : ether_addr;
  ivi_vlan : Z;
  ivi_qos : Z;
  ivi_spoofchk : bool;
  ivi_linkstate : Z;
  ivi_min_tx_rate : Z;
  ivi_max_tx_rate : Z;
  ivi_rss_query_en : bool;
  ivi_trusted : bool;
  ivi_vlan_proto : Z
}.

Definition ixgbe_ndo_get_vf_config (a : ixgbe_adapter) (vf : Z) (ivi : ifla_vf_info)
  : option (ifla_vf_info * Z) :=
  if (vf <? 0) || (num_vfs a <=? vf) then Some (ivi, - EINVAL) else
  r ← vf_get a (Z.to_nat vf);
  Some ({| ivi_vf := vf;
           ivi_mac := vf_mac_addresses r;
           ivi_vlan := pf_vlan r;
           ivi_qos := pf_qos r;
           ivi_spoofchk := spoofchk_enabled r;
           ivi_linkstate := link_state r;
           ivi_min_tx_rate := 0;
           ivi_max_tx_rate := tx_rate r;
           ivi_rss_query_en := rss_query_enabled r;
           ivi_trusted := trusted r;
           ivi_vlan_proto := ivi_vlan_proto ivi |}, 0).

(** * Properties *)

(** ** Bit-level facts used for the pool bitmaps *)

Lemma testbit_u32 (x s : Z) : 0 <= s < 32 -> Z.testbit (u32 x) s = Z.testbit x s.
Proof. intros H. unfold u32. apply Z.mod_pow2_bits_low. lia. Qed.

Lemma BIT_pow2 (s : Z) : 0 <= s < 32 -> BIT s = 2 ^ s.
Proof.
  intros H. unfold BIT, u32. rewrite Z.shiftl_1_l.
  apply Z.mod_small. split; [apply Z.pow_nonneg; lia |].
  apply Z.pow_lt_mono_r; lia.
Qed.

Lemma land_pow2_eqb_0 (x s : Z) :
  0 <= s -> (Z.land x (2 ^ s) =? 0) = negb (Z.testbit x s).
Proof.
  intros Hs. destruct (Z.testbit x s) eqn:Hb; simpl.
  - apply Z.eqb_neq. intros H0.
    assert (Ht : Z.testbit (Z.land x (2 ^ s)) s = true).
    { rewrite Z.land_spec, Hb, Z.pow2_bits_true by lia. reflexivity. }
    rewrite H0 in Ht. rewrite Z.bits_0 in Ht. discriminate.
  - apply Z.eqb_eq. apply Z.bits_inj'. intros n Hn.
    rewrite Z.land_spec, Z.bits_0.
    destruct (Z.eq_dec n s) as [-> | Hne].
    + rewrite Hb. reflexivity.
    + rewrite Z.pow2_bits_false by lia. apply andb_false_r.
Qed.

Lemma lxor_pow2_clears (x s : Z) :
  0 <= s -> Z.testbit x s = true -> Z.testbit (Z.lxor x (2 ^ s)) s = false.
Proof.
  intros Hs Hb. rewrite Z.lxor_spec, Hb, Z.pow2_bits_true by lia. reflexivity.
Qed.

Lemma u32_eq_even_offsets (c i j : Z) :
  0 <= i < 64 -> 0 <= j < 64 -> u32 (i * 2 + c) = u32 (j * 2 + c) -> i = j.
Proof.
  intros Hi Hj H. unfold u32 in H.
  assert (Hd : ((i * 2 + c) - (j * 2 + c)) mod 2 ^ 32 = 0).
  { rewrite Zminus_mod, H, Z.sub_diag. reflexivity. }
  apply Z.mod_divide in Hd; [| lia].
  destruct Hd as [k Hk]. lia.
Qed.

(** ** Frame lemmas for the table of VF records *)

Lemma vf_get_lt (a : ixgbe_adapter) (vf : nat) (r : vf_data_storage) :
  vf_get a vf = Some r -> exists t, vfinfo a = Some t /\ t !! vf = Some r.
Proof.
  unfold vf_get. destruct (vfinfo a) as [t|]; simpl; [eauto | discriminate].
Qed.

Lemma vf_get_put (a : ixgbe_adapter) (vf : nat) (r r' : vf_data_storage) :
  vf_get a vf = Some r -> vf_get (vf_put a vf r') vf = Some r'.
Proof.
  intros H. destruct (vf_get_lt _ _ _ H) as (t & Ht & Hl).
  unfold vf_get, vf_put. simpl. rewrite Ht. simpl.
  apply list_lookup_insert_eq. eapply lookup_lt_Some; eauto.
Qed.

Lemma vf_get_set_regs (a : ixgbe_adapter) rf vf : vf_get (set_regs a rf) vf = vf_get a vf.
Proof. reflexivity. Qed.

Lemma vf_get_set_mac_table (a : ixgbe_adapter) t vf :
  vf_get (set_mac_table a t) vf = vf_get a vf.
Proof. reflexivity. Qed.

Lemma vf_get_add_mac_filter (a : ixgbe_adapter) m v vf :
  vf_get (fst (add_mac_filter a m v)) vf = vf_get a vf.
Proof. unfold add_mac_filter. destruct (ixgbe_add_mac_filter a m v) as [[t rf] rc]. reflexivity. Qed.

Lemma vf_get_del_mac_filter (a : ixgbe_adapter) m v vf :
  vf_get (fst (del_mac_filter a m v)) vf = vf_get a vf.
Proof. unfold del_mac_filter. destruct (ixgbe_del_mac_filter a m v) as [[t rf] rc]. reflexivity. Qed.

(** What [ixgbe_set_vf_mac] computes, in one equation. *)
Lemma ixgbe_set_vf_mac_eq (a : ixgbe_adapter) (vf : nat) (m : ether_addr) (r : vf_data_storage) :
  vf_get a vf = Some r ->
  let a1 := fst (del_mac_filter a (vf_mac_addresses r) vf) in
  let a2 := fst (add_mac_filter a1 m vf) in
  let rc := snd (add_mac_filter a1 m vf) in
  ixgbe_set_vf_mac a vf m =
    Some (vf_put a2 vf (vf_set_mac r (if 0 <=? rc then m else zero_addr)), rc).
Proof.
  intros H. unfold ixgbe_set_vf_mac. rewrite H. simpl.
  destruct (add_mac_filter _ m vf) as [a2 rc]. simpl.
  destruct (0 <=? rc); reflexivity.
Qed.

(** C9.  When the backend's add of the MAC filter fails inside
    [ixgbe_set_vf_mac], the call returns that negative code and the VF's
    stored MAC is the all-zero address: the previous address is not kept. *)
Theorem set_vf_mac_add_failure_zeroes_record
    (a : ixgbe_adapter) (vf : nat) (mac_addr : ether_addr) (r : vf_data_storage) :
  vf_get a vf = Some r ->
  snd (add_mac_filter (fst (del_mac_filter a (vf_mac_addresses r) vf)) mac_addr vf) < 0 ->
  exists a' rc,
    ixgbe_set_vf_mac a vf mac_addr = Some (a', rc) /\ rc < 0 /\
    vf_get a' vf = Some (vf_set_mac r zero_addr) /\
    vf_mac_addresses (vf_set_mac r zero_addr) = zero_addr.
Proof.
  intros Hr Hfail.
  rewrite (ixgbe_set_vf_mac_eq a vf mac_addr r Hr). cbv zeta.
  set (a1 := fst (del_mac_filter a (vf_mac_addresses r) vf)) in *.
  set (rc := snd (add_mac_filter a1 mac_addr vf)) in *.
  exists (vf_put (fst (add_mac_filter a1 mac_addr vf)) vf (vf_set_mac r zero_addr)), rc.
  assert (Hneg : (0 <=? rc) = false) by (apply Z.leb_gt; exact Hfail).
  rewrite Hneg. repeat split; try assumption.
  apply vf_get_put with (r := r).
  rewrite vf_get_add_mac_filter. subst a1. rewrite vf_get_del_mac_filter. exact Hr.
Qed.


(** C7 (as amended).  SET_VLAN from a VF with a PF-pinned port VLAN, or
    while traffic classes are active, returns -1 and changes nothing,
    whatever the request, a removal of VLAN 0 included.  For a VF that is
    not restricted in that way, removing VLAN 0 returns 0 and changes
    nothing. *)
Theorem set_vf_vlan_msg_policy
    (a : ixgbe_adapter) (msgbuf : list Z) (vf : nat) (r : vf_data_storage) :
  vf_get a vf = Some r ->
  (pf_vlan r <> 0 \/ netdev_get_num_tc a <> 0 ->
     ixgbe_set_vf_vlan_msg a msgbuf vf = Some (a, msgbuf, -1)) /\
  (pf_vlan r = 0 -> netdev_get_num_tc a = 0 ->
   Z.land (word msgbuf 1) IXGBE_VLVF_VLANID_MASK = 0 -> msginfo msgbuf = 0 ->
     ixgbe_set_vf_vlan_msg a msgbuf vf = Some (a, msgbuf, 0)).
Proof.
  intros Hr. unfold ixgbe_set_vf_vlan_msg. rewrite Hr. cbn [mbind option_bind]. split.
  - intros Hgate.
    assert (Hor : truthy (pf_vlan r) || truthy (netdev_get_num_tc a) = true).
    { unfold truthy. apply orb_true_iff.
      destruct Hgate as [H | H]; [left | right];
        apply negb_true_iff, Z.eqb_neq; exact H. }
    rewrite Hor. reflexivity.
  - intros Hv Htc Hvid Hadd. rewrite Hv, Htc, Hvid, Hadd. reflexivity.
Qed.

(** C8 (as amended).  UPDATE_XCAST_MODE returns -EOPNOTSUPP, changing
    nothing, when the negotiated API is neither 1.2 nor 1.3, or is 1.2 and
    the mode asked for is PROMISC.  Once that check is passed, a mode above
    MULTI asked for by an untrusted VF is served as MULTI: the call returns
    0, echoes MULTI in msgbuf[1] and the VF's mode is MULTI.  A PROMISC
    request of a trusted VF at API 1.3 returns -EPERM when the PF is not in
    promiscuous mode (FCTRL.UPE clear), provided the VF is not already in
    PROMISC mode and the MAC is newer than 82599; on 82599 and older it
    returns -EOPNOTSUPP, and a VF already in PROMISC mode gets 0 back
    without the PF being looked at. *)
Theorem update_vf_xcast_mode_policy
    (a : ixgbe_adapter) (msgbuf : list Z) (vf : nat) (r : vf_data_storage) :
  vf_get a vf = Some r ->
  let mode := to_int (word msgbuf 1) in
  (((vf_api r <> ixgbe_mbox_api_12 /\ vf_api r <> ixgbe_mbox_api_13) \/
    (vf_api r = ixgbe_mbox_api_12 /\ mode = IXGBEVF_XCAST_MODE_PROMISC)) ->
     ixgbe_update_vf_xcast_mode a msgbuf vf = Some (a, msgbuf, - EOPNOTSUPP)) /\
  (trusted r = false -> IXGBEVF_XCAST_MODE_MULTI < mode ->
   (vf_api r = ixgbe_mbox_api_13 \/
    (vf_api r = ixgbe_mbox_api_12 /\ mode <> IXGBEVF_XCAST_MODE_PROMISC)) ->
     exists a',
       ixgbe_update_vf_xcast_mode a msgbuf vf =
         Some (a', <[1%nat := IXGBEVF_XCAST_MODE_MULTI]> msgbuf, 0) /\
       xcast_mode <$> vf_get a' vf = Some IXGBEVF_XCAST_MODE_MULTI) /\
  (trusted r = true -> mode = IXGBEVF_XCAST_MODE_PROMISC ->
   vf_api r = ixgbe_mbox_api_13 ->
     (xcast_mode r <> IXGBEVF_XCAST_MODE_PROMISC ->
      mac_rank ixgbe_mac_82599EB < mac_rank (mac_type (hw a)) ->
      Z.land (IXGBE_READ_REG a IXGBE_FCTRL) IXGBE_FCTRL_UPE = 0 ->
        ixgbe_update_vf_xcast_mode a msgbuf vf = Some (a, msgbuf, - EPERM)) /\
     (xcast_mode r <> IXGBEVF_XCAST_MODE_PROMISC ->
      mac_rank (mac_type (hw a)) <= mac_rank ixgbe_mac_82599EB ->
        ixgbe_update_vf_xcast_mode a msgbuf vf = Some (a, msgbuf, - EOPNOTSUPP)) /\
     (xcast_mode r = IXGBEVF_XCAST_MODE_PROMISC ->
        ixgbe_update_vf_xcast_mode a msgbuf vf =
          Some (a, <[1%nat := IXGBEVF_XCAST_MODE_PROMISC]> msgbuf, 0))).
Proof.
  intros Hr mode. unfold ixgbe_update_vf_xcast_mode. rewrite Hr. simpl. fold mode.
  split; [| split].
  - intros [[H12 H13] | [H12 Hp]].
    + apply Z.eqb_neq in H12, H13. rewrite H12, H13. reflexivity.
    + rewrite H12, Hp. reflexivity.
  - intros Hunt Hgt Hapi.
    assert (Hok : (if vf_api r =? ixgbe_mbox_api_12
                   then negb (mode =? IXGBEVF_XCAST_MODE_PROMISC)
                   else vf_api r =? ixgbe_mbox_api_13) = true).
    { destruct Hapi as [H13 | [H12 Hnp]].
      - rewrite H13. reflexivity.
      - rewrite H12. simpl. apply negb_true_iff, Z.eqb_neq. exact Hnp. }
    rewrite Hok. simpl. rewrite Hunt. simpl.
    apply Z.ltb_lt in Hgt. rewrite Hgt. simpl.
    destruct (xcast_mode r =? IXGBEVF_XCAST_MODE_MULTI) eqn:Hcur.
    + exists a. split; [reflexivity |]. rewrite Hr. simpl.
      apply Z.eqb_eq in Hcur. rewrite Hcur. reflexivity.
    + eexists. split; [reflexivity |].
      erewrite vf_get_put; [reflexivity |]. exact Hr.
  - intros Htr Hmode H13. rewrite H13, Hmode, Htr. simpl.
    split; [| split].
    + intros Hcur Hmac Hupe. apply Z.eqb_neq in Hcur. rewrite Hcur.
      change (mac_rank ixgbe_mac_82599EB) with 2 in *.
      assert (Hm : (mac_rank (mac_type (hw a)) <=? 2) = false)
        by (apply Z.leb_gt; exact Hmac).
      rewrite Hm. unfold IXGBE_READ_REG in Hupe. unfold IXGBE_READ_REG.
      rewrite Hupe. reflexivity.
    + intros Hcur Hmac. apply Z.eqb_neq in Hcur. rewrite Hcur.
      change (mac_rank ixgbe_mac_82599EB) with 2 in *.
      apply Z.leb_le in Hmac. rewrite Hmac. reflexivity.
    + intros Hcur. rewrite Hcur. reflexivity.
Qed.

(** ** The clear-to-send gate *)

(* the 16-word buffer the engine works on *)
Definition rx_buffer (mbx_buf : list Z) : list Z :=
  take (Z.to_nat IXGBE_VFMAILBOX_SIZE)
       (mbx_buf ++ replicate (Z.to_nat IXGBE_VFMAILBOX_SIZE) 0).

Definition already_tagged (w : Z) : bool :=
  truthy (Z.land w (Z.lor IXGBE_VT_MSGTYPE_SUCCESS IXGBE_VT_MSGTYPE_FAILURE)).

Lemma rx_buffer_cons (mbx_buf : list Z) :
  exists tl, rx_buffer mbx_buf = word (rx_buffer mbx_buf) 0 :: tl.
Proof.
  unfold rx_buffer. destruct mbx_buf as [| w ws]; simpl; eauto.
Qed.

Lemma failure_bit_set (w : Z) :
  Z.testbit (Z.lor w IXGBE_VT_MSGTYPE_FAILURE) 30 = true.
Proof. rewrite Z.lor_spec. apply orb_true_iff. right. reflexivity. Qed.

(** C1 (as amended).  While clear_to_send is false, a message read from the
    VF that is not the RESET word and carries neither status tag is
    answered with the one-word reply (request | FAILURE) and nothing else
    happens; a message that already carries SUCCESS or FAILURE is dropped
    with no reply.  In both cases no handler runs: the VF table and the
    register log are the ones before the call. *)
Theorem cts_gate_blocks_handlers
    (a : ixgbe_adapter) (vf : nat) (mbx_buf : list Z) (r : vf_data_storage) :
  vf_get a vf = Some r ->
  clear_to_send r = false ->
  let w0 := word (rx_buffer mbx_buf) 0 in
  w0 <> IXGBE_VF_RESET ->
  exists a',
    ixgbe_rcv_msg_from_vf a vf 0 mbx_buf = Some (a', 0) /\
    vfinfo a' = vfinfo a /\ regs (hw a') = regs (hw a) /\ mac_table a' = mac_table a /\
    (already_tagged w0 = false ->
       mbx_out (hw a') = mbx_out (hw a) ++ [(vf, [Z.lor w0 IXGBE_VT_MSGTYPE_FAILURE])] /\
       Z.testbit (Z.lor w0 IXGBE_VT_MSGTYPE_FAILURE) 30 = true) /\
    (already_tagged w0 = true -> a' = a).
Proof.
  intros Hr Hcts w0 Hnr.
  unfold ixgbe_rcv_msg_from_vf. fold (rx_buffer mbx_buf). fold w0.
  change (truthy 0) with false. cbv iota.
  fold (already_tagged w0).
  destruct (already_tagged w0) eqn:Htag.
  - exists a. repeat split; try reflexivity; intros; discriminate.
  - apply Z.eqb_neq in Hnr. rewrite Hnr. rewrite Hr. simpl. rewrite Hcts. simpl.
    eexists. split; [reflexivity |]. simpl.
    repeat split; try (intros; discriminate).
    + destruct (rx_buffer_cons mbx_buf) as [tl Htl]. rewrite Htl. reflexivity.
    + apply failure_bit_set.
Qed.

(** ** The device-wide maximum frame size *)

Lemma mfs_field_nonneg (v : Z) :
  0 <= Z.shiftr (Z.land v IXGBE_MHADD_MFS_MASK) IXGBE_MHADD_MFS_SHIFT.
Proof.
  apply Z.shiftr_nonneg. apply Z.land_nonneg. right. unfold IXGBE_MHADD_MFS_MASK. lia.
Qed.

Lemma mfs_field_of_write (mf : Z) :
  0 <= mf < 2 ^ 16 ->
  Z.shiftr (Z.land (u32 (Z.shiftl mf IXGBE_MHADD_MFS_SHIFT)) IXGBE_MHADD_MFS_MASK)
           IXGBE_MHADD_MFS_SHIFT = mf.
Proof.
  intros Hmf. unfold u32, IXGBE_MHADD_MFS_SHIFT, IXGBE_MHADD_MFS_MASK.
  rewrite Z.shiftl_mul_pow2 by lia.
  rewrite Z.mod_small by lia.
  rewrite <- Z.shiftl_mul_pow2 by lia.
  rewrite Z.shiftr_land. rewrite Z.shiftr_shiftl_l by lia.
  replace (16 - 16) with 0 by lia. rewrite Z.shiftl_0_r.
  change (Z.shiftr 4294901760 16) with (Z.ones 16).
  rewrite Z.land_ones by lia. apply Z.mod_small. lia.
Qed.

(** How one call may move the stored maximum frame size, for a request of
    [mf] bytes: it does not decrease; it changes only to [mf] and only when
    [mf] is above the old value; a request at or below the old value leaves
    the MAXFRS register as it was. *)
Definition max_frs_step (a a' : ixgbe_adapter) (mf : Z) : Prop :=
  max_frs_of a <= max_frs_of a' /\
  (max_frs_of a' <> max_frs_of a -> max_frs_of a < mf /\ max_frs_of a' = mf) /\
  (mf <= max_frs_of a -> IXGBE_READ_REG a' IXGBE_MAXFRS = IXGBE_READ_REG a IXGBE_MAXFRS).

Lemma max_frs_step_same_regs (a a' : ixgbe_adapter) (mf : Z) :
  IXGBE_READ_REG a' IXGBE_MAXFRS = IXGBE_READ_REG a IXGBE_MAXFRS -> max_frs_step a a' mf.
Proof.
  intros H. unfold max_frs_step, max_frs_of. rewrite H.
  split; [lia | split; [congruence | reflexivity]].
Qed.

Lemma ixgbe_set_vf_lpe_max_frs (a : ixgbe_adapter) (mf : Z) (vf : nat) (r : vf_data_storage) :
  vf_get a vf = Some r ->
  mf <= IXGBE_MAX_JUMBO_FRAME_SIZE ->
  exists a' rc, ixgbe_set_vf_lpe a mf vf = Some (a', rc) /\ max_frs_step a a' mf.
Proof.
  intros Hr Hmf. unfold ixgbe_set_vf_lpe.
  assert (Hstep : forall a1 : ixgbe_adapter,
             IXGBE_READ_REG a1 IXGBE_MAXFRS = IXGBE_READ_REG a IXGBE_MAXFRS ->
             max_frs_step a
               (if max_frs_of a1 <? mf
                then IXGBE_WRITE_REG a1 IXGBE_MAXFRS (Z.shiftl mf IXGBE_MHADD_MFS_SHIFT)
                else a1) mf).
  { intros a1 H1.
    assert (Hsame : max_frs_of a1 = max_frs_of a) by (unfold max_frs_of; rewrite H1; reflexivity).
    rewrite Hsame.
    destruct (max_frs_of a <? mf) eqn:Hlt.
    - apply Z.ltb_lt in Hlt.
      pose proof (mfs_field_nonneg (IXGBE_READ_REG a IXGBE_MAXFRS)) as Hnn.
      fold (max_frs_of a) in Hnn.
      assert (Hnew : max_frs_of
                (IXGBE_WRITE_REG a1 IXGBE_MAXFRS (Z.shiftl mf IXGBE_MHADD_MFS_SHIFT)) = mf).
      { unfold max_frs_of, IXGBE_READ_REG, IXGBE_WRITE_REG. simpl.
        apply mfs_field_of_write. unfold IXGBE_MAX_JUMBO_FRAME_SIZE in Hmf. lia. }
      unfold max_frs_step. rewrite Hnew.
      split; [lia | split; [intros _; split; [exact Hlt | reflexivity] | lia]].
    - apply max_frs_step_same_regs. exact H1. }
  destruct (bool_decide (mac_type (hw a) = ixgbe_mac_82599EB)).
  - rewrite Hr. cbn [mbind option_bind].
    match goal with
    | |- context [truthy ?e] => destruct (truthy e) eqn:Herr
    end.
    + eexists _, _. split; [reflexivity |].
      apply max_frs_step_same_regs. reflexivity.
    + eexists _, _. split; [reflexivity |]. apply Hstep. reflexivity.
  - cbn [mbind option_bind truthy Z.eqb negb].
    eexists _, _. split; [reflexivity |]. apply Hstep. reflexivity.
Qed.

(** C10.  Processing a SET_LPE message never lowers the stored device-wide
    maximum frame size (the MFS field of MAXFRS): the stored value changes
    only to the requested size and only when that size is above the stored
    one, and a request at or below the stored value leaves the register
    untouched. *)
Theorem set_lpe_max_frame_monotone
    (a : ixgbe_adapter) (vf : nat) (mbx_ret : Z) (mbx_buf : list Z) (r : vf_data_storage) :
  vf_get a vf = Some r ->
  Z.land (word (rx_buffer mbx_buf) 0) 0xFFFF = IXGBE_VF_SET_LPE ->
  exists a' rc,
    ixgbe_rcv_msg_from_vf a vf mbx_ret mbx_buf = Some (a', rc) /\
    max_frs_step a a' (word (rx_buffer mbx_buf) 1).
Proof.
  intros Hr Hop.
  unfold ixgbe_rcv_msg_from_vf. fold (rx_buffer mbx_buf).
  set (msgbuf := rx_buffer mbx_buf) in *.
  destruct (truthy mbx_ret).
  { eexists _, _. split; [reflexivity | apply max_frs_step_same_regs; reflexivity]. }
  match goal with
  | |- context [truthy ?e] => destruct (truthy e)
  end.
  { eexists _, _. split; [reflexivity | apply max_frs_step_same_regs; reflexivity]. }
  assert (Hnr : (word msgbuf 0 =? IXGBE_VF_RESET) = false).
  { apply Z.eqb_neq. intros Heq. rewrite Heq in Hop. discriminate Hop. }
  rewrite Hnr. rewrite Hr. simpl.
  destruct (clear_to_send r); simpl.
  2:{ eexists _, _. split; [reflexivity | apply max_frs_step_same_regs; reflexivity]. }
  unfold dispatch. rewrite Hop.
  change (IXGBE_VF_SET_LPE =? IXGBE_VF_SET_MAC_ADDR) with false.
  change (IXGBE_VF_SET_LPE =? IXGBE_VF_SET_MULTICAST) with false.
  change (IXGBE_VF_SET_LPE =? IXGBE_VF_SET_VLAN) with false.
  change (IXGBE_VF_SET_LPE =? IXGBE_VF_SET_LPE) with true.
  cbv iota.
  destruct (IXGBE_MAX_JUMBO_FRAME_SIZE <? word msgbuf 1) eqn:Hbig.
  { simpl. eexists _, _. split; [reflexivity | apply max_frs_step_same_regs; reflexivity]. }
  apply Z.ltb_ge in Hbig.
  destruct (ixgbe_set_vf_lpe_max_frs a (word msgbuf 1) vf r Hr Hbig) as (a1 & rc & Heq & Hstep).
  rewrite Heq. simpl.
  eexists _, _. split; [reflexivity |].
  destruct Hstep as (H1 & H2 & H3). unfold max_frs_step. exact (conj H1 (conj H2 H3)).
Qed.

(** ** Lifecycle *)

(* the table read by the reference-dropping loop is long enough *)
Definition vf_table_covers (a : ixgbe_adapter) : Prop :=
  num_vfs a <= 0 \/ exists t, vfinfo a = Some t /\ num_vfs a <= Z.of_nat (length t).

(** What a disable refused because VFs are assigned leaves behind. *)
Lemma ixgbe_disable_sriov_assigned (a : ixgbe_adapter) :
  vf_table_covers a ->
  IXGBE_FLAG_SRIOV_ENABLED (flags a) = true ->
  vfs_assigned (pdev a) = true ->
  exists a',
    ixgbe_disable_sriov a = Some (a', - EPERM) /\
    num_vfs a' = 0 /\ vfinfo a' = None /\ mv_list a' = None /\
    flags a' = flags a /\ pdev a' = pdev a /\ vmdq a' = vmdq a /\
    netdev a' = netdev a /\ mbx_out (hw a') = mbx_out (hw a) /\
    regs (hw a') =
      match disable_mdd ops with
      | Some f => if IXGBE_FLAG_MDD_ENABLED (flags a) then regs (hw a) else f (regs (hw a))
      | None => regs (hw a)
      end.
Proof.
  intros Hcov Hen Has. unfold ixgbe_disable_sriov. simpl.
  assert (Hok : (if num_vfs a <=? 0 then true
                 else match vfinfo a with
                      | Some t => num_vfs a <=? Z.of_nat (length t)
                      | None => false
                      end) = true).
  { destruct Hcov as [H0 | (t & Ht & Hl)].
    - apply Z.leb_le in H0. rewrite H0. reflexivity.
    - rewrite Ht. apply Z.leb_le in Hl. rewrite Hl. destruct (num_vfs a <=? 0); reflexivity. }
  rewrite Hok. simpl. rewrite Hen. simpl.
  destruct (disable_mdd ops) as [f |]; simpl.
  - destruct (IXGBE_FLAG_MDD_ENABLED (flags a)); simpl; rewrite Has;
      eexists; (split; [reflexivity |]); simpl; repeat split; reflexivity.
  - rewrite Has. eexists. split; [reflexivity |]. simpl. repeat split; reflexivity.
Qed.

(** C2 (as amended).  A disable that fails because VFs are assigned to a
    guest returns -EPERM after the software bookkeeping is gone: the
    visible VF count is 0 and the VF record table and the MAC-VLAN list are
    freed.  What it leaves alone is the hardware side: the flags
    (SRIOV_ENABLED included), the VMDq feature, and the PCI device with its
    own VF count; the only register activity is the disable_mdd operation,
    when the MAC has one and MDD is not flagged as enabled.  A
    reconfiguration that hits this failure returns the same -EPERM without
    running the enable step, so the VF count that stands is the PCI-level
    one, not adapter->num_vfs. *)
Theorem busy_disable_tears_down_bookkeeping (mem : kmem) (a : ixgbe_adapter) (n : Z) :
  vf_table_covers a ->
  IXGBE_FLAG_SRIOV_ENABLED (flags a) = true ->
  vfs_assigned (pdev a) = true ->
  (exists a',
     ixgbe_disable_sriov a = Some (a', - EPERM) /\
     num_vfs a' = 0 /\ vfinfo a' = None /\ mv_list a' = None /\
     flags a' = flags a /\ vmdq a' = vmdq a /\ pdev a' = pdev a /\
     regs (hw a') =
       match disable_mdd ops with
       | Some f => if IXGBE_FLAG_MDD_ENABLED (flags a) then regs (hw a) else f (regs (hw a))
       | None => regs (hw a)
       end) /\
  (IXGBE_FLAG_SRIOV_CAPABLE (flags a) = true ->
   num_vfs a <> n -> sriov_num_vfs (pdev a) <> 0 -> sriov_num_vfs (pdev a) <> n ->
   exists a',
     ixgbe_pci_sriov_enable mem a n = Some (a', - EPERM) /\
     ixgbe_disable_sriov a = Some (a', - EPERM) /\
     num_vfs a' = 0 /\ vfinfo a' = None /\
     sriov_num_vfs (pdev a') = sriov_num_vfs (pdev a)).
Proof.
  intros Hcov Hen Has.
  destruct (ixgbe_disable_sriov_assigned a Hcov Hen Has)
    as (a' & Hd & Hn & Hv & Hm & Hf & Hp & Hq & _ & _ & Hrg).
  split.
  - exists a'. repeat split; assumption.
  - intros Hcap Hne Hpre Hpn. exists a'.
    unfold ixgbe_pci_sriov_enable. rewrite Hcap. simpl.
    apply Z.eqb_neq in Hne. rewrite Hne.
    assert (Ht : truthy (sriov_num_vfs (pdev a)) = true)
      by (unfold truthy; apply negb_true_iff, Z.eqb_neq; exact Hpre).
    apply Z.eqb_neq in Hpn. rewrite Ht, Hpn. simpl.
    rewrite Hd. simpl. repeat split; try assumption. rewrite Hp. reflexivity.
Qed.



(** ** Register reads after writes *)

Lemma read_write_reg (a : ixgbe_adapter) (r r' : reg) (v : Z) :
  IXGBE_READ_REG (IXGBE_WRITE_REG a r v) r' =
    if bool_decide (r = r') then u32 v else IXGBE_READ_REG a r'.
Proof. reflexivity. Qed.

Lemma read_write_reg_ne (a : ixgbe_adapter) (r r' : reg) (v : Z) :
  r <> r' -> IXGBE_READ_REG (IXGBE_WRITE_REG a r v) r' = IXGBE_READ_REG a r'.
Proof. intros H. rewrite read_write_reg. rewrite bool_decide_eq_false_2 by exact H. reflexivity. Qed.

Lemma read_write_reg_eq (a : ixgbe_adapter) (r : reg) (v : Z) :
  IXGBE_READ_REG (IXGBE_WRITE_REG a r v) r = u32 v.
Proof. rewrite read_write_reg. rewrite bool_decide_eq_true_2 by reflexivity. reflexivity. Qed.

(** ** What the register-level steps leave alone

    [keeps_sw a a'] says that [a'] has the VF table, the mailbox log, the
    multicast filter type and the VMDq feature of [a]. *)
Definition keeps_sw (a a' : ixgbe_adapter) : Prop :=
  vfinfo a' = vfinfo a /\ mbx_out (hw a') = mbx_out (hw a) /\
  mc_filter_type (hw a') = mc_filter_type (hw a) /\ vmdq a' = vmdq a.

Lemma keeps_sw_refl (a : ixgbe_adapter) : keeps_sw a a.
Proof. repeat split. Qed.

Lemma keeps_sw_trans (a b c : ixgbe_adapter) : keeps_sw a b -> keeps_sw b c -> keeps_sw a c.
Proof.
  intros (H1 & H2 & H3 & H4) (K1 & K2 & K3 & K4).
  repeat split; congruence.
Qed.

Lemma keeps_sw_write_reg (a : ixgbe_adapter) r v : keeps_sw a (IXGBE_WRITE_REG a r v).
Proof. repeat split. Qed.

Lemma keeps_sw_set_regs (a : ixgbe_adapter) rf : keeps_sw a (set_regs a rf).
Proof. repeat split. Qed.

Lemma keeps_sw_vf_get (a a' : ixgbe_adapter) (vf : nat) :
  keeps_sw a a' -> vf_get a' vf = vf_get a vf.
Proof. intros (H & _). unfold vf_get. rewrite H. reflexivity. Qed.

Lemma keeps_sw_vf_put (a a' : ixgbe_adapter) (vf : nat) (r : vf_data_storage) :
  keeps_sw a a' -> keeps_sw (vf_put a vf r) (vf_put a' vf r).
Proof.
  intros (H1 & H2 & H3 & H4). unfold vf_put. repeat split; simpl; try assumption.
  rewrite H1. reflexivity.
Qed.

Lemma keeps_sw_for_loop (body : Z -> ixgbe_adapter -> ixgbe_adapter) :
  (forall i s, keeps_sw s (body i s)) ->
  forall n from s, keeps_sw s (for_loop n from body s).
Proof.
  intros Hb n. induction n as [| n IH]; intros from s; simpl.
  - apply keeps_sw_refl.
  - eapply keeps_sw_trans; [apply Hb | apply IH].
Qed.

Lemma keeps_sw_add_mac_filter (a : ixgbe_adapter) m vf :
  keeps_sw a (fst (add_mac_filter a m vf)).
Proof.
  unfold add_mac_filter. destruct (ixgbe_add_mac_filter a m vf) as [[t rf] rc].
  repeat split.
Qed.

Lemma keeps_sw_del_mac_filter (a : ixgbe_adapter) m vf :
  keeps_sw a (fst (del_mac_filter a m vf)).
Proof.
  unfold del_mac_filter. destruct (ixgbe_del_mac_filter a m vf) as [[t rf] rc].
  repeat split.
Qed.

Lemma keeps_sw_mac_set_vfta (a : ixgbe_adapter) vid vind on bypass :
  keeps_sw a (fst (mac_set_vfta a vid vind on bypass)).
Proof.
  unfold mac_set_vfta. destruct (set_vfta ops _ vid vind on bypass) as [rf rc].
  repeat split.
Qed.

Lemma keeps_sw_set_vf_vlan (a : ixgbe_adapter) add vid vf :
  keeps_sw a (fst (ixgbe_set_vf_vlan a add vid vf)).
Proof.
  unfold ixgbe_set_vf_vlan.
  destruct (truthy add && vlan_active a vid).
  - pose proof (keeps_sw_mac_set_vfta a vid (VMDQ_P a 0) true false) as H1.
    destruct (mac_set_vfta a vid (VMDQ_P a 0) true false) as [a1 e1]. simpl in H1.
    destruct (truthy e1); [exact H1 |].
    pose proof (keeps_sw_mac_set_vfta a1 vid vf (truthy add) false) as H2.
    destruct (mac_set_vfta a1 vid vf (truthy add) false) as [a2 e2]. simpl in H2.
    destruct (truthy add && negb (truthy e2)); simpl.
    + eapply keeps_sw_trans; eauto.
    + destruct (vlan_active a2 vid || IXGBE_FLAG2_VLAN_PROMISC (flags2 a2)); simpl.
      * eapply keeps_sw_trans; [eapply keeps_sw_trans; eauto | apply keeps_sw_set_regs].
      * eapply keeps_sw_trans; eauto.
  - change (truthy 0) with false. cbv iota.
    pose proof (keeps_sw_mac_set_vfta a vid vf (truthy add) false) as H2.
    destruct (mac_set_vfta a vid vf (truthy add) false) as [a2 e2]. simpl in H2.
    destruct (truthy add && negb (truthy e2)); simpl.
    + exact H2.
    + destruct (vlan_active a2 vid || IXGBE_FLAG2_VLAN_PROMISC (flags2 a2)); simpl.
      * eapply keeps_sw_trans; [exact H2 | apply keeps_sw_set_regs].
      * exact H2.
Qed.

(** [keeps_mv a a'] says that [a'] has the MAC-VLAN list of [a]. *)
Definition keeps_mv (a a' : ixgbe_adapter) : Prop := mv_list a' = mv_list a.

Lemma keeps_mv_refl (a : ixgbe_adapter) : keeps_mv a a.
Proof. reflexivity. Qed.

Lemma keeps_mv_trans (a b c : ixgbe_adapter) : keeps_mv a b -> keeps_mv b c -> keeps_mv a c.
Proof. unfold keeps_mv. congruence. Qed.

Lemma keeps_mv_write_reg (a : ixgbe_adapter) r v : keeps_mv a (IXGBE_WRITE_REG a r v).
Proof. reflexivity. Qed.

Lemma keeps_mv_set_regs (a : ixgbe_adapter) rf : keeps_mv a (set_regs a rf).
Proof. reflexivity. Qed.

Lemma keeps_mv_vf_put (a : ixgbe_adapter) (vf : nat) (r : vf_data_storage) :
  keeps_mv a (vf_put a vf r).
Proof. reflexivity. Qed.

Lemma mv_list_del_mac_filter (a : ixgbe_adapter) m v :
  mv_list (fst (del_mac_filter a m v)) = mv_list a.
Proof.
  unfold del_mac_filter. destruct (ixgbe_del_mac_filter a m v) as [[t rf] rc]. reflexivity.
Qed.

Lemma mv_list_add_mac_filter (a : ixgbe_adapter) m v :
  mv_list (fst (add_mac_filter a m v)) = mv_list a.
Proof.
  unfold add_mac_filter. destruct (ixgbe_add_mac_filter a m v) as [[t rf] rc]. reflexivity.
Qed.

Lemma keeps_mv_mac_set_vfta (a : ixgbe_adapter) vid vind on bypass :
  keeps_mv a (fst (mac_set_vfta a vid vind on bypass)).
Proof.
  unfold mac_set_vfta. destruct (set_vfta ops _ vid vind on bypass) as [rf rc].
  reflexivity.
Qed.

Lemma keeps_mv_set_vf_vlan (a : ixgbe_adapter) add vid vf :
  keeps_mv a (fst (ixgbe_set_vf_vlan a add vid vf)).
Proof.
  unfold ixgbe_set_vf_vlan.
  destruct (truthy add && vlan_active a vid).
  - pose proof (keeps_mv_mac_set_vfta a vid (VMDQ_P a 0) true false) as H1.
    destruct (mac_set_vfta a vid (VMDQ_P a 0) true false) as [a1 e1]. simpl in H1.
    destruct (truthy e1); [exact H1 |].
    pose proof (keeps_mv_mac_set_vfta a1 vid vf (truthy add) false) as H2.
    destruct (mac_set_vfta a1 vid vf (truthy add) false) as [a2 e2]. simpl in H2.
    destruct (truthy add && negb (truthy e2)); simpl.
    + eapply keeps_mv_trans; eauto.
    + destruct (vlan_active a2 vid || IXGBE_FLAG2_VLAN_PROMISC (flags2 a2)); simpl.
      * eapply keeps_mv_trans; [eapply keeps_mv_trans; eauto | apply keeps_mv_set_regs].
      * eapply keeps_mv_trans; eauto.
  - change (truthy 0) with false. cbv iota.
    pose proof (keeps_mv_mac_set_vfta a vid vf (truthy add) false) as H2.
    destruct (mac_set_vfta a vid vf (truthy add) false) as [a2 e2]. simpl in H2.
    destruct (truthy add && negb (truthy e2)); simpl.
    + exact H2.
    + destruct (vlan_active a2 vid || IXGBE_FLAG2_VLAN_PROMISC (flags2 a2)); simpl.
      * eapply keeps_mv_trans; [exact H2 | apply keeps_mv_set_regs].
      * exact H2.
Qed.

Lemma keeps_mv_clear_vf_vlans_entry (vf : nat) (i : Z) (a a' : ixgbe_adapter) :
  clear_vf_vlans_entry vf i a = Some a' -> keeps_mv a a'.
Proof.
  unfold clear_vf_vlans_entry. cbv zeta.
  repeat match goal with
         | |- context [if ?c then _ else _] =>
             lazymatch c with
             | context [if _ then _ else _] => fail
             | _ => destruct c
             end
         end;
    intros Heq; try discriminate Heq; injection Heq as <-; reflexivity.
Qed.

Lemma keeps_mv_clear_vf_vlans_from (n vf : nat) (a a' : ixgbe_adapter) :
  clear_vf_vlans_from n vf a = Some a' -> keeps_mv a a'.
Proof.
  revert a. induction n as [| n IH]; intros a; cbn [clear_vf_vlans_from].
  - intros [= <-]. apply keeps_mv_refl.
  - destruct (clear_vf_vlans_entry vf (Z.of_nat n) a) as [a1 |] eqn:He;
      [| intros Heq; discriminate Heq].
    cbn [mbind option_bind]. intros Hrest.
    eapply keeps_mv_trans; [eapply keeps_mv_clear_vf_vlans_entry; exact He | apply IH, Hrest].
Qed.

(** ** Loops that can be undefined *)

Lemma for_loop_opt_invariant {S : Type} (P : nat -> S -> Prop)
    (body : Z -> S -> option S) (n : nat) (from : Z) (s : S) :
  P 0%nat s ->
  (forall k s, (k < n)%nat -> P k s ->
     exists s', body (from + Z.of_nat k) s = Some s' /\ P (Datatypes.S k) s') ->
  exists s', for_loop_opt n from body s = Some s' /\ P n s'.
Proof.
  revert P from s. induction n as [| n IH]; intros P from s H0 Hstep.
  - exists s. split; [reflexivity | exact H0].
  - cbn [for_loop_opt].
    destruct (Hstep 0%nat s ltac:(lia) H0) as (s1 & Hb & H1).
    rewrite Z.add_0_r in Hb. rewrite Hb. cbn [mbind option_bind].
    apply (IH (fun k => P (Datatypes.S k))); [exact H1 |].
    intros k s2 Hk Hp.
    destruct (Hstep (Datatypes.S k) s2 ltac:(lia) Hp) as (s3 & Hb3 & H3).
    exists s3. split; [| exact H3].
    rewrite <- Hb3. f_equal. lia.
Qed.

Lemma for_loop_opt_preserves {S : Type} (R : S -> S -> Prop)
    (body : Z -> S -> option S) :
  (forall s, R s s) -> (forall s1 s2 s3, R s1 s2 -> R s2 s3 -> R s1 s3) ->
  (forall i s s', body i s = Some s' -> R s s') ->
  forall n from s s', for_loop_opt n from body s = Some s' -> R s s'.
Proof.
  intros Hrefl Htrans Hb n. induction n as [| n IH]; intros from s s'; cbn [for_loop_opt].
  - intros [= <-]. apply Hrefl.
  - destruct (body from s) as [s1 |] eqn:He; [| intros Heq; discriminate Heq].
    cbn [mbind option_bind]. intros Hrest.
    eapply Htrans; [eapply Hb; exact He | eapply IH; exact Hrest].
Qed.

(** ** The walks over the MAC-VLAN list *)

Definition macvlan_released (e : vf_macvlans) : vf_macvlans :=
  {| mv_vf := -1; mv_free := true; mv_is_macvlan := false;
     mv_vf_macvlan := mv_vf_macvlan e |}.

Definition release_owned (vf : nat) (e : vf_macvlans) : vf_macvlans :=
  if mv_vf e =? Z.of_nat vf then macvlan_released e else e.

Lemma keeps_sw_macvlan_release_entry (vf : nat) (k : Z) (a a' : ixgbe_adapter) :
  macvlan_release_entry vf k a = Some a' -> keeps_sw a a'.
Proof.
  unfold macvlan_release_entry.
  destruct (mv_list a) as [l |]; [| intros Heq; discriminate Heq].
  cbn [mbind option_bind].
  destruct (l !! Z.to_nat k) as [e |]; [| intros Heq; discriminate Heq].
  cbn [mbind option_bind].
  destruct (mv_vf e =? Z.of_nat vf); intros [= <-]; [| apply keeps_sw_refl].
  eapply keeps_sw_trans; [| apply keeps_sw_del_mac_filter]. repeat split.
Qed.

Lemma macvlan_release_entry_list (vf k : nat) (a : ixgbe_adapter) (l : list vf_macvlans)
    (e : vf_macvlans) :
  mv_list a = Some l -> l !! k = Some e ->
  exists a',
    macvlan_release_entry vf (Z.of_nat k) a = Some a' /\
    mv_list a' = Some (<[k := release_owned vf e]> l).
Proof.
  intros Hl He. unfold macvlan_release_entry, release_owned. rewrite Hl.
  cbn [mbind option_bind]. rewrite Nat2Z.id, He. cbn [mbind option_bind].
  destruct (mv_vf e =? Z.of_nat vf); (eexists; split; [reflexivity |]).
  - rewrite mv_list_del_mac_filter. reflexivity.
  - rewrite list_insert_id by exact He. exact Hl.
Qed.

Lemma macvlan_release_loop (vf : nat) (n : nat) :
  forall (k : nat) (a : ixgbe_adapter) (l : list vf_macvlans),
    mv_list a = Some l -> (k + n)%nat = length l ->
    exists a',
      for_loop_opt n (Z.of_nat k) (macvlan_release_entry vf) a = Some a' /\
      mv_list a' = Some (take k l ++ (release_owned vf <$> drop k l)) /\
      keeps_sw a a'.
Proof.
  induction n as [| n IH]; intros k a l Hl Hlen; cbn [for_loop_opt].
  - exists a. split; [reflexivity |]. split; [| apply keeps_sw_refl].
    rewrite drop_ge by lia. rewrite take_ge by lia. rewrite app_nil_r. exact Hl.
  - destruct (lookup_lt_is_Some_2 l k ltac:(lia)) as [e He].
    destruct (macvlan_release_entry_list vf k a l e Hl He) as (a1 & Hstep & H1).
    rewrite Hstep. cbn [mbind option_bind].
    replace (Z.of_nat k + 1) with (Z.of_nat (S k)) by lia.
    destruct (IH (S k) a1 _ H1 ltac:(rewrite length_insert; lia)) as (a' & Hrest & Hm & Hk).
    exists a'. split; [exact Hrest |]. split.
    + rewrite Hm. f_equal.
      rewrite (take_S_r _ _ (release_owned vf e))
        by (apply list_lookup_insert_eq; eapply lookup_lt_Some; exact He).
      rewrite take_insert_ge by lia.
      rewrite drop_insert_lt by lia.
      rewrite (drop_S l e k He). cbn [fmap list_fmap]. rewrite <- app_assoc. reflexivity.
    + eapply keeps_sw_trans; [| exact Hk].
      eapply keeps_sw_macvlan_release_entry; exact Hstep.
Qed.

Lemma release_owned_not_owned (vf : nat) (e : vf_macvlans) :
  mv_vf (release_owned vf e) <> Z.of_nat vf.
Proof.
  unfold release_owned. destruct (mv_vf e =? Z.of_nat vf) eqn:H.
  - cbn. lia.
  - apply Z.eqb_neq. exact H.
Qed.

(* the first walk of ixgbe_set_vf_macvlan, run to its end *)
Lemma macvlan_release_all (vf : nat) (a : ixgbe_adapter) (l : list vf_macvlans) :
  mv_list a = Some l ->
  exists a',
    for_loop_opt (length l) 0 (macvlan_release_entry vf) a = Some a' /\
    mv_list a' = Some (release_owned vf <$> l) /\
    keeps_sw a a'.
Proof.
  intros Hl.
  destruct (macvlan_release_loop vf (length l) 0 a l Hl eq_refl) as (a' & H1 & H2 & H3).
  rewrite take_0, drop_0 in H2. exists a'. split; [exact H1 |]. split; [exact H2 | exact H3].
Qed.

(* index 0: the first walk and nothing else *)
Lemma set_vf_macvlan_clear_spec (a : ixgbe_adapter) (vf : nat) (m : ether_addr)
    (l : list vf_macvlans) :
  mv_list a = Some l ->
  exists a',
    ixgbe_set_vf_macvlan a vf 0 m = Some (a', 0) /\
    mv_list a' = Some (release_owned vf <$> l) /\
    keeps_sw a a'.
Proof.
  intros Hl. unfold ixgbe_set_vf_macvlan. rewrite Hl. cbn [mbind option_bind].
  change (0 <=? 1) with true. cbv iota.
  destruct (macvlan_release_all vf a l Hl) as (a' & H1 & H2 & H3).
  rewrite H1. cbn [mbind option_bind]. change (0 =? 0) with true. cbv iota.
  exists a'. split; [reflexivity |]. split; [exact H2 | exact H3].
Qed.

Lemma keeps_sw_set_vf_macvlan (a : ixgbe_adapter) (vf : nat) (index : Z) (m : ether_addr)
    (a' : ixgbe_adapter) (rc : Z) :
  ixgbe_set_vf_macvlan a vf index m = Some (a', rc) -> keeps_sw a a'.
Proof.
  unfold ixgbe_set_vf_macvlan.
  destruct (mv_list a) as [l |]; [| intros Heq; discriminate Heq].
  cbn [mbind option_bind].
  assert (H1 : forall a1,
             (if index <=? 1
              then for_loop_opt (length l) 0 (macvlan_release_entry vf) a
              else Some a) = Some a1 -> keeps_sw a a1).
  { intros a1. destruct (index <=? 1); [| intros [= <-]; apply keeps_sw_refl].
    apply (for_loop_opt_preserves keeps_sw);
      [apply keeps_sw_refl | apply keeps_sw_trans | apply keeps_sw_macvlan_release_entry]. }
  destruct (if index <=? 1
            then for_loop_opt (length l) 0 (macvlan_release_entry vf) a
            else Some a) as [a1 |]; [| intros Heq; discriminate Heq].
  specialize (H1 a1 eq_refl). cbn [mbind option_bind].
  destruct (index =? 0); [intros [= <- _]; exact H1 |].
  destruct (mv_list a1) as [l1 |]; [| intros Heq; discriminate Heq].
  cbn [mbind option_bind].
  destruct (macvlan_find_free l1) as [[k entry] |]; [| intros [= <- _]; exact H1].
  destruct (negb (mv_free entry)); [intros [= <- _]; exact H1 |].
  pose proof (keeps_sw_add_mac_filter a1 m vf) as H2.
  destruct (add_mac_filter a1 m vf) as [a2 retval]. simpl in H2.
  destruct (retval <? 0); intros [= <- _].
  - eapply keeps_sw_trans; eauto.
  - eapply keeps_sw_trans; [eapply keeps_sw_trans; eauto |]. repeat split.
Qed.

Lemma keeps_sw_write_qde (a : ixgbe_adapter) (vf : nat) (qde : Z) :
  keeps_sw a (ixgbe_write_qde a vf qde).
Proof.
  unfold ixgbe_write_qde. apply keeps_sw_for_loop. intros i s. apply keeps_sw_write_reg.
Qed.

Lemma ixgbe_set_vf_rx_tx_keeps (a : ixgbe_adapter) (vf : nat) (r : vf_data_storage) :
  vf_get a vf = Some r ->
  exists a', ixgbe_set_vf_rx_tx a vf = Some a' /\ keeps_sw a a'.
Proof.
  intros Hr. unfold ixgbe_set_vf_rx_tx. rewrite Hr. simpl.
  eexists. split; [reflexivity |].
  repeat match goal with
         | |- context [if ?c then _ else _] => destruct c
         end; repeat split.
Qed.

(** ** Removal of a VF from the VLAN pool bitmaps *)

(* the VLVFB register that holds the pool bit of [vf] for entry [i] *)
Definition vlvfb_word (vf : nat) (i : Z) : Z := u32 (i * 2 + Z.of_nat vf / 32).

(* the pool bit of [vf] in VLAN filter entry [i] *)
Definition vf_in_vlvf (a : ixgbe_adapter) (vf : nat) (i : Z) : bool :=
  Z.testbit (IXGBE_READ_REG a (IXGBE_VLVFB (vlvfb_word vf i))) (Z.of_nat vf mod 32).

Definition vlvfb_kept_except (a a' : ixgbe_adapter) (w0 : Z) : Prop :=
  forall w, w <> w0 -> IXGBE_READ_REG a' (IXGBE_VLVFB w) = IXGBE_READ_REG a (IXGBE_VLVFB w).

Lemma clear_vf_vlans_entry_spec (vf : nat) (i : Z) (a : ixgbe_adapter) :
  0 <= VMDQ_P a 0 / 32 <= 1 ->
  exists a',
    clear_vf_vlans_entry vf i a = Some a' /\ keeps_sw a a' /\
    vf_in_vlvf a' vf i = false /\ vlvfb_kept_except a a' (vlvfb_word vf i).
Proof.
  intros Hp.
  assert (Hs : 0 <= Z.of_nat vf mod 32 < 32) by (apply Z.mod_pos_bound; lia).
  unfold clear_vf_vlans_entry, vf_in_vlvf. cbv beta zeta. fold (vlvfb_word vf i).
  set (w := vlvfb_word vf i). set (sft := Z.of_nat vf mod 32) in *.
  rewrite (BIT_pow2 sft Hs). rewrite land_pow2_eqb_0 by lia.
  destruct (Z.testbit (IXGBE_READ_REG a (IXGBE_VLVFB w)) sft) eqn:Hbit; cbn [negb];
    [| exists a; repeat split; assumption].
  assert (Hpb : (0 <=? VMDQ_P a 0 / 32) && (VMDQ_P a 0 / 32 <=? 1) = true).
  { apply andb_true_iff. split; apply Z.leb_le; lia. }
  rewrite Hpb. cbn [negb].
  assert (Hx : Z.testbit (Z.lxor (IXGBE_READ_REG a (IXGBE_VLVFB w)) (2 ^ sft)) sft = false)
    by (apply lxor_pow2_clears; [lia | exact Hbit]).
  assert (H0 : Z.testbit 0 sft = false) by apply Z.bits_0.
  repeat match goal with
         | |- context [if ?c then _ else _] =>
             lazymatch c with
             | context [if _ then _ else _] => fail
             | _ => destruct c
             end
         end;
    (eexists; split; [reflexivity |]; split; [repeat split |]; split;
     [ rewrite ?read_write_reg_eq, ?testbit_u32 by lia; try assumption
     | intros w' Hw';
       repeat (rewrite read_write_reg_ne by congruence); reflexivity ]).
Qed.

Lemma clear_vf_vlans_from_spec (vf : nat) (n : nat) :
  (n <= 64)%nat ->
  forall a, 0 <= VMDQ_P a 0 / 32 <= 1 ->
  exists a',
    clear_vf_vlans_from n vf a = Some a' /\ keeps_sw a a' /\
    (forall i, 0 <= i < Z.of_nat n -> vf_in_vlvf a' vf i = false) /\
    (forall w, (forall i, 0 <= i < Z.of_nat n -> w <> vlvfb_word vf i) ->
               IXGBE_READ_REG a' (IXGBE_VLVFB w) = IXGBE_READ_REG a (IXGBE_VLVFB w)).
Proof.
  induction n as [| n IH]; intros Hn a Hp.
  - exists a. simpl. repeat split; try reflexivity. intros i Hi. lia.
  - simpl.
    destruct (clear_vf_vlans_entry_spec vf (Z.of_nat n) a Hp) as (a1 & He & Hk1 & Hb1 & Hf1).
    rewrite He. simpl.
    assert (Hp1 : 0 <= VMDQ_P a1 0 / 32 <= 1).
    { unfold VMDQ_P in *. destruct Hk1 as (_ & _ & _ & Hv). rewrite Hv. exact Hp. }
    destruct (IH ltac:(lia) a1 Hp1) as (a' & Hl & Hk & Hb & Hf).
    exists a'. split; [exact Hl |]. split; [eapply keeps_sw_trans; eauto |]. split.
    + intros i Hi. destruct (Z.eq_dec i (Z.of_nat n)) as [-> | Hne].
      * unfold vf_in_vlvf in *. rewrite Hf; [exact Hb1 |].
        intros j Hj Heq. unfold vlvfb_word in Heq.
        apply u32_eq_even_offsets in Heq; lia.
      * apply Hb. lia.
    + intros w Hw. rewrite Hf.
      * apply Hf1. apply Hw. lia.
      * intros j Hj. apply Hw. lia.
Qed.

Lemma ixgbe_clear_vf_vlans_spec (a : ixgbe_adapter) (vf : nat) :
  0 <= VMDQ_P a 0 / 32 <= 1 ->
  exists a',
    ixgbe_clear_vf_vlans a vf = Some a' /\ keeps_sw a a' /\
    (forall i, 0 <= i < Z.of_nat IXGBE_VLVF_ENTRIES -> vf_in_vlvf a' vf i = false).
Proof.
  intros Hp. unfold ixgbe_clear_vf_vlans.
  destruct (clear_vf_vlans_from_spec vf IXGBE_VLVF_ENTRIES ltac:(unfold IXGBE_VLVF_ENTRIES; lia) a Hp)
    as (a' & H1 & H2 & H3 & _).
  eauto.
Qed.

(** ** The reset handshake *)

Lemma keeps_sw_set_rx_mode (a : ixgbe_adapter) : keeps_sw a (set_rx_mode a).
Proof.
  unfold set_rx_mode. destruct (ixgbe_set_rx_mode a) as [[t rf] f2]. repeat split.
Qed.

Lemma keeps_sw_reset_vf_offloads (a : ixgbe_adapter) vf r :
  keeps_sw a (reset_vf_offloads a vf r).
Proof.
  unfold reset_vf_offloads. cbv zeta.
  pose proof (keeps_sw_set_vf_vlan a 1 (pf_vlan r) (Z.of_nat vf)) as H.
  set (a1 := fst (ixgbe_set_vf_vlan a 1 (pf_vlan r) (Z.of_nat vf))) in *.
  eapply keeps_sw_trans; [exact H |].
  eapply keeps_sw_trans; [apply (keeps_sw_write_reg a1) |].
  repeat match goal with
         | |- context [if ?c then _ else _] => destruct c
         end; apply keeps_sw_write_reg.
Qed.

Lemma keeps_mv_set_rx_mode (a : ixgbe_adapter) : keeps_mv a (set_rx_mode a).
Proof.
  unfold set_rx_mode. destruct (ixgbe_set_rx_mode a) as [[t rf] f2]. reflexivity.
Qed.

Lemma keeps_mv_reset_vf_offloads (a : ixgbe_adapter) vf r :
  keeps_mv a (reset_vf_offloads a vf r).
Proof.
  unfold reset_vf_offloads. cbv zeta.
  pose proof (keeps_mv_set_vf_vlan a 1 (pf_vlan r) (Z.of_nat vf)) as H.
  set (a1 := fst (ixgbe_set_vf_vlan a 1 (pf_vlan r) (Z.of_nat vf))) in *.
  eapply keeps_mv_trans; [exact H |].
  eapply keeps_mv_trans; [apply (keeps_mv_write_reg a1) |].
  repeat match goal with
         | |- context [if ?c then _ else _] => destruct c
         end; apply keeps_mv_write_reg.
Qed.

Lemma keeps_sw_reset_vf_filters (a : ixgbe_adapter) vf r (a' : ixgbe_adapter) :
  reset_vf_filters a vf r = Some a' -> keeps_sw a a'.
Proof.
  unfold reset_vf_filters. cbv zeta.
  destruct (ixgbe_set_vf_macvlan _ vf 0 zero_addr) as [[a1 rc] |] eqn:Hm;
    [| intros Heq; discriminate Heq].
  cbn. intros [= <-].
  eapply keeps_sw_trans; [apply keeps_sw_set_rx_mode |].
  eapply keeps_sw_trans; [apply keeps_sw_del_mac_filter |].
  eapply keeps_sw_set_vf_macvlan; exact Hm.
Qed.

(* with the list allocated, the two filter removals are defined *)
Lemma reset_vf_filters_spec (a : ixgbe_adapter) vf r (l : list vf_macvlans) :
  mv_list a = Some l ->
  exists a',
    reset_vf_filters a vf r = Some a' /\ keeps_sw a a' /\
    mv_list a' = Some (release_owned vf <$> l).
Proof.
  intros Hl. unfold reset_vf_filters. cbv zeta.
  set (a1 := set_rx_mode a). set (a2 := fst (del_mac_filter a1 (vf_mac_addresses r) vf)).
  assert (Hl2 : mv_list a2 = Some l).
  { subst a2. rewrite mv_list_del_mac_filter. rewrite <- Hl. apply keeps_mv_set_rx_mode. }
  destruct (set_vf_macvlan_clear_spec a2 vf zero_addr l Hl2) as (a' & H1 & H2 & H3).
  rewrite H1. exists a'. split; [reflexivity |]. split; [| exact H2].
  eapply keeps_sw_trans; [apply keeps_sw_set_rx_mode |].
  eapply keeps_sw_trans; [apply keeps_sw_del_mac_filter | exact H3].
Qed.

Lemma keeps_sw_reset_vf_queues_and_mailbox (a : ixgbe_adapter) vf :
  keeps_sw a (reset_vf_queues_and_mailbox a vf).
Proof.
  unfold reset_vf_queues_and_mailbox. cbv zeta.
  eapply keeps_sw_trans; apply keeps_sw_for_loop; intros i s0.
  - cbv beta zeta.
    match goal with
    | |- context [if ?c then _ else _] => destruct c
    end; [| apply keeps_sw_refl].
    eapply keeps_sw_trans; apply keeps_sw_write_reg.
  - apply keeps_sw_write_reg.
Qed.

Lemma keeps_sw_reset_vf_tx_regs (a : ixgbe_adapter) vf :
  keeps_sw a (reset_vf_tx_regs a vf).
Proof.
  unfold reset_vf_tx_regs. cbv zeta.
  eapply keeps_sw_trans; [apply keeps_sw_write_reg |].
  apply keeps_sw_for_loop. intros i s0.
  eapply keeps_sw_trans; apply keeps_sw_write_reg.
Qed.

Lemma keeps_sw_vf_put_l (a a' : ixgbe_adapter) (vf : nat) (r : vf_data_storage) :
  keeps_sw (vf_put a vf r) a' ->
  mbx_out (hw a') = mbx_out (hw a) /\ mc_filter_type (hw a') = mc_filter_type (hw a) /\
  vmdq a' = vmdq a.
Proof. intros (_ & H2 & H3 & H4). repeat split; assumption. Qed.

(** The VF record after the part of [ixgbe_vf_reset_event] that follows the
    VLAN clearing: multicast count 0, API back to 1.0, everything else as
    before; the mailbox has not been written.  The part is defined when the
    MAC-VLAN list is allocated. *)
Lemma vf_reset_event_rest_spec (a : ixgbe_adapter) (vf : nat) (r : vf_data_storage)
    (l : list vf_macvlans) :
  vf_get a vf = Some r ->
  mv_list a = Some l ->
  exists a',
    vf_reset_event_rest a vf r = Some a' /\
    vf_get a' vf = Some (vf_set_api (vf_set_mc r 0 (vf_mc_hashes r)) ixgbe_mbox_api_10) /\
    mbx_out (hw a') = mbx_out (hw a) /\
    mc_filter_type (hw a') = mc_filter_type (hw a).
Proof.
  intros Hr Hl. unfold vf_reset_event_rest. cbv zeta.
  set (r1 := vf_set_mc r 0 (vf_mc_hashes r)).
  set (a2 := reset_vf_offloads a vf r).
  assert (Hk2 : keeps_sw a a2) by apply keeps_sw_reset_vf_offloads.
  assert (Hg2 : vf_get a2 vf = Some r) by (rewrite (keeps_sw_vf_get _ _ vf Hk2); exact Hr).
  set (a3 := vf_put a2 vf r1).
  assert (Hg3 : vf_get a3 vf = Some r1) by (eapply vf_get_put; exact Hg2).
  assert (Hl3 : mv_list a3 = Some l).
  { rewrite <- Hl. apply (keeps_mv_trans a a2 a3);
      [apply keeps_mv_reset_vf_offloads | apply keeps_mv_vf_put]. }
  destruct (reset_vf_filters_spec a3 vf r l Hl3) as (a4 & Hf4 & Hk4 & _).
  rewrite Hf4. cbn [mbind option_bind].
  assert (Hg4 : vf_get a4 vf = Some r1) by (rewrite (keeps_sw_vf_get _ _ vf Hk4); exact Hg3).
  rewrite Hg4. cbn [mbind option_bind].
  set (a5 := vf_put a4 vf (vf_set_api r1 ixgbe_mbox_api_10)).
  assert (Hg5 : vf_get a5 vf = Some (vf_set_api r1 ixgbe_mbox_api_10))
    by (eapply vf_get_put; exact Hg4).
  assert (Hm5 : mbx_out (hw a5) = mbx_out (hw a) /\
                mc_filter_type (hw a5) = mc_filter_type (hw a)).
  { destruct (keeps_sw_vf_put_l _ _ _ _ Hk4) as (M1 & M2 & _).
    destruct Hk2 as (_ & N1 & N2 & _).
    subst a5. simpl. split; congruence. }
  match goal with
  | |- context [if ?c then Some _ else Some _] => destruct c
  end.
  - pose proof (keeps_sw_reset_vf_queues_and_mailbox a5 vf) as Hk6.
    eexists. split; [reflexivity |].
    rewrite (keeps_sw_vf_get _ _ vf Hk6).
    destruct Hk6 as (_ & Q1 & Q2 & _). destruct Hm5.
    repeat split; congruence.
  - eexists. split; [reflexivity |]. destruct Hm5. repeat split; assumption.
Qed.

(** [ixgbe_vf_reset_event] as two steps: the VLAN filters of the VF are
    cleared, which leaves [a0], and the rest of the function runs from [a0]. *)
Lemma ixgbe_vf_reset_event_spec (a : ixgbe_adapter) (vf : nat) (r : vf_data_storage)
    (l : list vf_macvlans) :
  vf_get a vf = Some r ->
  0 <= VMDQ_P a 0 / 32 <= 1 ->
  mv_list a = Some l ->
  exists a0 a',
    ixgbe_clear_vf_vlans a vf = Some a0 /\ keeps_sw a a0 /\
    (forall i, 0 <= i < Z.of_nat IXGBE_VLVF_ENTRIES -> vf_in_vlvf a0 vf i = false) /\
    vf_reset_event_rest a0 vf r = Some a' /\
    ixgbe_vf_reset_event a vf = Some a' /\
    vf_get a' vf = Some (vf_set_api (vf_set_mc r 0 (vf_mc_hashes r)) ixgbe_mbox_api_10) /\
    mbx_out (hw a') = mbx_out (hw a) /\
    mc_filter_type (hw a') = mc_filter_type (hw a).
Proof.
  intros Hr Hp Hl.
  destruct (ixgbe_clear_vf_vlans_spec a vf Hp) as (a0 & Hc & Hk0 & Hbits).
  assert (Hg0 : vf_get a0 vf = Some r) by (rewrite (keeps_sw_vf_get _ _ vf Hk0); exact Hr).
  assert (Hl0 : mv_list a0 = Some l).
  { rewrite <- Hl. eapply keeps_mv_clear_vf_vlans_from; exact Hc. }
  destruct (vf_reset_event_rest_spec a0 vf r l Hg0 Hl0) as (a' & He & Hg & Hm & Hf).
  exists a0, a'. split; [exact Hc |]. split; [exact Hk0 |]. split; [exact Hbits |].
  split; [exact He |]. split.
  { unfold ixgbe_vf_reset_event. rewrite Hr. cbn [mbind option_bind].
    rewrite Hc. cbn [mbind option_bind]. exact He. }
  split; [exact Hg |]. destruct Hk0 as (_ & K1 & K2 & _). split; congruence.
Qed.

Lemma reset_reply_length (r : vf_data_storage) (mcft : Z) :
  take (Z.to_nat IXGBE_VF_PERMADDR_MSG_LEN) (reset_reply r mcft) = reset_reply r mcft.
Proof. unfold reset_reply. destruct (_ && _); reflexivity. Qed.

Lemma vf_reset_finish_spec (a : ixgbe_adapter) (vf : nat) (r : vf_data_storage) :
  vf_get a vf = Some r ->
  exists a',
    vf_reset_finish a vf = Some (a', 0) /\
    vf_get a' vf = Some (vf_set_cts r true) /\
    mbx_out (hw a') =
      mbx_out (hw a) ++ [(vf, reset_reply (vf_set_cts r true) (mc_filter_type (hw a)))].
Proof.
  intros Hr. unfold vf_reset_finish. rewrite Hr. simpl.
  set (a1 := ixgbe_write_qde a vf _).
  assert (Hk1 : keeps_sw a a1) by apply keeps_sw_write_qde.
  assert (Hg1 : vf_get a1 vf = Some r) by (rewrite (keeps_sw_vf_get _ _ vf Hk1); exact Hr).
  destruct (ixgbe_set_vf_rx_tx_keeps a1 vf r Hg1) as (a2 & Hrx & Hk2).
  rewrite Hrx. simpl.
  assert (Hg2 : vf_get a2 vf = Some r) by (rewrite (keeps_sw_vf_get _ _ vf Hk2); exact Hg1).
  rewrite Hg2. simpl.
  set (a3 := vf_put a2 vf (vf_set_cts r true)).
  assert (Hg3 : vf_get a3 vf = Some (vf_set_cts r true)) by (eapply vf_get_put; exact Hg2).
  pose proof (keeps_sw_reset_vf_tx_regs a3 vf) as Hk4.
  set (a4 := reset_vf_tx_regs a3 vf) in *.
  assert (Hg4 : vf_get a4 vf = Some (vf_set_cts r true))
    by (rewrite (keeps_sw_vf_get _ _ vf Hk4); exact Hg3).
  rewrite Hg4. simpl.
  eexists. split; [reflexivity |]. split; [exact Hg4 |].
  simpl. rewrite reset_reply_length.
  destruct Hk4 as (_ & M4 & F4 & _). destruct Hk2 as (_ & M2 & F2 & _).
  destruct Hk1 as (_ & M1 & F1 & _).
  assert (Hm : mbx_out (hw a4) = mbx_out (hw a)) by (rewrite M4; simpl; congruence).
  assert (Hf : mc_filter_type (hw a4) = mc_filter_type (hw a))
    by (rewrite F4; simpl; congruence).
  rewrite Hm, Hf. reflexivity.
Qed.

(* the address left in the VF record by the reset: the old one, or zero
   when the backend refused to add its filter again *)
Definition mac_after_reset (a1 : ixgbe_adapter) (vf : nat) (m : ether_addr) : ether_addr :=
  if is_zero_ether_addr m then m
  else if 0 <=? snd (add_mac_filter (fst (del_mac_filter a1 m vf)) m vf) then m
       else zero_addr.

(** The processing of RESET, step by step: [a0] is the adapter once the
    VLAN filters of the VF are cleared, [a1] the one [ixgbe_vf_reset_event]
    returns with, [a'] the one after the reply; the mailbox is written
    between [a1] and [a'] only. *)
Lemma vf_reset_msg_run (a : ixgbe_adapter) (vf : nat) (r : vf_data_storage)
    (l : list vf_macvlans) :
  vf_get a vf = Some r ->
  0 <= VMDQ_P a 0 / 32 <= 1 ->
  mv_list a = Some l ->
  exists a0 a1 a' r',
    ixgbe_clear_vf_vlans a vf = Some a0 /\
    (forall i, 0 <= i < Z.of_nat IXGBE_VLVF_ENTRIES -> vf_in_vlvf a0 vf i = false) /\
    mbx_out (hw a0) = mbx_out (hw a) /\
    vf_reset_event_rest a0 vf r = Some a1 /\
    ixgbe_vf_reset_event a vf = Some a1 /\
    vf_get a1 vf = Some (vf_set_api (vf_set_mc r 0 (vf_mc_hashes r)) ixgbe_mbox_api_10) /\
    mbx_out (hw a1) = mbx_out (hw a) /\
    vf_reset_msg_rest a1 vf = Some (a', 0) /\
    ixgbe_vf_reset_msg a vf = Some (a', 0) /\
    vf_get a' vf = Some r' /\
    r' = vf_set_cts (vf_set_mac (vf_set_api (vf_set_mc r 0 (vf_mc_hashes r)) ixgbe_mbox_api_10)
                       (mac_after_reset a1 vf (vf_mac_addresses r))) true /\
    mbx_out (hw a') = mbx_out (hw a) ++ [(vf, reset_reply r' (mc_filter_type (hw a)))].
Proof.
  intros Hr Hp Hl.
  destruct (ixgbe_vf_reset_event_spec a vf r l Hr Hp Hl)
    as (a0 & a1 & Hc & Hk0 & Hbits & Hrest & He & Hg1 & Hm1 & Hf1).
  set (r1 := vf_set_api (vf_set_mc r 0 (vf_mc_hashes r)) ixgbe_mbox_api_10) in *.
  set (m := vf_mac_addresses r).
  assert (Hmid : exists a2,
             (if negb (is_zero_ether_addr m)
              then fst <$> ixgbe_set_vf_mac a1 vf m else Some a1) = Some a2 /\
             vf_get a2 vf = Some (vf_set_mac r1 (mac_after_reset a1 vf m)) /\
             mbx_out (hw a2) = mbx_out (hw a1) /\
             mc_filter_type (hw a2) = mc_filter_type (hw a1)).
  { unfold mac_after_reset. destruct (is_zero_ether_addr m) eqn:Hz; simpl.
    - exists a1. repeat split. exact Hg1.
    - rewrite (ixgbe_set_vf_mac_eq a1 vf m r1 Hg1). cbv zeta. simpl.
      change (vf_mac_addresses r) with m.
      set (b1 := fst (del_mac_filter a1 m vf)).
      pose proof (keeps_sw_del_mac_filter a1 m vf) as Kd. fold b1 in Kd.
      pose proof (keeps_sw_add_mac_filter b1 m vf) as Ka.
      set (b2 := fst (add_mac_filter b1 m vf)) in *.
      set (rc := snd (add_mac_filter b1 m vf)).
      assert (Kb : keeps_sw a1 b2) by (eapply keeps_sw_trans; eauto).
      eexists. split; [reflexivity |]. split.
      + destruct (0 <=? rc); (eapply vf_get_put;
          rewrite (keeps_sw_vf_get _ _ vf Kb); exact Hg1).
      + destruct Kb as (_ & M & F & _). simpl. split; assumption. }
  destruct Hmid as (a2 & Hset & Hg2 & Hm2 & Hf2).
  destruct (vf_reset_finish_spec a2 vf _ Hg2) as (a' & Hfin & Hg' & Hm').
  assert (Hmsg : vf_reset_msg_rest a1 vf = Some (a', 0)).
  { unfold vf_reset_msg_rest. rewrite Hg1. simpl.
    change (vf_mac_addresses r) with m. rewrite Hset. simpl. exact Hfin. }
  exists a0, a1, a', (vf_set_cts (vf_set_mac r1 (mac_after_reset a1 vf m)) true).
  split; [exact Hc |]. split; [exact Hbits |].
  split; [destruct Hk0 as (_ & K & _); exact K |].
  split; [exact Hrest |]. split; [exact He |]. split; [exact Hg1 |]. split; [exact Hm1 |].
  split; [exact Hmsg |].
  split.
  { unfold ixgbe_vf_reset_msg. rewrite He. cbn [mbind option_bind]. exact Hmsg. }
  split; [exact Hg' |]. split; [reflexivity |].
  rewrite Hm'. rewrite Hm2, Hm1, Hf2, Hf1. reflexivity.
Qed.

(** C4 (as amended).  On an adapter whose MAC-VLAN list is allocated,
    processing RESET from VF [vf] first clears the pool bit of the VF in
    each of the 64 VLAN filter entries, which leaves [a0]; the rest of
    [ixgbe_vf_reset_event] runs from [a0] (the PF-assigned VLAN, or VLAN 0,
    is added back there) and leaves [a1], where the API version is 1.0 and
    the multicast hash count 0 and nothing has been written to the mailbox
    yet; the rest of [ixgbe_vf_reset_msg] runs from [a1] and ends with
    clear_to_send set and one reply written to the VF.  The reply carries
    SUCCESS and the MAC when the PF has pinned a MAC and the stored address
    is not zero once its filter has been added again; it carries FAILURE
    otherwise, that is when no MAC is pinned, or the stored address is
    zero, or the backend refused the filter (which zeroes the stored
    address). *)
Theorem vf_reset_msg_handshake (a : ixgbe_adapter) (vf : nat) (r : vf_data_storage)
    (l : list vf_macvlans) :
  vf_get a vf = Some r ->
  0 <= VMDQ_P a 0 / 32 <= 1 ->
  mv_list a = Some l ->
  exists a0 a1 a' r',
    ixgbe_clear_vf_vlans a vf = Some a0 /\
    (forall i, 0 <= i < Z.of_nat IXGBE_VLVF_ENTRIES -> vf_in_vlvf a0 vf i = false) /\
    mbx_out (hw a0) = mbx_out (hw a) /\
    vf_reset_event_rest a0 vf r = Some a1 /\
    ixgbe_vf_reset_event a vf = Some a1 /\
    vf_api <$> vf_get a1 vf = Some ixgbe_mbox_api_10 /\
    num_vf_mc_hashes <$> vf_get a1 vf = Some 0 /\
    mbx_out (hw a1) = mbx_out (hw a) /\
    vf_reset_msg_rest a1 vf = Some (a', 0) /\
    ixgbe_vf_reset_msg a vf = Some (a', 0) /\
    vf_get a' vf = Some r' /\
    clear_to_send r' = true /\
    vf_api r' = ixgbe_mbox_api_10 /\
    num_vf_mc_hashes r' = 0 /\
    pf_set_mac r' = pf_set_mac r /\
    vf_mac_addresses r' = mac_after_reset a1 vf (vf_mac_addresses r) /\
    mbx_out (hw a') = mbx_out (hw a) ++ [(vf, reset_reply r' (mc_filter_type (hw a)))] /\
    (pf_set_mac r = true -> is_zero_ether_addr (vf_mac_addresses r') = false ->
       reset_reply r' (mc_filter_type (hw a)) =
         [Z.lor IXGBE_VF_RESET IXGBE_VT_MSGTYPE_SUCCESS;
          fst (words_of_mac (vf_mac_addresses r')); snd (words_of_mac (vf_mac_addresses r'));
          mc_filter_type (hw a)]) /\
    (pf_set_mac r = false \/ is_zero_ether_addr (vf_mac_addresses r') = true ->
       reset_reply r' (mc_filter_type (hw a)) =
         [Z.lor IXGBE_VF_RESET IXGBE_VT_MSGTYPE_FAILURE; 0; 0; mc_filter_type (hw a)]).
Proof.
  intros Hr Hp Hl.
  destruct (vf_reset_msg_run a vf r l Hr Hp Hl)
    as (a0 & a1 & a' & r' & Hc & Hbits & Hm0 & Hrest & He & Hg1 & Hm1 & Hmsg & Hall & Hg'
        & Hr' & Hout).
  exists a0, a1, a', r'.
  split; [exact Hc |]. split; [exact Hbits |]. split; [exact Hm0 |].
  split; [exact Hrest |]. split; [exact He |].
  split; [rewrite Hg1; reflexivity |]. split; [rewrite Hg1; reflexivity |].
  split; [exact Hm1 |]. split; [exact Hmsg |]. split; [exact Hall |]. split; [exact Hg' |].
  subst r'.
  split; [reflexivity |]. split; [reflexivity |]. split; [reflexivity |].
  split; [reflexivity |]. split; [reflexivity |]. split; [exact Hout |].
  split.
  - intros Hpin Hnz. unfold reset_reply. simpl in *. rewrite Hnz, Hpin. reflexivity.
  - intros Hor. unfold reset_reply. simpl in *.
    destruct Hor as [Hno | Hz]; [rewrite Hno | rewrite Hz]; simpl;
      [rewrite andb_false_r |]; reflexivity.
Qed.

(** ** Every dispatched request but one is answered *)

Definition keeps_mbx (a a' : ixgbe_adapter) : Prop := mbx_out (hw a') = mbx_out (hw a).

Lemma keeps_sw_mbx (a a' : ixgbe_adapter) : keeps_sw a a' -> keeps_mbx a a'.
Proof. intros (_ & H & _). exact H. Qed.

(** A handler outcome that has not touched the mailbox and has left
    msgbuf[0] in place. *)
Definition answers_in_place (a : ixgbe_adapter) (w0 : Z) (res : handler_result) : Prop :=
  forall a' m' rc, res = Some (a', m', rc) -> keeps_mbx a a' /\ exists tl', m' = w0 :: tl'.

Ltac handler_cases :=
  repeat match goal with
         | |- context [if ?c then _ else _] =>
             lazymatch c with
             | context [if _ then _ else _] => fail
             | _ => destruct c
             end
         end.

Ltac in_place_done :=
  intros ? ? ? Heq; inversion Heq; subst; clear Heq;
  split; [try reflexivity | eexists; reflexivity].

Lemma set_vf_mac_addr_in_place (a : ixgbe_adapter) w0 tl vf :
  answers_in_place a w0 (ixgbe_set_vf_mac_addr a (w0 :: tl) vf).
Proof.
  unfold ixgbe_set_vf_mac_addr.
  destruct (negb (is_valid_ether_addr _)); [in_place_done |].
  destruct (vf_get a vf) as [r |] eqn:Hr; [| intros ? ? ? Heq; discriminate Heq].
  cbn [mbind option_bind].
  destruct (pf_set_mac r && negb (trusted r) && memcmp_ne _ _); [in_place_done |].
  rewrite (ixgbe_set_vf_mac_eq a vf _ r Hr). cbv zeta. cbn [mbind option_bind].
  intros a' m' rc Heq. inversion Heq; subst; clear Heq.
  split; [| eexists; reflexivity].
  unfold keeps_mbx. simpl.
  pose proof (keeps_sw_add_mac_filter
                (fst (del_mac_filter a (vf_mac_addresses r) vf))
                (mac_of_words (word (w0 :: tl) 1) (word (w0 :: tl) 2)) vf) as (_ & H1 & _).
  pose proof (keeps_sw_del_mac_filter a (vf_mac_addresses r) vf) as (_ & H2 & _).
  congruence.
Qed.

Lemma set_vf_vlan_msg_in_place (a : ixgbe_adapter) w0 tl vf :
  answers_in_place a w0 (ixgbe_set_vf_vlan_msg a (w0 :: tl) vf).
Proof.
  unfold ixgbe_set_vf_vlan_msg.
  destruct (vf_get a vf) as [r |]; [| intros ? ? ? Heq; discriminate Heq].
  cbn [mbind option_bind].
  destruct (truthy (pf_vlan r) || truthy (netdev_get_num_tc a)); [in_place_done |].
  destruct (negb (truthy _) && negb (truthy _)); [in_place_done |].
  match goal with
  | |- context [ixgbe_set_vf_vlan a ?x ?y ?z] =>
      pose proof (keeps_sw_set_vf_vlan a x y z) as Hk;
      destruct (ixgbe_set_vf_vlan a x y z) as [a1 err]
  end.
  intros a' m' rc Heq. inversion Heq; subst; clear Heq.
  split; [apply keeps_sw_mbx; exact Hk | eexists; reflexivity].
Qed.

Lemma set_vf_macvlan_msg_in_place (a : ixgbe_adapter) w0 tl vf :
  answers_in_place a w0 (ixgbe_set_vf_macvlan_msg a (w0 :: tl) vf).
Proof.
  unfold ixgbe_set_vf_macvlan_msg.
  destruct (vf_get a vf) as [r |]; [| intros ? ? ? Heq; discriminate Heq].
  cbn [mbind option_bind].
  destruct (pf_set_mac r && negb (trusted r) && (0 <? _)); [in_place_done |].
  destruct (truthy _ && negb (is_valid_ether_addr _)); [in_place_done |].
  cbv zeta.
  match goal with
  | |- context [ixgbe_set_vf_macvlan ?b ?v ?x ?y] =>
      assert (Hb : keeps_mbx a b) by (destruct (truthy _ && spoofchk_enabled r); reflexivity);
      destruct (ixgbe_set_vf_macvlan b v x y) as [[a1 err] |] eqn:Hm;
        [pose proof (keeps_sw_set_vf_macvlan b v x y a1 err Hm) as Hk
        | intros ? ? ? Heq; discriminate Heq]
  end.
  cbn [mbind option_bind].
  intros a' m' rc Heq. inversion Heq; subst; clear Heq.
  split; [| eexists; reflexivity].
  apply keeps_sw_mbx in Hk. unfold keeps_mbx in *.
  etransitivity; [exact Hk | exact Hb].
Qed.

Lemma update_vf_xcast_mode_in_place (a : ixgbe_adapter) w0 tl vf :
  answers_in_place a w0 (ixgbe_update_vf_xcast_mode a (w0 :: tl) vf).
Proof.
  unfold ixgbe_update_vf_xcast_mode.
  destruct (vf_get a vf) as [r |]; [| intros ? ? ? Heq; discriminate Heq].
  cbn [mbind option_bind]. cbv zeta.
  handler_cases; in_place_done.
Qed.

Lemma get_vf_queues_in_place (a : ixgbe_adapter) w0 tl vf :
  answers_in_place a w0 (ixgbe_get_vf_queues a (w0 :: tl) vf).
Proof.
  unfold ixgbe_get_vf_queues.
  destruct (vf_get a vf) as [r |]; [| intros ? ? ? Heq; discriminate Heq].
  cbn [mbind option_bind]. cbv zeta.
  handler_cases; in_place_done.
Qed.

Lemma set_vf_multicasts_keeps_mbx (a : ixgbe_adapter) (msgbuf : list Z) (vf : nat) a' rc :
  ixgbe_set_vf_multicasts a msgbuf vf = Some (a', rc) -> keeps_mbx a a'.
Proof.
  unfold ixgbe_set_vf_multicasts.
  destruct (vf_get a vf) as [r |]; [| intros Heq; discriminate Heq].
  cbn [mbind option_bind]. cbv zeta.
  match goal with
  | |- context [set_regs _ ?rf] => generalize rf
  end.
  intros rf Heq.
  apply (f_equal (fun o => match o with Some (x, _) => mbx_out (hw x) | None => [] end)) in Heq.
  cbn [set_regs set_hw hw hw_set_regs mbx_out] in Heq. symmetry. exact Heq.
Qed.

Lemma dispatch_answers (a : ixgbe_adapter) (w0 : Z) (tl : list Z) (vf : nat) d :
  dispatch a (w0 :: tl) vf = Some d ->
  match d with
  | inl (a', m', rc) => keeps_mbx a a' /\ exists tl', m' = w0 :: tl'
  | inr (a', rc) =>
      a' = a /\ rc = - EINVAL /\ Z.land w0 0xFFFF = IXGBE_VF_SET_LPE /\
      IXGBE_MAX_JUMBO_FRAME_SIZE < word (w0 :: tl) 1
  end.
Proof.
  unfold dispatch. change (word (w0 :: tl) 0) with w0.
  assert (Hfmap : forall res : handler_result,
             answers_in_place a w0 res -> inl <$> res = Some d ->
             match d with
             | inl (a', m', rc) => keeps_mbx a a' /\ exists tl', m' = w0 :: tl'
             | inr (a', rc) =>
                 a' = a /\ rc = - EINVAL /\ Z.land w0 0xFFFF = IXGBE_VF_SET_LPE /\
                 IXGBE_MAX_JUMBO_FRAME_SIZE < word (w0 :: tl) 1
             end).
  { intros res Hres Heq. destruct res as [[[a' m'] rc] |]; [| discriminate Heq].
    simpl in Heq. inversion Heq; subst. apply (Hres a' m' rc eq_refl). }
  destruct (Z.land w0 0xFFFF =? IXGBE_VF_SET_MAC_ADDR);
    [apply Hfmap, set_vf_mac_addr_in_place |].
  destruct (Z.land w0 0xFFFF =? IXGBE_VF_SET_MULTICAST).
  { destruct (ixgbe_set_vf_multicasts a (w0 :: tl) vf) as [[a1 rc1] |] eqn:Hmc;
      [| intros Heq; discriminate Heq].
    cbn [mbind option_bind]. intros Heq. injection Heq as <-.
    split; [eapply set_vf_multicasts_keeps_mbx; exact Hmc | eexists; reflexivity]. }
  destruct (Z.land w0 0xFFFF =? IXGBE_VF_SET_VLAN);
    [apply Hfmap, set_vf_vlan_msg_in_place |].
  destruct (Z.land w0 0xFFFF =? IXGBE_VF_SET_LPE) eqn:Hlpe.
  { apply Z.eqb_eq in Hlpe.
    destruct (IXGBE_MAX_JUMBO_FRAME_SIZE <? word (w0 :: tl) 1) eqn:Hbig.
    - intros Heq. inversion Heq; subst. apply Z.ltb_lt in Hbig. repeat split; assumption.
    - unfold ixgbe_set_vf_lpe.
      destruct (bool_decide (mac_type (hw a) = ixgbe_mac_82599EB)).
      + destruct (vf_get a vf) as [r |]; [| intros Heq; discriminate Heq].
        cbn [mbind option_bind]. cbv zeta.
        handler_cases; intros Heq; inversion Heq; subst;
          (split; [reflexivity | eexists; reflexivity]).
      + cbn [mbind option_bind truthy Z.eqb negb].
        handler_cases; intros Heq; inversion Heq; subst;
          (split; [reflexivity | eexists; reflexivity]). }
  destruct (Z.land w0 0xFFFF =? IXGBE_VF_SET_MACVLAN);
    [apply Hfmap, set_vf_macvlan_msg_in_place |].
  destruct (Z.land w0 0xFFFF =? IXGBE_VF_API_NEGOTIATE).
  { apply Hfmap. unfold ixgbe_negotiate_vf_api.
    destruct (_ || _); [| in_place_done].
    destruct (vf_get a vf) as [r |]; [| intros ? ? ? Heq; discriminate Heq].
    cbn [mbind option_bind]. in_place_done. }
  destruct (Z.land w0 0xFFFF =? IXGBE_VF_GET_QUEUES);
    [apply Hfmap, get_vf_queues_in_place |].
  destruct (Z.land w0 0xFFFF =? IXGBE_VF_GET_RETA).
  { apply Hfmap. unfold ixgbe_get_vf_reta.
    destruct (vf_get a vf) as [r |]; [| intros ? ? ? Heq; discriminate Heq].
    cbn [mbind option_bind]. cbv zeta.
    destruct (negb (rss_query_enabled r)); [in_place_done |].
    destruct (negb _); [in_place_done |].
    destruct (15 <? _); [intros ? ? ? Heq; discriminate Heq |]. in_place_done. }
  destruct (Z.land w0 0xFFFF =? IXGBE_VF_GET_RSS_KEY).
  { apply Hfmap. unfold ixgbe_get_vf_rss_key.
    destruct (vf_get a vf) as [r |]; [| intros ? ? ? Heq; discriminate Heq].
    cbn [mbind option_bind]. cbv zeta.
    destruct (negb (rss_query_enabled r)); [in_place_done |].
    destruct (negb _); in_place_done. }
  destruct (Z.land w0 0xFFFF =? IXGBE_VF_UPDATE_XCAST_MODE);
    [apply Hfmap, update_vf_xcast_mode_in_place |].
  destruct (Z.land w0 0xFFFF =? IXGBE_VF_GET_LINK_STATE).
  { apply Hfmap. unfold ixgbe_get_vf_link_state.
    destruct (vf_get a vf) as [r |]; [| intros ? ? ? Heq; discriminate Heq].
    cbn [mbind option_bind].
    destruct (negb _); in_place_done. }
  intros Heq. inversion Heq; subst. split; [reflexivity | eexists; reflexivity].
Qed.

(** A request that has passed the gate either is the out-of-range SET_LPE,
    which returns -EINVAL with the adapter untouched, or gets one reply
    whose first word is the request word with the status bit of the
    handler's return value and CTS. *)
Lemma dispatched_request_is_answered
    (a : ixgbe_adapter) (vf : nat) (mbx_buf : list Z) (r : vf_data_storage) a' rc :
  vf_get a vf = Some r ->
  clear_to_send r = true ->
  let w0 := word (rx_buffer mbx_buf) 0 in
  already_tagged w0 = false ->
  w0 <> IXGBE_VF_RESET ->
  ixgbe_rcv_msg_from_vf a vf 0 mbx_buf = Some (a', rc) ->
  (Z.land w0 0xFFFF = IXGBE_VF_SET_LPE /\
   IXGBE_MAX_JUMBO_FRAME_SIZE < word (rx_buffer mbx_buf) 1 /\ a' = a /\ rc = - EINVAL) \/
  (exists reply_tl,
     mbx_out (hw a') = mbx_out (hw a) ++ [(vf, reply_word w0 rc :: reply_tl)]).
Proof.
  intros Hr Hcts w0 Htag Hnr.
  unfold ixgbe_rcv_msg_from_vf. fold (rx_buffer mbx_buf). fold w0.
  change (truthy 0) with false. cbv iota. fold (already_tagged w0). rewrite Htag.
  apply Z.eqb_neq in Hnr. rewrite Hnr. rewrite Hr. cbn [mbind option_bind].
  rewrite Hcts. cbn [negb].
  destruct (rx_buffer_cons mbx_buf) as [tl Htl]. fold w0 in Htl. rewrite Htl.
  destruct (dispatch a (w0 :: tl) vf) as [d |] eqn:Hd; [| intros Heq; discriminate Heq].
  cbn [mbind option_bind].
  pose proof (dispatch_answers a w0 tl vf d Hd) as Hans.
  destruct d as [[[a1 m1] rc1] | [a1 rc1]].
  - destruct Hans as (Hk & tl' & ->). intros Heq. inversion Heq; subst; clear Heq.
    right. eexists. unfold keeps_mbx in Hk. simpl. rewrite Hk. reflexivity.
  - destruct Hans as (-> & -> & Hop & Hbig). intros Heq. inversion Heq; subst; clear Heq.
    left. repeat split; assumption.
Qed.

(** * Further properties of the file *)

(** ** The MAC address on the wire *)

Definition octets_ok (m : ether_addr) : Prop :=
  0 <= o0 m < 256 /\ 0 <= o1 m < 256 /\ 0 <= o2 m < 256 /\
  0 <= o3 m < 256 /\ 0 <= o4 m < 256 /\ 0 <= o5 m < 256.

Lemma testbit_land_ff (x n : Z) :
  0 <= n -> Z.testbit (Z.land x 0xFF) n = (n <? 8) && Z.testbit x n.
Proof.
  intros Hn. change 0xFF with (Z.ones 8). rewrite Z.land_ones by lia.
  apply Z.testbit_mod_pow2. lia.
Qed.

Lemma octet_high_bits (x n : Z) : 0 <= x < 256 -> 8 <= n -> Z.testbit x n = false.
Proof.
  intros Hx Hn. rewrite <- (Z.mod_small x (2 ^ 8)) by (change (2 ^ 8) with 256; lia).
  apply Z.mod_pow2_bits_high. lia.
Qed.

Lemma land_ff_octet (x : Z) : 0 <= x < 256 -> Z.land x 0xFF = x.
Proof.
  intros Hx. change 0xFF with (Z.ones 8). rewrite Z.land_ones by lia.
  apply Z.mod_small. change (2 ^ 8) with 256. lia.
Qed.

Lemma byte_of_pack4 (x0 x1 x2 x3 : Z) :
  0 <= x0 < 256 -> 0 <= x1 < 256 -> 0 <= x2 < 256 -> 0 <= x3 < 256 ->
  let w := Z.lor x0 (Z.lor (Z.shiftl x1 8) (Z.lor (Z.shiftl x2 16) (Z.shiftl x3 24))) in
  byte_of w 0 = x0 /\ byte_of w 1 = x1 /\ byte_of w 2 = x2 /\ byte_of w 3 = x3.
Proof.
  intros H0 H1 H2 H3 w. subst w. unfold byte_of.
  repeat split; apply Z.bits_inj'; intros n Hn;
    rewrite testbit_land_ff, Z.shiftr_spec, !Z.lor_spec, !Z.shiftl_spec by lia;
    (destruct (n <? 8) eqn:Hlt;
     [ apply Z.ltb_lt in Hlt | apply Z.ltb_ge in Hlt ]);
    cbn [andb];
    repeat match goal with
           | |- context [Z.testbit ?x ?i] =>
               first [ rewrite (Z.testbit_neg_r x i) by lia
                     | rewrite (octet_high_bits x i) by (assumption || lia) ]
           end;
    rewrite ?orb_false_r, ?orb_false_l; try reflexivity;
    f_equal; lia.
Qed.

Lemma mac_of_words_of_mac (m : ether_addr) :
  octets_ok m -> mac_of_words (fst (words_of_mac m)) (snd (words_of_mac m)) = m.
Proof.
  intros (H0 & H1 & H2 & H3 & H4 & H5). destruct m as [x0 x1 x2 x3 x4 x5].
  cbn [o0 o1 o2 o3 o4 o5] in *. unfold words_of_mac, mac_of_words.
  cbn [o0 o1 o2 o3 o4 o5 fst snd].
  rewrite !land_ff_octet by assumption.
  destruct (byte_of_pack4 x0 x1 x2 x3 H0 H1 H2 H3) as (-> & -> & -> & ->).
  assert (Hz : 0 <= 0 < 256) by lia.
  destruct (byte_of_pack4 x4 x5 0 0 H4 H5 Hz Hz) as (E4 & E5 & _).
  cbn [Z.shiftl] in E4, E5. rewrite Z.lor_0_r in E4, E5.
  rewrite E4, E5. reflexivity.
Qed.

(** X1.  The MAC address survives the mailbox.  When the PF has pinned a
    non-zero address for the VF and the backend accepts the filter of that
    address again during the reset, the reply that [ixgbe_vf_reset_msg]
    writes is the SUCCESS one, and the two words that follow the tag
    decode, with the cast the SET_MAC_ADDR handler uses, to the address
    stored for the VF, which is still stored afterwards. *)
Theorem reset_reply_mac_round_trip (a : ixgbe_adapter) (vf : nat) (r : vf_data_storage)
    (l : list vf_macvlans) :
  vf_get a vf = Some r ->
  0 <= VMDQ_P a 0 / 32 <= 1 ->
  mv_list a = Some l ->
  pf_set_mac r = true ->
  octets_ok (vf_mac_addresses r) ->
  is_zero_ether_addr (vf_mac_addresses r) = false ->
  exists a1,
    ixgbe_vf_reset_event a vf = Some a1 /\
    (0 <= snd (add_mac_filter (fst (del_mac_filter a1 (vf_mac_addresses r) vf))
                 (vf_mac_addresses r) vf) ->
     exists a' w1 w2,
       ixgbe_vf_reset_msg a vf = Some (a', 0) /\
       mbx_out (hw a') =
         mbx_out (hw a) ++
         [(vf, [Z.lor IXGBE_VF_RESET IXGBE_VT_MSGTYPE_SUCCESS; w1; w2;
                mc_filter_type (hw a)])] /\
       mac_of_words w1 w2 = vf_mac_addresses r /\
       vf_mac_addresses <$> vf_get a' vf = Some (vf_mac_addresses r)).
Proof.
  intros Hr Hp Hl Hpin Hoct Hnz.
  destruct (vf_reset_msg_run a vf r l Hr Hp Hl)
    as (a0 & a1 & a' & r' & _ & _ & _ & _ & He & _ & _ & _ & Hall & Hg' & Hr' & Hout).
  exists a1. split; [exact He |]. intros Hadd.
  assert (Hmac : mac_after_reset a1 vf (vf_mac_addresses r) = vf_mac_addresses r).
  { unfold mac_after_reset. rewrite Hnz.
    apply Z.leb_le in Hadd. rewrite Hadd. reflexivity. }
  rewrite Hmac in Hr'.
  assert (Hreply : reset_reply r' (mc_filter_type (hw a)) =
                   [Z.lor IXGBE_VF_RESET IXGBE_VT_MSGTYPE_SUCCESS;
                    fst (words_of_mac (vf_mac_addresses r));
                    snd (words_of_mac (vf_mac_addresses r)); mc_filter_type (hw a)]).
  { subst r'. unfold reset_reply. cbn. rewrite Hnz, Hpin. reflexivity. }
  exists a', (fst (words_of_mac (vf_mac_addresses r))),
         (snd (words_of_mac (vf_mac_addresses r))).
  split; [exact Hall |]. split; [rewrite Hout, Hreply; reflexivity |].
  split; [apply mac_of_words_of_mac; exact Hoct |].
  rewrite Hg'. subst r'. reflexivity.
Qed.

(** ** RSS queries *)

Lemma testbit_fold_lor (g : nat -> Z) (l : list nat) (acc n : Z) :
  Z.testbit (fold_left (fun acc j => Z.lor acc (g j)) l acc) n =
    Z.testbit acc n || existsb (fun j => Z.testbit (g j) n) l.
Proof.
  revert acc. induction l as [| j l IH]; intros acc; cbn [fold_left existsb].
  - rewrite orb_false_r. reflexivity.
  - rewrite IH, Z.lor_spec, orb_assoc. reflexivity.
Qed.

Lemma existsb_only (P : nat -> bool) (l : list nat) (x : nat) :
  In x l -> (forall y, In y l -> y <> x -> P y = false) -> existsb P l = P x.
Proof.
  induction l as [| y l IH]; intros Hin Hothers; [destruct Hin |].
  cbn [existsb]. destruct (Nat.eq_dec y x) as [-> | Hne].
  - destruct (P x) eqn:Hp; [reflexivity |]. cbn [orb].
    destruct (existsb P l) eqn:He; [| reflexivity].
    apply existsb_exists in He. destruct He as (z & Hz & Hpz).
    destruct (Nat.eq_dec z x) as [-> | Hzx]; [congruence |].
    rewrite (Hothers z) in Hpz by (first [right; exact Hz | exact Hzx]). discriminate.
  - rewrite (Hothers y) by (first [left; reflexivity | exact Hne]). cbn [orb].
    apply IH.
    + destruct Hin as [-> | Hin]; [contradiction Hne; reflexivity | exact Hin].
    + intros z Hz. apply Hothers. right. exact Hz.
Qed.

Lemma two_bit_high (x n : Z) : 0 <= x < 4 -> 2 <= n -> Z.testbit x n = false.
Proof.
  intros Hx Hn. rewrite <- (Z.mod_small x (2 ^ 2)) by (change (2 ^ 2) with 4; lia).
  apply Z.mod_pow2_bits_high. lia.
Qed.

Lemma testbit_reta_field (x : Z) (j : nat) (n : Z) :
  0 <= x < 4 -> (j < 16)%nat -> 0 <= n ->
  Z.testbit (u32 (Z.shiftl x (2 * Z.of_nat j))) n = Z.testbit x (n - 2 * Z.of_nat j).
Proof.
  intros Hx Hj Hn. destruct (Z.lt_ge_cases n 32) as [Hlt | Hge].
  - rewrite testbit_u32 by lia. apply Z.shiftl_spec. lia.
  - unfold u32. rewrite Z.mod_pow2_bits_high by lia.
    symmetry. apply two_bit_high; [exact Hx | lia].
Qed.

(** Field [j] of the word [reta_word] builds is entry 16 i + j reduced to two
    bits. *)
Lemma reta_word_field (reta : list Z) (i j : nat) :
  (j < 16)%nat ->
  Z.land (Z.shiftr (reta_word reta i) (2 * Z.of_nat j)) 3 =
    Z.land (nth (16 * i + j) reta 0) 3.
Proof.
  intros Hj. unfold reta_word.
  set (f := fun k : nat => Z.land (nth (16 * i + k) reta 0) 0x3).
  assert (Hf : forall k, 0 <= f k < 4).
  { intros k. unfold f. change 0x3 with (Z.ones 2). rewrite Z.land_ones by lia.
    change (2 ^ 2) with 4. apply Z.mod_pos_bound. lia. }
  change (Z.land (nth (16 * i + j) reta 0) 3) with (f j).
  change (fold_left _ (seq 0 16) 0)
    with (fold_left (fun acc k => Z.lor acc (u32 (Z.shiftl (f k) (2 * Z.of_nat k))))
            (seq 0 16) 0).
  apply Z.bits_inj'. intros n Hn.
  change 3 with (Z.ones 2). rewrite Z.land_ones by lia.
  rewrite Z.testbit_mod_pow2 by lia.
  destruct (n <? 2) eqn:Hlt; cbn [andb].
  - apply Z.ltb_lt in Hlt.
    rewrite Z.shiftr_spec by lia. rewrite testbit_fold_lor.
    rewrite Z.testbit_0_l. cbn [orb].
    rewrite (existsb_only _ _ j).
    + rewrite testbit_reta_field by (first [apply Hf | exact Hj | lia]).
      f_equal. lia.
    + apply in_seq. lia.
    + intros k Hk Hne. apply in_seq in Hk.
      rewrite testbit_reta_field by (first [apply Hf | lia]).
      destruct (Nat.lt_ge_cases k j) as [Hkj | Hkj].
      * apply two_bit_high; [apply Hf | lia].
      * apply Z.testbit_neg_r. lia.
  - apply Z.ltb_ge in Hlt. symmetry. apply two_bit_high; [apply Hf | lia].
Qed.

Lemma word_lookup (m : list Z) (k : nat) : word m k = default 0 (m !! k).
Proof. unfold word. apply nth_lookup. Qed.

(** X2.  GET_RETA, for a VF that may query (permission on, API 1.2 or 1.3),
    answers with the redirection table compressed to two bits per entry: the
    request word stays in place, field j of reply word 1 + i is entry
    16 i + j of the table reduced to two bits, and the words after the table
    are the ones received. *)
Theorem get_vf_reta_packs_entries
    (a : ixgbe_adapter) (msgbuf : list Z) (vf : nat) (r : vf_data_storage) :
  vf_get a vf = Some r ->
  rss_query_enabled r = true ->
  vf_api r = ixgbe_mbox_api_12 \/ vf_api r = ixgbe_mbox_api_13 ->
  length msgbuf = 16%nat ->
  let n := Z.to_nat (u32 (ixgbe_rss_indir_tbl_entries a) / 16) in
  (n <= 15)%nat ->
  exists reply,
    ixgbe_get_vf_reta a msgbuf vf = Some (a, reply, 0) /\
    length reply = 16%nat /\
    word reply 0 = word msgbuf 0 /\
    (forall i j, (i < n)%nat -> (j < 16)%nat ->
       Z.land (Z.shiftr (word reply (1 + i)) (2 * Z.of_nat j)) 3 =
         Z.land (nth (16 * i + j) (rss_indir_tbl a) 0) 3) /\
    (forall k, (n < k)%nat -> word reply k = word msgbuf k).
Proof.
  intros Hr Hq Hapi Hlen n Hn.
  unfold ixgbe_get_vf_reta. rewrite Hr. cbn [mbind option_bind]. rewrite Hq. cbn [negb].
  assert (Hok : (vf_api r =? ixgbe_mbox_api_12) || (vf_api r =? ixgbe_mbox_api_13) = true).
  { destruct Hapi as [-> | ->]; reflexivity. }
  rewrite Hok. cbn [negb]. fold n.
  assert (Hbig : (15 <? Z.of_nat n) = false) by (apply Z.ltb_ge; lia).
  rewrite Hbig.
  eexists. split; [reflexivity |].
  destruct msgbuf as [| m0 tl]; [discriminate Hlen |].
  cbn [length] in Hlen. injection Hlen as Hlen.
  change (take 1 (m0 :: tl)) with [m0]. cbn [app].
  change (drop (1 + n) (m0 :: tl)) with (drop n tl).
  assert (Hmap : length (reta_word (rss_indir_tbl a) <$> seq 0 n) = n).
  { rewrite length_fmap. apply length_seq. }
  split.
  { cbn [length]. rewrite length_app, Hmap, length_drop. lia. }
  split; [reflexivity |].
  split.
  - intros i j Hi Hj. change (1 + i)%nat with (S i).
    rewrite word_lookup. change ((m0 :: ?l) !! S i) with (l !! i).
    rewrite lookup_app_l by (rewrite Hmap; exact Hi).
    rewrite list_lookup_fmap, lookup_seq_lt by exact Hi. cbn [fmap option_fmap option_map default].
    apply reta_word_field. exact Hj.
  - intros k Hk. destruct k as [| k]; [lia |].
    rewrite !word_lookup. change ((m0 :: ?l) !! S k) with (l !! k).
    rewrite lookup_app_r by (rewrite Hmap; lia).
    rewrite Hmap, lookup_drop. f_equal. f_equal. lia.
Qed.

(** X3.  The permission to query RSS data can only be changed on 82599 and
    X540: on any other MAC the setter returns -EOPNOTSUPP and changes
    nothing, whatever the VF index.  Where it is supported, the setter stores
    the setting in the VF's record, and while the setting is off both
    GET_RETA and GET_RSS_KEY from that VF return -EPERM and leave the buffer
    as received, whatever API the VF negotiated. *)
Theorem rss_query_permission_gate (a : ixgbe_adapter) (vf : Z) (setting : bool) :
  (mac_type (hw a) <> ixgbe_mac_82599EB -> mac_type (hw a) <> ixgbe_mac_X540 ->
   ixgbe_ndo_set_vf_rss_query_en a vf setting = Some (a, - EOPNOTSUPP)) /\
  (mac_type (hw a) = ixgbe_mac_82599EB \/ mac_type (hw a) = ixgbe_mac_X540 ->
   forall r, 0 <= vf < num_vfs a -> vf_get a (Z.to_nat vf) = Some r ->
   exists a',
     ixgbe_ndo_set_vf_rss_query_en a vf setting = Some (a', 0) /\
     vf_get a' (Z.to_nat vf) = Some (vf_set_rss_query r setting) /\
     (setting = false ->
      forall msgbuf,
        ixgbe_get_vf_reta a' msgbuf (Z.to_nat vf) = Some (a', msgbuf, - EPERM) /\
        ixgbe_get_vf_rss_key a' msgbuf (Z.to_nat vf) = Some (a', msgbuf, - EPERM))).
Proof.
  split.
  - intros H1 H2. unfold ixgbe_ndo_set_vf_rss_query_en.
    destruct (mac_type (hw a)); try reflexivity; contradiction.
  - intros Hmac r Hvf Hr. unfold ixgbe_ndo_set_vf_rss_query_en.
    assert (Hsup : (mac_rank (mac_type (hw a)) <? mac_rank ixgbe_mac_82599EB)
                   || (mac_rank ixgbe_mac_X550 <=? mac_rank (mac_type (hw a))) = false).
    { destruct Hmac as [-> | ->]; reflexivity. }
    rewrite Hsup.
    assert (Hin : (vf <? 0) || (num_vfs a <=? vf) = false).
    { apply orb_false_iff. split; [apply Z.ltb_ge | apply Z.leb_gt]; lia. }
    rewrite Hin, Hr. cbn [mbind option_bind].
    eexists. split; [reflexivity |].
    pose proof (vf_get_put a (Z.to_nat vf) r (vf_set_rss_query r setting) Hr) as Hg.
    split; [exact Hg |].
    intros -> msgbuf. unfold ixgbe_get_vf_reta, ixgbe_get_vf_rss_key.
    rewrite Hg. split; reflexivity.
Qed.

(** X4.  Once the permission is on, GET_RSS_KEY from a VF at API 1.2 or 1.3
    returns success and the PF's own hash key: reply words 1 to 10 are the
    ten words of adapter->rss_key, the request word and the words after the
    key are the ones received. *)
Theorem rss_key_is_disclosed_once_permitted
    (a : ixgbe_adapter) (vf : Z) (r : vf_data_storage) (msgbuf : list Z) :
  mac_type (hw a) = ixgbe_mac_82599EB \/ mac_type (hw a) = ixgbe_mac_X540 ->
  0 <= vf < num_vfs a ->
  vf_get a (Z.to_nat vf) = Some r ->
  vf_api r = ixgbe_mbox_api_12 \/ vf_api r = ixgbe_mbox_api_13 ->
  length msgbuf = 16%nat ->
  exists a' reply,
    ixgbe_ndo_set_vf_rss_query_en a vf true = Some (a', 0) /\
    ixgbe_get_vf_rss_key a' msgbuf (Z.to_nat vf) = Some (a', reply, 0) /\
    length reply = 16%nat /\
    word reply 0 = word msgbuf 0 /\
    (forall k, (k < 10)%nat -> word reply (1 + k) = nth k (rss_key a) 0) /\
    (forall k, (10 < k)%nat -> word reply k = word msgbuf k).
Proof.
  intros Hmac Hvf Hr Hapi Hlen.
  unfold ixgbe_ndo_set_vf_rss_query_en.
  assert (Hsup : (mac_rank (mac_type (hw a)) <? mac_rank ixgbe_mac_82599EB)
                 || (mac_rank ixgbe_mac_X550 <=? mac_rank (mac_type (hw a))) = false).
  { destruct Hmac as [-> | ->]; reflexivity. }
  rewrite Hsup.
  assert (Hin : (vf <? 0) || (num_vfs a <=? vf) = false).
  { apply orb_false_iff. split; [apply Z.ltb_ge | apply Z.leb_gt]; lia. }
  rewrite Hin, Hr. cbn [mbind option_bind].
  set (a' := vf_put a (Z.to_nat vf) (vf_set_rss_query r true)).
  pose proof (vf_get_put a (Z.to_nat vf) r (vf_set_rss_query r true) Hr) as Hg.
  fold a' in Hg.
  exists a'. unfold ixgbe_get_vf_rss_key. rewrite Hg. cbn [mbind option_bind].
  cbn [rss_query_enabled vf_set_rss_query negb vf_api].
  assert (Hok : (vf_api r =? ixgbe_mbox_api_12) || (vf_api r =? ixgbe_mbox_api_13) = true).
  { destruct Hapi as [-> | ->]; reflexivity. }
  rewrite Hok. cbn [negb].
  eexists. split; [reflexivity |]. split; [reflexivity |].
  change (rss_key a') with (rss_key a).
  change (Z.to_nat (IXGBE_RSS_KEY_SIZE / 4)) with 10%nat.
  destruct msgbuf as [| m0 tl]; [discriminate Hlen |].
  cbn [length] in Hlen. injection Hlen as Hlen.
  change (take 1 (m0 :: tl)) with [m0]. cbn [app].
  change (drop (1 + 10) (m0 :: tl)) with (drop 10 tl).
  set (key := take 10 (rss_key a ++ replicate 10 0)).
  assert (Hkey : length key = 10%nat).
  { subst key. rewrite length_take, length_app, length_replicate. lia. }
  split.
  { cbn [length]. rewrite length_app, Hkey, length_drop. lia. }
  split; [reflexivity |].
  split.
  - intros k Hk. change (1 + k)%nat with (S k).
    rewrite word_lookup. change ((m0 :: ?l) !! S k) with (l !! k).
    rewrite lookup_app_l by (rewrite Hkey; exact Hk).
    subst key. rewrite lookup_take_lt by exact Hk.
    rewrite nth_lookup.
    destruct (Nat.lt_ge_cases k (length (rss_key a))) as [Hlt | Hge].
    + rewrite lookup_app_l by exact Hlt. reflexivity.
    + rewrite lookup_app_r by exact Hge.
      rewrite (lookup_ge_None_2 (rss_key a) k) by exact Hge.
      rewrite lookup_replicate_2 by lia. reflexivity.
  - intros k Hk. destruct k as [| k]; [lia |].
    rewrite !word_lookup. change ((m0 :: ?l) !! S k) with (l !! k).
    rewrite lookup_app_r by (rewrite Hkey; lia).
    rewrite Hkey, lookup_drop. f_equal. f_equal. lia.
Qed.

(** ** What a mailbox message can do to the table of VF records *)

(* the fields only the PF's administrative entry points write *)
Definition admin_same (r r' : vf_data_storage) : Prop :=
  vfdev r' = vfdev r /\ pf_set_mac r' = pf_set_mac r /\
  pf_vlan r' = pf_vlan r /\ pf_qos r' = pf_qos r /\ tx_rate r' = tx_rate r /\
  link_enable r' = link_enable r /\ link_state r' = link_state r /\
  spoofchk_enabled r' = spoofchk_enabled r /\
  rss_query_enabled r' = rss_query_enabled r /\ trusted r' = trusted r.

Definition api_known (r : vf_data_storage) : Prop :=
  vf_api r = ixgbe_mbox_api_10 \/ vf_api r = ixgbe_mbox_api_11 \/
  vf_api r = ixgbe_mbox_api_12 \/ vf_api r = ixgbe_mbox_api_13.

(* the stored hash count indexes inside vf_mc_hashes[IXGBE_MAX_VF_MC_ENTRIES] *)
Definition mc_ok (r : vf_data_storage) : Prop :=
  0 <= num_vf_mc_hashes r <= IXGBE_MAX_VF_MC_ENTRIES /\
  length (vf_mc_hashes r) = Z.to_nat IXGBE_MAX_VF_MC_ENTRIES.

Definition msg_step (r r' : vf_data_storage) : Prop :=
  admin_same r r' /\ (api_known r -> api_known r') /\ (mc_ok r -> mc_ok r').

(* [a'] has the records of [a], each one moved by [msg_step], the ones of
   the other VFs not at all *)
Definition table_step (vf : nat) (a a' : ixgbe_adapter) : Prop :=
  forall v, option_Forall2 (fun r r' => msg_step r r' /\ (v <> vf -> r' = r))
              (vf_get a v) (vf_get a' v).

Lemma msg_step_refl (r : vf_data_storage) : msg_step r r.
Proof. unfold msg_step, admin_same. tauto. Qed.

Lemma msg_step_trans (r1 r2 r3 : vf_data_storage) :
  msg_step r1 r2 -> msg_step r2 r3 -> msg_step r1 r3.
Proof.
  unfold msg_step, admin_same.
  intros ((A1 & A2 & A3 & A4 & A5 & A6 & A7 & A8 & A9 & A10) & HA & HM)
         ((B1 & B2 & B3 & B4 & B5 & B6 & B7 & B8 & B9 & B10) & HB & HN).
  split; [repeat split; congruence | split; tauto].
Qed.

Lemma table_step_refl (vf : nat) (a : ixgbe_adapter) : table_step vf a a.
Proof.
  intros v. destruct (vf_get a v) as [r |]; constructor.
  split; [apply msg_step_refl | reflexivity].
Qed.

Lemma table_step_trans (vf : nat) (a b c : ixgbe_adapter) :
  table_step vf a b -> table_step vf b c -> table_step vf a c.
Proof.
  intros H1 H2 v. specialize (H1 v). specialize (H2 v).
  destruct H1 as [r1 r2 (S1 & E1) |]; inversion H2 as [r2' r3 (S2 & E2) |]; subst; constructor.
  split; [eapply msg_step_trans; eauto |].
  intros Hne. rewrite (E2 Hne). apply E1, Hne.
Qed.

Lemma table_step_eq (vf : nat) (a a' : ixgbe_adapter) :
  vfinfo a' = vfinfo a -> table_step vf a a'.
Proof.
  intros H v.
  assert (Hv : vf_get a' v = vf_get a v) by (unfold vf_get; rewrite H; reflexivity).
  rewrite Hv. destruct (vf_get a v) as [r |]; constructor.
  split; [apply msg_step_refl | reflexivity].
Qed.

Lemma keeps_sw_table_step (vf : nat) (a a' : ixgbe_adapter) :
  keeps_sw a a' -> table_step vf a a'.
Proof. intros (H & _). apply table_step_eq. exact H. Qed.

Lemma vf_get_put_ne (a : ixgbe_adapter) (vf v : nat) (r' : vf_data_storage) :
  v <> vf -> vf_get (vf_put a vf r') v = vf_get a v.
Proof.
  intros Hne. unfold vf_get, vf_put. cbn [vfinfo set_vfinfo].
  destruct (vfinfo a) as [t |]; [| reflexivity].
  cbn [mbind option_bind]. apply list_lookup_insert_ne. congruence.
Qed.

Lemma table_step_put (vf : nat) (a : ixgbe_adapter) (r r' : vf_data_storage) :
  vf_get a vf = Some r -> msg_step r r' -> table_step vf a (vf_put a vf r').
Proof.
  intros Hr Hs v. destruct (Nat.eq_dec v vf) as [-> | Hne].
  - rewrite Hr, (vf_get_put a vf r r' Hr). constructor. split; [exact Hs | congruence].
  - rewrite (vf_get_put_ne a vf v r' Hne).
    destruct (vf_get a v) as [r0 |]; constructor.
    split; [apply msg_step_refl | reflexivity].
Qed.

(* a put that follows register-level steps *)
Lemma table_step_put_after (vf : nat) (a a1 : ixgbe_adapter) (r r' : vf_data_storage) :
  vf_get a vf = Some r -> keeps_sw a a1 -> msg_step r r' ->
  table_step vf a (vf_put a1 vf r').
Proof.
  intros Hr Hk Hs. eapply table_step_trans; [apply keeps_sw_table_step; exact Hk |].
  apply table_step_put with (r := r); [| exact Hs].
  rewrite (keeps_sw_vf_get _ _ vf Hk). exact Hr.
Qed.

Lemma msg_step_set_mac (r : vf_data_storage) (m : ether_addr) : msg_step r (vf_set_mac r m).
Proof. unfold msg_step, admin_same, api_known, mc_ok. cbn. tauto. Qed.

Lemma msg_step_set_cts (r : vf_data_storage) (b : bool) : msg_step r (vf_set_cts r b).
Proof. unfold msg_step, admin_same, api_known, mc_ok. cbn. tauto. Qed.

Lemma msg_step_set_xcast (r : vf_data_storage) (m : Z) : msg_step r (vf_set_xcast r m).
Proof. unfold msg_step, admin_same, api_known, mc_ok. cbn. tauto. Qed.

Lemma msg_step_set_api (r : vf_data_storage) (v : Z) :
  v = ixgbe_mbox_api_10 \/ v = ixgbe_mbox_api_11 \/
  v = ixgbe_mbox_api_12 \/ v = ixgbe_mbox_api_13 ->
  msg_step r (vf_set_api r v).
Proof. intros Hv. unfold msg_step, admin_same, api_known, mc_ok. cbn. tauto. Qed.

Lemma msg_step_set_mc (r : vf_data_storage) (n : Z) (hs : list Z) :
  (mc_ok r -> 0 <= n <= IXGBE_MAX_VF_MC_ENTRIES /\
              length hs = Z.to_nat IXGBE_MAX_VF_MC_ENTRIES) ->
  msg_step r (vf_set_mc r n hs).
Proof. intros H. unfold msg_step, admin_same, api_known. cbn. unfold mc_ok at 2. cbn. tauto. Qed.

Lemma msginfo_nonneg (msgbuf : list Z) : 0 <= msginfo msgbuf.
Proof.
  unfold msginfo. apply Z.shiftr_nonneg. apply Z.land_nonneg. right.
  unfold IXGBE_VT_MSGINFO_MASK. vm_compute. discriminate.
Qed.

Lemma set_vf_multicasts_table_step (a : ixgbe_adapter) (msgbuf : list Z) (vf : nat) a' rc :
  ixgbe_set_vf_multicasts a msgbuf vf = Some (a', rc) -> table_step vf a a'.
Proof.
  unfold ixgbe_set_vf_multicasts.
  destruct (vf_get a vf) as [r |] eqn:Hr; [| intros Heq; discriminate Heq].
  cbn [mbind option_bind]. cbv zeta.
  set (entries := Z.min (msginfo msgbuf) IXGBE_MAX_VF_MC_ENTRIES).
  set (hashes := _ ++ _).
  intros Heq.
  assert (Hv : vfinfo a' = vfinfo (vf_put a vf (vf_set_mc r entries hashes))).
  { apply (f_equal (fun o => match o with Some (x, _) => vfinfo x | None => None end)) in Heq.
    cbn [set_regs set_hw vfinfo IXGBE_WRITE_REG] in Heq. symmetry. exact Heq. }
  eapply table_step_trans; [| apply table_step_eq; exact Hv].
  apply table_step_put with (r := r); [exact Hr |].
  apply msg_step_set_mc. intros (_ & Hlen).
  pose proof (msginfo_nonneg msgbuf) as Hpos.
  assert (He : 0 <= entries <= IXGBE_MAX_VF_MC_ENTRIES).
  { subst entries. unfold IXGBE_MAX_VF_MC_ENTRIES in *. lia. }
  split; [exact He |].
  subst hashes. rewrite length_app, length_fmap, length_seq, length_drop, Hlen.
  unfold IXGBE_MAX_VF_MC_ENTRIES in *. lia.
Qed.

Lemma set_vf_mac_table_step (a : ixgbe_adapter) (vf : nat) (m : ether_addr) a' rc :
  ixgbe_set_vf_mac a vf m = Some (a', rc) -> table_step vf a a'.
Proof.
  destruct (vf_get a vf) as [r |] eqn:Hr.
  - rewrite (ixgbe_set_vf_mac_eq a vf m r Hr). cbv zeta. intros [= <- _].
    eapply table_step_put_after; [exact Hr | | apply msg_step_set_mac].
    eapply keeps_sw_trans; [apply keeps_sw_del_mac_filter | apply keeps_sw_add_mac_filter].
  - unfold ixgbe_set_vf_mac. rewrite Hr. intros Heq; discriminate Heq.
Qed.

Lemma clear_vf_vlans_entry_keeps (vf : nat) (i : Z) (a a' : ixgbe_adapter) :
  clear_vf_vlans_entry vf i a = Some a' -> keeps_sw a a'.
Proof.
  unfold clear_vf_vlans_entry. cbv zeta.
  repeat match goal with
         | |- context [if ?c then _ else _] =>
             lazymatch c with
             | context [if _ then _ else _] => fail
             | _ => destruct c
             end
         end;
    intros Heq; try discriminate Heq; injection Heq as <-; repeat split.
Qed.

Lemma clear_vf_vlans_from_keeps (n vf : nat) (a a' : ixgbe_adapter) :
  clear_vf_vlans_from n vf a = Some a' -> keeps_sw a a'.
Proof.
  revert a. induction n as [| n IH]; intros a; cbn [clear_vf_vlans_from].
  - intros [= <-]. apply keeps_sw_refl.
  - destruct (clear_vf_vlans_entry vf (Z.of_nat n) a) as [a1 |] eqn:He;
      [| intros Heq; discriminate Heq].
    cbn [mbind option_bind]. intros Hrest.
    eapply keeps_sw_trans; [eapply clear_vf_vlans_entry_keeps; exact He | apply IH, Hrest].
Qed.

Lemma vf_reset_event_table_step (a : ixgbe_adapter) (vf : nat) (a' : ixgbe_adapter) :
  ixgbe_vf_reset_event a vf = Some a' -> table_step vf a a'.
Proof.
  unfold ixgbe_vf_reset_event.
  destruct (vf_get a vf) as [r |] eqn:Hr; [| intros Heq; discriminate Heq].
  cbn [mbind option_bind].
  destruct (ixgbe_clear_vf_vlans a vf) as [a1 |] eqn:Hc; [| intros Heq; discriminate Heq].
  cbn [mbind option_bind]. unfold vf_reset_event_rest. cbv zeta.
  assert (Hk1 : keeps_sw a a1) by (eapply clear_vf_vlans_from_keeps; exact Hc).
  set (r1 := vf_set_mc r 0 (vf_mc_hashes r)).
  set (a2 := reset_vf_offloads a1 vf r).
  assert (Hk2 : keeps_sw a a2).
  { eapply keeps_sw_trans; [exact Hk1 | apply keeps_sw_reset_vf_offloads]. }
  set (a3 := vf_put a2 vf r1).
  assert (Hs3 : table_step vf a a3).
  { eapply table_step_put_after; [exact Hr | exact Hk2 |].
    apply msg_step_set_mc. intros (_ & Hlen). split; [| exact Hlen].
    unfold IXGBE_MAX_VF_MC_ENTRIES. lia. }
  assert (Hg3 : vf_get a3 vf = Some r1).
  { eapply vf_get_put. rewrite (keeps_sw_vf_get _ _ vf Hk2). exact Hr. }
  destruct (reset_vf_filters a3 vf r) as [a4 |] eqn:Hf4; [| intros Heq; discriminate Heq].
  cbn [mbind option_bind].
  assert (Hk4 : keeps_sw a3 a4) by (eapply keeps_sw_reset_vf_filters; exact Hf4).
  assert (Hg4 : vf_get a4 vf = Some r1) by (rewrite (keeps_sw_vf_get _ _ vf Hk4); exact Hg3).
  rewrite Hg4. cbn [mbind option_bind].
  set (a5 := vf_put a4 vf (vf_set_api r1 ixgbe_mbox_api_10)).
  assert (Hs5 : table_step vf a a5).
  { eapply table_step_trans; [exact Hs3 |].
    eapply table_step_put_after; [exact Hg3 | exact Hk4 |].
    apply msg_step_set_api. left. reflexivity. }
  destruct (mac_rank ixgbe_mac_X550 <=? mac_rank (mac_type (hw a5))); intros [= <-].
  - eapply table_step_trans; [exact Hs5 |].
    apply keeps_sw_table_step, keeps_sw_reset_vf_queues_and_mailbox.
  - exact Hs5.
Qed.

Lemma vf_reset_finish_table_step (a : ixgbe_adapter) (vf : nat) a' rc :
  vf_reset_finish a vf = Some (a', rc) -> table_step vf a a'.
Proof.
  unfold vf_reset_finish.
  destruct (vf_get a vf) as [r |] eqn:Hr; [| intros Heq; discriminate Heq].
  cbn [mbind option_bind]. cbv zeta.
  match goal with
  | |- context [ixgbe_write_qde a vf ?q] => set (a1 := ixgbe_write_qde a vf q)
  end.
  assert (Hk1 : keeps_sw a a1) by apply keeps_sw_write_qde.
  assert (Hg1 : vf_get a1 vf = Some r) by (rewrite (keeps_sw_vf_get _ _ vf Hk1); exact Hr).
  destruct (ixgbe_set_vf_rx_tx_keeps a1 vf r Hg1) as (a2 & Hrx & Hk2).
  rewrite Hrx. cbn [mbind option_bind].
  assert (Hk12 : keeps_sw a a2) by (eapply keeps_sw_trans; eauto).
  assert (Hg2 : vf_get a2 vf = Some r) by (rewrite (keeps_sw_vf_get _ _ vf Hk12); exact Hr).
  rewrite Hg2. cbn [mbind option_bind].
  set (a3 := vf_put a2 vf (vf_set_cts r true)).
  assert (Hs3 : table_step vf a a3).
  { eapply table_step_put_after; [exact Hr | exact Hk12 | apply msg_step_set_cts]. }
  set (a4 := reset_vf_tx_regs a3 vf).
  assert (Hk4 : keeps_sw a3 a4) by apply keeps_sw_reset_vf_tx_regs.
  destruct (vf_get a4 vf) as [r4 |]; [| intros Heq; discriminate Heq].
  cbn [mbind option_bind]. intros [= <- _].
  eapply table_step_trans; [exact Hs3 |].
  eapply table_step_trans; [apply keeps_sw_table_step; exact Hk4 |].
  apply table_step_eq. reflexivity.
Qed.

Lemma vf_reset_msg_table_step (a : ixgbe_adapter) (vf : nat) a' rc :
  ixgbe_vf_reset_msg a vf = Some (a', rc) -> table_step vf a a'.
Proof.
  unfold ixgbe_vf_reset_msg.
  destruct (ixgbe_vf_reset_event a vf) as [a1 |] eqn:He; [| intros Heq; discriminate Heq].
  cbn [mbind option_bind].
  pose proof (vf_reset_event_table_step a vf a1 He) as H1.
  unfold vf_reset_msg_rest.
  destruct (vf_get a1 vf) as [r1 |] eqn:Hr1; [| intros Heq; discriminate Heq].
  cbn [mbind option_bind].
  assert (H2 : forall a2,
             (if negb (is_zero_ether_addr (vf_mac_addresses r1))
              then fst <$> ixgbe_set_vf_mac a1 vf (vf_mac_addresses r1)
              else Some a1) = Some a2 -> table_step vf a1 a2).
  { intros a2. destruct (negb _).
    - destruct (ixgbe_set_vf_mac a1 vf (vf_mac_addresses r1)) as [[a2' rc2] |] eqn:Hm;
        [| intros Heq; discriminate Heq].
      cbn. intros [= <-]. eapply set_vf_mac_table_step; exact Hm.
    - intros [= <-]. apply table_step_refl. }
  destruct (if negb (is_zero_ether_addr (vf_mac_addresses r1))
            then fst <$> ixgbe_set_vf_mac a1 vf (vf_mac_addresses r1)
            else Some a1) as [a2 |] eqn:Hm; [| intros Heq; discriminate Heq].
  cbn [mbind option_bind]. specialize (H2 a2 eq_refl).
  intros Hf.
  eapply table_step_trans; [exact H1 |]. eapply table_step_trans; [exact H2 |].
  eapply vf_reset_finish_table_step; exact Hf.
Qed.

Definition handler_table_step (vf : nat) (a : ixgbe_adapter) (res : handler_result) : Prop :=
  forall a' m' rc, res = Some (a', m', rc) -> table_step vf a a'.

Ltac same_adapter := intros ? ? ? [= <- _ _]; apply table_step_refl.

Lemma set_vf_mac_addr_table_step (a : ixgbe_adapter) (msgbuf : list Z) (vf : nat) :
  handler_table_step vf a (ixgbe_set_vf_mac_addr a msgbuf vf).
Proof.
  unfold handler_table_step, ixgbe_set_vf_mac_addr. cbv zeta.
  destruct (negb (is_valid_ether_addr _)); [same_adapter |].
  destruct (vf_get a vf) as [r |]; [| intros ? ? ? Heq; discriminate Heq].
  cbn [mbind option_bind].
  destruct (_ && _); [same_adapter |].
  destruct (ixgbe_set_vf_mac a vf _) as [[a1 rc1] |] eqn:Hm;
    [| intros ? ? ? Heq; discriminate Heq].
  cbn [mbind option_bind]. intros ? ? ? [= <- _ _].
  eapply set_vf_mac_table_step; exact Hm.
Qed.

Lemma set_vf_vlan_msg_table_step (a : ixgbe_adapter) (msgbuf : list Z) (vf : nat) :
  handler_table_step vf a (ixgbe_set_vf_vlan_msg a msgbuf vf).
Proof.
  unfold handler_table_step, ixgbe_set_vf_vlan_msg. cbv zeta.
  destruct (vf_get a vf) as [r |]; [| intros ? ? ? Heq; discriminate Heq].
  cbn [mbind option_bind].
  destruct (_ || _); [same_adapter |].
  destruct (_ && _); [same_adapter |].
  pose proof (keeps_sw_set_vf_vlan a (msginfo msgbuf)
                (Z.land (word msgbuf 1) IXGBE_VLVF_VLANID_MASK) (Z.of_nat vf)) as Hk.
  destruct (ixgbe_set_vf_vlan a _ _ _) as [a1 err]. cbn [fst] in Hk.
  intros ? ? ? [= <- _ _]. apply keeps_sw_table_step. exact Hk.
Qed.

Lemma set_vf_macvlan_msg_table_step (a : ixgbe_adapter) (msgbuf : list Z) (vf : nat) :
  handler_table_step vf a (ixgbe_set_vf_macvlan_msg a msgbuf vf).
Proof.
  unfold handler_table_step, ixgbe_set_vf_macvlan_msg. cbv zeta.
  destruct (vf_get a vf) as [r |]; [| intros ? ? ? Heq; discriminate Heq].
  cbn [mbind option_bind].
  destruct (_ && _ && _); [same_adapter |].
  destruct (_ && negb _); [same_adapter |].
  match goal with
  | |- context [ixgbe_set_vf_macvlan ?b vf ?i ?m] =>
      assert (Hb : keeps_sw a b) by (destruct (truthy _ && spoofchk_enabled r); repeat split);
      destruct (ixgbe_set_vf_macvlan b vf i m) as [[a1 err] |] eqn:Hm;
        [pose proof (keeps_sw_set_vf_macvlan b vf i m a1 err Hm) as Hk
        | intros ? ? ? Heq; discriminate Heq]
  end.
  cbn [mbind option_bind]. intros ? ? ? [= <- _ _].
  apply keeps_sw_table_step. eapply keeps_sw_trans; eauto.
Qed.

Lemma negotiate_vf_api_table_step (a : ixgbe_adapter) (msgbuf : list Z) (vf : nat) :
  handler_table_step vf a (ixgbe_negotiate_vf_api a msgbuf vf).
Proof.
  unfold handler_table_step, ixgbe_negotiate_vf_api. cbv zeta.
  destruct (_ || _) eqn:Hapi; [| same_adapter].
  destruct (vf_get a vf) as [r |] eqn:Hr; [| intros ? ? ? Heq; discriminate Heq].
  cbn [mbind option_bind]. intros ? ? ? [= <- _ _].
  apply table_step_put with (r := r); [exact Hr |].
  apply msg_step_set_api.
  repeat (apply orb_true_iff in Hapi; destruct Hapi as [Hapi | Hapi]);
    apply Z.eqb_eq in Hapi;
    first [left; exact Hapi | right; left; exact Hapi
          | right; right; left; exact Hapi | right; right; right; exact Hapi].
Qed.

Lemma update_vf_xcast_mode_table_step (a : ixgbe_adapter) (msgbuf : list Z) (vf : nat) :
  handler_table_step vf a (ixgbe_update_vf_xcast_mode a msgbuf vf).
Proof.
  unfold handler_table_step, ixgbe_update_vf_xcast_mode. cbv zeta.
  destruct (vf_get a vf) as [r |] eqn:Hr; [| intros ? ? ? Heq; discriminate Heq].
  cbn [mbind option_bind].
  destruct (negb _); [same_adapter |].
  destruct (xcast_mode r =? _); [same_adapter |].
  match goal with
  | |- context [match ?s with inl _ => _ | inr _ => _ end] => destruct s as [[dis en] | err]
  end; [| same_adapter].
  intros ? ? ? [= <- _ _].
  eapply table_step_put_after; [exact Hr | apply keeps_sw_write_reg | apply msg_step_set_xcast].
Qed.

Lemma set_vf_lpe_table_step (a : ixgbe_adapter) (max_frame : Z) (vf : nat) a' rc :
  ixgbe_set_vf_lpe a max_frame vf = Some (a', rc) -> table_step vf a a'.
Proof.
  unfold ixgbe_set_vf_lpe.
  destruct (bool_decide (mac_type (hw a) = ixgbe_mac_82599EB)).
  - destruct (vf_get a vf) as [r |]; [| intros Heq; discriminate Heq].
    cbn [mbind option_bind]. cbv zeta.
    handler_cases; intros [= <- _]; apply table_step_eq; reflexivity.
  - cbn [mbind option_bind truthy Z.eqb negb].
    handler_cases; intros [= <- _]; apply table_step_eq; reflexivity.
Qed.

Lemma dispatch_table_step (a : ixgbe_adapter) (msgbuf : list Z) (vf : nat) d :
  dispatch a msgbuf vf = Some d ->
  table_step vf a (match d with inl (a', _, _) => a' | inr (a', _) => a' end).
Proof.
  unfold dispatch. cbv zeta.
  assert (Hfmap : forall res : handler_result,
             handler_table_step vf a res -> inl <$> res = Some d ->
             table_step vf a (match d with inl (a', _, _) => a' | inr (a', _) => a' end)).
  { intros res Hres Heq. destruct res as [[[a' m'] rc] |]; [| discriminate Heq].
    cbn in Heq. injection Heq as <-. apply (Hres a' m' rc eq_refl). }
  assert (Hid : forall res : handler_result,
             (forall a' m' rc, res = Some (a', m', rc) -> a' = a) ->
             handler_table_step vf a res).
  { intros res Hres a' m' rc Heq. rewrite (Hres a' m' rc Heq). apply table_step_refl. }
  destruct (_ =? IXGBE_VF_SET_MAC_ADDR); [apply Hfmap, set_vf_mac_addr_table_step |].
  destruct (_ =? IXGBE_VF_SET_MULTICAST).
  { destruct (ixgbe_set_vf_multicasts a msgbuf vf) as [[a1 rc1] |] eqn:Hmc;
      [| intros Heq; discriminate Heq].
    cbn [mbind option_bind]. intros [= <-].
    eapply set_vf_multicasts_table_step; exact Hmc. }
  destruct (_ =? IXGBE_VF_SET_VLAN); [apply Hfmap, set_vf_vlan_msg_table_step |].
  destruct (_ =? IXGBE_VF_SET_LPE).
  { destruct (IXGBE_MAX_JUMBO_FRAME_SIZE <? word msgbuf 1).
    - intros [= <-]. apply table_step_refl.
    - destruct (ixgbe_set_vf_lpe a (word msgbuf 1) vf) as [[a1 rc1] |] eqn:Hl;
        [| intros Heq; discriminate Heq].
      cbn [mbind option_bind]. intros [= <-].
      eapply set_vf_lpe_table_step; exact Hl. }
  destruct (_ =? IXGBE_VF_SET_MACVLAN); [apply Hfmap, set_vf_macvlan_msg_table_step |].
  destruct (_ =? IXGBE_VF_API_NEGOTIATE); [apply Hfmap, negotiate_vf_api_table_step |].
  destruct (_ =? IXGBE_VF_GET_QUEUES).
  { apply Hfmap, Hid. unfold ixgbe_get_vf_queues.
    destruct (vf_get a vf) as [r |]; [| intros ? ? ? Heq; discriminate Heq].
    cbn [mbind option_bind]. cbv zeta.
    destruct (negb _); intros ? ? ? [= <- _ _]; reflexivity. }
  destruct (_ =? IXGBE_VF_GET_RETA).
  { apply Hfmap, Hid. unfold ixgbe_get_vf_reta.
    destruct (vf_get a vf) as [r |]; [| intros ? ? ? Heq; discriminate Heq].
    cbn [mbind option_bind]. cbv zeta.
    destruct (negb (rss_query_enabled r)); [intros ? ? ? [= <- _ _]; reflexivity |].
    destruct (negb _); [intros ? ? ? [= <- _ _]; reflexivity |].
    destruct (15 <? _); [intros ? ? ? Heq; discriminate Heq |].
    intros ? ? ? [= <- _ _]; reflexivity. }
  destruct (_ =? IXGBE_VF_GET_RSS_KEY).
  { apply Hfmap, Hid. unfold ixgbe_get_vf_rss_key.
    destruct (vf_get a vf) as [r |]; [| intros ? ? ? Heq; discriminate Heq].
    cbn [mbind option_bind]. cbv zeta.
    destruct (negb (rss_query_enabled r)); [intros ? ? ? [= <- _ _]; reflexivity |].
    destruct (negb _); intros ? ? ? [= <- _ _]; reflexivity. }
  destruct (_ =? IXGBE_VF_UPDATE_XCAST_MODE);
    [apply Hfmap, update_vf_xcast_mode_table_step |].
  destruct (_ =? IXGBE_VF_GET_LINK_STATE).
  { apply Hfmap, Hid. unfold ixgbe_get_vf_link_state.
    destruct (vf_get a vf) as [r |]; [| intros ? ? ? Heq; discriminate Heq].
    cbn [mbind option_bind].
    destruct (negb _); intros ? ? ? [= <- _ _]; reflexivity. }
  intros [= <-]. apply table_step_refl.
Qed.

(** Whatever the message, [ixgbe_rcv_msg_from_vf] moves the table by
    [table_step]. *)
Lemma rcv_msg_table_step (a : ixgbe_adapter) (vf : nat) (mbx_ret : Z) (mbx_buf : list Z) a' rc :
  ixgbe_rcv_msg_from_vf a vf mbx_ret mbx_buf = Some (a', rc) -> table_step vf a a'.
Proof.
  unfold ixgbe_rcv_msg_from_vf. cbv zeta.
  destruct (truthy mbx_ret); [intros [= <- _]; apply table_step_refl |].
  destruct (truthy (Z.land _ _)); [intros [= <- _]; apply table_step_refl |].
  destruct (_ =? IXGBE_VF_RESET); [apply vf_reset_msg_table_step |].
  destruct (vf_get a vf) as [r |]; [| intros Heq; discriminate Heq].
  cbn [mbind option_bind].
  destruct (negb (clear_to_send r)).
  { intros [= <- _]. apply table_step_eq. reflexivity. }
  match goal with
  | |- context [dispatch a ?m vf] =>
      pose proof (dispatch_table_step a m vf) as Hd;
      destruct (dispatch a m vf) as [d |]; [| intros Heq; discriminate Heq]
  end.
  cbn [mbind option_bind]. specialize (Hd d eq_refl).
  destruct d as [[[a1 m1] rc1] | [a1 rc1]]; intros [= <- _].
  - eapply table_step_trans; [exact Hd |]. apply table_step_eq. reflexivity.
  - exact Hd.
Qed.

(** X5.  A mailbox message cannot reach another VF's record or the
    administrative part of its own: whatever message [ixgbe_rcv_msg_from_vf]
    processes for VF [vf], every other VF's record is afterwards what it
    was, and in the sender's record the pinned-MAC flag, trust, port VLAN
    and QoS, rate limit, link state, spoof checking and RSS-query
    permission are unchanged. *)
Theorem mailbox_message_isolation
    (a : ixgbe_adapter) (vf : nat) (mbx_ret : Z) (mbx_buf : list Z) a' rc :
  ixgbe_rcv_msg_from_vf a vf mbx_ret mbx_buf = Some (a', rc) ->
  forall v r, vf_get a v = Some r ->
    exists r', vf_get a' v = Some r' /\ admin_same r r' /\ (v <> vf -> r' = r).
Proof.
  intros Hrcv v r Hr. pose proof (rcv_msg_table_step _ _ _ _ _ _ Hrcv v) as Hs.
  rewrite Hr in Hs. inversion Hs as [r0 r' ((Ha & _) & He) |]; subst.
  exists r'. repeat split; [apply Ha.. | exact He].
Qed.

(** X6.  The API version stored for a VF is always one of 1.0, 1.1, 1.2 and
    1.3: if that holds for every record before a message is processed, it
    holds for every record afterwards.  Version 2.0 in particular is never
    stored, although [ixgbe_get_vf_queues] has a case for it. *)
Theorem stored_api_version_is_known
    (a : ixgbe_adapter) (vf : nat) (mbx_ret : Z) (mbx_buf : list Z) a' rc :
  ixgbe_rcv_msg_from_vf a vf mbx_ret mbx_buf = Some (a', rc) ->
  (forall v r, vf_get a v = Some r -> api_known r) ->
  forall v r', vf_get a' v = Some r' -> api_known r' /\ vf_api r' <> ixgbe_mbox_api_20.
Proof.
  intros Hrcv Hall v r' Hr'. pose proof (rcv_msg_table_step _ _ _ _ _ _ Hrcv v) as Hs.
  rewrite Hr' in Hs. inversion Hs as [r r0 ((_ & Hapi & _) & _) Hr |]; subst.
  assert (Hk : api_known r') by (apply Hapi, (Hall v); congruence).
  split; [exact Hk |].
  destruct Hk as [H | [H | [H | H]]]; rewrite H; discriminate.
Qed.

(** X7.  The multicast hashes stored for a VF stay inside the array: if
    every record has a count between 0 and 30 and a 30-entry array before a
    message is processed, so has every record afterwards, however many
    entries a SET_MULTICAST message announces. *)
Theorem stored_multicast_count_is_bounded
    (a : ixgbe_adapter) (vf : nat) (mbx_ret : Z) (mbx_buf : list Z) a' rc :
  ixgbe_rcv_msg_from_vf a vf mbx_ret mbx_buf = Some (a', rc) ->
  (forall v r, vf_get a v = Some r -> mc_ok r) ->
  forall v r', vf_get a' v = Some r' -> mc_ok r'.
Proof.
  intros Hrcv Hall v r' Hr'. pose proof (rcv_msg_table_step _ _ _ _ _ _ Hrcv v) as Hs.
  rewrite Hr' in Hs. inversion Hs as [r r0 ((_ & _ & Hmc) & _) Hr |]; subst.
  apply Hmc, (Hall v). congruence.
Qed.

(** ** MAC-VLAN filter entries *)

(** X8.  SET_MACVLAN with index 0 clears the VF's secondary filters: while
    the MAC-VLAN list is allocated, the call returns 0, every entry of the
    list that was owned by the VF is released (owner -1, free, not a
    MAC-VLAN), the entries of the other VFs are as they were, and
    afterwards no entry is owned by the VF. *)
Theorem set_vf_macvlan_index0_releases_all
    (a : ixgbe_adapter) (vf : nat) (mac_addr : ether_addr) (l : list vf_macvlans) :
  mv_list a = Some l ->
  exists a',
    ixgbe_set_vf_macvlan a vf 0 mac_addr = Some (a', 0) /\
    mv_list a' = Some (release_owned vf <$> l) /\
    Forall (fun e => mv_vf e <> Z.of_nat vf) (release_owned vf <$> l) /\
    keeps_sw a a'.
Proof.
  intros Hl.
  destruct (set_vf_macvlan_clear_spec a vf mac_addr l Hl) as (a' & H1 & H2 & H3).
  exists a'. split; [exact H1 |]. split; [exact H2 |]. split; [| exact H3].
  apply Forall_fmap, Forall_forall. intros e _. apply release_owned_not_owned.
Qed.

Lemma macvlan_release_loop_none (vf : nat) (n : nat) :
  forall (k : nat) (a : ixgbe_adapter) (l : list vf_macvlans),
    mv_list a = Some l ->
    Forall (fun e => mv_vf e <> Z.of_nat vf) l ->
    (k + n <= length l)%nat ->
    for_loop_opt n (Z.of_nat k) (macvlan_release_entry vf) a = Some a.
Proof.
  induction n as [| n IH]; intros k a l Hl Hall Hlen; cbn [for_loop_opt]; [reflexivity |].
  assert (H1 : macvlan_release_entry vf (Z.of_nat k) a = Some a).
  { unfold macvlan_release_entry. rewrite Hl. cbn [mbind option_bind]. rewrite Nat2Z.id.
    destruct (lookup_lt_is_Some_2 l k ltac:(lia)) as [e He].
    rewrite He. cbn [mbind option_bind].
    rewrite Forall_lookup in Hall. specialize (Hall k e He).
    apply Z.eqb_neq in Hall. rewrite Hall. reflexivity. }
  rewrite H1. cbn [mbind option_bind].
  replace (Z.of_nat k + 1) with (Z.of_nat (S k)) by lia.
  apply (IH (S k) a l Hl Hall). lia.
Qed.

Lemma macvlan_find_free_none (l : list vf_macvlans) :
  Forall (fun e => mv_free e = false) l ->
  match macvlan_find_free l with
  | Some (_, e) => mv_free e = false
  | None => True
  end.
Proof.
  intros Hall. unfold macvlan_find_free.
  destruct (list_find _ l) as [[k e] |] eqn:Hf.
  - apply list_find_Some in Hf. destruct Hf as (Hk & _).
    rewrite Forall_lookup in Hall. apply (Hall k e Hk).
  - destruct (last l) as [e |] eqn:Hlast; [| exact I].
    rewrite last_lookup in Hlast. rewrite Forall_lookup in Hall. apply (Hall _ e Hlast).
Qed.

(** X9.  There is no room for a filter when no entry of the allocated list
    is free: a request with a non-zero index from a VF that owns no entry
    returns -ENOSPC and leaves the adapter as it was, the backend's MAC
    table included. *)
Theorem set_vf_macvlan_no_space
    (a : ixgbe_adapter) (vf : nat) (index : Z) (mac_addr : ether_addr)
    (l : list vf_macvlans) :
  index <> 0 ->
  mv_list a = Some l ->
  Forall (fun e => mv_free e = false /\ mv_vf e <> Z.of_nat vf) l ->
  ixgbe_set_vf_macvlan a vf index mac_addr = Some (a, - ENOSPC).
Proof.
  intros Hidx Hl Hall. unfold ixgbe_set_vf_macvlan. rewrite Hl. cbn [mbind option_bind].
  assert (Hown : Forall (fun e => mv_vf e <> Z.of_nat vf) l)
    by (eapply Forall_impl; [exact Hall | intros e He; apply He]).
  assert (Hfree : Forall (fun e => mv_free e = false) l)
    by (eapply Forall_impl; [exact Hall | intros e He; apply He]).
  assert (Hloop : (if index <=? 1
                   then for_loop_opt (length l) 0 (macvlan_release_entry vf) a
                   else Some a) = Some a).
  { destruct (index <=? 1); [| reflexivity].
    apply (macvlan_release_loop_none vf _ 0%nat a l Hl Hown). lia. }
  rewrite Hloop. cbn [mbind option_bind]. apply Z.eqb_neq in Hidx. rewrite Hidx.
  rewrite Hl. cbn [mbind option_bind].
  pose proof (macvlan_find_free_none _ Hfree) as Hnone.
  destruct (macvlan_find_free l) as [[k e] |]; [| reflexivity].
  rewrite Hnone. reflexivity.
Qed.

(** X10.  A request with an index above 1 takes the first free entry of the
    list, and only when the backend accepts the address: with the first
    free entry at position k, a successful add of the MAC filter makes
    entry k owned by the VF, not free, holding the address, and returns 0;
    a failed add returns the backend's code and leaves the list as it was.
    No entry of the VF is released on the way. *)
Theorem set_vf_macvlan_takes_first_free
    (a : ixgbe_adapter) (vf : nat) (index : Z) (mac_addr : ether_addr)
    (l : list vf_macvlans) (k : nat) (e : vf_macvlans) :
  1 < index ->
  mv_list a = Some l ->
  list_find (fun e => mv_free e = true) l = Some (k, e) ->
  let rc := snd (add_mac_filter a mac_addr vf) in
  exists a',
    ixgbe_set_vf_macvlan a vf index mac_addr = Some (a', if rc <? 0 then rc else 0) /\
    mv_list a' =
      Some (if rc <? 0 then l
            else <[k := {| mv_vf := Z.of_nat vf; mv_free := false; mv_is_macvlan := true;
                           mv_vf_macvlan := mac_addr |}]> l) /\
    keeps_sw a a'.
Proof.
  intros Hidx Hl Hfind rc. unfold ixgbe_set_vf_macvlan.
  assert (H1 : (index <=? 1) = false) by (apply Z.leb_gt; lia).
  assert (H0 : (index =? 0) = false) by (apply Z.eqb_neq; lia).
  rewrite Hl. cbn [mbind option_bind]. rewrite H1. cbn [mbind option_bind].
  rewrite H0, Hl. cbn [mbind option_bind].
  unfold macvlan_find_free. rewrite Hfind.
  pose proof Hfind as Hf. apply list_find_Some in Hf. destruct Hf as (_ & Hfree & _).
  rewrite Hfree. cbn [negb].
  pose proof (keeps_sw_add_mac_filter a mac_addr vf) as Hk.
  pose proof (mv_list_add_mac_filter a mac_addr vf) as Hm.
  subst rc. destruct (add_mac_filter a mac_addr vf) as [a1 rc]. cbn [fst snd] in *.
  destruct (rc <? 0).
  - exists a1. split; [reflexivity |]. split; [congruence | exact Hk].
  - eexists. split; [reflexivity |]. split; [reflexivity |].
    eapply keeps_sw_trans; [exact Hk |]. repeat split.
Qed.

(** X11.  The permission check of SET_MACVLAN guards additions only: a VF
    whose MAC the PF has pinned and that is not trusted is refused (-1,
    nothing changed) for every index above 0, but its request with index 0
    is carried out while the MAC-VLAN list is allocated: it returns
    success, releases the entries of the VF and leaves none owned by it. *)
Theorem set_vf_macvlan_msg_denies_additions_only
    (a : ixgbe_adapter) (msgbuf : list Z) (vf : nat) (r : vf_data_storage)
    (l : list vf_macvlans) :
  vf_get a vf = Some r ->
  pf_set_mac r = true ->
  trusted r = false ->
  mv_list a = Some l ->
  (0 < msginfo msgbuf ->
   ixgbe_set_vf_macvlan_msg a msgbuf vf = Some (a, msgbuf, -1)) /\
  (msginfo msgbuf = 0 ->
   exists a',
     ixgbe_set_vf_macvlan_msg a msgbuf vf = Some (a', msgbuf, 0) /\
     mv_list a' = Some (release_owned vf <$> l) /\
     Forall (fun e => mv_vf e <> Z.of_nat vf) (release_owned vf <$> l) /\
     keeps_sw a a').
Proof.
  intros Hr Hpin Htrust Hl. unfold ixgbe_set_vf_macvlan_msg. rewrite Hr.
  cbn [mbind option_bind]. cbv zeta. rewrite Hpin, Htrust. cbn [negb andb].
  split.
  - intros Hidx. apply Z.ltb_lt in Hidx. rewrite Hidx. reflexivity.
  - intros Hidx. rewrite Hidx. cbn [Z.ltb Z.compare truthy Z.eqb negb andb].
    destruct (set_vf_macvlan_clear_spec a vf
                (mac_of_words (word msgbuf 1) (word msgbuf 2)) l Hl) as (a' & H1 & H2 & H3).
    rewrite H1. cbn [mbind option_bind]. cbn [Z.ltb Z.compare].
    exists a'. split; [reflexivity |]. split; [exact H2 |]. split; [| exact H3].
    apply Forall_fmap, Forall_forall. intros e _. apply release_owned_not_owned.
Qed.

(** ** The enable step *)

(* the record of a VF right after the enable step *)
Definition vf_fresh : vf_data_storage := vf_enable_defaults vf_zero.

Ltac adapter_fields :=
  cbv beta iota zeta delta
    [flags flags2 num_vfs max_vfs vfinfo mv_list vmdq pg_tcs pfc_tcs vt_mode netdev
     default_up xdp_prog active_vlans rss_indir_tbl rss_key hw pdev mac_table
     set_flags set_flags2 set_num_vfs set_vfinfo set_mv_list set_vmdq set_dcb set_hw
     set_pdev set_mac_table set_regs IXGBE_WRITE_REG hw_set_regs
     mac_type mc_filter_type num_rar_entries regs mbx_out
     rf_limit rf_offset rf_mask
     IXGBE_FLAG_SRIOV_CAPABLE IXGBE_FLAG_SRIOV_ENABLED IXGBE_FLAG_VMDQ_ENABLED
     IXGBE_FLAG_SRIOV_L2SWITCH_ENABLE IXGBE_FLAG_SRIOV_REPLICATION_ENABLE
     IXGBE_FLAG_MDD_ENABLED IXGBE_FLAG2_RSC_CAPABLE IXGBE_FLAG2_RSC_ENABLED
     IXGBE_FLAG2_VLAN_PROMISC].

Lemma set_mv_list_id (a : ixgbe_adapter) : set_mv_list a (mv_list a) = a.
Proof. destruct a. reflexivity. Qed.

Lemma set_vmdq_id (a : ixgbe_adapter) :
  set_vmdq a {| rf_limit := rf_limit (vmdq a); rf_offset := rf_offset (vmdq a);
                rf_mask := rf_mask (vmdq a) |} = a.
Proof. destruct a as [? ? ? ? ? ? [? ? ?] ? ? ? ? ? ? ? ? ? ? ? ?]. reflexivity. Qed.

(* what ixgbe_alloc_vf_macvlans leaves in adapter->mv_list *)
Definition alloc_vf_macvlans_list (mem : kmem) (a : ixgbe_adapter) (n : Z)
  : option (list vf_macvlans) :=
  let num_vf_macvlans := to_int (num_rar_entries (hw a) - (IXGBE_MAX_PF_MACVLANS + 1 + n)) in
  if negb (num_vf_macvlans =? 0) && (0 <? num_vf_macvlans) && kcalloc_mv_list_ok mem
  then Some (replicate (Z.to_nat num_vf_macvlans) fresh_macvlan)
  else mv_list a.

Lemma ixgbe_alloc_vf_macvlans_eq (mem : kmem) (a : ixgbe_adapter) (n : Z) :
  ixgbe_alloc_vf_macvlans mem a n = set_mv_list a (alloc_vf_macvlans_list mem a n).
Proof.
  unfold ixgbe_alloc_vf_macvlans, alloc_vf_macvlans_list. cbv zeta.
  destruct (to_int _ =? 0); cbn [negb andb]; [symmetry; apply set_mv_list_id |].
  destruct ((0 <? to_int _) && kcalloc_mv_list_ok mem); [reflexivity |].
  symmetry; apply set_mv_list_id.
Qed.

Lemma vmdq_limit_eq (a : ixgbe_adapter) :
  (if rf_limit (vmdq a) =? 0
   then set_vmdq a {| rf_limit := 1; rf_offset := rf_offset (vmdq a);
                      rf_mask := rf_mask (vmdq a) |}
   else a) =
  set_vmdq a {| rf_limit := if rf_limit (vmdq a) =? 0 then 1 else rf_limit (vmdq a);
                rf_offset := rf_offset (vmdq a); rf_mask := rf_mask (vmdq a) |}.
Proof. destruct (rf_limit (vmdq a) =? 0); [reflexivity | symmetry; apply set_vmdq_id]. Qed.

Lemma set_dcb_if (a : ixgbe_adapter) (c1 c2 : bool) (x y z : Z) :
  (if c1 then set_dcb a x x true else if c2 then set_dcb a y y true else set_dcb a z z true) =
  set_dcb a (if c1 then x else if c2 then y else z) (if c1 then x else if c2 then y else z) true.
Proof. destruct c1, c2; reflexivity. Qed.

Lemma enable_sriov_outcome (mem : kmem) (a : ixgbe_adapter) (n : Z) :
  xdp_prog a = false ->
  kcalloc_vfinfo_ok mem = true ->
  exists a',
    __ixgbe_enable_sriov mem a n = (a', 0) /\
    num_vfs a' = n /\
    vfinfo a' = Some (replicate (Z.to_nat n) vf_fresh) /\
    rf_offset (vmdq a') = n /\
    IXGBE_FLAG_SRIOV_ENABLED (flags a') = true /\
    IXGBE_FLAG_SRIOV_L2SWITCH_ENABLE (flags a') = true /\
    IXGBE_FLAG_MDD_ENABLED (flags a') = IXGBE_FLAG_MDD_ENABLED (flags a) /\
    IXGBE_FLAG2_RSC_CAPABLE (flags2 a') = false /\
    vt_mode a' = true /\ pfc_tcs a' = pg_tcs a' /\
    pg_tcs a' = (if bool_decide (mac_type (hw a) = ixgbe_mac_82599EB) && (n <? 16)
                 then IXGBE_DCB_MAX_TRAFFIC_CLASS else if n <? 32 then 4 else 1) /\
    pdev a' = pdev a /\ mbx_out (hw a') = mbx_out (hw a) /\
    rf_limit (vmdq a') = (if rf_limit (vmdq a) =? 0 then 1 else rf_limit (vmdq a)).
Proof.
  intros Hx Hmem. unfold __ixgbe_enable_sriov. rewrite Hx, Hmem. cbn [negb]. cbv zeta.
  rewrite vmdq_limit_eq, ixgbe_alloc_vf_macvlans_eq, set_dcb_if.
  destruct a as [f f2 nv mv vi ml [lim off msk] pg pfc vt nd du xp av rit rk h pd mt].
  adapter_fields. cbn [mbind option_bind]. rewrite fmap_replicate. fold vf_fresh.
  eexists. split; [reflexivity |]. adapter_fields.
  repeat split; reflexivity.
Qed.

Ltac adapter_cbn :=
  cbn [flags flags2 num_vfs max_vfs vfinfo mv_list vmdq pg_tcs pfc_tcs vt_mode netdev
       default_up xdp_prog active_vlans rss_indir_tbl rss_key hw pdev mac_table
       set_flags set_flags2 set_num_vfs set_vfinfo set_mv_list set_vmdq set_dcb set_hw
       set_pdev set_mac_table set_regs IXGBE_WRITE_REG IXGBE_READ_REG hw_set_regs write_mbx
       ixgbe_write_mbx mac_type mc_filter_type num_rar_entries regs mbx_out
       rf_limit rf_offset rf_mask
       IXGBE_FLAG_SRIOV_CAPABLE IXGBE_FLAG_SRIOV_ENABLED IXGBE_FLAG_VMDQ_ENABLED
       IXGBE_FLAG_SRIOV_L2SWITCH_ENABLE IXGBE_FLAG_SRIOV_REPLICATION_ENABLE
       IXGBE_FLAG_MDD_ENABLED IXGBE_FLAG2_RSC_CAPABLE IXGBE_FLAG2_RSC_ENABLED
       IXGBE_FLAG2_VLAN_PROMISC].

(** What a message finds while the VF's clear_to_send is off. *)
Lemma gate_closed_reply (a : ixgbe_adapter) (vf : nat) (mbx_buf : list Z)
    (r : vf_data_storage) :
  vf_get a vf = Some r ->
  clear_to_send r = false ->
  let w0 := word (rx_buffer mbx_buf) 0 in
  already_tagged w0 = false ->
  w0 <> IXGBE_VF_RESET ->
  exists a',
    ixgbe_rcv_msg_from_vf a vf 0 mbx_buf = Some (a', 0) /\
    vfinfo a' = vfinfo a /\ regs (hw a') = regs (hw a) /\
    mbx_out (hw a') = mbx_out (hw a) ++ [(vf, [Z.lor w0 IXGBE_VT_MSGTYPE_FAILURE])].
Proof.
  intros Hr Hcts w0 Htag Hnr.
  unfold ixgbe_rcv_msg_from_vf. fold (rx_buffer mbx_buf). fold w0.
  change (truthy 0) with false. cbv iota.
  fold (already_tagged w0). rewrite Htag.
  apply Z.eqb_neq in Hnr. rewrite Hnr, Hr. cbn [mbind option_bind]. rewrite Hcts. cbn [negb].
  eexists. split; [reflexivity |]. adapter_cbn.
  repeat split. destruct (rx_buffer_cons mbx_buf) as [tl Htl]. rewrite Htl. reflexivity.
Qed.

(** X12.  The enable step leaves every VF locked down: each of the n records
    is the same fresh one (not trusted, spoof checking on, link enabled, no
    pinned MAC, no MAC, RSS query off, XCAST mode NONE, API 1.0, no
    multicast hash, clear_to_send off), and so the first message of any VF
    that is not RESET gets the FAILURE reply and changes nothing else. *)
Theorem fresh_vf_is_locked_down
    (mem : kmem) (a : ixgbe_adapter) (n : Z) (vf : nat) (mbx_buf : list Z) :
  xdp_prog a = false ->
  kcalloc_vfinfo_ok mem = true ->
  Z.of_nat vf < n ->
  let a1 := fst (__ixgbe_enable_sriov mem a n) in
  let w0 := word (rx_buffer mbx_buf) 0 in
  already_tagged w0 = false ->
  w0 <> IXGBE_VF_RESET ->
  snd (__ixgbe_enable_sriov mem a n) = 0 /\
  num_vfs a1 = n /\
  vf_get a1 vf = Some vf_fresh /\
  (trusted vf_fresh = false /\ spoofchk_enabled vf_fresh = true /\
   link_enable vf_fresh = true /\ pf_set_mac vf_fresh = false /\
   vf_mac_addresses vf_fresh = zero_addr /\ rss_query_enabled vf_fresh = false /\
   xcast_mode vf_fresh = IXGBEVF_XCAST_MODE_NONE /\ vf_api vf_fresh = ixgbe_mbox_api_10 /\
   num_vf_mc_hashes vf_fresh = 0 /\ clear_to_send vf_fresh = false) /\
  exists a2,
    ixgbe_rcv_msg_from_vf a1 vf 0 mbx_buf = Some (a2, 0) /\
    vfinfo a2 = vfinfo a1 /\ regs (hw a2) = regs (hw a1) /\
    mbx_out (hw a2) = mbx_out (hw a) ++ [(vf, [Z.lor w0 IXGBE_VT_MSGTYPE_FAILURE])].
Proof.
  intros Hx Hmem Hvf a1 w0 Htag Hnr.
  destruct (enable_sriov_outcome mem a n Hx Hmem)
    as (a' & He & Hn & Hv & _ & _ & _ & _ & _ & _ & _ & _ & _ & Hmb & _).
  subst a1. rewrite He. cbn [fst snd].
  assert (Hg : vf_get a' vf = Some vf_fresh).
  { unfold vf_get. rewrite Hv. cbn [mbind option_bind].
    apply lookup_replicate_2. lia. }
  split; [reflexivity |]. split; [exact Hn |]. split; [exact Hg |].
  split; [repeat split |].
  destruct (gate_closed_reply a' vf mbx_buf vf_fresh Hg eq_refl Htag Hnr)
    as (a2 & Hr & H1 & H2 & H3).
  exists a2. rewrite <- Hmb. repeat split; assumption.
Qed.

(** X13.  The limit on traffic classes that the enable step configures for
    n VFs is inside the cap [ixgbe_pci_sriov_enable] checks: for every n up
    to the driver limit of 63, the TC count stored in dcb_cfg (8 on 82599
    below 16 VFs, 4 below 32 VFs, else 1) admits n VFs under
    [tc_limit_exceeded]. *)
Theorem enable_sriov_tc_limit_within_cap (mem : kmem) (a : ixgbe_adapter) (n : Z) :
  xdp_prog a = false ->
  kcalloc_vfinfo_ok mem = true ->
  0 <= n <= IXGBE_MAX_VFS_DRV_LIMIT ->
  let a' := fst (__ixgbe_enable_sriov mem a n) in
  vt_mode a' = true /\ pfc_tcs a' = pg_tcs a' /\
  tc_limit_exceeded (pg_tcs a') n = false.
Proof.
  intros Hx Hmem Hn a'.
  destruct (enable_sriov_outcome mem a n Hx Hmem)
    as (a1 & He & _ & _ & _ & _ & _ & _ & _ & Hvt & Hpfc & Hpg & _).
  subst a'. rewrite He. cbn [fst].
  split; [exact Hvt |]. split; [exact Hpfc |]. rewrite Hpg.
  unfold IXGBE_MAX_VFS_DRV_LIMIT in Hn.
  destruct (bool_decide _ && (n <? 16)) eqn:H16.
  - apply andb_true_iff in H16. destruct H16 as (_ & H16). apply Z.ltb_lt in H16.
    unfold tc_limit_exceeded, IXGBE_DCB_MAX_TRAFFIC_CLASS, IXGBE_MAX_VFS_8TC.
    cbn [Z.ltb Z.compare Pos.compare Pos.compare_cont]. apply Z.ltb_ge. lia.
  - destruct (n <? 32) eqn:H32.
    + apply Z.ltb_lt in H32. unfold tc_limit_exceeded, IXGBE_MAX_VFS_4TC.
      cbn [Z.ltb Z.leb Z.compare Pos.compare Pos.compare_cont andb]. apply Z.ltb_ge. lia.
    + unfold tc_limit_exceeded, IXGBE_MAX_VFS_1TC, IXGBE_MAX_VFS_DRV_LIMIT.
      cbn [Z.ltb Z.leb Z.compare Pos.compare Pos.compare_cont andb]. apply Z.ltb_ge. lia.
Qed.

Lemma land_not32_clears (x m : Z) :
  0 <= m < 2 ^ 32 -> Z.land (u32 (Z.land x (not32 m))) m = 0.
Proof.
  intros Hm. apply Z.bits_inj'. intros i Hi.
  rewrite Z.land_spec, Z.bits_0.
  destruct (Z.testbit m i) eqn:Hb; [| apply andb_false_r].
  rewrite andb_true_r.
  assert (Hlt : i < 32).
  { destruct (Z.lt_ge_cases i 32) as [H | H]; [exact H |].
    rewrite <- (Z.mod_small m (2 ^ 32)) in Hb by exact Hm.
    rewrite Z.mod_pow2_bits_high in Hb by lia. discriminate. }
  rewrite testbit_u32 by lia. rewrite Z.land_spec. unfold not32.
  rewrite Z.lxor_spec. rewrite testbit_u32 by lia. rewrite Hb.
  change 0xFFFFFFFF with (Z.ones 32). rewrite Z.ones_spec_low by lia. apply andb_false_r.
Qed.

(* the steps of ixgbe_disable_sriov after the table is freed *)
Definition disable_mdd_step (a : ixgbe_adapter) : ixgbe_adapter :=
  match disable_mdd ops with
  | Some f => if negb (IXGBE_FLAG_MDD_ENABLED (flags a))
              then set_regs a (f (regs (hw a))) else a
  | None => a
  end.

Definition vt_mode_off (a : ixgbe_adapter) : ixgbe_adapter :=
  let a := IXGBE_WRITE_REG a IXGBE_GCR_EXT 0 in
  let gpie := Z.land (IXGBE_READ_REG a IXGBE_GPIE) (not32 IXGBE_GPIE_VTMODE_MASK) in
  let a := IXGBE_WRITE_REG a IXGBE_GPIE gpie in
  let vmdctl := Z.land (IXGBE_READ_REG a IXGBE_VT_CTL) (not32 IXGBE_VT_CTL_POOL_MASK) in
  IXGBE_WRITE_REG a IXGBE_VT_CTL vmdctl.

Definition sriov_flags_off (a : ixgbe_adapter) : ixgbe_adapter :=
  let f := flags a in
  let a := set_flags a
    {| IXGBE_FLAG_SRIOV_CAPABLE := IXGBE_FLAG_SRIOV_CAPABLE f;
       IXGBE_FLAG_SRIOV_ENABLED := false;
       IXGBE_FLAG_VMDQ_ENABLED :=
         if rf_limit (vmdq a) =? 1 then false else IXGBE_FLAG_VMDQ_ENABLED f;
       IXGBE_FLAG_SRIOV_L2SWITCH_ENABLE := IXGBE_FLAG_SRIOV_L2SWITCH_ENABLE f;
       IXGBE_FLAG_SRIOV_REPLICATION_ENABLE := IXGBE_FLAG_SRIOV_REPLICATION_ENABLE f;
       IXGBE_FLAG_MDD_ENABLED := IXGBE_FLAG_MDD_ENABLED f |} in
  set_vmdq a {| rf_limit := rf_limit (vmdq a); rf_offset := 0;
                rf_mask := rf_mask (vmdq a) |}.

Lemma ixgbe_disable_sriov_unfold (a : ixgbe_adapter) :
  vf_table_covers a ->
  ixgbe_disable_sriov a =
    let a0 := set_mv_list (set_vfinfo (set_num_vfs a 0) None) None in
    if negb (IXGBE_FLAG_SRIOV_ENABLED (flags a)) then Some (a0, 0) else
    let a1 := disable_mdd_step a0 in
    if vfs_assigned (pdev a) then Some (a1, - EPERM) else
    Some (sriov_flags_off (vt_mode_off (set_pdev a1 (pci_disable_sriov (pdev a)))), 0).
Proof.
  intros Hcov. unfold ixgbe_disable_sriov.
  assert (Hok : (if num_vfs a <=? 0 then true
                 else match vfinfo (set_num_vfs a 0) with
                      | Some t => num_vfs a <=? Z.of_nat (length t)
                      | None => false
                      end) = true).
  { cbn [vfinfo set_num_vfs]. destruct Hcov as [H0 | (t & Ht & Hl)].
    - apply Z.leb_le in H0. rewrite H0. reflexivity.
    - rewrite Ht. apply Z.leb_le in Hl. rewrite Hl. destruct (num_vfs a <=? 0); reflexivity. }
  cbv zeta. rewrite Hok. cbn [negb].
  change (flags (set_mv_list (set_vfinfo (set_num_vfs a 0) None) None)) with (flags a).
  destruct (negb (IXGBE_FLAG_SRIOV_ENABLED (flags a))); [reflexivity |].
  unfold disable_mdd_step.
  change (flags (set_mv_list (set_vfinfo (set_num_vfs a 0) None) None)) with (flags a).
  destruct (disable_mdd ops) as [f |];
    [destruct (negb (IXGBE_FLAG_MDD_ENABLED (flags a))) |];
    cbn [pdev set_regs set_hw set_mv_list set_vfinfo set_num_vfs];
    destruct (vfs_assigned (pdev a)); reflexivity.
Qed.

Lemma vt_mode_off_regs (a : ixgbe_adapter) :
  IXGBE_READ_REG (vt_mode_off a) IXGBE_GCR_EXT = 0 /\
  Z.land (IXGBE_READ_REG (vt_mode_off a) IXGBE_GPIE) IXGBE_GPIE_VTMODE_MASK = 0 /\
  Z.land (IXGBE_READ_REG (vt_mode_off a) IXGBE_VT_CTL) IXGBE_VT_CTL_POOL_MASK = 0.
Proof.
  unfold vt_mode_off. cbv zeta.
  set (a1 := IXGBE_WRITE_REG a IXGBE_GCR_EXT 0).
  set (a2 := IXGBE_WRITE_REG a1 IXGBE_GPIE _).
  split; [| split].
  - rewrite read_write_reg_ne by discriminate. subst a2.
    rewrite read_write_reg_ne by discriminate. subst a1. apply read_write_reg_eq.
  - rewrite read_write_reg_ne by discriminate. subst a2. rewrite read_write_reg_eq.
    apply land_not32_clears. vm_compute. split; [discriminate | reflexivity].
  - rewrite read_write_reg_eq.
    apply land_not32_clears. vm_compute. split; [discriminate | reflexivity].
Qed.

(** What a disable that is not refused leaves behind. *)
Lemma ixgbe_disable_sriov_done (a : ixgbe_adapter) :
  vf_table_covers a ->
  IXGBE_FLAG_SRIOV_ENABLED (flags a) = true ->
  vfs_assigned (pdev a) = false ->
  exists a',
    ixgbe_disable_sriov a = Some (a', 0) /\
    num_vfs a' = 0 /\ vfinfo a' = None /\ mv_list a' = None /\
    IXGBE_FLAG_SRIOV_ENABLED (flags a') = false /\
    IXGBE_FLAG_VMDQ_ENABLED (flags a') =
      (if rf_limit (vmdq a) =? 1 then false else IXGBE_FLAG_VMDQ_ENABLED (flags a)) /\
    IXGBE_FLAG_SRIOV_L2SWITCH_ENABLE (flags a') = IXGBE_FLAG_SRIOV_L2SWITCH_ENABLE (flags a) /\
    rf_offset (vmdq a') = 0 /\ rf_limit (vmdq a') = rf_limit (vmdq a) /\
    pdev a' = pci_disable_sriov (pdev a) /\
    flags2 a' = flags2 a /\ pg_tcs a' = pg_tcs a /\ vt_mode a' = vt_mode a /\
    IXGBE_READ_REG a' IXGBE_GCR_EXT = 0 /\
    Z.land (IXGBE_READ_REG a' IXGBE_GPIE) IXGBE_GPIE_VTMODE_MASK = 0 /\
    Z.land (IXGBE_READ_REG a' IXGBE_VT_CTL) IXGBE_VT_CTL_POOL_MASK = 0.
Proof.
  intros Hcov Hen Has. rewrite (ixgbe_disable_sriov_unfold a Hcov). cbv zeta.
  rewrite Hen, Has. cbn [negb].
  set (a1 := disable_mdd_step _).
  assert (Hfr : flags a1 = flags a /\ vmdq a1 = vmdq a /\ flags2 a1 = flags2 a /\
                pg_tcs a1 = pg_tcs a /\ vt_mode a1 = vt_mode a /\
                num_vfs a1 = 0 /\ vfinfo a1 = None /\ mv_list a1 = None).
  { subst a1. unfold disable_mdd_step.
    destruct (disable_mdd ops); [destruct (negb _) |]; repeat split. }
  destruct Hfr as (F1 & F2 & F3 & F4 & F5 & F6 & F7 & F8).
  set (a2 := set_pdev a1 (pci_disable_sriov (pdev a))).
  destruct (vt_mode_off_regs a2) as (R1 & R2 & R3).
  eexists. split; [reflexivity |].
  repeat split; try assumption;
    try (cbn; first [exact F6 | exact F7 | exact F8 | exact F3 | exact F4 | exact F5]).
  - cbn. rewrite F2, F1. reflexivity.
  - cbn. rewrite F1. reflexivity.
  - cbn. rewrite F2. reflexivity.
Qed.

(** X14.  Disable after enable: when no VF is assigned to a guest, the
    disable that follows a successful enable step returns 0 with the VF
    count 0, the table and the MAC-VLAN list freed, SRIOV_ENABLED off, the
    VMDq offset back to 0, the PCI VFs disabled and the VT-mode fields of
    GPIE and VT_CTL cleared.  It does not undo everything the enable step
    did: L2 switching stays flagged, RSC stays not capable, and the DCB
    limits stay the ones chosen for n VFs. *)
Theorem disable_after_enable (mem : kmem) (a : ixgbe_adapter) (n : Z) :
  xdp_prog a = false ->
  kcalloc_vfinfo_ok mem = true ->
  0 <= n ->
  vfs_assigned (pdev a) = false ->
  let a1 := fst (__ixgbe_enable_sriov mem a n) in
  exists a2,
    ixgbe_disable_sriov a1 = Some (a2, 0) /\
    num_vfs a2 = 0 /\ vfinfo a2 = None /\ mv_list a2 = None /\
    IXGBE_FLAG_SRIOV_ENABLED (flags a2) = false /\
    rf_offset (vmdq a2) = 0 /\
    pdev a2 = pci_disable_sriov (pdev a) /\
    Z.land (IXGBE_READ_REG a2 IXGBE_GPIE) IXGBE_GPIE_VTMODE_MASK = 0 /\
    Z.land (IXGBE_READ_REG a2 IXGBE_VT_CTL) IXGBE_VT_CTL_POOL_MASK = 0 /\
    IXGBE_FLAG_SRIOV_L2SWITCH_ENABLE (flags a2) = true /\
    IXGBE_FLAG2_RSC_CAPABLE (flags2 a2) = false /\
    vt_mode a2 = true /\ pg_tcs a2 = pg_tcs a1.
Proof.
  intros Hx Hmem Hn Has a1.
  destruct (enable_sriov_outcome mem a n Hx Hmem)
    as (a' & He & Hnv & Hv & _ & Hen & Hl2 & _ & Hrsc & Hvt & _ & _ & Hpd & _).
  subst a1. rewrite He. cbn [fst].
  assert (Hcov : vf_table_covers a').
  { right. eexists. split; [exact Hv |]. rewrite length_replicate. lia. }
  rewrite <- Hpd in Has.
  destruct (ixgbe_disable_sriov_done a' Hcov Hen Has)
    as (a2 & Hd & D1 & D2 & D3 & D4 & _ & D6 & D7 & _ & D9 & D10 & D11 & D12 & _ & D14 & D15).
  exists a2. rewrite Hpd in D9.
  repeat split; try assumption; congruence.
Qed.

(** ** The VF devices on the bus *)

(* the devices [ixgbe_get_vfs] does not skip: virtual functions of this PF *)
Definition vf_devices (p : pci_dev) : list Z :=
  (fun d => fst (fst d)) <$>
    List.filter (fun d : Z * bool * bool => snd (fst d) && snd d) (bus_vf_devices p).

Lemma get_vfs_walk_spec (n : Z) (devs : list (Z * bool * bool)) :
  forall (vf : nat) (t : list vf_data_storage),
    n <= Z.of_nat (length t) ->
    let hs := take (Z.to_nat n - vf)
                ((fun d => fst (fst d)) <$>
                   List.filter (fun d : Z * bool * bool => snd (fst d) && snd d) devs) in
    exists t',
      ixgbe_get_vfs_walk devs n vf (Some t) = Some (Some t') /\
      length t' = length t /\
      forall i r, t !! i = Some r ->
        t' !! i = Some (if (vf <=? i)%nat
                        then match hs !! (i - vf)%nat with
                             | Some h => vf_set_vfdev r (Some h)
                             | None => r
                             end
                        else r).
Proof.
  induction devs as [| [[h v] p] devs IH]; intros vf t Hn; cbv zeta.
  - exists t. cbn [ixgbe_get_vfs_walk List.filter fmap list_fmap]. rewrite take_nil.
    repeat split. intros i r Hi. rewrite lookup_nil, Hi. destruct (vf <=? i)%nat; reflexivity.
  - cbn [ixgbe_get_vfs_walk List.filter fst snd].
    destruct v; cbn [negb andb]; [| apply IH; exact Hn].
    destruct p; cbn [negb]; [| apply IH; exact Hn].
    cbn [fmap list_fmap fst].
    destruct (n <=? Z.of_nat vf) eqn:Hfull.
    + apply Z.leb_le in Hfull.
      destruct (IH vf t Hn) as (t' & Hw & Hl & Hs). cbv zeta in Hs.
      exists t'. split; [exact Hw |]. split; [exact Hl |].
      replace (Z.to_nat n - vf)%nat with 0%nat in * by lia.
      rewrite take_0 in *. exact Hs.
    + apply Z.leb_gt in Hfull.
      destruct (lookup_lt_is_Some_2 t vf ltac:(lia)) as [r0 Hr0].
      cbn [mbind option_bind]. rewrite Hr0. cbn [mbind option_bind].
      set (t1 := <[vf := vf_set_vfdev r0 (Some h)]> t).
      assert (Hn1 : n <= Z.of_nat (length t1)) by (subst t1; rewrite length_insert; exact Hn).
      destruct (IH (S vf) t1 Hn1) as (t' & Hw & Hl & Hs). cbv zeta in Hs.
      exists t'. split; [exact Hw |].
      split; [rewrite Hl; subst t1; apply length_insert |].
      intros i r Hi.
      replace (Z.to_nat n - vf)%nat with (S (Z.to_nat n - S vf)) by lia.
      rewrite firstn_cons.
      destruct (Nat.eq_dec i vf) as [-> | Hne].
      * assert (H1 : t1 !! vf = Some (vf_set_vfdev r0 (Some h))).
        { subst t1. apply list_lookup_insert_eq. eapply lookup_lt_Some; exact Hr0. }
        rewrite (Hs vf _ H1).
        replace (S vf <=? vf)%nat with false by (symmetry; apply Nat.leb_gt; lia).
        rewrite Nat.leb_refl, Nat.sub_diag. cbn [lookup list_lookup]. congruence.
      * assert (H1 : t1 !! i = Some r).
        { subst t1. rewrite list_lookup_insert_ne by congruence. exact Hi. }
        rewrite (Hs i r H1).
        destruct (S vf <=? i)%nat eqn:Hle.
        -- apply Nat.leb_le in Hle.
           replace (vf <=? i)%nat with true by (symmetry; apply Nat.leb_le; lia).
           replace (i - vf)%nat with (S (i - S vf)) by lia. reflexivity.
        -- apply Nat.leb_gt in Hle.
           replace (vf <=? i)%nat with false by (symmetry; apply Nat.leb_gt; lia).
           reflexivity.
Qed.

(** X15.  [ixgbe_get_vfs] takes a reference to at most num_vfs devices, in
    the order the bus yields them, and only to virtual functions of this
    PF: when the table covers num_vfs, record i gets the i-th such device
    for every i below num_vfs for which there is one, every other record
    and field is unchanged, and the call is defined.  Without the SR-IOV
    capability nothing is done. *)
Theorem get_vfs_takes_own_vfs_in_bus_order (a : ixgbe_adapter) (t : list vf_data_storage) :
  vfinfo a = Some t ->
  num_vfs a <= Z.of_nat (length t) ->
  (sriov_cap (pdev a) = false -> ixgbe_get_vfs a = Some a) /\
  (sriov_cap (pdev a) = true ->
   exists t',
     ixgbe_get_vfs a = Some (set_vfinfo a (Some t')) /\
     length t' = length t /\
     forall i r, t !! i = Some r ->
       t' !! i = Some (match take (Z.to_nat (num_vfs a)) (vf_devices (pdev a)) !! i with
                       | Some h => vf_set_vfdev r (Some h)
                       | None => r
                       end)).
Proof.
  intros Ht Hn. unfold ixgbe_get_vfs. split; intros Hcap; rewrite Hcap; cbn [negb].
  - reflexivity.
  - rewrite Ht.
    destruct (get_vfs_walk_spec (num_vfs a) (bus_vf_devices (pdev a)) 0 t Hn)
      as (t' & Hw & Hl & Hs).
    cbv zeta in Hs. rewrite Hw. cbn [mbind option_bind].
    exists t'. split; [reflexivity |]. split; [exact Hl |].
    intros i r Hi. rewrite (Hs i r Hi). cbn [Nat.leb].
    rewrite !Nat.sub_0_r. reflexivity.
Qed.

Lemma get_vfs_total (a : ixgbe_adapter) (t : list vf_data_storage) :
  vfinfo a = Some t ->
  num_vfs a <= Z.of_nat (length t) ->
  exists t',
    ixgbe_get_vfs a = Some (set_vfinfo a (Some t')) /\ length t' = length t.
Proof.
  intros Ht Hn. unfold ixgbe_get_vfs. destruct (sriov_cap (pdev a)); cbn [negb].
  - rewrite Ht.
    destruct (get_vfs_walk_spec (num_vfs a) (bus_vf_devices (pdev a)) 0 t Hn)
      as (t' & Hw & Hl & _).
    rewrite Hw. cbn [mbind option_bind]. exists t'. split; [reflexivity | exact Hl].
  - exists t. split; [| reflexivity]. rewrite <- Ht. destruct a. reflexivity.
Qed.

Lemma u32_small (x : Z) : 0 <= x < 2 ^ 32 -> u32 x = x.
Proof. intros H. unfold u32. apply Z.mod_small. exact H. Qed.

Lemma truthy_nonzero (x : Z) : x <> 0 -> truthy x = true.
Proof. intros H. unfold truthy. apply negb_true_iff, Z.eqb_neq. exact H. Qed.

(** X16.  Enabling through the module parameter: VFs that already exist at
    the PCI level are taken over as they are, whatever max_vfs says and
    without calling pci_enable_sriov; otherwise the number enabled is
    max_vfs cut to the driver limit of 63; with neither, nothing is done.
    In the two enabling cases the call is defined and the table has one
    record per VF. *)
Theorem enable_sriov_vf_count (mem : kmem) (a : ixgbe_adapter) :
  xdp_prog a = false ->
  kcalloc_vfinfo_ok mem = true ->
  let pre := sriov_num_vfs (pdev a) in
  (0 < pre < 2 ^ 31 ->
   exists a' t,
     ixgbe_enable_sriov mem a = Some a' /\ num_vfs a' = pre /\ pdev a' = pdev a /\
     vfinfo a' = Some t /\ length t = Z.to_nat pre) /\
  (pre = 0 -> 0 < max_vfs a < 2 ^ 32 ->
   snd (pci_enable_sriov (pdev a) (Z.min (max_vfs a) IXGBE_MAX_VFS_DRV_LIMIT)) = 0 ->
   exists a' t,
     ixgbe_enable_sriov mem a = Some a' /\
     num_vfs a' = Z.min (max_vfs a) IXGBE_MAX_VFS_DRV_LIMIT /\
     num_vfs a' <= IXGBE_MAX_VFS_DRV_LIMIT /\
     pdev a' = fst (pci_enable_sriov (pdev a) (Z.min (max_vfs a) IXGBE_MAX_VFS_DRV_LIMIT)) /\
     vfinfo a' = Some t /\ length t = Z.to_nat (num_vfs a')) /\
  (pre = 0 -> max_vfs a = 0 -> ixgbe_enable_sriov mem a = Some a).
Proof.
  intros Hx Hmem pre. subst pre. unfold ixgbe_enable_sriov. cbv zeta.
  split; [| split].
  - intros Hpre. rewrite (truthy_nonzero (sriov_num_vfs (pdev a))) by lia.
    cbn [negb andb]. change (truthy 0) with false. cbv iota.
    rewrite u32_small by lia.
    destruct (enable_sriov_outcome mem a (sriov_num_vfs (pdev a)) Hx Hmem)
      as (a1 & He & Hn & Hv & _ & _ & _ & _ & _ & _ & _ & _ & Hpd & _).
    rewrite He. change (truthy 0) with false. cbn [negb].
    assert (Hcov : num_vfs a1 <= Z.of_nat (length (replicate (Z.to_nat (sriov_num_vfs (pdev a)))
                                                     vf_fresh))).
    { rewrite length_replicate. lia. }
    destruct (get_vfs_total a1 _ Hv Hcov) as (t' & Hg & Hl).
    rewrite Hg. do 2 eexists. split; [reflexivity |].
    repeat split; [exact Hn | exact Hpd |]. rewrite Hl. apply length_replicate.
  - intros Hpre Hmax Hpci. rewrite Hpre.
    change (truthy 0) with false. cbn [negb andb].
    rewrite (truthy_nonzero (max_vfs a)) by lia. cbn [negb].
    rewrite u32_small by lia.
    set (n := Z.min (max_vfs a) IXGBE_MAX_VFS_DRV_LIMIT) in *.
    destruct (pci_enable_sriov (pdev a) n) as [p err]. cbn [fst snd] in *. subst err.
    change (truthy 0) with false. cbv iota.
    destruct (enable_sriov_outcome mem (set_pdev a p) n Hx Hmem)
      as (a1 & He & Hn & Hv & _ & _ & _ & _ & _ & _ & _ & _ & Hpd & _).
    rewrite He. change (truthy 0) with false. cbn [negb].
    assert (Hn0 : 0 <= n) by (subst n; unfold IXGBE_MAX_VFS_DRV_LIMIT; lia).
    assert (Hcov : num_vfs a1 <= Z.of_nat (length (replicate (Z.to_nat n) vf_fresh))).
    { rewrite length_replicate. lia. }
    destruct (get_vfs_total a1 _ Hv Hcov) as (t' & Hg & Hl).
    rewrite Hg. do 2 eexists. split; [reflexivity |].
    repeat split; [exact Hn | cbn; rewrite Hn; subst n; lia | exact Hpd |].
    rewrite Hl, length_replicate. cbn. rewrite Hn. reflexivity.
  - intros Hpre Hmax. rewrite Hpre, Hmax. reflexivity.
Qed.

(** X17.  When the enable step fails after pci_enable_sriov has succeeded,
    what is cleaned up depends on where it failed.  If it is refused
    because an XDP program is attached, SRIOV_ENABLED was never set, so the
    disable that follows returns before pci_disable_sriov: the VFs stay
    enabled at the PCI level while the driver has none.  If the allocation
    of the table fails, the flag is already set and the disable goes all the
    way: the PCI VFs are disabled again and the flag is cleared. *)
Theorem enable_sriov_failure_cleanup (mem : kmem) (a : ixgbe_adapter) :
  sriov_num_vfs (pdev a) = 0 ->
  0 < max_vfs a < 2 ^ 32 ->
  num_vfs a = 0 ->
  let n := Z.min (max_vfs a) IXGBE_MAX_VFS_DRV_LIMIT in
  let p1 := fst (pci_enable_sriov (pdev a) n) in
  snd (pci_enable_sriov (pdev a) n) = 0 ->
  (xdp_prog a = true -> IXGBE_FLAG_SRIOV_ENABLED (flags a) = false ->
   exists a',
     ixgbe_enable_sriov mem a = Some a' /\ pdev a' = p1 /\ flags a' = flags a /\
     num_vfs a' = 0 /\ vfinfo a' = None) /\
  (xdp_prog a = false -> kcalloc_vfinfo_ok mem = false -> vfs_assigned p1 = false ->
   exists a',
     ixgbe_enable_sriov mem a = Some a' /\ pdev a' = pci_disable_sriov p1 /\
     IXGBE_FLAG_SRIOV_ENABLED (flags a') = false /\
     num_vfs a' = 0 /\ vfinfo a' = None).
Proof.
  intros Hpre Hmax Hnv n p1 Hpci.
  assert (Hstart : forall k : ixgbe_adapter * Z * Z -> option ixgbe_adapter,
             (if negb (truthy (sriov_num_vfs (pdev a))) && negb (truthy (max_vfs a))
              then Some a
              else k (if truthy (sriov_num_vfs (pdev a))
                      then (a, u32 (sriov_num_vfs (pdev a)), 0)
                      else let num_vfs := Z.min (u32 (max_vfs a)) IXGBE_MAX_VFS_DRV_LIMIT in
                           let '(p, err) := pci_enable_sriov (pdev a) num_vfs in
                           (set_pdev a p, num_vfs, err))) =
             k (set_pdev a p1, n, 0)).
  { intros k. rewrite Hpre. change (truthy 0) with false. cbn [negb andb].
    rewrite (truthy_nonzero (max_vfs a)) by lia. cbn [negb]. cbv zeta.
    rewrite u32_small by lia. fold n. subst p1.
    destruct (pci_enable_sriov (pdev a) n) as [p err]. cbn [fst snd] in *. subst err.
    reflexivity. }
  unfold ixgbe_enable_sriov. cbv zeta.
  split.
  - intros Hx Hen.
    rewrite (Hstart (fun s => let '(a, num_vfs, err) := s in
                              if truthy err then Some a
                              else let '(a, rc) := __ixgbe_enable_sriov mem a num_vfs in
                                   if negb (truthy rc) then ixgbe_get_vfs a
                                   else fst <$> ixgbe_disable_sriov a)).
    change (truthy 0) with false. cbv iota.
    unfold __ixgbe_enable_sriov.
    change (xdp_prog (set_pdev a p1)) with (xdp_prog a). rewrite Hx.
    change (truthy (- EINVAL)) with true. cbn [negb].
    rewrite ixgbe_disable_sriov_unfold by (left; cbn; lia).
    cbv zeta. change (flags (set_pdev a p1)) with (flags a). rewrite Hen. cbn [negb].
    eexists. split; [reflexivity |]. repeat split.
  - intros Hx Hmem Has.
    rewrite (Hstart (fun s => let '(a, num_vfs, err) := s in
                              if truthy err then Some a
                              else let '(a, rc) := __ixgbe_enable_sriov mem a num_vfs in
                                   if negb (truthy rc) then ixgbe_get_vfs a
                                   else fst <$> ixgbe_disable_sriov a)).
    change (truthy 0) with false. cbv iota.
    unfold __ixgbe_enable_sriov.
    change (xdp_prog (set_pdev a p1)) with (xdp_prog a). rewrite Hx, Hmem. cbn [negb].
    cbv zeta. rewrite vmdq_limit_eq.
    change (truthy (- ENOMEM)) with true. cbn [negb].
    match goal with
    | |- context [ixgbe_disable_sriov ?b] => set (b1 := b)
    end.
    assert (Hcov : vf_table_covers b1) by (left; subst b1; cbn; lia).
    assert (Hen1 : IXGBE_FLAG_SRIOV_ENABLED (flags b1) = true) by reflexivity.
    assert (Has1 : vfs_assigned (pdev b1) = false) by exact Has.
    destruct (ixgbe_disable_sriov_done b1 Hcov Hen1 Has1)
      as (a' & Hd & D1 & D2 & _ & D4 & _ & _ & _ & _ & D9 & _).
    rewrite Hd. exists a'. cbn [fmap option_fmap option_map fst].
    repeat split; assumption.
Qed.

(** ** The PF's administrative setters *)

Lemma vf_index_ok (a : ixgbe_adapter) (vf : Z) :
  0 <= vf < num_vfs a -> (vf <? 0) || (num_vfs a <=? vf) = false.
Proof. intros H. apply orb_false_iff. split; [apply Z.ltb_ge | apply Z.leb_gt]; lia. Qed.

Lemma vf_index_bad (a : ixgbe_adapter) (vf : Z) :
  vf < 0 \/ num_vfs a <= vf -> (vf <? 0) || (num_vfs a <=? vf) = true.
Proof.
  intros H. apply orb_true_iff.
  destruct H; [left; apply Z.ltb_lt | right; apply Z.leb_le]; assumption.
Qed.

(** X18.  A MAC address set by the PF is pinned: when the backend accepts
    the valid address, [ixgbe_ndo_set_vf_mac] stores it with pf_set_mac
    on, and from then on every SET_MAC_ADDR message of that VF, if it is
    not trusted, that names another address is refused with -1 and changes
    nothing. *)
Theorem ndo_set_vf_mac_pins_address
    (a : ixgbe_adapter) (vf : Z) (mac : ether_addr) (r : vf_data_storage) :
  0 <= vf < num_vfs a ->
  vf_get a (Z.to_nat vf) = Some r ->
  is_valid_ether_addr mac = true ->
  0 <= snd (add_mac_filter (fst (del_mac_filter a (vf_mac_addresses r) (Z.to_nat vf)))
              mac (Z.to_nat vf)) ->
  exists a' rc,
    ixgbe_ndo_set_vf_mac a vf mac = Some (a', rc) /\ 0 <= rc /\
    vf_get a' (Z.to_nat vf) = Some (vf_set_pf_set_mac (vf_set_mac r mac) true) /\
    (trusted r = false ->
     forall msgbuf,
       mac_of_words (word msgbuf 1) (word msgbuf 2) <> mac ->
       ixgbe_set_vf_mac_addr a' msgbuf (Z.to_nat vf) = Some (a', msgbuf, -1)).
Proof.
  intros Hvf Hr Hvalid Hadd. unfold ixgbe_ndo_set_vf_mac.
  rewrite (vf_index_ok a vf Hvf), Hvalid. cbv zeta.
  rewrite (ixgbe_set_vf_mac_eq a (Z.to_nat vf) mac r Hr). cbv zeta.
  set (a1 := fst (del_mac_filter a (vf_mac_addresses r) (Z.to_nat vf))) in *.
  set (rc := snd (add_mac_filter a1 mac (Z.to_nat vf))) in *.
  set (a2 := fst (add_mac_filter a1 mac (Z.to_nat vf))).
  assert (Hrc : (0 <=? rc) = true) by (apply Z.leb_le; exact Hadd).
  cbn [mbind option_bind]. rewrite Hrc.
  assert (Hk : keeps_sw a a2).
  { eapply keeps_sw_trans; [apply keeps_sw_del_mac_filter | apply keeps_sw_add_mac_filter]. }
  assert (Hg2 : vf_get a2 (Z.to_nat vf) = Some r)
    by (rewrite (keeps_sw_vf_get _ _ _ Hk); exact Hr).
  set (a3 := vf_put a2 (Z.to_nat vf) (vf_set_mac r mac)).
  assert (Hg3 : vf_get a3 (Z.to_nat vf) = Some (vf_set_mac r mac))
    by (eapply vf_get_put; exact Hg2).
  rewrite Hg3. cbn [mbind option_bind].
  set (a4 := vf_put a3 (Z.to_nat vf) (vf_set_pf_set_mac (vf_set_mac r mac) true)).
  assert (Hg4 : vf_get a4 (Z.to_nat vf) = Some (vf_set_pf_set_mac (vf_set_mac r mac) true))
    by (eapply vf_get_put; exact Hg3).
  exists a4, rc. split; [reflexivity |]. split; [exact Hadd |]. split; [exact Hg4 |].
  intros Htr msgbuf Hne. unfold ixgbe_set_vf_mac_addr. cbv zeta.
  destruct (negb (is_valid_ether_addr _)); [reflexivity |].
  rewrite Hg4. cbn [mbind option_bind].
  cbn [pf_set_mac trusted vf_mac_addresses vf_set_pf_set_mac vf_set_mac].
  rewrite Htr. cbn [negb andb]. unfold memcmp_ne.
  rewrite bool_decide_eq_false_2 by congruence. reflexivity.
Qed.

(** X19.  Removing a VF's MAC with the all-zero address.  When the stored
    address is not zero and the backend removes its filter, the address is
    cleared and the pin is lifted; when the backend fails to remove the
    filter, its error is returned and the record keeps the address and the
    pin.  When the stored address is already zero the call returns 0 having
    done nothing, the pin flag included: a VF that is pinned, not trusted
    and without an address stays unable to set one, every SET_MAC_ADDR from
    it is refused.  An address that is neither valid nor zero returns
    -EINVAL, and so does a VF index outside the table. *)
Theorem ndo_set_vf_mac_zero_address
    (a : ixgbe_adapter) (vf : Z) (r : vf_data_storage) :
  0 <= vf < num_vfs a ->
  vf_get a (Z.to_nat vf) = Some r ->
  (is_zero_ether_addr (vf_mac_addresses r) = false ->
   0 <= snd (del_mac_filter a (vf_mac_addresses r) (Z.to_nat vf)) ->
   exists a' rc,
     ixgbe_ndo_set_vf_mac a vf zero_addr = Some (a', rc) /\ 0 <= rc /\
     vf_get a' (Z.to_nat vf) = Some (vf_set_mac (vf_set_pf_set_mac r false) zero_addr)) /\
  (is_zero_ether_addr (vf_mac_addresses r) = false ->
   snd (del_mac_filter a (vf_mac_addresses r) (Z.to_nat vf)) < 0 ->
   exists a',
     ixgbe_ndo_set_vf_mac a vf zero_addr
       = Some (a', snd (del_mac_filter a (vf_mac_addresses r) (Z.to_nat vf))) /\
     vf_get a' (Z.to_nat vf) = Some r) /\
  (is_zero_ether_addr (vf_mac_addresses r) = true ->
   ixgbe_ndo_set_vf_mac a vf zero_addr = Some (a, 0) /\
   (pf_set_mac r = true -> trusted r = false ->
    forall msgbuf, ixgbe_set_vf_mac_addr a msgbuf (Z.to_nat vf) = Some (a, msgbuf, -1))) /\
  (forall mac, is_valid_ether_addr mac = false -> is_zero_ether_addr mac = false ->
   ixgbe_ndo_set_vf_mac a vf mac = Some (a, - EINVAL)) /\
  (forall bad mac, bad < 0 \/ num_vfs a <= bad ->
   ixgbe_ndo_set_vf_mac a bad mac = Some (a, - EINVAL)).
Proof.
  intros Hvf Hr. unfold ixgbe_ndo_set_vf_mac.
  split; [| split; [| split; [| split]]].
  - intros Hnz Hdel. rewrite (vf_index_ok a vf Hvf). cbv zeta.
    change (is_valid_ether_addr zero_addr) with false.
    change (is_zero_ether_addr zero_addr) with true. cbv iota.
    rewrite Hr. cbn [mbind option_bind]. rewrite Hnz.
    pose proof (keeps_sw_del_mac_filter a (vf_mac_addresses r) (Z.to_nat vf)) as Hk.
    destruct (del_mac_filter a (vf_mac_addresses r) (Z.to_nat vf)) as [a1 rc].
    cbn [fst snd] in *. apply Z.leb_le in Hdel. rewrite Hdel.
    do 2 eexists. split; [reflexivity |]. split; [apply Z.leb_le; exact Hdel |].
    eapply vf_get_put. rewrite (keeps_sw_vf_get _ _ _ Hk). exact Hr.
  - intros Hnz Hdel. rewrite (vf_index_ok a vf Hvf). cbv zeta.
    change (is_valid_ether_addr zero_addr) with false.
    change (is_zero_ether_addr zero_addr) with true. cbv iota.
    rewrite Hr. cbn [mbind option_bind]. rewrite Hnz.
    pose proof (keeps_sw_del_mac_filter a (vf_mac_addresses r) (Z.to_nat vf)) as Hk.
    destruct (del_mac_filter a (vf_mac_addresses r) (Z.to_nat vf)) as [a1 rc].
    cbn [fst snd] in *.
    assert (Hneg : (0 <=? rc) = false) by (apply Z.leb_gt; exact Hdel).
    rewrite Hneg. exists a1. split; [reflexivity |].
    rewrite (keeps_sw_vf_get _ _ _ Hk). exact Hr.
  - intros Hz. rewrite (vf_index_ok a vf Hvf). cbv zeta.
    change (is_valid_ether_addr zero_addr) with false.
    change (is_zero_ether_addr zero_addr) with true. cbv iota.
    rewrite Hr. cbn [mbind option_bind]. rewrite Hz.
    split; [reflexivity |].
    intros Hpin Htr msgbuf. unfold ixgbe_set_vf_mac_addr. cbv zeta.
    destruct (is_valid_ether_addr _) eqn:Hv; [| reflexivity]. cbn [negb].
    rewrite Hr. cbn [mbind option_bind]. rewrite Hpin, Htr. cbn [negb andb].
    unfold memcmp_ne. rewrite bool_decide_eq_false_2; [reflexivity |].
    intros Heq. rewrite <- Heq in Hv. unfold is_valid_ether_addr in Hv.
    rewrite Hz in Hv. rewrite andb_false_r in Hv. discriminate.
  - intros mac Hv Hz. rewrite (vf_index_ok a vf Hvf). cbv zeta. rewrite Hv, Hz. reflexivity.
  - intros bad mac Hbad. rewrite (vf_index_bad a bad Hbad). reflexivity.
Qed.

(** X20.  Changing a VF's trust forces it through the reset handshake
    again: the record gets the new setting with clear_to_send off, the VF is
    pinged with the control word without CTS, nothing else changes, and
    from then on a message of that VF that is not RESET only gets the
    FAILURE reply.  A call that does not change the setting does nothing;
    a VF index outside the table returns -EINVAL. *)
Theorem ndo_set_vf_trust_forces_handshake
    (a : ixgbe_adapter) (vf : Z) (setting : bool) (r : vf_data_storage) :
  0 <= vf < num_vfs a ->
  vf_get a (Z.to_nat vf) = Some r ->
  (trusted r = setting -> ixgbe_ndo_set_vf_trust a vf setting = Some (a, 0)) /\
  (trusted r <> setting ->
   exists a',
     ixgbe_ndo_set_vf_trust a vf setting = Some (a', 0) /\
     vf_get a' (Z.to_nat vf) = Some (vf_set_cts (vf_set_trusted r setting) false) /\
     (forall v, v <> Z.to_nat vf -> vf_get a' v = vf_get a v) /\
     regs (hw a') = regs (hw a) /\
     mbx_out (hw a') = mbx_out (hw a) ++ [(Z.to_nat vf, [IXGBE_PF_CONTROL_MSG])] /\
     forall mbx_buf,
       let w0 := word (rx_buffer mbx_buf) 0 in
       already_tagged w0 = false -> w0 <> IXGBE_VF_RESET ->
       exists a2,
         ixgbe_rcv_msg_from_vf a' (Z.to_nat vf) 0 mbx_buf = Some (a2, 0) /\
         vfinfo a2 = vfinfo a' /\
         mbx_out (hw a2) =
           mbx_out (hw a') ++ [(Z.to_nat vf, [Z.lor w0 IXGBE_VT_MSGTYPE_FAILURE])]) /\
  (forall bad, bad < 0 \/ num_vfs a <= bad ->
   ixgbe_ndo_set_vf_trust a bad setting = Some (a, - EINVAL)).
Proof.
  intros Hvf Hr. unfold ixgbe_ndo_set_vf_trust.
  split; [| split].
  - intros Hsame. rewrite (vf_index_ok a vf Hvf). cbv zeta. rewrite Hr.
    cbn [mbind option_bind]. rewrite bool_decide_eq_true_2 by exact Hsame. reflexivity.
  - intros Hdiff. rewrite (vf_index_ok a vf Hvf). cbv zeta. rewrite Hr.
    cbn [mbind option_bind]. rewrite bool_decide_eq_false_2 by exact Hdiff.
    set (v := Z.to_nat vf) in *.
    set (a1 := vf_put a v (vf_set_trusted r setting)).
    assert (Hg1 : vf_get a1 v = Some (vf_set_trusted r setting))
      by (eapply vf_get_put; exact Hr).
    rewrite Hg1. cbn [mbind option_bind].
    set (a2 := vf_put a1 v (vf_set_cts (vf_set_trusted r setting) false)).
    assert (Hg2 : vf_get a2 v = Some (vf_set_cts (vf_set_trusted r setting) false))
      by (eapply vf_get_put; exact Hg1).
    unfold ixgbe_ping_vf. rewrite Hg2. cbn [mbind option_bind clear_to_send vf_set_cts].
    eexists. split; [reflexivity |].
    set (a3 := write_mbx a2 _ 1 v).
    assert (Hg3 : vf_get a3 v = Some (vf_set_cts (vf_set_trusted r setting) false)) by exact Hg2.
    split; [exact Hg3 |]. split.
    { intros v' Hne. change (vf_get a3 v') with (vf_get a2 v'). subst a2 a1.
      rewrite !vf_get_put_ne by exact Hne. reflexivity. }
    split; [reflexivity |]. split; [reflexivity |].
    intros mbx_buf Htag Hnr.
    destruct (gate_closed_reply a3 v mbx_buf _ Hg3 eq_refl Htag Hnr) as (a4 & H1 & H2 & _ & H4).
    exists a4. repeat split; assumption.
  - intros bad Hbad. rewrite (vf_index_bad a bad Hbad). reflexivity.
Qed.

(** ** Port VLAN *)

Lemma read_for_loop (body : Z -> ixgbe_adapter -> ixgbe_adapter) (r : reg) :
  (forall i s, IXGBE_READ_REG (body i s) r = IXGBE_READ_REG s r) ->
  forall n from s, IXGBE_READ_REG (for_loop n from body s) r = IXGBE_READ_REG s r.
Proof.
  intros Hb n. induction n as [| n IH]; intros from s; cbn [for_loop]; [reflexivity |].
  rewrite IH. apply Hb.
Qed.

Lemma read_write_qde (a : ixgbe_adapter) (vf : nat) (qde : Z) (r : reg) :
  r <> IXGBE_QDE -> IXGBE_READ_REG (ixgbe_write_qde a vf qde) r = IXGBE_READ_REG a r.
Proof.
  intros Hne. unfold ixgbe_write_qde. apply read_for_loop. intros i s. cbv zeta.
  apply read_write_reg_ne. congruence.
Qed.

(* the X550 step of the two port-VLAN functions *)
Definition hide_vlan_step (a : ixgbe_adapter) (vf : nat) (qde : Z) : ixgbe_adapter :=
  if mac_rank ixgbe_mac_X550 <=? mac_rank (mac_type (hw a))
  then ixgbe_write_qde a vf qde else a.

Lemma read_hide_vlan_step (a : ixgbe_adapter) (vf : nat) (qde : Z) (r : reg) :
  r <> IXGBE_QDE -> IXGBE_READ_REG (hide_vlan_step a vf qde) r = IXGBE_READ_REG a r.
Proof.
  intros Hne. unfold hide_vlan_step. destruct (_ <=? _); [apply read_write_qde, Hne | reflexivity].
Qed.

Lemma read_vf_put (a : ixgbe_adapter) (vf : nat) (r0 : vf_data_storage) (r : reg) :
  IXGBE_READ_REG (vf_put a vf r0) r = IXGBE_READ_REG a r.
Proof. reflexivity. Qed.

(** ** Steps that only write device registers *)

Definition regs_only (a a' : ixgbe_adapter) : Prop := exists rf, a' = set_regs a rf.

Lemma set_regs_id (a : ixgbe_adapter) : set_regs a (regs (hw a)) = a.
Proof. destruct a as [? ? ? ? ? ? ? ? ? ? ? ? ? ? ? ? [? ? ? ? ?] ? ?]. reflexivity. Qed.

Lemma regs_only_refl (a : ixgbe_adapter) : regs_only a a.
Proof. exists (regs (hw a)). symmetry. apply set_regs_id. Qed.

Lemma regs_only_trans (a b c : ixgbe_adapter) : regs_only a b -> regs_only b c -> regs_only a c.
Proof. intros [rf ->] [rf' ->]. exists rf'. reflexivity. Qed.

Lemma regs_only_set_regs (a : ixgbe_adapter) (rf : regfile) : regs_only a (set_regs a rf).
Proof. exists rf. reflexivity. Qed.

Lemma regs_only_write_reg (a : ixgbe_adapter) r v : regs_only a (IXGBE_WRITE_REG a r v).
Proof. eexists. reflexivity. Qed.

Lemma regs_only_for_loop (body : Z -> ixgbe_adapter -> ixgbe_adapter) :
  (forall i s, regs_only s (body i s)) ->
  forall n from s, regs_only s (for_loop n from body s).
Proof.
  intros Hb n. induction n as [| n IH]; intros from s; cbn [for_loop].
  - apply regs_only_refl.
  - eapply regs_only_trans; [apply Hb | apply IH].
Qed.

Lemma regs_only_mac_set_vfta (a : ixgbe_adapter) vid vind on bypass :
  regs_only a (fst (mac_set_vfta a vid vind on bypass)).
Proof.
  unfold mac_set_vfta. destruct (set_vfta ops _ vid vind on bypass) as [rf rc].
  apply regs_only_set_regs.
Qed.

Lemma regs_only_set_vf_vlan (a : ixgbe_adapter) add vid vf :
  regs_only a (fst (ixgbe_set_vf_vlan a add vid vf)).
Proof.
  unfold ixgbe_set_vf_vlan.
  assert (Hfirst : regs_only a
            (fst (if truthy add && vlan_active a vid
                  then mac_set_vfta a vid (VMDQ_P a 0) true false else (a, 0)))).
  { destruct (truthy add && vlan_active a vid);
      [apply regs_only_mac_set_vfta | apply regs_only_refl]. }
  destruct (if truthy add && vlan_active a vid
            then mac_set_vfta a vid (VMDQ_P a 0) true false else (a, 0)) as [a1 e1].
  cbn [fst] in Hfirst. destruct (truthy e1); [exact Hfirst |].
  pose proof (regs_only_mac_set_vfta a1 vid vf (truthy add) false) as H2.
  destruct (mac_set_vfta a1 vid vf (truthy add) false) as [a2 e2]. cbn [fst] in H2.
  assert (H12 : regs_only a a2) by (eapply regs_only_trans; eauto).
  destruct (truthy add && negb (truthy e2)); [exact H12 |].
  destruct (vlan_active a2 vid || IXGBE_FLAG2_VLAN_PROMISC (flags2 a2)); cbn [fst].
  - eapply regs_only_trans; [exact H12 | apply regs_only_set_regs].
  - exact H12.
Qed.

Lemma regs_only_write_qde (a : ixgbe_adapter) (vf : nat) (qde : Z) :
  regs_only a (ixgbe_write_qde a vf qde).
Proof.
  unfold ixgbe_write_qde. apply regs_only_for_loop. intros i s. apply regs_only_write_reg.
Qed.

Lemma regs_only_hide_vlan_step (a : ixgbe_adapter) (vf : nat) (qde : Z) :
  regs_only a (hide_vlan_step a vf qde).
Proof.
  unfold hide_vlan_step. destruct (_ <=? _); [apply regs_only_write_qde | apply regs_only_refl].
Qed.

Lemma regs_only_keeps_sw (a a' : ixgbe_adapter) : regs_only a a' -> keeps_sw a a'.
Proof. intros [rf ->]. repeat split. Qed.

Lemma regs_only_vf_get (a a' : ixgbe_adapter) (v : nat) :
  regs_only a a' -> vf_get a' v = vf_get a v.
Proof. intros [rf ->]. reflexivity. Qed.

Lemma aupe_set (x : Z) :
  Z.testbit (u32 (Z.lor (Z.lor x IXGBE_VMOLR_BAM) IXGBE_VMOLR_AUPE)) 24 = true.
Proof.
  rewrite testbit_u32 by lia. rewrite Z.lor_spec. apply orb_true_iff. right. reflexivity.
Qed.

Lemma aupe_clear (x : Z) :
  Z.testbit (u32 (Z.land (Z.lor x IXGBE_VMOLR_BAM) (not32 IXGBE_VMOLR_AUPE))) 24 = false.
Proof.
  rewrite testbit_u32 by lia. rewrite Z.land_spec. apply andb_false_iff. right. reflexivity.
Qed.

(** What [ixgbe_disable_port_vlan] does: the record loses its port VLAN and
    QoS whatever the removal of the filter returned. *)
Lemma ixgbe_disable_port_vlan_spec (a : ixgbe_adapter) (vf : nat) (r : vf_data_storage) :
  vf_get a vf = Some r ->
  exists b,
    regs_only a b /\
    ixgbe_disable_port_vlan a vf =
      Some (vf_put b vf (vf_set_pf_vlan r 0 0),
            snd (ixgbe_set_vf_vlan a 0 (pf_vlan r) (Z.of_nat vf))) /\
    IXGBE_READ_REG b (IXGBE_VMVIR (Z.of_nat vf)) = 0 /\
    Z.testbit (IXGBE_READ_REG b (IXGBE_VMOLR (Z.of_nat vf))) 24 = true.
Proof.
  intros Hr. unfold ixgbe_disable_port_vlan. cbv zeta. rewrite Hr. cbn [mbind option_bind].
  pose proof (regs_only_set_vf_vlan a 0 (pf_vlan r) (Z.of_nat vf)) as H1.
  destruct (ixgbe_set_vf_vlan a 0 (pf_vlan r) (Z.of_nat vf)) as [a1 err]. cbn [fst snd] in *.
  pose proof (regs_only_set_vf_vlan a1 1 0 (Z.of_nat vf)) as H2.
  set (a2 := fst (ixgbe_set_vf_vlan a1 1 0 (Z.of_nat vf))) in *.
  set (a3 := ixgbe_clear_vmvir a2 (Z.of_nat vf)).
  set (a4 := ixgbe_set_vmolr a3 (Z.of_nat vf) true).
  fold (hide_vlan_step a4 vf IXGBE_QDE_ENABLE).
  set (a5 := hide_vlan_step a4 vf IXGBE_QDE_ENABLE).
  assert (H5 : regs_only a a5).
  { eapply regs_only_trans; [exact H1 |]. eapply regs_only_trans; [exact H2 |].
    eapply regs_only_trans; [apply regs_only_write_reg |].
    eapply regs_only_trans; [apply regs_only_write_reg |].
    apply regs_only_hide_vlan_step. }
  rewrite (regs_only_vf_get a a5 vf H5), Hr. cbn [mbind option_bind].
  exists a5. split; [exact H5 |]. split; [reflexivity |]. split.
  - subst a5. rewrite read_hide_vlan_step by discriminate.
    subst a4. unfold ixgbe_set_vmolr. cbv zeta. rewrite read_write_reg_ne by discriminate.
    subst a3. unfold ixgbe_clear_vmvir. apply read_write_reg_eq.
  - subst a5. rewrite read_hide_vlan_step by discriminate.
    subst a4. unfold ixgbe_set_vmolr. cbv zeta. rewrite read_write_reg_eq. apply aupe_set.
Qed.

(** What [ixgbe_enable_port_vlan] does, by the outcome of adding the VLAN
    filter for the VF. *)
Lemma ixgbe_enable_port_vlan_spec (a : ixgbe_adapter) (vf : nat) (vlan qos : Z)
    (r : vf_data_storage) :
  vf_get a vf = Some r ->
  let err := snd (ixgbe_set_vf_vlan a 1 vlan (Z.of_nat vf)) in
  exists b,
    regs_only a b /\
    ixgbe_enable_port_vlan a vf vlan qos =
      Some (if truthy err then b else vf_put b vf (vf_set_pf_vlan r vlan qos), err) /\
    (err = 0 ->
     IXGBE_READ_REG b (IXGBE_VMVIR (Z.of_nat vf)) =
       u32 (Z.lor (Z.lor (vlan mod 2 ^ 16) (Z.shiftl (qos mod 2 ^ 16) VLAN_PRIO_SHIFT))
              IXGBE_VMVIR_VLANA_DEFAULT) /\
     Z.testbit (IXGBE_READ_REG b (IXGBE_VMOLR (Z.of_nat vf))) 24 = false).
Proof.
  intros Hr err. subst err. unfold ixgbe_enable_port_vlan. cbv zeta.
  pose proof (regs_only_set_vf_vlan a 1 vlan (Z.of_nat vf)) as H1.
  destruct (ixgbe_set_vf_vlan a 1 vlan (Z.of_nat vf)) as [a1 err]. cbn [fst snd] in *.
  destruct (truthy err) eqn:Herr.
  - exists a1. split; [exact H1 |]. split; [reflexivity |].
    intros ->. discriminate Herr.
  - pose proof (regs_only_set_vf_vlan a1 0 0 (Z.of_nat vf)) as H2.
    set (a2 := fst (ixgbe_set_vf_vlan a1 0 0 (Z.of_nat vf))) in *.
    set (a3 := ixgbe_set_vmvir a2 vlan qos (Z.of_nat vf)).
    set (a4 := ixgbe_set_vmolr a3 (Z.of_nat vf) false).
    fold (hide_vlan_step a4 vf (Z.lor IXGBE_QDE_ENABLE IXGBE_QDE_HIDE_VLAN)).
    set (a5 := hide_vlan_step a4 vf _).
    assert (H5 : regs_only a a5).
    { eapply regs_only_trans; [exact H1 |]. eapply regs_only_trans; [exact H2 |].
      eapply regs_only_trans; [apply regs_only_write_reg |].
      eapply regs_only_trans; [apply regs_only_write_reg |].
      apply regs_only_hide_vlan_step. }
    rewrite (regs_only_vf_get a a5 vf H5), Hr. cbn [mbind option_bind].
    exists a5. split; [exact H5 |]. split; [reflexivity |]. intros _. split.
    + subst a5. rewrite read_hide_vlan_step by discriminate.
      subst a4. unfold ixgbe_set_vmolr. cbv zeta. rewrite read_write_reg_ne by discriminate.
      subst a3. unfold ixgbe_set_vmvir. cbv zeta. apply read_write_reg_eq.
    + subst a5. rewrite read_hide_vlan_step by discriminate.
      subst a4. unfold ixgbe_set_vmolr. cbv zeta. rewrite read_write_reg_eq. apply aupe_clear.
Qed.

Lemma u32_lor (x y : Z) : u32 (Z.lor x y) = Z.lor (u32 x) (u32 y).
Proof.
  unfold u32. rewrite <- !Z.land_ones by lia. apply Z.land_lor_distr_l.
Qed.

Lemma vlan_args_ok (a : ixgbe_adapter) (vf vlan qos : Z) :
  0 <= vf < num_vfs a -> 0 <= vlan <= 4094 -> 0 <= qos <= 7 ->
  (vf <? 0) || (num_vfs a <=? vf) || (VLAN_VID_MASK - 1 <? vlan) || (7 <? qos) = false.
Proof.
  intros Hvf Hvlan Hqos. rewrite (vf_index_ok a vf Hvf). cbn [orb].
  apply orb_false_iff. split; apply Z.ltb_ge; unfold VLAN_VID_MASK; lia.
Qed.

(** X21.  Setting a port VLAN on a VF that has none.  For a VLAN 0..4094
    and a QoS 0..7, not both 0, with the 802.1Q protocol, and when the
    backend accepts the VLAN filter: the call returns 0, the record holds
    the VLAN and the QoS, VMVIR of the VF holds the tag to insert, untagged
    frames are no longer accepted (VMOLR.AUPE off), the other VFs' records
    are untouched and nothing is sent to the VF.  Afterwards
    [ixgbe_ndo_get_vf_config] reports that VLAN and QoS, and when the VLAN
    is not 0 every SET_VLAN message of the VF is refused with -1. *)
Theorem ndo_set_vf_vlan_sets_port_vlan
    (a : ixgbe_adapter) (vf vlan qos : Z) (r : vf_data_storage) :
  0 <= vf < num_vfs a ->
  vf_get a (Z.to_nat vf) = Some r ->
  pf_vlan r = 0 ->
  0 <= vlan <= 4094 -> 0 <= qos <= 7 -> vlan <> 0 \/ qos <> 0 ->
  snd (ixgbe_set_vf_vlan a 1 vlan vf) = 0 ->
  exists a',
    ixgbe_ndo_set_vf_vlan a vf vlan qos (htons ETH_P_8021Q) = Some (a', 0) /\
    vf_get a' (Z.to_nat vf) = Some (vf_set_pf_vlan r vlan qos) /\
    (forall v, v <> Z.to_nat vf -> vf_get a' v = vf_get a v) /\
    mbx_out (hw a') = mbx_out (hw a) /\
    IXGBE_READ_REG a' (IXGBE_VMVIR vf) =
      Z.lor (Z.lor vlan (Z.shiftl qos VLAN_PRIO_SHIFT)) IXGBE_VMVIR_VLANA_DEFAULT /\
    Z.testbit (IXGBE_READ_REG a' (IXGBE_VMOLR vf)) 24 = false /\
    (forall ivi, exists ivi',
       ixgbe_ndo_get_vf_config a' vf ivi = Some (ivi', 0) /\
       ivi_vlan ivi' = vlan /\ ivi_qos ivi' = qos) /\
    (vlan <> 0 -> forall msgbuf,
       ixgbe_set_vf_vlan_msg a' msgbuf (Z.to_nat vf) = Some (a', msgbuf, -1)).
Proof.
  intros Hvf Hr Hnone Hvlan Hqos Hsome Hok.
  unfold ixgbe_ndo_set_vf_vlan. rewrite (vlan_args_ok a vf vlan qos Hvf Hvlan Hqos).
  rewrite Z.eqb_refl. cbn [negb]. cbv zeta.
  assert (Hany : truthy vlan || truthy qos = true).
  { destruct Hsome as [H | H]; rewrite (truthy_nonzero _ H); [reflexivity | apply orb_true_r]. }
  rewrite Hany, Hr. cbn [mbind option_bind]. rewrite Hnone.
  change (truthy 0) with false. cbv iota. cbn [mbind option_bind].
  change (truthy 0) with false. cbv iota.
  destruct (ixgbe_enable_port_vlan_spec a (Z.to_nat vf) vlan qos r Hr) as (b & Hb & He & Hregs).
  cbv zeta in He, Hregs. rewrite Z2Nat.id in He, Hregs by lia.
  rewrite Hok in He, Hregs. change (truthy 0) with false in He. cbv iota in He.
  destruct (Hregs eq_refl) as (Hvmvir & Haupe).
  rewrite He. eexists. split; [reflexivity |].
  set (a' := vf_put b (Z.to_nat vf) (vf_set_pf_vlan r vlan qos)).
  assert (Hgb : vf_get b (Z.to_nat vf) = Some r)
    by (rewrite (regs_only_vf_get a b _ Hb); exact Hr).
  assert (Hg : vf_get a' (Z.to_nat vf) = Some (vf_set_pf_vlan r vlan qos))
    by (eapply vf_get_put; exact Hgb).
  assert (Hnv : num_vfs a' = num_vfs a) by (destruct Hb as [rf ->]; reflexivity).
  split; [exact Hg |]. split.
  { intros v Hne. subst a'. rewrite vf_get_put_ne by exact Hne. apply regs_only_vf_get, Hb. }
  split; [destruct Hb as [rf ->]; reflexivity |].
  split.
  { subst a'. rewrite read_vf_put, Hvmvir.
    rewrite (Z.mod_small vlan) by lia. rewrite (Z.mod_small qos) by lia.
    rewrite !u32_lor. rewrite (u32_small vlan) by lia.
    rewrite (u32_small (Z.shiftl qos VLAN_PRIO_SHIFT))
      by (rewrite Z.shiftl_mul_pow2 by (unfold VLAN_PRIO_SHIFT; lia);
          unfold VLAN_PRIO_SHIFT; lia).
    reflexivity. }
  split; [subst a'; rewrite read_vf_put; exact Haupe |].
  split.
  - intros ivi. unfold ixgbe_ndo_get_vf_config.
    rewrite Hnv, (vf_index_ok a vf Hvf), Hg. cbn [mbind option_bind].
    eexists. split; [reflexivity |]. split; reflexivity.
  - intros Hnz msgbuf. unfold ixgbe_set_vf_vlan_msg. cbv zeta. rewrite Hg.
    cbn [mbind option_bind pf_vlan vf_set_pf_vlan].
    rewrite (truthy_nonzero vlan Hnz). reflexivity.
Qed.
(** X22.  Changing the port VLAN is not atomic.  A request with VLAN 0 and
    QoS 0 clears the record's port VLAN and QoS and VMVIR whatever the
    removal of the old filter returned, and returns that code.  A request
    that replaces an existing port VLAN first removes the old one: when
    that removal fails, the error is returned, the new VLAN is not set, and
    the record has already lost the old one.  Out-of-range arguments are
    refused with -EINVAL and another protocol than 802.1Q with
    -EPROTONOSUPPORT, nothing changed. *)
Theorem ndo_set_vf_vlan_is_not_atomic
    (a : ixgbe_adapter) (vf : Z) (r : vf_data_storage) :
  0 <= vf < num_vfs a ->
  vf_get a (Z.to_nat vf) = Some r ->
  let err := snd (ixgbe_set_vf_vlan a 0 (pf_vlan r) vf) in
  (exists a',
     ixgbe_ndo_set_vf_vlan a vf 0 0 (htons ETH_P_8021Q) = Some (a', err) /\
     vf_get a' (Z.to_nat vf) = Some (vf_set_pf_vlan r 0 0) /\
     IXGBE_READ_REG a' (IXGBE_VMVIR vf) = 0) /\
  (forall vlan qos,
     pf_vlan r <> 0 -> err <> 0 ->
     0 <= vlan <= 4094 -> 0 <= qos <= 7 -> vlan <> 0 \/ qos <> 0 ->
     exists a',
       ixgbe_ndo_set_vf_vlan a vf vlan qos (htons ETH_P_8021Q) = Some (a', err) /\
       vf_get a' (Z.to_nat vf) = Some (vf_set_pf_vlan r 0 0)) /\
  (forall vlan qos proto,
     4094 < vlan \/ 7 < qos ->
     ixgbe_ndo_set_vf_vlan a vf vlan qos proto = Some (a, - EINVAL)) /\
  (forall vlan qos proto,
     0 <= vlan <= 4094 -> 0 <= qos <= 7 -> proto <> htons ETH_P_8021Q ->
     ixgbe_ndo_set_vf_vlan a vf vlan qos proto = Some (a, - EPROTONOSUPPORT)).
Proof.
  intros Hvf Hr err.
  destruct (ixgbe_disable_port_vlan_spec a (Z.to_nat vf) r Hr) as (b & Hb & Hd & Hvm & _).
  rewrite Z2Nat.id in Hd, Hvm by lia. fold err in Hd.
  assert (Hg : vf_get (vf_put b (Z.to_nat vf) (vf_set_pf_vlan r 0 0)) (Z.to_nat vf) =
               Some (vf_set_pf_vlan r 0 0)).
  { eapply vf_get_put. rewrite (regs_only_vf_get a b _ Hb). exact Hr. }
  split; [| split; [| split]].
  - unfold ixgbe_ndo_set_vf_vlan.
    rewrite (vlan_args_ok a vf 0 0 Hvf) by lia.
    rewrite Z.eqb_refl. cbn [negb]. cbv zeta.
    change (truthy 0 || truthy 0) with false. cbv iota.
    rewrite Hd. eexists. split; [reflexivity |]. split; [exact Hg |].
    rewrite read_vf_put. exact Hvm.
  - intros vlan qos Hold Herr Hvlan Hqos Hsome.
    unfold ixgbe_ndo_set_vf_vlan.
    rewrite (vlan_args_ok a vf vlan qos Hvf Hvlan Hqos).
    rewrite Z.eqb_refl. cbn [negb]. cbv zeta.
    assert (Hany : truthy vlan || truthy qos = true).
    { destruct Hsome as [H | H]; rewrite (truthy_nonzero _ H);
        [reflexivity | apply orb_true_r]. }
    rewrite Hany, Hr. cbn [mbind option_bind].
    rewrite (truthy_nonzero _ Hold), Hd. cbn [mbind option_bind].
    rewrite (truthy_nonzero _ Herr).
    eexists. split; [reflexivity | exact Hg].
  - intros vlan qos proto Hbad. unfold ixgbe_ndo_set_vf_vlan.
    rewrite (vf_index_ok a vf Hvf). cbn [orb].
    assert (Hb2 : (VLAN_VID_MASK - 1 <? vlan) || (7 <? qos) = true).
    { apply orb_true_iff. unfold VLAN_VID_MASK.
      destruct Hbad; [left | right]; apply Z.ltb_lt; lia. }
    rewrite Hb2. reflexivity.
  - intros vlan qos proto Hvlan Hqos Hproto. unfold ixgbe_ndo_set_vf_vlan.
    rewrite (vlan_args_ok a vf vlan qos Hvf Hvlan Hqos).
    apply Z.eqb_neq in Hproto. rewrite Hproto. reflexivity.
Qed.

(** ** Link state *)

Lemma testbit_BIT (s i : Z) : 0 <= s < 32 -> Z.testbit (BIT s) i = (i =? s).
Proof.
  intros Hs. rewrite BIT_pow2 by exact Hs. rewrite Z.pow2_bits_eqb by lia. apply Z.eqb_sym.
Qed.

Lemma testbit_lor_BIT (x s i : Z) :
  0 <= s < 32 -> Z.testbit (Z.lor x (BIT s)) i = Z.testbit x i || (i =? s).
Proof. intros Hs. rewrite Z.lor_spec, testbit_BIT by exact Hs. reflexivity. Qed.

Lemma testbit_land_not_BIT (x s i : Z) :
  0 <= s < 32 -> 0 <= i < 32 ->
  Z.testbit (Z.land x (not32 (BIT s))) i = Z.testbit x i && negb (i =? s).
Proof.
  intros Hs Hi. rewrite Z.land_spec. unfold not32. rewrite Z.lxor_spec.
  rewrite testbit_u32 by exact Hi. rewrite testbit_BIT by exact Hs.
  change 0xFFFFFFFF with (Z.ones 32). rewrite Z.ones_spec_low by lia.
  rewrite xorb_true_r. reflexivity.
Qed.

(* the adapter after the conditional write of a requested value *)
Lemma read_write_if_changed (a : ixgbe_adapter) (x : reg) (req : Z) (i : Z) :
  0 <= i < 32 ->
  Z.testbit
    (IXGBE_READ_REG
       (if negb (IXGBE_READ_REG a x =? req) then IXGBE_WRITE_REG a x req else a) x) i =
  Z.testbit req i.
Proof.
  intros Hi. destruct (IXGBE_READ_REG a x =? req) eqn:He; cbn [negb].
  - apply Z.eqb_eq in He. rewrite He. reflexivity.
  - rewrite read_write_reg_eq. apply testbit_u32. exact Hi.
Qed.

(* receive is enabled for the VF: its link is, and the 82599 does not run
   the PF with jumbo frames *)
Definition vf_rx_on (a : ixgbe_adapter) (r : vf_data_storage) : bool :=
  link_enable r &&
  negb (bool_decide (mac_type (hw a) = ixgbe_mac_82599EB) && (ETH_FRAME_LEN <? pf_max_frame a)).

Lemma ixgbe_set_vf_rx_tx_bits (a : ixgbe_adapter) (vf : nat) (r : vf_data_storage) :
  vf_get a vf = Some r ->
  let sh := Z.of_nat vf mod 32 in
  let off := Z.of_nat vf / 32 in
  exists a',
    ixgbe_set_vf_rx_tx a vf = Some a' /\ regs_only a a' /\
    (forall i, 0 <= i < 32 ->
       Z.testbit (IXGBE_READ_REG a' (IXGBE_VFTE off)) i =
         if i =? sh then link_enable r else Z.testbit (IXGBE_READ_REG a (IXGBE_VFTE off)) i) /\
    (forall i, 0 <= i < 32 ->
       Z.testbit (IXGBE_READ_REG a' (IXGBE_VFRE off)) i =
         if i =? sh then vf_rx_on a r else Z.testbit (IXGBE_READ_REG a (IXGBE_VFRE off)) i) /\
    (forall x, x <> IXGBE_VFTE off -> x <> IXGBE_VFRE off ->
       IXGBE_READ_REG a' x = IXGBE_READ_REG a x).
Proof.
  intros Hr sh off. unfold ixgbe_set_vf_rx_tx. cbv zeta. rewrite Hr. cbn [mbind option_bind].
  fold sh off.
  assert (Hsh : 0 <= sh < 32) by (subst sh; apply Z.mod_pos_bound; lia).
  set (cur_tx := IXGBE_READ_REG a (IXGBE_VFTE off)).
  set (cur_rx := IXGBE_READ_REG a (IXGBE_VFRE off)).
  set (req_tx := if link_enable r then Z.lor cur_tx (BIT sh)
                 else Z.land cur_tx (not32 (BIT sh))).
  set (req_rx := if bool_decide (mac_type (hw a) = ixgbe_mac_82599EB)
                    && (ETH_FRAME_LEN <? pf_max_frame a)
                 then Z.land cur_rx (not32 (BIT sh))
                 else if link_enable r then Z.lor cur_rx (BIT sh)
                      else Z.land cur_rx (not32 (BIT sh))).
  set (a1 := if negb (cur_tx =? req_tx) then IXGBE_WRITE_REG a (IXGBE_VFTE off) req_tx else a).
  assert (H1 : regs_only a a1).
  { subst a1. destruct (negb (cur_tx =? req_tx));
      [apply regs_only_write_reg | apply regs_only_refl]. }
  assert (Hrx1 : IXGBE_READ_REG a1 (IXGBE_VFRE off) = cur_rx).
  { subst a1. destruct (negb (cur_tx =? req_tx));
      [apply read_write_reg_ne; discriminate | reflexivity]. }
  eexists. split; [reflexivity |].
  set (a2 := if negb (cur_rx =? req_rx) then IXGBE_WRITE_REG a1 (IXGBE_VFRE off) req_rx else a1).
  assert (H2 : regs_only a1 a2).
  { subst a2. destruct (negb (cur_rx =? req_rx));
      [apply regs_only_write_reg | apply regs_only_refl]. }
  split; [eapply regs_only_trans; eauto |].
  split; [| split].
  - intros i Hi.
    assert (Hsame : IXGBE_READ_REG a2 (IXGBE_VFTE off) = IXGBE_READ_REG a1 (IXGBE_VFTE off)).
    { subst a2. destruct (negb (cur_rx =? req_rx));
        [apply read_write_reg_ne; discriminate | reflexivity]. }
    rewrite Hsame. subst a1. fold cur_tx.
    change cur_tx with (IXGBE_READ_REG a (IXGBE_VFTE off)) at 1.
    rewrite read_write_if_changed by exact Hi.
    subst req_tx. destruct (link_enable r).
    + rewrite testbit_lor_BIT by exact Hsh. destruct (i =? sh); [apply orb_true_r | apply orb_false_r].
    + rewrite testbit_land_not_BIT by assumption.
      destruct (i =? sh); [apply andb_false_r | apply andb_true_r].
  - intros i Hi. subst a2. rewrite <- Hrx1.
    rewrite read_write_if_changed by exact Hi. rewrite Hrx1.
    subst req_rx. unfold vf_rx_on.
    destruct (bool_decide _ && (ETH_FRAME_LEN <? pf_max_frame a)); cbn [negb].
    + rewrite andb_false_r. rewrite testbit_land_not_BIT by assumption.
      destruct (i =? sh); [apply andb_false_r | apply andb_true_r].
    + rewrite andb_true_r. destruct (link_enable r).
      * rewrite testbit_lor_BIT by exact Hsh.
        destruct (i =? sh); [apply orb_true_r | apply orb_false_r].
      * rewrite testbit_land_not_BIT by assumption.
        destruct (i =? sh); [apply andb_false_r | apply andb_true_r].
  - intros x Hx1 Hx2. subst a2 a1.
    destruct (negb (cur_rx =? req_rx)); destruct (negb (cur_tx =? req_tx));
      rewrite ?read_write_reg_ne by congruence; reflexivity.
Qed.

(** X23.  [ixgbe_set_vf_rx_tx] programs exactly the VF's own bit: in
    VFTE the bit becomes the VF's link_enable, in VFRE it becomes
    link_enable too, except that on an 82599 whose PF runs jumbo frames it
    is cleared; every other bit of the two registers and every other
    register keeps its value, and no software state changes. *)
Theorem set_vf_rx_tx_programs_own_bit (a : ixgbe_adapter) (vf : nat) (r : vf_data_storage) :
  vf_get a vf = Some r ->
  let sh := Z.of_nat vf mod 32 in
  let off := Z.of_nat vf / 32 in
  exists a',
    ixgbe_set_vf_rx_tx a vf = Some a' /\ regs_only a a' /\
    Z.testbit (IXGBE_READ_REG a' (IXGBE_VFTE off)) sh = link_enable r /\
    Z.testbit (IXGBE_READ_REG a' (IXGBE_VFRE off)) sh = vf_rx_on a r /\
    (forall i, 0 <= i < 32 -> i <> sh ->
       Z.testbit (IXGBE_READ_REG a' (IXGBE_VFTE off)) i =
         Z.testbit (IXGBE_READ_REG a (IXGBE_VFTE off)) i /\
       Z.testbit (IXGBE_READ_REG a' (IXGBE_VFRE off)) i =
         Z.testbit (IXGBE_READ_REG a (IXGBE_VFRE off)) i) /\
    (forall x, x <> IXGBE_VFTE off -> x <> IXGBE_VFRE off ->
       IXGBE_READ_REG a' x = IXGBE_READ_REG a x).
Proof.
  intros Hr sh off.
  destruct (ixgbe_set_vf_rx_tx_bits a vf r Hr) as (a' & He & Hro & Htx & Hrx & Hoth).
  fold sh off in Htx, Hrx, Hoth.
  assert (Hsh : 0 <= sh < 32) by (subst sh; apply Z.mod_pos_bound; lia).
  exists a'. split; [exact He |]. split; [exact Hro |].
  split; [rewrite (Htx sh Hsh), Z.eqb_refl; reflexivity |].
  split; [rewrite (Hrx sh Hsh), Z.eqb_refl; reflexivity |].
  split; [| exact Hoth].
  intros i Hi Hne. apply Z.eqb_neq in Hne.
  rewrite (Htx i Hi), (Hrx i Hi), Hne. split; reflexivity.
Qed.

(** What [ixgbe_set_vf_link_state] does for the states that have a case. *)
Lemma ixgbe_set_vf_link_state_spec (down : bool) (a : ixgbe_adapter) (vf : nat) (state : Z)
    (r : vf_data_storage) (enable : bool) :
  vf_get a vf = Some r ->
  (state = IFLA_VF_LINK_STATE_AUTO /\ enable = negb down) \/
  (state = IFLA_VF_LINK_STATE_ENABLE /\ enable = true) \/
  (state = IFLA_VF_LINK_STATE_DISABLE /\ enable = false) ->
  let r' := vf_set_cts (vf_set_link_enable (vf_set_link_state r state) enable) false in
  exists a',
    ixgbe_set_vf_link_state down a vf state = Some a' /\
    vf_get a' vf = Some r' /\
    (forall v, v <> vf -> vf_get a' v = vf_get a v) /\
    num_vfs a' = num_vfs a /\
    mbx_out (hw a') = mbx_out (hw a) ++ [(vf, [IXGBE_PF_CONTROL_MSG])] /\
    Z.testbit (IXGBE_READ_REG a' (IXGBE_VFTE (Z.of_nat vf / 32))) (Z.of_nat vf mod 32) = enable /\
    Z.testbit (IXGBE_READ_REG a' (IXGBE_VFRE (Z.of_nat vf / 32))) (Z.of_nat vf mod 32) =
      enable && negb (bool_decide (mac_type (hw a) = ixgbe_mac_82599EB)
                      && (ETH_FRAME_LEN <? pf_max_frame a)).
Proof.
  intros Hr Hstate r'. unfold ixgbe_set_vf_link_state. rewrite Hr. cbn [mbind option_bind].
  cbv zeta.
  set (r1 := if state =? IFLA_VF_LINK_STATE_AUTO then _ else _).
  assert (Hr1 : r1 = vf_set_link_enable (vf_set_link_state r state) enable).
  { subst r1. destruct Hstate as [(-> & ->) | [(-> & ->) | (-> & ->)]]; reflexivity. }
  rewrite Hr1. clear r1 Hr1.
  set (r1 := vf_set_link_enable (vf_set_link_state r state) enable).
  set (a1 := vf_put a vf r1).
  assert (Hg1 : vf_get a1 vf = Some r1) by (eapply vf_get_put; exact Hr).
  destruct (ixgbe_set_vf_rx_tx_bits a1 vf r1 Hg1) as (a2 & He & Hro & Htx & Hrx & _).
  rewrite He. cbn [mbind option_bind].
  assert (Hg2 : vf_get a2 vf = Some r1) by (rewrite (regs_only_vf_get a1 a2 _ Hro); exact Hg1).
  rewrite Hg2. cbn [mbind option_bind].
  set (a3 := vf_put a2 vf (vf_set_cts r1 false)).
  assert (Hg3 : vf_get a3 vf = Some (vf_set_cts r1 false)) by (eapply vf_get_put; exact Hg2).
  unfold ixgbe_ping_vf. rewrite Hg3. cbn [mbind option_bind clear_to_send vf_set_cts].
  eexists. split; [reflexivity |].
  assert (Hsh : 0 <= Z.of_nat vf mod 32 < 32) by (apply Z.mod_pos_bound; lia).
  destruct Hro as [rf ->].
  split; [exact Hg3 |]. split.
  { intros v Hne. change (vf_get (write_mbx a3 [IXGBE_PF_CONTROL_MSG] 1 vf) v) with (vf_get a3 v).
    subst a3. rewrite vf_get_put_ne by exact Hne.
    change (vf_get (set_regs a1 rf) v) with (vf_get a1 v).
    subst a1. apply vf_get_put_ne. exact Hne. }
  split; [reflexivity |]. split; [reflexivity |].
  split.
  - specialize (Htx _ Hsh). rewrite Z.eqb_refl in Htx. exact Htx.
  - specialize (Hrx _ Hsh). rewrite Z.eqb_refl in Hrx. exact Hrx.
Qed.

(** X24.  The administrative link state.  ENABLE is accepted and ignored:
    the call returns 0 and nothing changes.  DISABLE and AUTO are carried
    out: the record takes the state, link_enable becomes off for DISABLE
    and, for AUTO, on exactly when the PF is not down; the VF's VFTE bit
    follows link_enable; clear_to_send is turned off and the VF is pinged
    with the control word without CTS.  Any other state, or a VF index
    outside the table, returns -EINVAL with nothing changed. *)
Theorem ndo_set_vf_link_state_cases
    (down : bool) (a : ixgbe_adapter) (vf : Z) (r : vf_data_storage) :
  0 <= vf < num_vfs a ->
  vf_get a (Z.to_nat vf) = Some r ->
  ixgbe_ndo_set_vf_link_state down a vf IFLA_VF_LINK_STATE_ENABLE = Some (a, 0) /\
  (forall state enable,
     (state = IFLA_VF_LINK_STATE_AUTO /\ enable = negb down) \/
     (state = IFLA_VF_LINK_STATE_DISABLE /\ enable = false) ->
     exists a',
       ixgbe_ndo_set_vf_link_state down a vf state = Some (a', 0) /\
       vf_get a' (Z.to_nat vf) =
         Some (vf_set_cts (vf_set_link_enable (vf_set_link_state r state) enable) false) /\
       (forall v, v <> Z.to_nat vf -> vf_get a' v = vf_get a v) /\
       mbx_out (hw a') = mbx_out (hw a) ++ [(Z.to_nat vf, [IXGBE_PF_CONTROL_MSG])] /\
       Z.testbit (IXGBE_READ_REG a' (IXGBE_VFTE (vf / 32))) (vf mod 32) = enable) /\
  (forall state,
     state <> IFLA_VF_LINK_STATE_AUTO -> state <> IFLA_VF_LINK_STATE_ENABLE ->
     state <> IFLA_VF_LINK_STATE_DISABLE ->
     ixgbe_ndo_set_vf_link_state down a vf state = Some (a, - EINVAL)) /\
  (forall bad state, bad < 0 \/ num_vfs a <= bad ->
     ixgbe_ndo_set_vf_link_state down a bad state = Some (a, - EINVAL)).
Proof.
  intros Hvf Hr. unfold ixgbe_ndo_set_vf_link_state.
  split; [| split; [| split]].
  - rewrite (vf_index_ok a vf Hvf). reflexivity.
  - intros state enable Hstate. rewrite (vf_index_ok a vf Hvf).
    assert (Hs3 : (state = IFLA_VF_LINK_STATE_AUTO /\ enable = negb down) \/
                  (state = IFLA_VF_LINK_STATE_ENABLE /\ enable = true) \/
                  (state = IFLA_VF_LINK_STATE_DISABLE /\ enable = false)).
    { destruct Hstate as [H | H]; [left; exact H | right; right; exact H]. }
    destruct (ixgbe_set_vf_link_state_spec down a (Z.to_nat vf) state r enable Hr Hs3)
      as (a' & He & Hg & Hoth & _ & Hmb & Htx & _).
    rewrite Z2Nat.id in Htx by lia.
    assert (Hne : (state =? IFLA_VF_LINK_STATE_ENABLE) = false).
    { destruct Hstate as [(-> & _) | (-> & _)]; reflexivity. }
    assert (Hyes : (state =? IFLA_VF_LINK_STATE_DISABLE) || (state =? IFLA_VF_LINK_STATE_AUTO)
                   = true).
    { destruct Hstate as [(-> & _) | (-> & _)]; reflexivity. }
    rewrite Hne, Hyes, He. cbn [mbind option_bind].
    exists a'. repeat split; assumption.
  - intros state H0 H1 H2. rewrite (vf_index_ok a vf Hvf).
    apply Z.eqb_neq in H0, H1, H2. rewrite H1, H2, H0. reflexivity.
  - intros bad state Hbad. rewrite (vf_index_bad a bad Hbad). reflexivity.
Qed.

(** ** Transmit rate limit *)

Lemma link_mbps_10g (l : ixgbe_link) :
  (ixgbe_link_mbps l =? 10000) = (link_speed l =? IXGBE_LINK_SPEED_10GB_FULL).
Proof.
  unfold ixgbe_link_mbps.
  destruct (link_speed l =? IXGBE_LINK_SPEED_100_FULL) eqn:H1.
  - apply Z.eqb_eq in H1. rewrite H1. reflexivity.
  - destruct (link_speed l =? IXGBE_LINK_SPEED_1GB_FULL) eqn:H2.
    + apply Z.eqb_eq in H2. rewrite H2. reflexivity.
    + destruct (link_speed l =? IXGBE_LINK_SPEED_10GB_FULL); reflexivity.
Qed.

(* the sequence of writes of the loop of ixgbe_set_vf_rate_limit over the
   queues [from .. from + n) *)
Definition queue_writes (vf : nat) (qpp : Z) (val : Z) (from n : nat) : reg_writes :=
  flat_map (fun k => [(IXGBE_RTTDQSEL, u32 (Z.of_nat vf * qpp + Z.of_nat k));
                      (IXGBE_RTTBCNRC, u32 val)]) (seq from n).

Lemma rate_limit_loop (vf : nat) (qpp val : Z) (n : nat) :
  forall (from : nat) (w : reg_writes),
    for_loop n (Z.of_nat from)
      (fun queue w =>
         write_wo (write_wo w IXGBE_RTTDQSEL (Z.of_nat vf * qpp + queue)) IXGBE_RTTBCNRC val) w =
    w ++ queue_writes vf qpp val from n.
Proof.
  induction n as [| n IH]; intros from w; cbn [for_loop].
  - unfold queue_writes. cbn. rewrite app_nil_r. reflexivity.
  - replace (Z.of_nat from + 1) with (Z.of_nat (S from)) by lia.
    rewrite IH. unfold write_wo, queue_writes.
    cbn [seq flat_map]. rewrite <- !app_assoc. reflexivity.
Qed.

Lemma rate_limit_loop0 (vf : nat) (qpp val : Z) (n : nat) (w : reg_writes) :
  for_loop n 0
    (fun queue w =>
       write_wo (write_wo w IXGBE_RTTDQSEL (Z.of_nat vf * qpp + queue)) IXGBE_RTTBCNRC val) w =
  w ++ queue_writes vf qpp val 0 n.
Proof. exact (rate_limit_loop vf qpp val n 0%nat w). Qed.

Lemma rate_factor_exact (l : ixgbe_link) (r : vf_data_storage) :
  vf_rate_link_speed l = 10000 ->
  10 < tx_rate r <= 10000 ->
  bcnrc_of l r =
    Z.lor (Z.shiftl 10000 IXGBE_RTTBCNRC_RF_INT_SHIFT / tx_rate r) IXGBE_RTTBCNRC_RS_ENA.
Proof.
  intros Hl Hr. unfold bcnrc_of. cbv zeta.
  rewrite (Z.mod_small (tx_rate r)) by lia.
  rewrite (truthy_nonzero (tx_rate r)) by lia. rewrite Hl.
  change (u32 (Z.shiftl (u32 10000) IXGBE_RTTBCNRC_RF_INT_SHIFT)) with 163840000.
  change (Z.shiftl 10000 IXGBE_RTTBCNRC_RF_INT_SHIFT) with 163840000.
  change (Z.lor IXGBE_RTTBCNRC_RF_INT_MASK IXGBE_RTTBCNRC_RF_DEC_MASK) with (Z.ones 28).
  rewrite Z.land_ones by lia. rewrite Z.mod_small; [reflexivity |].
  split.
  - apply Z.div_pos; lia.
  - apply Z.div_lt_upper_bound; [lia |]. change (2 ^ 28) with 268435456. lia.
Qed.

(** X25.  The transmit rate cap.  [ixgbe_ndo_set_vf_bw] accepts a rate for a
    VF of the table exactly when the link is up at 10 Gb/s and the rate is 0
    or above 10 and at most 10000 Mb/s; otherwise it returns -EINVAL and
    changes nothing.  An accepted rate is stored in the record (and is what
    [ixgbe_ndo_get_vf_config] reports), the link speed 10000 is remembered,
    and for each Tx queue of the VF's pool the queue is selected and
    RTTBCNRC written: with 0 for rate 0, and otherwise with the scheduler
    enable bit and the rate factor 10000 * 2^14 / rate, which the field
    mask never truncates. *)
Theorem ndo_set_vf_bw_rate_factor
    (a : ixgbe_adapter) (l : ixgbe_link) (w : reg_writes) (vf rate : Z)
    (r : vf_data_storage) :
  0 <= vf < num_vfs a ->
  vf_get a (Z.to_nat vf) = Some r ->
  let accepted := link_up l && (link_speed l =? IXGBE_LINK_SPEED_10GB_FULL)
                  && ((rate =? 0) || ((10 <? rate) && (rate <=? 10000))) in
  let qpp := q_per_pool_of (rf_mask (vmdq a)) mod 2 ^ 16 in
  let mmw := match mac_type (hw a) with
             | ixgbe_mac_82599EB => [(IXGBE_RTTBCNRM, 0x4)]
             | ixgbe_mac_X540 => [(IXGBE_RTTBCNRM, 0x14)]
             | _ => []
             end in
  let val := if rate =? 0 then 0
             else Z.lor (Z.shiftl 10000 IXGBE_RTTBCNRC_RF_INT_SHIFT / rate)
                    IXGBE_RTTBCNRC_RS_ENA in
  (accepted = false -> ixgbe_ndo_set_vf_bw a l w vf rate = Some (a, l, w, - EINVAL)) /\
  (accepted = true ->
   let a' := vf_put a (Z.to_nat vf) (vf_set_tx_rate r rate) in
   ixgbe_ndo_set_vf_bw a l w vf rate =
     Some (a', set_vf_rate_link_speed l 10000,
           w ++ mmw ++ queue_writes (Z.to_nat vf) qpp val 0 (Z.to_nat qpp), 0) /\
   u32 val = val /\
   forall ivi, exists ivi',
     ixgbe_ndo_get_vf_config a' vf ivi = Some (ivi', 0) /\ ivi_max_tx_rate ivi' = rate).
Proof.
  intros Hvf Hr accepted qpp mmw val. unfold ixgbe_ndo_set_vf_bw.
  rewrite (vf_index_ok a vf Hvf). cbv zeta. subst accepted.
  destruct (link_up l); cbn [negb andb]; [| split; [reflexivity | discriminate]].
  pose proof (link_mbps_10g l) as Hm.
  destruct (link_speed l =? IXGBE_LINK_SPEED_10GB_FULL); cbn [negb andb];
    [| rewrite Hm; split; [reflexivity | discriminate]].
  apply Z.eqb_eq in Hm. rewrite Hm. cbn [Z.eqb Pos.eqb negb].
  split.
  - intros Hno. unfold truthy.
    destruct (rate =? 0); cbn [negb andb orb] in *; [discriminate Hno |].
    destruct (10 <? rate) eqn:H10; cbn [andb] in Hno.
    + assert (H10' : (rate <=? 10) = false) by (apply Z.leb_gt; apply Z.ltb_lt in H10; lia).
      rewrite H10'. cbn [orb].
      assert (Hbig : (10000 <? rate) = true).
      { apply Z.ltb_lt. apply Z.leb_gt in Hno. exact Hno. }
      rewrite Hbig. reflexivity.
    + assert (H10' : (rate <=? 10) = true) by (apply Z.leb_le; apply Z.ltb_ge in H10; lia).
      rewrite H10'. reflexivity.
  - intros Hrate.
    assert (Hrange : rate = 0 \/ 10 < rate <= 10000).
    { apply orb_true_iff in Hrate. destruct Hrate as [H | H].
      - left. apply Z.eqb_eq. exact H.
      - right. apply andb_true_iff in H. destruct H as (H1 & H2).
        apply Z.ltb_lt in H1. apply Z.leb_le in H2. lia. }
    assert (Hck : truthy rate && ((rate <=? 10) || (10000 <? rate)) = false).
    { destruct Hrange as [-> | Hr2]; [reflexivity |].
      apply andb_false_iff. right. apply orb_false_iff.
      split; [apply Z.leb_gt | apply Z.ltb_ge]; lia. }
    rewrite Hck, Hr. cbn [mbind option_bind].
    set (a' := vf_put a (Z.to_nat vf) (vf_set_tx_rate r rate)).
    assert (Hg : vf_get a' (Z.to_nat vf) = Some (vf_set_tx_rate r rate))
      by (eapply vf_get_put; exact Hr).
    unfold ixgbe_set_vf_rate_limit. rewrite Hg. cbn [mbind option_bind]. cbv zeta.
    change (rf_mask (vmdq a')) with (rf_mask (vmdq a)). fold qpp.
    change (mac_type (hw a')) with (mac_type (hw a)).
    rewrite rate_limit_loop0.
    assert (Hval : bcnrc_of (set_vf_rate_link_speed l 10000) (vf_set_tx_rate r rate) = val).
    { subst val. destruct Hrange as [-> | Hr2]; [reflexivity |].
      assert (Hnz : (rate =? 0) = false) by (apply Z.eqb_neq; lia). rewrite Hnz.
      apply rate_factor_exact; [reflexivity | exact Hr2]. }
    rewrite Hval.
    split.
    { f_equal. f_equal. subst mmw. unfold write_wo.
      destruct (mac_type (hw a)); rewrite <- ?app_assoc; reflexivity. }
    split.
    { subst val. destruct Hrange as [-> | Hr2]; [reflexivity |].
      assert (Hnz : (rate =? 0) = false) by (apply Z.eqb_neq; lia). rewrite Hnz.
      rewrite u32_lor. f_equal.
      apply u32_small.
      change (Z.shiftl 10000 IXGBE_RTTBCNRC_RF_INT_SHIFT) with 163840000.
      split; [apply Z.div_pos; lia |].
      apply Z.div_lt_upper_bound; [lia |]. change (2 ^ 32) with 4294967296. lia. }
    intros ivi. unfold ixgbe_ndo_get_vf_config.
    change (num_vfs a') with (num_vfs a). rewrite (vf_index_ok a vf Hvf), Hg.
    cbn [mbind option_bind]. eexists. split; reflexivity.
Qed.

Lemma fmap_prefix_step {A : Type} (f : A -> A) (t : list A) (k : nat) (r : A) :
  t !! k = Some r ->
  <[k := f r]> ((f <$> take k t) ++ drop k t) = (f <$> take (S k) t) ++ drop (S k) t.
Proof.
  intros Hk. pose proof (lookup_lt_Some _ _ _ Hk) as Hlt.
  assert (Hlen : length (f <$> take k t) = k) by (rewrite length_fmap, length_take; lia).
  rewrite insert_app_r_alt by lia. rewrite Hlen, Nat.sub_diag.
  rewrite (drop_S t r k Hk). cbn [insert list_insert].
  rewrite (take_S_r t k r Hk), fmap_app, <- app_assoc. reflexivity.
Qed.

Lemma queue_writes_zero (vf : nat) (qpp : Z) (from n : nat) :
  Forall (fun e : reg_wo * Z => fst e = IXGBE_RTTBCNRC -> snd e = 0)
    (queue_writes vf qpp 0 from n).
Proof.
  unfold queue_writes. revert from. induction n as [| n IH]; intros from; cbn [seq flat_map].
  - constructor.
  - cbn [app]. constructor; [intros H; discriminate H |].
    constructor; [intros _; reflexivity |]. apply IH.
Qed.

(** X26.  [ixgbe_check_vf_rate_limit] after a change of link speed.  When no
    rate limit was ever set (vf_rate_link_speed is 0) nothing is done.  When
    one was set at another speed than the current one, rate limiting is
    switched off for every VF: vf_rate_link_speed becomes 0, each of the
    num_vfs records gets tx_rate 0, and every value written to RTTBCNRC is
    0. *)
Theorem check_vf_rate_limit_on_speed_change
    (a : ixgbe_adapter) (l : ixgbe_link) (w : reg_writes) (t : list vf_data_storage) :
  vfinfo a = Some t ->
  num_vfs a <= Z.of_nat (length t) ->
  (vf_rate_link_speed l = 0 -> ixgbe_check_vf_rate_limit a l w = Some (a, l, w)) /\
  (vf_rate_link_speed l <> 0 -> ixgbe_link_mbps l <> vf_rate_link_speed l ->
   exists w',
     ixgbe_check_vf_rate_limit a l w =
       Some (set_vfinfo a
               (Some (((fun r => vf_set_tx_rate r 0) <$> take (Z.to_nat (num_vfs a)) t)
                      ++ drop (Z.to_nat (num_vfs a)) t)),
             set_vf_rate_link_speed l 0, w ++ w') /\
     Forall (fun e : reg_wo * Z => fst e = IXGBE_RTTBCNRC -> snd e = 0) w').
Proof.
  intros Ht Hn. unfold ixgbe_check_vf_rate_limit. split.
  - intros H0. rewrite H0. reflexivity.
  - intros Hset Hchg. rewrite (truthy_nonzero _ Hset). cbn [negb].
    apply Z.eqb_neq in Hchg. rewrite Hchg. cbn [negb]. cbv zeta.
    set (l0 := set_vf_rate_link_speed l 0).
    set (f := fun r => vf_set_tx_rate r 0).
    set (tk := fun k : nat => (f <$> take k t) ++ drop k t).
    pose (P := fun (k : nat) (s : ixgbe_adapter * reg_writes) =>
                 fst s = set_vfinfo a (Some (tk k)) /\
                 exists w', snd s = w ++ w' /\
                   Forall (fun e : reg_wo * Z => fst e = IXGBE_RTTBCNRC -> snd e = 0) w').
    match goal with
    | |- context [for_loop_opt ?n ?from ?body ?s] =>
        destruct (for_loop_opt_invariant P body n from s) as ([a' w1] & Hloop & Hp & w' & Hw & Hall)
    end.
    + split.
      * cbn [fst]. subst tk. cbn. rewrite take_0, drop_0. cbn. rewrite <- Ht.
        destruct a. reflexivity.
      * exists []. cbn [snd]. rewrite app_nil_r. split; [reflexivity | constructor].
    + intros k [ak wk] Hk (Hak & w' & Hwk & Hall). cbn [fst snd] in Hak, Hwk. subst ak wk.
      rewrite Z.add_0_l, Nat2Z.id.
      change (truthy (vf_rate_link_speed l0)) with false. cbn [negb].
      destruct (lookup_lt_is_Some_2 t k ltac:(lia)) as [r Hr].
      assert (Hgk : vf_get (set_vfinfo a (Some (tk k))) k = Some r).
      { unfold vf_get. cbn [vfinfo set_vfinfo mbind option_bind]. subst tk. cbv beta.
        rewrite lookup_app_r by (rewrite length_fmap, length_take; lia).
        rewrite length_fmap, length_take, lookup_drop.
        replace (k + (k - k `min` length t))%nat with k by lia. exact Hr. }
      rewrite Hgk. cbn [mbind option_bind].
      set (a1 := vf_put (set_vfinfo a (Some (tk k))) k (vf_set_tx_rate r 0)).
      assert (Ha1 : a1 = set_vfinfo a (Some (tk (S k)))).
      { subst a1. unfold vf_put. cbn [vfinfo set_vfinfo mbind option_bind].
        subst tk. cbv beta. change (vf_set_tx_rate r 0) with (f r).
        rewrite (fmap_prefix_step f t k r Hr). reflexivity. }
      rewrite Ha1.
      assert (Hg1 : vf_get (set_vfinfo a (Some (tk (S k)))) k = Some (f r)).
      { rewrite <- Ha1. subst a1. eapply vf_get_put. exact Hgk. }
      unfold ixgbe_set_vf_rate_limit. rewrite Hg1. cbn [mbind option_bind]. cbv zeta.
      change (bcnrc_of l0 (f r)) with 0.
      rewrite rate_limit_loop0.
      eexists. split; [reflexivity |]. split; [reflexivity |]. cbn [snd].
      change (mac_type (hw (set_vfinfo a (Some (tk (S k)))))) with (mac_type (hw a)).
      unfold write_wo.
      destruct (mac_type (hw a));
        rewrite <- ?app_assoc;
        (eexists; split; [reflexivity |]);
        repeat (apply Forall_app; split); try exact Hall;
        try apply queue_writes_zero;
        (constructor; [intros H; discriminate H | constructor]).
    + cbn [fst snd] in Hp, Hw. subst a' w1. rewrite Hloop. cbn [mbind option_bind].
      exists w'. split; [reflexivity | exact Hall].
Qed.

Definition ping_word (r : vf_data_storage) : Z :=
  if clear_to_send r then Z.lor IXGBE_PF_CONTROL_MSG IXGBE_VT_MSGTYPE_CTS
  else IXGBE_PF_CONTROL_MSG.

(** X27.  [ixgbe_ping_all_vfs] sends one control word to each VF, in index
    order, with CTS exactly for the VFs whose clear_to_send is on; it
    changes nothing else, and it is defined whenever the table has a record
    for each of the num_vfs VFs. *)
Theorem ping_all_vfs_pings_each_vf_once (a : ixgbe_adapter) (t : list vf_data_storage) :
  vfinfo a = Some t ->
  num_vfs a <= Z.of_nat (length t) ->
  exists a',
    ixgbe_ping_all_vfs a = Some a' /\
    vfinfo a' = vfinfo a /\ regs (hw a') = regs (hw a) /\ num_vfs a' = num_vfs a /\
    mbx_out (hw a') =
      mbx_out (hw a) ++ imap (fun i r => (i, [ping_word r])) (take (Z.to_nat (num_vfs a)) t).
Proof.
  intros Ht Hn. unfold ixgbe_ping_all_vfs.
  pose (P := fun (k : nat) (s : ixgbe_adapter) =>
               vfinfo s = Some t /\ regs (hw s) = regs (hw a) /\ num_vfs s = num_vfs a /\
               mbx_out (hw s) = mbx_out (hw a) ++ imap (fun i r => (i, [ping_word r])) (take k t)).
  match goal with
  | |- context [for_loop_opt ?n ?from ?body ?s] =>
      destruct (for_loop_opt_invariant P body n from s) as (a' & Hloop & H1 & H2 & H3 & H4)
  end.
  - repeat split; try assumption. rewrite take_0. cbn. rewrite app_nil_r. reflexivity.
  - intros k s Hk (H1 & H2 & H3 & H4). rewrite Z.add_0_l, Nat2Z.id.
    destruct (lookup_lt_is_Some_2 t k ltac:(lia)) as [r Hr].
    assert (Hg : vf_get s k = Some r) by (unfold vf_get; rewrite H1; exact Hr).
    rewrite Hg. cbn [mbind option_bind]. cbv zeta.
    eexists. split; [reflexivity |].
    repeat split; try assumption.
    cbn [write_mbx set_hw hw ixgbe_write_mbx mbx_out]. rewrite H4.
    rewrite (take_S_r t k r Hr), imap_app, <- app_assoc. do 2 f_equal.
    cbn [imap]. rewrite length_take, Nat.add_0_r.
    replace (k `min` length t)%nat with k by lia.
    unfold ping_word. destruct (clear_to_send r); reflexivity.
  - exists a'. rewrite Hloop. repeat split; try assumption. congruence.
Qed.

(** ** The shared multicast hash table *)

(* the bit of the shadow table that stands for hash value [h] *)
Definition mta_has (h : Z) (m : mta_state) : Prop :=
  Z.testbit (nth (Z.to_nat (Z.land (Z.shiftr h 5) 0x7F)) (mta_shadow m) 0) (Z.land h 0x1F) = true.

Definition mta_sized (m : mta_state) : Prop :=
  length (mta_shadow m) = Z.to_nat IXGBE_MAX_MTA.

Lemma land_7f_bound (x : Z) : 0 <= Z.land x 0x7F < 128.
Proof.
  change 0x7F with (Z.ones 7). rewrite Z.land_ones by lia.
  change (2 ^ 7) with 128. apply Z.mod_pos_bound. lia.
Qed.

Lemma land_1f_bound (x : Z) : 0 <= Z.land x 0x1F < 32.
Proof.
  change 0x1F with (Z.ones 5). rewrite Z.land_ones by lia.
  change (2 ^ 5) with 32. apply Z.mod_pos_bound. lia.
Qed.

Lemma mta_add_sized (h : Z) (m : mta_state) : mta_sized m -> mta_sized (mta_add h m).
Proof. unfold mta_sized, mta_add. cbn [mta_shadow]. rewrite length_alter. tauto. Qed.

Lemma mta_add_has (h : Z) (m : mta_state) : mta_sized m -> mta_has h (mta_add h m).
Proof.
  unfold mta_sized, mta_has, mta_add. cbv zeta. cbn [mta_shadow]. intros Hlen.
  pose proof (land_7f_bound (Z.shiftr h 5)) as Hreg.
  pose proof (land_1f_bound h) as Hbit.
  set (idx := Z.to_nat (Z.land (Z.shiftr h 5) 0x7F)).
  assert (Hidx : (idx < length (mta_shadow m))%nat).
  { rewrite Hlen. subst idx. unfold IXGBE_MAX_MTA. lia. }
  destruct (lookup_lt_is_Some_2 _ _ Hidx) as [x Hx].
  rewrite nth_lookup, list_lookup_alter_eq, Hx. simpl.
  rewrite Z.lor_spec, testbit_BIT by exact Hbit. rewrite Z.eqb_refl. apply orb_true_r.
Qed.

Lemma mta_add_keeps (h h' : Z) (m : mta_state) : mta_has h m -> mta_has h (mta_add h' m).
Proof.
  unfold mta_has, mta_add. cbv zeta. cbn [mta_shadow]. intros Hh.
  pose proof (land_1f_bound h') as Hbit.
  set (idx := Z.to_nat (Z.land (Z.shiftr h 5) 0x7F)) in *.
  set (idx' := Z.to_nat (Z.land (Z.shiftr h' 5) 0x7F)).
  rewrite nth_lookup in *.
  destruct (Nat.eq_dec idx' idx) as [-> | Hne].
  - rewrite list_lookup_alter_eq.
    destruct (mta_shadow m !! idx) as [x |]; simpl in *.
    + rewrite Z.lor_spec, Hh. reflexivity.
    + rewrite Z.bits_0 in Hh. discriminate.
  - rewrite list_lookup_alter_ne by exact Hne. exact Hh.
Qed.

(* the inner loop of ixgbe_restore_vf_multicasts for one record *)
Lemma restore_hashes_loop (hashes : list Z) (n : nat) (m : mta_state) :
  (n <= length hashes)%nat ->
  mta_sized m ->
  exists m',
    for_loop_opt n 0 (fun j m => h ← hashes !! Z.to_nat j; Some (mta_add h m)) m = Some m' /\
    mta_sized m' /\
    (forall h, mta_has h m -> mta_has h m') /\
    (forall j h, (j < n)%nat -> hashes !! j = Some h -> mta_has h m').
Proof.
  intros Hn Hsz.
  pose (P := fun (k : nat) (m' : mta_state) =>
               mta_sized m' /\ (forall h, mta_has h m -> mta_has h m') /\
               (forall j h, (j < k)%nat -> hashes !! j = Some h -> mta_has h m')).
  apply (for_loop_opt_invariant P).
  - split; [exact Hsz |]. split; [tauto |]. intros j h Hj. lia.
  - intros k m1 Hk (H1 & H2 & H3). rewrite Z.add_0_l, Nat2Z.id.
    destruct (lookup_lt_is_Some_2 hashes k ltac:(lia)) as [h Hh].
    rewrite Hh. cbn [mbind option_bind]. eexists. split; [reflexivity |].
    split; [apply mta_add_sized, H1 |]. split.
    + intros h0 H0. apply mta_add_keeps, H2, H0.
    + intros j h0 Hj Hj0. destruct (Nat.eq_dec j k) as [-> | Hne].
      * assert (h0 = h) by congruence. subst h0. apply mta_add_has, H1.
      * apply mta_add_keeps, (H3 j); [lia | exact Hj0].
Qed.

Lemma restore_vf_multicasts_spec (a : ixgbe_adapter) (m : mta_state) (t : list vf_data_storage) :
  vfinfo a = Some t ->
  num_vfs a <= Z.of_nat (length t) ->
  (forall i r, t !! i = Some r -> mc_ok r) ->
  exists a' m',
    ixgbe_restore_vf_multicasts a m = Some (a', m') /\
    vfinfo a' = Some t /\
    mta_sized m' /\
    (forall i r j h, Z.of_nat i < num_vfs a -> t !! i = Some r ->
       Z.of_nat j < num_vf_mc_hashes r -> vf_mc_hashes r !! j = Some h -> mta_has h m').
Proof.
  intros Ht Hn Hok. unfold ixgbe_restore_vf_multicasts. cbv zeta.
  set (m0 := {| mta_shadow := replicate (Z.to_nat IXGBE_MAX_MTA) 0;
                mta_in_use := mta_in_use m |}).
  pose (P := fun (k : nat) (s : ixgbe_adapter * mta_state) =>
               vfinfo (fst s) = Some t /\ mta_sized (snd s) /\
               (forall i r j h, (i < k)%nat -> t !! i = Some r ->
                  Z.of_nat j < num_vf_mc_hashes r -> vf_mc_hashes r !! j = Some h ->
                  mta_has h (snd s))).
  destruct (for_loop_opt_invariant P restore_vf_entry (Z.to_nat (num_vfs a)) 0 (a, m0))
    as ([a1 m1] & Hloop & H1 & H2 & H3).
  - split; [exact Ht |]. split; [apply length_replicate |]. intros i r j h Hi. lia.
  - intros k [ak mk] Hk (K1 & K2 & K3). cbn [fst snd] in K1, K2, K3.
    rewrite Z.add_0_l. unfold restore_vf_entry. cbv zeta. rewrite Nat2Z.id.
    destruct (lookup_lt_is_Some_2 t k ltac:(lia)) as [r Hr].
    assert (Hg : vf_get ak k = Some r) by (unfold vf_get; rewrite K1; exact Hr).
    rewrite Hg. cbn [mbind option_bind].
    destruct (Hok k r Hr) as ((Hlo & Hhi) & Hlen).
    destruct (restore_hashes_loop (vf_mc_hashes r) (Z.to_nat (num_vf_mc_hashes r)) mk
                ltac:(rewrite Hlen; lia) K2) as (m' & Hin & S1 & S2 & S3).
    rewrite Hin. cbn [mbind option_bind].
    eexists. split; [reflexivity |]. cbn [fst snd].
    split; [exact K1 |]. split; [exact S1 |].
    intros i r0 j h Hi Hr0 Hj Hjh. destruct (Nat.eq_dec i k) as [-> | Hne].
    + assert (r0 = r) by congruence. subst r0. apply (S3 j); [lia | exact Hjh].
    + apply S2. apply (K3 i r0 j h); [lia | assumption..].
  - cbn [fst snd] in H1, H2, H3. rewrite Hloop. cbn [mbind option_bind].
    destruct (ixgbe_full_sync_mac_table a1) as [tb rf].
    do 2 eexists. split; [reflexivity |]. split; [exact H1 |]. split; [exact H2 |].
    intros i r j h Hi. apply H3. lia.
Qed.

(** X28.  What a VF asks for with SET_MULTICAST reaches the shared hash
    table: after [ixgbe_set_vf_multicasts] has stored the request of a VF,
    [ixgbe_restore_vf_multicasts] is defined and sets, in the shadow table
    it builds, the bit of each of the first min(count, 30) hash values of
    the message; the entries the message announces beyond 30 are dropped
    without an error. *)
Theorem restore_vf_multicasts_covers_request
    (a : ixgbe_adapter) (msgbuf : list Z) (vf : nat) (m : mta_state)
    (t : list vf_data_storage) :
  vfinfo a = Some t ->
  num_vfs a <= Z.of_nat (length t) ->
  Z.of_nat vf < num_vfs a ->
  (forall i r, t !! i = Some r -> mc_ok r) ->
  exists a1 a2 m' r1,
    ixgbe_set_vf_multicasts a msgbuf vf = Some (a1, 0) /\
    vf_get a1 vf = Some r1 /\
    num_vf_mc_hashes r1 = Z.min (msginfo msgbuf) IXGBE_MAX_VF_MC_ENTRIES /\
    ixgbe_restore_vf_multicasts a1 m = Some (a2, m') /\
    mta_sized m' /\
    forall j, Z.of_nat j < Z.min (msginfo msgbuf) IXGBE_MAX_VF_MC_ENTRIES ->
      mta_has (hash_list msgbuf j) m'.
Proof.
  intros Ht Hn Hvf Hok.
  destruct (lookup_lt_is_Some_2 t vf ltac:(lia)) as [r Hr].
  assert (Hg : vf_get a vf = Some r) by (unfold vf_get; rewrite Ht; exact Hr).
  unfold ixgbe_set_vf_multicasts. rewrite Hg. cbn [mbind option_bind]. cbv zeta.
  set (entries := Z.min (msginfo msgbuf) IXGBE_MAX_VF_MC_ENTRIES).
  set (hashes := _ ++ _).
  set (r1 := vf_set_mc r entries hashes).
  pose proof (msginfo_nonneg msgbuf) as Hpos.
  assert (He : 0 <= entries <= IXGBE_MAX_VF_MC_ENTRIES).
  { subst entries. unfold IXGBE_MAX_VF_MC_ENTRIES in *. lia. }
  destruct (Hok vf r Hr) as (_ & Hlen).
  assert (Hl1 : length hashes = Z.to_nat IXGBE_MAX_VF_MC_ENTRIES).
  { subst hashes. rewrite length_app, length_fmap, length_seq, length_drop, Hlen.
    unfold IXGBE_MAX_VF_MC_ENTRIES in *. lia. }
  match goal with
  | |- context [Some (?x, 0)] => set (a1 := x)
  end.
  assert (Hv1 : vfinfo a1 = Some (<[vf := r1]> t)).
  { subst a1. cbn [vfinfo set_regs set_hw IXGBE_WRITE_REG]. unfold vf_put.
    cbn [vfinfo set_vfinfo]. rewrite Ht. reflexivity. }
  assert (Hn1 : num_vfs a1 = num_vfs a) by reflexivity.
  assert (Hok1 : forall i r0, <[vf := r1]> t !! i = Some r0 -> mc_ok r0).
  { intros i r0 Hi. destruct (Nat.eq_dec i vf) as [-> | Hne].
    - rewrite list_lookup_insert_eq in Hi by (eapply lookup_lt_Some; exact Hr).
      injection Hi as <-. split; [exact He | exact Hl1].
    - rewrite list_lookup_insert_ne in Hi by congruence. apply (Hok i r0 Hi). }
  destruct (restore_vf_multicasts_spec a1 m _ Hv1
              ltac:(rewrite Hn1, length_insert; exact Hn) Hok1)
    as (a2 & m' & Hres & _ & Hsz & Hbits).
  exists a1, a2, m', r1. split; [reflexivity |].
  split.
  { unfold vf_get. rewrite Hv1. cbn [mbind option_bind].
    apply list_lookup_insert_eq. eapply lookup_lt_Some; exact Hr. }
  split; [reflexivity |]. split; [exact Hres |]. split; [exact Hsz |].
  intros j Hj. fold entries in Hj.
  apply (Hbits vf r1 j).
  - rewrite Hn1. exact Hvf.
  - apply list_lookup_insert_eq. eapply lookup_lt_Some; exact Hr.
  - exact Hj.
  - cbn [vf_mc_hashes vf_set_mc r1]. subst hashes.
    rewrite lookup_app_l by (rewrite length_fmap, length_seq; lia).
    rewrite list_lookup_fmap, lookup_seq_lt by lia. reflexivity.
Qed.

(** ** The polling task *)

(* every record of [a] is in [a'], moved by [msg_step] *)
Definition table_evolves (a a' : ixgbe_adapter) : Prop :=
  forall v, option_Forall2 msg_step (vf_get a v) (vf_get a' v).

Lemma table_evolves_refl (a : ixgbe_adapter) : table_evolves a a.
Proof. intros v. destruct (vf_get a v); constructor. apply msg_step_refl. Qed.

Lemma table_evolves_trans (a b c : ixgbe_adapter) :
  table_evolves a b -> table_evolves b c -> table_evolves a c.
Proof.
  intros H1 H2 v. specialize (H1 v). specialize (H2 v).
  destruct H1 as [r1 r2 S1 |]; inversion H2 as [r2' r3 S2 |]; subst; constructor.
  eapply msg_step_trans; eauto.
Qed.

Lemma table_step_evolves (vf : nat) (a a' : ixgbe_adapter) :
  table_step vf a a' -> table_evolves a a'.
Proof.
  intros H v. specialize (H v). destruct H as [r r' (Hs & _) |]; constructor. exact Hs.
Qed.

Lemma table_evolves_eq (a a' : ixgbe_adapter) : vfinfo a' = vfinfo a -> table_evolves a a'.
Proof. intros H. apply (table_step_evolves 0), table_step_eq, H. Qed.

Lemma mdd_restart_vf_evolves (vf : Z) (a a' : ixgbe_adapter) :
  mdd_restart_vf vf a = Some a' -> table_evolves a a'.
Proof.
  unfold mdd_restart_vf.
  destruct (restore_mdd_vf ops2) as [restore |]; [| intros [= <-]; apply table_evolves_refl].
  cbv zeta. rewrite vf_get_set_regs.
  destruct (vf_get a (Z.to_nat vf)) as [r |] eqn:Hr; [| intros Heq; discriminate Heq].
  cbn [mbind option_bind]. intros [= <-].
  apply (table_step_evolves (Z.to_nat vf)).
  eapply table_step_trans; [| apply table_step_eq; reflexivity].
  apply table_step_put_after with (r := r); [exact Hr | | apply msg_step_set_cts].
  repeat split.
Qed.

Lemma check_mdd_event_evolves (a a' : ixgbe_adapter) (ret : Z) :
  ixgbe_check_mdd_event a = Some (a', ret) -> table_evolves a a'.
Proof.
  unfold ixgbe_check_mdd_event.
  destruct (mdd_event ops2) as [event |]; [| intros [= <- _]; apply table_evolves_refl].
  destruct (event (regs (hw a))) as [rf [w0 w1]].
  intros Hloop.
  pose (R := fun s s' : ixgbe_adapter * Z => table_evolves (fst s) (fst s')).
  assert (HR : R (set_regs a rf, 0) (a', ret)).
  { refine (for_loop_opt_preserves R _ _ _ _ _ _ _ _ Hloop).
    - intros s. apply table_evolves_refl.
    - intros s1 s2 s3. apply table_evolves_trans.
    - intros i s s'. unfold mdd_scan_word.
      destruct (negb (truthy _)); [intros [= <-]; apply table_evolves_refl |].
      apply (for_loop_opt_preserves R).
      + intros s0. apply table_evolves_refl.
      + intros s1 s2 s3. apply table_evolves_trans.
      + intros j [a1 r1] [a2 r2].
        destruct (negb (truthy _)); [intros [= <- _]; apply table_evolves_refl |].
        destruct (mdd_restart_vf (j + i * 32) a1) as [a3 |] eqn:Hm;
          [| intros Heq; discriminate Heq].
        cbn [mbind option_bind]. intros [= <- _].
        apply (mdd_restart_vf_evolves _ _ _ Hm). }
  exact HR.
Qed.

Lemma rcv_ack_from_vf_evolves (a : ixgbe_adapter) (vf : nat) (a' : ixgbe_adapter) :
  ixgbe_rcv_ack_from_vf a vf = Some a' -> table_evolves a a'.
Proof.
  unfold ixgbe_rcv_ack_from_vf. cbv zeta.
  destruct (vf_get a vf) as [r |]; [| intros Heq; discriminate Heq].
  cbn [mbind option_bind].
  destruct (negb (clear_to_send r)); intros [= <-];
    [apply table_evolves_eq; reflexivity | apply table_evolves_refl].
Qed.

Lemma msg_task_vf_evolves (i : Z) (a a' : ixgbe_adapter) :
  msg_task_vf i a = Some a' -> table_evolves a a'.
Proof.
  unfold msg_task_vf. cbv zeta.
  destruct (ixgbe_check_for_rst a (Z.to_nat i)) as [rf1 rst].
  set (a1 := set_regs a rf1).
  destruct (if negb (truthy rst) then ixgbe_vf_reset_event a1 (Z.to_nat i) else Some a1)
    as [a2 |] eqn:H2; [| intros Heq; discriminate Heq].
  cbn [mbind option_bind].
  assert (E2 : table_evolves a a2).
  { apply table_evolves_trans with (b := a1); [apply table_evolves_eq; reflexivity |].
    destruct (negb (truthy rst)).
    - apply (table_step_evolves (Z.to_nat i)), vf_reset_event_table_step, H2.
    - injection H2 as <-. apply table_evolves_refl. }
  destruct (ixgbe_check_for_msg a2 (Z.to_nat i)) as [rf2 msg].
  set (a3 := set_regs a2 rf2).
  match goal with
  | |- (x ← ?e; _) = _ -> _ => destruct e as [a4 |] eqn:H4; [| intros Heq; discriminate Heq]
  end.
  cbn [mbind option_bind].
  assert (E4 : table_evolves a2 a4).
  { apply table_evolves_trans with (b := a3); [apply table_evolves_eq; reflexivity |].
    destruct (negb (truthy msg)).
    - destruct (ixgbe_read_mbx a3 (Z.to_nat i)) as [rf [mbx_ret mbx_buf]].
      destruct (ixgbe_rcv_msg_from_vf _ _ _ _) as [[a5 rc] |] eqn:H5;
        [| discriminate H4].
      cbn in H4. injection H4 as <-.
      apply table_evolves_trans with (b := set_regs a3 rf);
        [apply table_evolves_eq; reflexivity |].
      apply (table_step_evolves (Z.to_nat i)), (rcv_msg_table_step _ _ _ _ _ _ H5).
    - injection H4 as <-. apply table_evolves_refl. }
  destruct (ixgbe_check_for_ack a4 (Z.to_nat i)) as [rf3 ack].
  intros H6.
  apply table_evolves_trans with (b := a2); [exact E2 |].
  apply table_evolves_trans with (b := a4); [exact E4 |].
  apply table_evolves_trans with (b := set_regs a4 rf3);
    [apply table_evolves_eq; reflexivity |].
  destruct (negb (truthy ack)).
  - apply (rcv_ack_from_vf_evolves _ _ _ H6).
  - injection H6 as <-. apply table_evolves_refl.
Qed.

Lemma msg_task_evolves (a a' : ixgbe_adapter) :
  ixgbe_msg_task a = Some a' -> table_evolves a a'.
Proof.
  unfold ixgbe_msg_task.
  destruct (vfinfo a) as [t |]; [| intros [= <-]; apply table_evolves_refl].
  match goal with
  | |- (x ← ?e; _) = _ -> _ => destruct e as [a1 |] eqn:H1; [| intros Heq; discriminate Heq]
  end.
  cbn [mbind option_bind]. intros Hloop.
  apply table_evolves_trans with (b := a1).
  - destruct (IXGBE_FLAG_MDD_ENABLED (flags a)).
    + destruct (ixgbe_check_mdd_event a) as [[a2 ret] |] eqn:Hm; [| discriminate H1].
      cbn in H1. injection H1 as <-. apply (check_mdd_event_evolves _ _ _ Hm).
    + injection H1 as <-. apply table_evolves_refl.
  - refine (for_loop_opt_preserves table_evolves _ _ _ _ _ _ _ _ Hloop).
    + apply table_evolves_refl.
    + apply table_evolves_trans.
    + apply msg_task_vf_evolves.
Qed.

(** X29.  One run of the polling task cannot undo what the administrator
    configured: whatever resets, messages, acknowledgements and malicious
    driver events [ixgbe_msg_task] finds pending, every VF record it returns
    with has the pinned-MAC flag, trust, port VLAN and QoS, rate limit, link
    state, spoof checking and RSS-query permission it had before; a stored
    API version that was one of 1.0 to 1.3 still is, and a multicast count
    that was within the 30-entry array still is. *)
Theorem msg_task_keeps_admin_settings (a a' : ixgbe_adapter) :
  ixgbe_msg_task a = Some a' ->
  forall v r, vf_get a v = Some r ->
    exists r', vf_get a' v = Some r' /\ admin_same r r' /\
               (api_known r -> api_known r') /\ (mc_ok r -> mc_ok r').
Proof.
  intros Htask v r Hr. pose proof (msg_task_evolves _ _ Htask v) as Hs.
  rewrite Hr in Hs. inversion Hs as [r0 r' Hstep |]; subst.
  exists r'. split; [reflexivity |]. exact Hstep.
Qed.

(** ** The malicious-driver sweep *)

(* bit [v mod 32] of word [v / 32] of the bitmap that mdd_event fills *)
Definition mdd_flagged (w0 w1 : Z) (v : nat) : bool :=
  (v <? 64)%nat && Z.testbit (u32 (if (v <? 32)%nat then w0 else w1)) (Z.of_nat (v mod 32)).

Definition mdd_ping : Z := Z.lor IXGBE_PF_CONTROL_MSG IXGBE_VT_MSGTYPE_CTS.

(* the VFs of bitmap word [i] below bit [k] *)
Definition in_word (i k v : nat) : bool := (32 * i <=? v)%nat && (v <? 32 * i + k)%nat.

Definition mdd_stop (flag : nat -> bool) (i k : nat) (v : nat) (r : vf_data_storage)
  : vf_data_storage :=
  if in_word i k v && flag v then vf_set_cts r false else r.

Ltac nat_cases :=
  repeat match goal with
         | |- context [(?x <=? ?y)%nat] => destruct (Nat.leb_spec x y)
         | |- context [(?x <? ?y)%nat] => destruct (Nat.ltb_spec x y)
         end;
  cbn [andb orb]; try reflexivity; try lia.

Lemma in_word_0 (i v : nat) : in_word i 0 v = false.
Proof. unfold in_word. nat_cases. Qed.

Lemma in_word_next (i k v : nat) : v <> (32 * i + k)%nat -> in_word i (S k) v = in_word i k v.
Proof. intros H. unfold in_word. nat_cases. Qed.

Lemma in_word_last (i k : nat) : in_word i k (32 * i + k) = false.
Proof. unfold in_word. nat_cases. Qed.

Lemma in_word_this (i k : nat) : in_word i (S k) (32 * i + k) = true.
Proof. unfold in_word. nat_cases. Qed.

Lemma truthy_land_BIT (w j : Z) : 0 <= j < 32 -> truthy (Z.land w (BIT j)) = Z.testbit w j.
Proof.
  intros Hj. unfold truthy. rewrite BIT_pow2 by exact Hj.
  rewrite land_pow2_eqb_0 by lia. apply negb_involutive.
Qed.

Lemma filter_none {A : Type} (f : A -> bool) (l : list A) :
  (forall x, In x l -> f x = false) -> List.filter f l = [].
Proof.
  induction l as [| x l IH]; intros H; [reflexivity |].
  cbn [List.filter]. rewrite (H x (or_introl eq_refl)). apply IH.
  intros y Hy. apply H. right. exact Hy.
Qed.

Lemma existsb_none {A : Type} (f : A -> bool) (l : list A) :
  (forall x, In x l -> f x = false) -> existsb f l = false.
Proof.
  induction l as [| x l IH]; intros H; [reflexivity |].
  cbn [existsb]. rewrite (H x (or_introl eq_refl)). apply IH.
  intros y Hy. apply H. right. exact Hy.
Qed.

Lemma imap_fixed {A : Type} (f : nat -> A -> A) (l : list A) :
  (forall i x, l !! i = Some x -> f i x = x) -> imap f l = l.
Proof.
  intros H. apply list_eq. intros i. rewrite list_lookup_imap.
  destruct (l !! i) as [x |] eqn:Hx; [| reflexivity].
  cbn [fmap option_fmap option_map]. f_equal. apply (H i x Hx).
Qed.

Lemma mdd_scan_word_spec (restore : regfile -> Z -> regfile) (i : nat) (w : Z)
    (flag : nat -> bool) (a0 : ixgbe_adapter) (ret0 : Z) (t0 : list vf_data_storage) :
  restore_mdd_vf ops2 = Some restore ->
  (forall j, (j < 32)%nat -> flag (32 * i + j)%nat = Z.testbit w (Z.of_nat j)) ->
  vfinfo a0 = Some t0 ->
  (forall j, (j < 32)%nat -> flag (32 * i + j)%nat = true -> (32 * i + j < length t0)%nat) ->
  exists a',
    mdd_scan_word (Z.of_nat i) w (a0, ret0)
      = Some (a', if existsb flag (seq (32 * i) 32) then 1 else ret0) /\
    vfinfo a' = Some (imap (mdd_stop flag i 32) t0) /\
    mbx_out (hw a') =
      mbx_out (hw a0) ++ ((fun v => (v, [mdd_ping])) <$> List.filter flag (seq (32 * i) 32)).
Proof.
  intros Hres Hflag Ht Hin. unfold mdd_scan_word.
  destruct (truthy w) eqn:Hw; cbn [negb].
  - pose (P := fun (k : nat) (s : ixgbe_adapter * Z) =>
                 vfinfo (fst s) = Some (imap (mdd_stop flag i k) t0) /\
                 mbx_out (hw (fst s)) =
                   mbx_out (hw a0) ++
                   ((fun v => (v, [mdd_ping])) <$> List.filter flag (seq (32 * i) k)) /\
                 snd s = if existsb flag (seq (32 * i) k) then 1 else ret0).
    match goal with
    | |- context [for_loop_opt ?n ?from ?body ?s] =>
        destruct (for_loop_opt_invariant P body n from s) as ([a' ret'] & Hloop & H1 & H2 & H3)
    end.
    + unfold P. cbn [fst snd seq List.filter existsb fmap list_fmap]. rewrite app_nil_r.
      repeat split. rewrite Ht. f_equal. symmetry.
      apply imap_fixed. intros v r _. unfold mdd_stop.
      rewrite in_word_0. reflexivity.
    + intros k [a1 r1] Hk (K1 & K2 & K3). cbn [fst snd] in K1, K2, K3.
      unfold P. rewrite Z.add_0_l. rewrite truthy_land_BIT by lia.
      rewrite <- (Hflag k Hk). rewrite seq_S, List.filter_app, existsb_app, fmap_app.
      cbn [List.filter existsb].
      assert (Hstep : forall v r, v <> (32 * i + k)%nat ->
                mdd_stop flag i (S k) v r = mdd_stop flag i k v r).
      { intros v r Hv. unfold mdd_stop. rewrite (in_word_next i k v Hv). reflexivity. }
      destruct (flag (32 * i + k)%nat) eqn:Hf; cbn [negb].
      * unfold mdd_restart_vf. rewrite Hres. cbv zeta. rewrite vf_get_set_regs.
        replace (Z.to_nat (Z.of_nat k + Z.of_nat i * 32)) with (32 * i + k)%nat by lia.
        destruct (lookup_lt_is_Some_2 t0 (32 * i + k)%nat (Hin k Hk Hf)) as [r Hr].
        assert (Hg : vf_get a1 (32 * i + k)%nat = Some r).
        { unfold vf_get. rewrite K1. cbn [mbind option_bind].
          rewrite list_lookup_imap, Hr. cbn [fmap option_fmap option_map]. f_equal.
          unfold mdd_stop. rewrite in_word_last. reflexivity. }
        rewrite Hg. cbn [mbind option_bind].
        eexists. split; [reflexivity |]. cbn [fst snd]. split; [| split].
        -- cbn [write_mbx set_hw vfinfo]. unfold vf_put. cbn [vfinfo set_vfinfo set_regs set_hw].
           rewrite K1. cbn [mbind option_bind]. f_equal.
           apply list_eq. intros v. destruct (Nat.eq_dec v (32 * i + k)%nat) as [-> | Hne].
           ++ rewrite list_lookup_insert_eq
                by (rewrite length_imap; eapply lookup_lt_Some; exact Hr).
              rewrite list_lookup_imap, Hr. cbn [fmap option_fmap option_map]. f_equal.
              unfold mdd_stop. rewrite Hf, in_word_this. reflexivity.
           ++ rewrite list_lookup_insert_ne by congruence.
              rewrite !list_lookup_imap. destruct (t0 !! v) as [r0 |]; [| reflexivity].
              cbn [fmap option_fmap option_map]. f_equal. symmetry. apply Hstep, Hne.
        -- cbn [write_mbx set_hw hw ixgbe_write_mbx mbx_out vf_put set_vfinfo set_regs
                 hw_set_regs take].
           rewrite K2, <- app_assoc. reflexivity.
        -- rewrite orb_true_r. reflexivity.
      * eexists. split; [reflexivity |]. cbn [fst snd]. split; [| split].
        -- rewrite K1. f_equal. apply imap_ext. intros v r _.
           destruct (Nat.eq_dec v (32 * i + k)%nat) as [-> | Hne]; [| symmetry; apply Hstep, Hne].
           unfold mdd_stop. rewrite Hf, !andb_false_r. reflexivity.
        -- rewrite K2. cbn [fmap list_fmap]. rewrite app_nil_r. reflexivity.
        -- rewrite K3, !orb_false_r. reflexivity.
    + cbn [fst snd] in H1, H2, H3. subst ret'. exists a'. split; [exact Hloop |].
      split; assumption.
  - assert (Hz : w = 0).
    { unfold truthy in Hw. apply negb_false_iff, Z.eqb_eq in Hw. exact Hw. }
    assert (Hnone : forall v, In v (seq (32 * i) 32) -> flag v = false).
    { intros v Hv. apply in_seq in Hv.
      replace v with (32 * i + (v - 32 * i))%nat by lia.
      rewrite Hflag by lia. rewrite Hz. apply Z.bits_0. }
    exists a0. rewrite (existsb_none _ _ Hnone), (filter_none _ _ Hnone).
    cbn [fmap list_fmap]. rewrite app_nil_r. split; [reflexivity |]. split; [| reflexivity].
    rewrite Ht. f_equal. symmetry. apply imap_fixed. intros v r _.
    unfold mdd_stop, in_word.
    destruct ((32 * i <=? v)%nat && (v <? 32 * i + 32)%nat) eqn:Hr; [| reflexivity].
    apply andb_true_iff in Hr. destruct Hr as [H1 H2].
    apply Nat.leb_le in H1. apply Nat.ltb_lt in H2.
    rewrite (Hnone v) by (apply in_seq; lia). reflexivity.
Qed.

Lemma mdd_flagged_word (w0 w1 : Z) (i j : nat) :
  (i < 2)%nat -> (j < 32)%nat ->
  mdd_flagged w0 w1 (32 * i + j) =
    Z.testbit (u32 (if Z.of_nat i =? 0 then w0 else w1)) (Z.of_nat j).
Proof.
  intros Hi Hj. unfold mdd_flagged.
  replace (32 * i + j <? 64)%nat with true by (symmetry; apply Nat.ltb_lt; lia).
  cbn [andb].
  replace ((32 * i + j) mod 32)%nat with j
    by (rewrite Nat.add_comm, Nat.mul_comm, Nat.Div0.mod_add, Nat.mod_small; lia).
  destruct i as [| [| i]]; [| | lia].
  - replace (32 * 0 + j <? 32)%nat with true by (symmetry; apply Nat.ltb_lt; lia).
    reflexivity.
  - replace (32 * 1 + j <? 32)%nat with false by (symmetry; apply Nat.ltb_ge; lia).
    reflexivity.
Qed.

(** X30.  The malicious-driver sweep: when the MAC provides both mdd_event
    and restore_mdd_vf, [ixgbe_check_mdd_event] returns 1 exactly when one of
    the 64 bits of the event bitmap is set, turns clear_to_send off in the
    record of every flagged VF and in no other record, and sends each flagged
    VF, in index order, one control word, which carries CTS although
    clear_to_send has just been turned off.  It is defined as long as every
    flagged VF has a record in the table. *)
Theorem check_mdd_event_restarts_flagged_vfs
    (a : ixgbe_adapter) (event : regfile -> regfile * (Z * Z))
    (restore : regfile -> Z -> regfile) (rf : regfile) (w0 w1 : Z)
    (t : list vf_data_storage) :
  mdd_event ops2 = Some event ->
  restore_mdd_vf ops2 = Some restore ->
  event (regs (hw a)) = (rf, (w0, w1)) ->
  vfinfo a = Some t ->
  (forall v, mdd_flagged w0 w1 v = true -> (v < length t)%nat) ->
  exists a',
    ixgbe_check_mdd_event a
      = Some (a', if existsb (mdd_flagged w0 w1) (seq 0 64) then 1 else 0) /\
    vfinfo a' =
      Some (imap (fun v r => if mdd_flagged w0 w1 v then vf_set_cts r false else r) t) /\
    mbx_out (hw a') =
      mbx_out (hw a) ++
      ((fun v => (v, [mdd_ping])) <$> List.filter (mdd_flagged w0 w1) (seq 0 64)).
Proof.
  intros Hev Hres Hrun Ht Hin. unfold ixgbe_check_mdd_event. rewrite Hev, Hrun.
  cbn [for_loop_opt]. change (0 + 1) with 1.
  destruct (mdd_scan_word_spec restore 0 (u32 w0) (mdd_flagged w0 w1) (set_regs a rf) 0 t Hres)
    as (a1 & Hs1 & Hv1 & Hm1).
  { intros j Hj. apply (mdd_flagged_word w0 w1 0 j); lia. }
  { exact Ht. }
  { intros j Hj Hf. apply Hin, Hf. }
  change (Z.of_nat 0) with 0 in Hs1. change (0 =? 0) with true. cbv iota.
  rewrite Hs1. cbn [mbind option_bind].
  destruct (mdd_scan_word_spec restore 1 (u32 w1) (mdd_flagged w0 w1) a1
              (if existsb (mdd_flagged w0 w1) (seq (32 * 0) 32) then 1 else 0)
              (imap (mdd_stop (mdd_flagged w0 w1) 0 32) t) Hres)
    as (a2 & Hs2 & Hv2 & Hm2).
  { intros j Hj. apply (mdd_flagged_word w0 w1 1 j); lia. }
  { exact Hv1. }
  { intros j Hj Hf. rewrite length_imap. apply Hin, Hf. }
  change (Z.of_nat 1) with 1 in Hs2. change (1 =? 0) with false. cbv iota.
  rewrite Hs2. cbn [mbind option_bind].
  exists a2. change (seq 0 64) with (seq (32 * 0) 32 ++ seq (32 * 1) 32).
  rewrite existsb_app, List.filter_app, fmap_app. split; [| split].
  - do 2 f_equal.
    destruct (existsb _ (seq (32 * 0) 32)), (existsb _ (seq (32 * 1) 32)); reflexivity.
  - rewrite Hv2. f_equal. apply list_eq. intros v. rewrite !list_lookup_imap.
    destruct (t !! v) as [r |]; [| reflexivity].
    cbn [fmap option_fmap option_map]. f_equal. unfold mdd_stop.
    destruct (mdd_flagged w0 w1 v) eqn:Hf; [| rewrite !andb_false_r; reflexivity].
    assert (Hv : (v < 64)%nat).
    { unfold mdd_flagged in Hf. apply andb_true_iff in Hf. apply Nat.ltb_lt, Hf. }
    rewrite !andb_true_r. unfold in_word. nat_cases.
  - rewrite Hm2, Hm1. cbn [hw set_regs set_hw hw_set_regs mbx_out].
    rewrite <- app_assoc. reflexivity.
Qed.


End Driver.

(** * A concrete device

    The collaborators are instantiated with a small receive-address table
    of [num_rar_entries] slots and with register operations that succeed
    and write nothing. *)

Definition rar_table := list (ether_addr * nat).

(** Modelled from the spec: ixgbe_add_mac_filter and ixgbe_del_mac_filter
    live in ixgbe_main.c, which is not under src/.  Section 6 gives their
    contract: add_mac_filter(addr, owner_vf) -> Result<slot, Error> and
    remove_mac_filter(addr, owner_vf).  The add takes the next free slot
    and fails with -ENOMEM when the table is full, with -EINVAL for the
    zero address; the removal drops the entries of that address and owner. *)
Definition bench_add_mac_filter (a : @ixgbe_adapter rar_table) (m : ether_addr) (vf : nat)
  : rar_table * regfile * Z :=
  if is_zero_ether_addr m then (mac_table a, regs (hw a), - EINVAL)
  else if Z.of_nat (length (mac_table a)) <? num_rar_entries (hw a)
       then (mac_table a ++ [(m, vf)], regs (hw a), Z.of_nat (length (mac_table a)))
       else (mac_table a, regs (hw a), - ENOMEM).

Definition bench_del_mac_filter (a : @ixgbe_adapter rar_table) (m : ether_addr) (vf : nat)
  : rar_table * regfile * Z :=
  if is_zero_ether_addr m then (mac_table a, regs (hw a), - EINVAL)
  else (List.filter (fun e => negb (bool_decide (e = (m, vf)))) (mac_table a), regs (hw a), 0).

Definition bench_ops : ixgbe_mac_operations :=
  {| set_vfta := fun rf _ _ _ _ => (rf, 0);
     set_mac_anti_spoofing := fun rf _ _ => rf;
     set_vlan_anti_spoofing := fun rf _ _ => rf;
     disable_mdd := None |}.

Definition bench_write_mc_addr_list (a : @ixgbe_adapter rar_table) : regfile := regs (hw a).
Definition bench_set_rx_mode (a : @ixgbe_adapter rar_table)
  : rar_table * regfile * ixgbe_flags2 := (mac_table a, regs (hw a), flags2 a).
Definition bench_update_pf_promisc_vlvf (a : @ixgbe_adapter rar_table) (vid : Z) : regfile :=
  regs (hw a).
Definition bench_rss_indir_tbl_entries (a : @ixgbe_adapter rar_table) : Z := 128.
Definition bench_sriov_reinit (a : @ixgbe_adapter rar_table) : @ixgbe_adapter rar_table := a.
Definition bench_pci_enable_sriov (p : pci_dev) (n : Z) : pci_dev * Z :=
  ({| sriov_num_vfs := n; vfs_assigned := vfs_assigned p; sriov_cap := sriov_cap p;
      bus_vf_devices := bus_vf_devices p |}, 0).
Definition bench_pci_disable_sriov (p : pci_dev) : pci_dev :=
  {| sriov_num_vfs := 0; vfs_assigned := vfs_assigned p; sriov_cap := sriov_cap p;
     bus_vf_devices := [] |}.

Definition bench_rcv_msg :=
  ixgbe_rcv_msg_from_vf bench_ops bench_add_mac_filter bench_del_mac_filter
    bench_write_mc_addr_list bench_set_rx_mode bench_update_pf_promisc_vlvf
    bench_rss_indir_tbl_entries.

Definition bench_vf (mac : ether_addr) (cts pinned trust : bool) (vlan api mode : Z)
  : vf_data_storage :=
  {| vfdev := None; vf_mac_addresses := mac; vf_mc_hashes := replicate 30 0;
     num_vf_mc_hashes := 0; clear_to_send := cts; pf_set_mac := pinned;
     pf_vlan := vlan; pf_qos := 0; tx_rate := 0; link_enable := true; link_state := 0;
     spoofchk_enabled := true; rss_query_enabled := false; trusted := trust;
     xcast_mode := mode; vf_api := api |}.

Definition bench_adapter (mt : ixgbe_mac_type) (tcs : Z) (vfs : list vf_data_storage)
    (tbl : rar_table) (slots : Z) (rf : regfile) (pci_vfs : Z) (assigned : bool)
  : @ixgbe_adapter rar_table :=
  {| flags := {| IXGBE_FLAG_SRIOV_CAPABLE := true;
                 IXGBE_FLAG_SRIOV_ENABLED := negb (length vfs =? 0)%nat;
                 IXGBE_FLAG_VMDQ_ENABLED := negb (length vfs =? 0)%nat;
                 IXGBE_FLAG_SRIOV_L2SWITCH_ENABLE := negb (length vfs =? 0)%nat;
                 IXGBE_FLAG_SRIOV_REPLICATION_ENABLE := negb (length vfs =? 0)%nat;
                 IXGBE_FLAG_MDD_ENABLED := false |};
     flags2 := {| IXGBE_FLAG2_RSC_CAPABLE := false; IXGBE_FLAG2_RSC_ENABLED := false;
                  IXGBE_FLAG2_VLAN_PROMISC := false |};
     num_vfs := Z.of_nat (length vfs);
     max_vfs := 0;
     vfinfo := if (length vfs =? 0)%nat then None else Some vfs;
     mv_list := None;
     vmdq := {| rf_limit := 1; rf_offset := Z.of_nat (length vfs); rf_mask := 0x7E |};
     pg_tcs := 4; pfc_tcs := 4; vt_mode := negb (length vfs =? 0)%nat;
     netdev := {| mtu := 1500; num_tc := tcs; NETIF_F_FCOE_MTU := false; prio_tc_map := [] |};
     default_up := 0;
     xdp_prog := false;
     active_vlans := [];
     rss_indir_tbl := [];
     rss_key := [];
     hw := {| mac_type := mt; mc_filter_type := 0; num_rar_entries := slots;
              regs := rf; mbx_out := [] |};
     pdev := {| sriov_num_vfs := pci_vfs; vfs_assigned := assigned; sriov_cap := true;
                bus_vf_devices := [] |};
     mac_table := tbl |}.

Definition bench_mem : kmem := {| kcalloc_vfinfo_ok := true; kcalloc_mv_list_ok := true |}.

Definition mac_a : ether_addr := EthAddr 0x02 0 0 0 0 0x01.
Definition mac_b : ether_addr := EthAddr 0x02 0 0 0 0 0x02.
Definition mac_pf : ether_addr := EthAddr 0x00 0x1b 0x21 0 0 0x10.

Definition vf_pinned : vf_data_storage :=
  bench_vf mac_a true true false 0 ixgbe_mbox_api_13 IXGBEVF_XCAST_MODE_NONE.
Definition vf_trusted : vf_data_storage :=
  bench_vf mac_a true false true 0 ixgbe_mbox_api_13 IXGBEVF_XCAST_MODE_NONE.
Definition vf_blocked : vf_data_storage :=
  bench_vf mac_a false false false 0 ixgbe_mbox_api_10 IXGBEVF_XCAST_MODE_NONE.
Definition vf_port_vlan : vf_data_storage :=
  bench_vf mac_a true false false 100 ixgbe_mbox_api_13 IXGBEVF_XCAST_MODE_NONE.
Definition vf_in_promisc : vf_data_storage :=
  bench_vf mac_a true false true 0 ixgbe_mbox_api_13 IXGBEVF_XCAST_MODE_PROMISC.
Definition vf_plain : vf_data_storage :=
  bench_vf mac_a true false false 0 ixgbe_mbox_api_13 IXGBEVF_XCAST_MODE_NONE.

(* one VF on an X540; the receive-address table has [slots] entries, the
   first one taken by the PF *)
Definition dev_with (v : vf_data_storage) (slots : Z) : @ixgbe_adapter rar_table :=
  bench_adapter ixgbe_mac_X540 0 [v] [(mac_pf, 99%nat)] slots [] 1 false.

(* two VFs that are assigned to guests *)
Definition dev_assigned : @ixgbe_adapter rar_table :=
  bench_adapter ixgbe_mac_X540 0 [vf_plain; vf_plain] [(mac_pf, 99%nat)] 16 [] 2 true.

(* SR-IOV off, [tcs] traffic classes, [pci_vfs] VFs known to the PCI core *)
Definition dev_off (tcs pci_vfs : Z) : @ixgbe_adapter rar_table :=
  bench_adapter ixgbe_mac_X540 tcs [] [(mac_pf, 99%nat)] 16 [] pci_vfs false.

(* msgbuf[0] for an opcode with a value in the MSGINFO field *)
Definition request (op info : Z) : Z := Z.lor op (Z.shiftl info IXGBE_VT_MSGINFO_SHIFT).
(* msgbuf[1], msgbuf[2] carrying a MAC address *)
Definition mac_words (m : ether_addr) : list Z := [fst (words_of_mac m); snd (words_of_mac m)].

(** ** C9: witness *)

Lemma set_vf_mac_add_failure_witness :
  let a := dev_with vf_plain 1 in
  vf_get a 0 = Some vf_plain /\
  snd (add_mac_filter bench_add_mac_filter
         (fst (del_mac_filter bench_del_mac_filter a (vf_mac_addresses vf_plain) 0%nat))
         mac_b 0%nat) < 0 /\
  exists a' rc,
    ixgbe_set_vf_mac bench_add_mac_filter bench_del_mac_filter a 0 mac_b = Some (a', rc) /\
    rc < 0 /\
    vf_get a' 0 = Some (vf_set_mac vf_plain zero_addr) /\
    vf_mac_addresses (vf_set_mac vf_plain zero_addr) = zero_addr.
Proof.
  split; [reflexivity |]. split; [reflexivity |].
  apply (set_vf_mac_add_failure_zeroes_record bench_add_mac_filter bench_del_mac_filter
           (dev_with vf_plain 1) 0%nat mac_b vf_plain); reflexivity.
Defined.

(** ** C5: counterexample and witness *)




(** ** C7: counterexample and witness *)

(** C7 as stated fails: the VF has the PF-pinned port VLAN 100 and asks to
    remove VLAN 0; the handler returns -1, not success. *)
Lemma vlan0_removal_counterexample :
  let a := dev_with vf_port_vlan 16 in
  let msgbuf := [request IXGBE_VF_SET_VLAN 0; 0] in
  msginfo msgbuf = 0 /\ Z.land (word msgbuf 1) IXGBE_VLVF_VLANID_MASK = 0 /\
  ixgbe_set_vf_vlan_msg bench_ops bench_update_pf_promisc_vlvf a msgbuf 0
    = Some (a, msgbuf, -1).
Proof. repeat split. Qed.

Lemma set_vf_vlan_msg_policy_witness :
  let msgbuf := [request IXGBE_VF_SET_VLAN 0; 0] in
  (vf_get (dev_with vf_port_vlan 16) 0 = Some vf_port_vlan /\
   ixgbe_set_vf_vlan_msg bench_ops bench_update_pf_promisc_vlvf
     (dev_with vf_port_vlan 16) msgbuf 0 = Some (dev_with vf_port_vlan 16, msgbuf, -1)) /\
  (vf_get (dev_with vf_plain 16) 0 = Some vf_plain /\
   ixgbe_set_vf_vlan_msg bench_ops bench_update_pf_promisc_vlvf
     (dev_with vf_plain 16) msgbuf 0 = Some (dev_with vf_plain 16, msgbuf, 0)).
Proof.
  intros msgbuf. split; (split; [reflexivity |]).
  - apply (set_vf_vlan_msg_policy bench_ops bench_update_pf_promisc_vlvf
             (dev_with vf_port_vlan 16) msgbuf 0%nat vf_port_vlan eq_refl).
    left. discriminate.
  - apply (set_vf_vlan_msg_policy bench_ops bench_update_pf_promisc_vlvf
             (dev_with vf_plain 16) msgbuf 0%nat vf_plain eq_refl); reflexivity.
Defined.

(** ** C1: counterexample and witness *)

(** C1 as stated fails: VF 0 has clear_to_send false and the word read from
    its mailbox is SET_MAC_ADDR with the SUCCESS tag already on it.  The
    opcode is not RESET, yet no reply is written: the call returns 0 and
    the adapter, mailbox log included, is the one it was given. *)
Lemma cts_gate_counterexample :
  let a := dev_with vf_blocked 16 in
  let mbx_buf := [Z.lor IXGBE_VF_SET_MAC_ADDR IXGBE_VT_MSGTYPE_SUCCESS; 0; 0] in
  vf_get a 0 = Some vf_blocked /\ clear_to_send vf_blocked = false /\
  Z.land (word mbx_buf 0) 0xFFFF <> IXGBE_VF_RESET /\
  bench_rcv_msg a 0 0 mbx_buf = Some (a, 0) /\
  mbx_out (hw a) = [].
Proof. vm_compute. repeat split. discriminate. Qed.

Lemma cts_gate_witness :
  let a := dev_with vf_blocked 16 in
  let mbx_buf := IXGBE_VF_SET_MAC_ADDR :: mac_words mac_b in
  vf_get a 0 = Some vf_blocked /\ clear_to_send vf_blocked = false /\
  word (rx_buffer mbx_buf) 0 <> IXGBE_VF_RESET /\
  exists a',
    bench_rcv_msg a 0 0 mbx_buf = Some (a', 0) /\
    vfinfo a' = vfinfo a /\ regs (hw a') = regs (hw a) /\ mac_table a' = mac_table a /\
    mbx_out (hw a') = [(0%nat, [Z.lor IXGBE_VF_SET_MAC_ADDR IXGBE_VT_MSGTYPE_FAILURE])].
Proof.
  intros a mbx_buf.
  assert (Hne : word (rx_buffer mbx_buf) 0 <> IXGBE_VF_RESET) by (vm_compute; discriminate).
  split; [reflexivity |]. split; [reflexivity |]. split; [exact Hne |].
  destruct (cts_gate_blocks_handlers bench_ops bench_add_mac_filter bench_del_mac_filter
              bench_write_mc_addr_list bench_set_rx_mode bench_update_pf_promisc_vlvf
              bench_rss_indir_tbl_entries a 0%nat mbx_buf vf_blocked eq_refl eq_refl Hne)
    as (a' & H1 & H2 & H3 & H4 & H5 & _).
  exists a'. split; [exact H1 |]. split; [exact H2 |]. split; [exact H3 |].
  split; [exact H4 |]. destruct (H5 eq_refl) as [H6 _]. exact H6.
Defined.

(** ** C2: counterexample and witness *)

(** C2 as stated fails: two VFs are assigned to guests; the disable returns
    -EPERM, and after it the visible VF count is 0, not 2, and the VF record
    table is gone. *)
Lemma busy_disable_counterexample :
  exists a',
    ixgbe_disable_sriov bench_ops bench_pci_disable_sriov dev_assigned = Some (a', - EPERM) /\
    num_vfs dev_assigned = 2 /\ num_vfs a' = 0 /\
    vfinfo dev_assigned = Some [vf_plain; vf_plain] /\ vfinfo a' = None.
Proof. eexists. split; [vm_compute; reflexivity |]. vm_compute. repeat split. Qed.

Lemma busy_disable_witness :
  vf_table_covers dev_assigned /\
  IXGBE_FLAG_SRIOV_ENABLED (flags dev_assigned) = true /\
  vfs_assigned (pdev dev_assigned) = true /\
  (exists a',
     ixgbe_disable_sriov bench_ops bench_pci_disable_sriov dev_assigned = Some (a', - EPERM) /\
     num_vfs a' = 0 /\ vfinfo a' = None /\ mv_list a' = None /\
     flags a' = flags dev_assigned /\ vmdq a' = vmdq dev_assigned /\
     pdev a' = pdev dev_assigned /\ regs (hw a') = regs (hw dev_assigned)) /\
  (exists a',
     ixgbe_pci_sriov_enable bench_ops bench_sriov_reinit bench_pci_enable_sriov
       bench_pci_disable_sriov bench_mem dev_assigned 4 = Some (a', - EPERM) /\
     ixgbe_disable_sriov bench_ops bench_pci_disable_sriov dev_assigned = Some (a', - EPERM) /\
     num_vfs a' = 0 /\ vfinfo a' = None /\
     sriov_num_vfs (pdev a') = sriov_num_vfs (pdev dev_assigned)).
Proof.
  assert (Hcov : vf_table_covers dev_assigned).
  { right. exists [vf_plain; vf_plain]. split; [reflexivity |]. vm_compute. discriminate. }
  split; [exact Hcov |]. split; [reflexivity |]. split; [reflexivity |].
  destruct (busy_disable_tears_down_bookkeeping bench_ops bench_sriov_reinit
              bench_pci_enable_sriov bench_pci_disable_sriov bench_mem dev_assigned 4
              Hcov eq_refl eq_refl) as [H1 H2].
  split; [exact H1 |].
  apply H2; [reflexivity | vm_compute; discriminate ..].
Defined.

(** ** C3: the code at the failing input *)

(** C3.  VF 0 has passed the clear-to-send gate and sends SET_LPE with a
    frame size of 9729, one above IXGBE_MAX_JUMBO_FRAME_SIZE.  The engine
    returns -EINVAL and the adapter it was given: no response has been
    written to the VF.  The same request with 9728 is answered, with the
    SUCCESS and CTS tags. *)
Theorem set_lpe_out_of_range_gets_no_reply :
  let a := dev_with vf_plain 16 in
  clear_to_send vf_plain = true /\
  already_tagged IXGBE_VF_SET_LPE = false /\
  bench_rcv_msg a 0 0 [IXGBE_VF_SET_LPE; IXGBE_MAX_JUMBO_FRAME_SIZE + 1] = Some (a, - EINVAL) /\
  mbx_out (hw a) = [] /\
  exists a',
    bench_rcv_msg a 0 0 [IXGBE_VF_SET_LPE; IXGBE_MAX_JUMBO_FRAME_SIZE] = Some (a', 0) /\
    mbx_out (hw a') =
      [(0%nat, rx_buffer [reply_word IXGBE_VF_SET_LPE 0; IXGBE_MAX_JUMBO_FRAME_SIZE])].
Proof.
  split; [reflexivity |]. split; [reflexivity |]. split; [vm_compute; reflexivity |].
  split; [reflexivity |].
  eexists. split; vm_compute; reflexivity.
Qed.

(** ** C4: counterexample and witness *)

(* the [i]-th address the PF uses for itself *)
Definition pf_addr (i : nat) : ether_addr := EthAddr 0x00 0x1b 0x21 0 1 (Z.of_nat i).

(* one VF on an X540 with 20 receive-address entries, of which the PF has
   taken [pf_entries]; 20 entries leave 20 - (15 + 1 + 1) = 3 for the
   MAC-VLAN list, the number ixgbe_alloc_vf_macvlans allocates for one VF *)
Definition dev_listed (v : vf_data_storage) (pf_entries : nat) : @ixgbe_adapter rar_table :=
  set_mv_list
    (bench_adapter ixgbe_mac_X540 0 [v] ((fun i => (pf_addr i, 99%nat)) <$> seq 0 pf_entries)
       20 [] 1 false)
    (Some (replicate 3 fresh_macvlan)).

(** A history that ends with a pinned MAC and a full table: the PF pins
    [mac_a] on VF 0 (twenty table entries, one free); a function-level reset
    of the VF is seen by the polling task, which runs [ixgbe_vf_reset_event]
    and so removes the VF's filter; the PF then takes the freed entry for
    an address of its own. *)
Definition pinned_then_table_full : option (@ixgbe_adapter rar_table) :=
  let a0 := dev_listed (bench_vf zero_addr false false false 0 ixgbe_mbox_api_10
                          IXGBEVF_XCAST_MODE_NONE) 19 in
  '(a1, _) ← ixgbe_ndo_set_vf_mac bench_add_mac_filter bench_del_mac_filter a0 0 mac_a;
  a2 ← ixgbe_vf_reset_event bench_ops bench_add_mac_filter bench_del_mac_filter
         bench_set_rx_mode bench_update_pf_promisc_vlvf a1 0;
  Some (fst (add_mac_filter bench_add_mac_filter a2 mac_b 99)).

(** C4 as stated fails: the PF has pinned [mac_a] for VF 0, and when the
    RESET message is processed the backend has no free entry to add the
    VF's filter again.  The reply carries FAILURE and no address, and the
    stored MAC is zero afterwards. *)
Lemma reset_reply_counterexample :
  exists a,
    pinned_then_table_full = Some a /\
    pf_set_mac <$> vf_get a 0 = Some true /\
    vf_mac_addresses <$> vf_get a 0 = Some mac_a /\
    mv_list a = Some (replicate 3 fresh_macvlan) /\
    exists a',
      bench_rcv_msg a 0 0 [IXGBE_VF_RESET] = Some (a', 0) /\
      mbx_out (hw a') = [(0%nat, [Z.lor IXGBE_VF_RESET IXGBE_VT_MSGTYPE_FAILURE; 0; 0; 0])] /\
      vf_mac_addresses <$> vf_get a' 0 = Some zero_addr /\
      clear_to_send <$> vf_get a' 0 = Some true.
Proof.
  eexists. split; [vm_compute; reflexivity |].
  split; [vm_compute; reflexivity |]. split; [vm_compute; reflexivity |].
  split; [vm_compute; reflexivity |].
  eexists. split; [vm_compute; reflexivity |].
  split; [vm_compute; reflexivity |]. split; vm_compute; reflexivity.
Qed.

Lemma vf_reset_msg_handshake_witness :
  let a := dev_listed vf_pinned 1 in
  vf_get a 0 = Some vf_pinned /\ 0 <= VMDQ_P a 0 / 32 <= 1 /\
  mv_list a = Some (replicate 3 fresh_macvlan) /\
  exists a' r',
    ixgbe_vf_reset_msg bench_ops bench_add_mac_filter bench_del_mac_filter
      bench_set_rx_mode bench_update_pf_promisc_vlvf a 0 = Some (a', 0) /\
    vf_get a' 0 = Some r' /\
    clear_to_send r' = true /\ vf_api r' = ixgbe_mbox_api_10 /\ num_vf_mc_hashes r' = 0 /\
    mbx_out (hw a') =
      [(0%nat, Z.lor IXGBE_VF_RESET IXGBE_VT_MSGTYPE_SUCCESS :: mac_words mac_a ++ [0])].
Proof.
  intros a.
  assert (Hp : 0 <= VMDQ_P a 0 / 32 <= 1) by (vm_compute; split; discriminate).
  split; [reflexivity |]. split; [exact Hp |]. split; [reflexivity |].
  destruct (vf_reset_msg_handshake bench_ops bench_add_mac_filter bench_del_mac_filter
              bench_set_rx_mode bench_update_pf_promisc_vlvf a 0%nat vf_pinned
              (replicate 3 fresh_macvlan) eq_refl Hp eq_refl)
    as (a0 & a1 & a' & r' & _ & _ & _ & _ & He & _ & _ & _ & _ & Hm & Hg & Hc & Hv & Hn & _
        & Hmac & Hout & Hs & _).
  exists a', r'. repeat split; try assumption.
  rewrite Hout.
  assert (Ha1 : Some a1 = ixgbe_vf_reset_event bench_ops bench_add_mac_filter
                  bench_del_mac_filter bench_set_rx_mode bench_update_pf_promisc_vlvf a 0)
    by (symmetry; exact He).
  vm_compute in Ha1. injection Ha1 as ->.
  assert (Hmac' : vf_mac_addresses r' = mac_a) by (rewrite Hmac; vm_compute; reflexivity).
  assert (Hnz : is_zero_ether_addr (vf_mac_addresses r') = false)
    by (rewrite Hmac'; reflexivity).
  rewrite (Hs eq_refl Hnz). rewrite Hmac'. reflexivity.
Defined.

(** ** C6: counterexample and witness *)



(** ** C8: counterexample and witness *)

(** C8 as stated fails in its last part.  A trusted VF at API 1.3 asks for
    PROMISC while the PF is not in promiscuous mode (FCTRL reads 0): on an
    82599 the call fails with -EOPNOTSUPP, not -EPERM; on an X550, when the
    VF is already in PROMISC mode, the call returns 0. *)
Lemma xcast_promisc_counterexample :
  let msgbuf := [IXGBE_VF_UPDATE_XCAST_MODE; IXGBEVF_XCAST_MODE_PROMISC] in
  let a82599 := bench_adapter ixgbe_mac_82599EB 0 [vf_trusted] [] 16 [] 1 false in
  let ax550 := bench_adapter ixgbe_mac_X550 0 [vf_in_promisc] [] 16 [] 1 false in
  trusted vf_trusted = true /\ trusted vf_in_promisc = true /\
  Z.land (IXGBE_READ_REG a82599 IXGBE_FCTRL) IXGBE_FCTRL_UPE = 0 /\
  Z.land (IXGBE_READ_REG ax550 IXGBE_FCTRL) IXGBE_FCTRL_UPE = 0 /\
  ixgbe_update_vf_xcast_mode a82599 msgbuf 0 = Some (a82599, msgbuf, - EOPNOTSUPP) /\
  - EOPNOTSUPP <> - EPERM /\
  ixgbe_update_vf_xcast_mode ax550 msgbuf 0 = Some (ax550, msgbuf, 0).
Proof. vm_compute. repeat split. discriminate. Qed.

Lemma update_vf_xcast_mode_policy_witness :
  let promisc := [IXGBE_VF_UPDATE_XCAST_MODE; IXGBEVF_XCAST_MODE_PROMISC] in
  let allmulti := [IXGBE_VF_UPDATE_XCAST_MODE; IXGBEVF_XCAST_MODE_ALLMULTI] in
  let a_old := bench_adapter ixgbe_mac_X550 0 [vf_blocked] [] 16 [] 1 false in
  let a_plain := bench_adapter ixgbe_mac_X550 0 [vf_plain] [] 16 [] 1 false in
  let a_trusted := bench_adapter ixgbe_mac_X550 0 [vf_trusted] [] 16 [] 1 false in
  vf_get a_old 0 = Some vf_blocked /\ vf_get a_plain 0 = Some vf_plain /\
  vf_get a_trusted 0 = Some vf_trusted /\
  ixgbe_update_vf_xcast_mode a_old allmulti 0 = Some (a_old, allmulti, - EOPNOTSUPP) /\
  (exists a',
     ixgbe_update_vf_xcast_mode a_plain allmulti 0 =
       Some (a', <[1%nat := IXGBEVF_XCAST_MODE_MULTI]> allmulti, 0) /\
     xcast_mode <$> vf_get a' 0 = Some IXGBEVF_XCAST_MODE_MULTI) /\
  ixgbe_update_vf_xcast_mode a_trusted promisc 0 = Some (a_trusted, promisc, - EPERM).
Proof.
  intros promisc allmulti a_old a_plain a_trusted.
  split; [reflexivity |]. split; [reflexivity |]. split; [reflexivity |].
  split; [| split].
  - destruct (update_vf_xcast_mode_policy a_old allmulti 0%nat vf_blocked eq_refl)
      as (H & _).
    apply H. left. split; vm_compute; discriminate.
  - destruct (update_vf_xcast_mode_policy a_plain allmulti 0%nat vf_plain eq_refl)
      as (_ & H & _).
    apply H; [reflexivity | reflexivity | left; reflexivity].
  - destruct (update_vf_xcast_mode_policy a_trusted promisc 0%nat vf_trusted eq_refl)
      as (_ & _ & H).
    destruct (H eq_refl eq_refl eq_refl) as (H1 & _).
    apply H1; [vm_compute; discriminate | reflexivity | reflexivity].
Defined.

(** ** C10: witness *)

Lemma set_lpe_max_frame_monotone_witness :
  let a := dev_with vf_plain 16 in
  let mbx_buf := [IXGBE_VF_SET_LPE; 9000] in
  vf_get a 0 = Some vf_plain /\
  Z.land (word (rx_buffer mbx_buf) 0) 0xFFFF = IXGBE_VF_SET_LPE /\
  exists a' rc,
    bench_rcv_msg a 0 0 mbx_buf = Some (a', rc) /\
    max_frs_step a a' (word (rx_buffer mbx_buf) 1).
Proof.
  intros a mbx_buf. split; [reflexivity |]. split; [reflexivity |].
  apply (set_lpe_max_frame_monotone bench_ops bench_add_mac_filter bench_del_mac_filter
           bench_write_mc_addr_list bench_set_rx_mode bench_update_pf_promisc_vlvf
           bench_rss_indir_tbl_entries a 0%nat 0 mbx_buf vf_plain); reflexivity.
Defined.

(** ** The gate over a whole handshake

    The PF makes VF 0 trusted, which takes clear_to_send away and pings the
    VF.  A SET_MAC_ADDR sent before the handshake is answered with FAILURE
    and changes nothing; after RESET the same request is served and
    answered with SUCCESS and CTS. *)
Example trust_change_forces_handshake :
  let set_mac := IXGBE_VF_SET_MAC_ADDR :: mac_words mac_b in
  exists a1 a2 a3 a4,
    ixgbe_ndo_set_vf_trust (dev_listed vf_plain 1) 0 true = Some (a1, 0) /\
    clear_to_send <$> vf_get a1 0 = Some false /\
    bench_rcv_msg a1 0 0 set_mac = Some (a2, 0) /\
    vfinfo a2 = vfinfo a1 /\
    bench_rcv_msg a2 0 0 [IXGBE_VF_RESET] = Some (a3, 0) /\
    clear_to_send <$> vf_get a3 0 = Some true /\
    bench_rcv_msg a3 0 0 set_mac = Some (a4, 0) /\
    vf_mac_addresses <$> vf_get a4 0 = Some mac_b /\
    mbx_out (hw a4) =
      [(0%nat, [IXGBE_PF_CONTROL_MSG]);
       (0%nat, [Z.lor IXGBE_VF_SET_MAC_ADDR IXGBE_VT_MSGTYPE_FAILURE]);
       (0%nat, [Z.lor IXGBE_VF_RESET IXGBE_VT_MSGTYPE_FAILURE; 0; 0; 0]);
       (0%nat, rx_buffer (reply_word IXGBE_VF_SET_MAC_ADDR 0 :: mac_words mac_b))].
Proof.
  do 4 eexists.
  split; [vm_compute; reflexivity |]. split; [vm_compute; reflexivity |].
  split; [vm_compute; reflexivity |]. split; [vm_compute; reflexivity |].
  split; [vm_compute; reflexivity |]. split; [vm_compute; reflexivity |].
  split; [vm_compute; reflexivity |]. split; vm_compute; reflexivity.
Qed.

(** * Witnesses of the further properties

    Each property that has a precondition is applied here to a device of
    the bench above. *)

(* two VFs that are not assigned to a guest; the second has port VLAN 100 *)
Definition dev_two : @ixgbe_adapter rar_table :=
  bench_adapter ixgbe_mac_X540 0 [vf_plain; vf_port_vlan] [(mac_pf, 99%nat)] 16 [] 2 false.

(* [a] with an RSS redirection table and an RSS key *)
Definition with_rss (a : @ixgbe_adapter rar_table) (tbl key : list Z) : @ixgbe_adapter rar_table :=
  {| flags := flags a; flags2 := flags2 a; num_vfs := num_vfs a; max_vfs := max_vfs a;
     vfinfo := vfinfo a; mv_list := mv_list a; vmdq := vmdq a; pg_tcs := pg_tcs a;
     pfc_tcs := pfc_tcs a; vt_mode := vt_mode a; netdev := netdev a;
     default_up := default_up a; xdp_prog := xdp_prog a; active_vlans := active_vlans a;
     rss_indir_tbl := tbl; rss_key := key; hw := hw a; pdev := pdev a;
     mac_table := mac_table a |}.

Definition vf_rss : vf_data_storage := vf_set_rss_query vf_plain true.

(* 128 redirection entries 0, 1, 2, 3, 0, 1, ... and a ten-word key *)
Definition bench_reta : list Z := (fun i => Z.of_nat (i mod 4)) <$> seq 0 128.
Definition bench_key : list Z := (fun i => 0x1000 + Z.of_nat i) <$> seq 0 10.
Definition dev_rss (v : vf_data_storage) : @ixgbe_adapter rar_table :=
  with_rss (dev_with v 16) bench_reta bench_key.

Lemma dev_two_all (P : vf_data_storage -> Prop) :
  P vf_plain -> P vf_port_vlan ->
  forall v r, vf_get dev_two v = Some r -> P r.
Proof.
  intros H0 H1 v r Hv. destruct v as [| [| v]]; vm_compute in Hv.
  - injection Hv as <-. exact H0.
  - injection Hv as <-. exact H1.
  - discriminate Hv.
Qed.

Lemma bench_vf_api_known mac cts pinned trust vlan mode :
  api_known (bench_vf mac cts pinned trust vlan ixgbe_mbox_api_13 mode).
Proof. right. right. right. reflexivity. Qed.

Lemma bench_vf_mc_ok mac cts pinned trust vlan api mode :
  mc_ok (bench_vf mac cts pinned trust vlan api mode).
Proof. split; [vm_compute; split; discriminate | reflexivity]. Qed.

(** ** X1 *)

Lemma reset_reply_mac_round_trip_witness :
  let a := dev_listed vf_pinned 1 in
  vf_get a 0 = Some vf_pinned /\ 0 <= VMDQ_P a 0 / 32 <= 1 /\
  mv_list a = Some (replicate 3 fresh_macvlan) /\
  pf_set_mac vf_pinned = true /\ octets_ok (vf_mac_addresses vf_pinned) /\
  is_zero_ether_addr (vf_mac_addresses vf_pinned) = false /\
  exists a' w1 w2,
    ixgbe_vf_reset_msg bench_ops bench_add_mac_filter bench_del_mac_filter
      bench_set_rx_mode bench_update_pf_promisc_vlvf a 0 = Some (a', 0) /\
    mbx_out (hw a') = [(0%nat, [Z.lor IXGBE_VF_RESET IXGBE_VT_MSGTYPE_SUCCESS; w1; w2; 0])] /\
    mac_of_words w1 w2 = mac_a /\
    vf_mac_addresses <$> vf_get a' 0 = Some mac_a.
Proof.
  intros a.
  assert (Hp : 0 <= VMDQ_P a 0 / 32 <= 1) by (vm_compute; split; discriminate).
  assert (Ho : octets_ok (vf_mac_addresses vf_pinned)) by (vm_compute; intuition discriminate).
  split; [reflexivity |]. split; [exact Hp |]. split; [reflexivity |].
  split; [reflexivity |]. split; [exact Ho |]. split; [reflexivity |].
  destruct (reset_reply_mac_round_trip bench_ops bench_add_mac_filter bench_del_mac_filter
              bench_set_rx_mode bench_update_pf_promisc_vlvf a 0%nat vf_pinned
              (replicate 3 fresh_macvlan) eq_refl Hp eq_refl eq_refl Ho eq_refl)
    as (a1 & He & H).
  assert (Ha1 : Some a1 = ixgbe_vf_reset_event bench_ops bench_add_mac_filter
                  bench_del_mac_filter bench_set_rx_mode bench_update_pf_promisc_vlvf a 0)
    by (symmetry; exact He).
  vm_compute in Ha1. injection Ha1 as ->.
  apply H. vm_compute. discriminate.
Defined.

(** ** X2 *)

Lemma get_vf_reta_packs_entries_witness :
  let a := dev_rss vf_rss in
  let msgbuf := IXGBE_VF_GET_RETA :: replicate 15 0 in
  vf_get a 0 = Some vf_rss /\ rss_query_enabled vf_rss = true /\
  vf_api vf_rss = ixgbe_mbox_api_13 /\ length msgbuf = 16%nat /\
  exists reply,
    ixgbe_get_vf_reta bench_rss_indir_tbl_entries a msgbuf 0 = Some (a, reply, 0) /\
    length reply = 16%nat /\
    Z.land (Z.shiftr (word reply 1) 6) 3 = 3 /\
    word reply 9 = 0.
Proof.
  intros a msgbuf. split; [reflexivity |]. split; [reflexivity |].
  split; [reflexivity |]. split; [reflexivity |].
  destruct (get_vf_reta_packs_entries bench_rss_indir_tbl_entries a msgbuf 0%nat vf_rss
              eq_refl eq_refl (or_intror eq_refl) eq_refl)
    as (reply & H1 & H2 & _ & H4 & H5).
  - vm_compute. lia.
  - exists reply. split; [exact H1 |]. split; [exact H2 |]. split.
    + apply (H4 0%nat 3%nat); vm_compute; lia.
    + apply (H5 9%nat). vm_compute. lia.
Defined.

(** ** X3 *)

Lemma rss_query_permission_gate_witness :
  let a := dev_rss vf_rss in
  let msgbuf := IXGBE_VF_GET_RSS_KEY :: replicate 15 0 in
  mac_type (hw a) = ixgbe_mac_X540 /\ 0 <= 0 < num_vfs a /\ vf_get a 0 = Some vf_rss /\
  exists a',
    ixgbe_ndo_set_vf_rss_query_en a 0 false = Some (a', 0) /\
    ixgbe_get_vf_reta bench_rss_indir_tbl_entries a' msgbuf 0 = Some (a', msgbuf, - EPERM) /\
    ixgbe_get_vf_rss_key a' msgbuf 0 = Some (a', msgbuf, - EPERM).
Proof.
  intros a msgbuf.
  assert (Hvf : 0 <= 0 < num_vfs a) by (vm_compute; split; [discriminate | reflexivity]).
  split; [reflexivity |]. split; [exact Hvf |]. split; [reflexivity |].
  destruct (rss_query_permission_gate bench_rss_indir_tbl_entries a 0 false) as [_ H].
  destruct (H (or_intror eq_refl) vf_rss Hvf eq_refl) as (a' & H1 & _ & H3).
  exists a'. split; [exact H1 |]. apply (H3 eq_refl msgbuf).
Defined.

(** ** X4 *)

Lemma rss_key_is_disclosed_once_permitted_witness :
  let a := dev_rss vf_plain in
  let msgbuf := IXGBE_VF_GET_RSS_KEY :: replicate 15 0 in
  mac_type (hw a) = ixgbe_mac_X540 /\ 0 <= 0 < num_vfs a /\ vf_get a 0 = Some vf_plain /\
  vf_api vf_plain = ixgbe_mbox_api_13 /\ length msgbuf = 16%nat /\
  exists a' reply,
    ixgbe_ndo_set_vf_rss_query_en a 0 true = Some (a', 0) /\
    ixgbe_get_vf_rss_key a' msgbuf 0 = Some (a', reply, 0) /\
    word reply 1 = 0x1000 /\ word reply 10 = 0x1009.
Proof.
  intros a msgbuf.
  assert (Hvf : 0 <= 0 < num_vfs a) by (vm_compute; split; [discriminate | reflexivity]).
  split; [reflexivity |]. split; [exact Hvf |]. split; [reflexivity |].
  split; [reflexivity |]. split; [reflexivity |].
  destruct (rss_key_is_disclosed_once_permitted a 0 vf_plain msgbuf
              (or_intror eq_refl) Hvf eq_refl (or_intror eq_refl) eq_refl)
    as (a' & reply & H1 & H2 & _ & _ & H5 & _).
  exists a', reply. split; [exact H1 |]. split; [exact H2 |]. split.
  - apply (H5 0%nat). lia.
  - apply (H5 9%nat). lia.
Defined.

(** ** X5 *)

Lemma mailbox_message_isolation_witness :
  let msgbuf := IXGBE_VF_SET_MAC_ADDR :: mac_words mac_b in
  vf_get dev_two 1 = Some vf_port_vlan /\
  exists a' rc,
    bench_rcv_msg dev_two 0 0 msgbuf = Some (a', rc) /\
    exists r', vf_get a' 1 = Some r' /\ admin_same vf_port_vlan r' /\
               (1%nat <> 0%nat -> r' = vf_port_vlan).
Proof.
  intros msgbuf. split; [reflexivity |].
  destruct (bench_rcv_msg dev_two 0 0 msgbuf) as [[a' rc] |] eqn:Hrun;
    [| vm_compute in Hrun; discriminate Hrun].
  exists a', rc. split; [reflexivity |].
  apply (mailbox_message_isolation bench_ops bench_add_mac_filter bench_del_mac_filter
           bench_write_mc_addr_list bench_set_rx_mode bench_update_pf_promisc_vlvf
           bench_rss_indir_tbl_entries dev_two 0%nat 0 msgbuf a' rc Hrun 1%nat vf_port_vlan
           eq_refl).
Defined.

(** ** X6 *)

Lemma stored_api_version_is_known_witness :
  let msgbuf := [IXGBE_VF_API_NEGOTIATE; ixgbe_mbox_api_20] in
  (forall v r, vf_get dev_two v = Some r -> api_known r) /\
  exists a' rc,
    bench_rcv_msg dev_two 0 0 msgbuf = Some (a', rc) /\
    forall v r', vf_get a' v = Some r' -> api_known r' /\ vf_api r' <> ixgbe_mbox_api_20.
Proof.
  intros msgbuf.
  assert (Hall : forall v r, vf_get dev_two v = Some r -> api_known r).
  { apply dev_two_all; apply bench_vf_api_known. }
  split; [exact Hall |].
  destruct (bench_rcv_msg dev_two 0 0 msgbuf) as [[a' rc] |] eqn:Hrun;
    [| vm_compute in Hrun; discriminate Hrun].
  exists a', rc. split; [reflexivity |].
  apply (stored_api_version_is_known bench_ops bench_add_mac_filter bench_del_mac_filter
           bench_write_mc_addr_list bench_set_rx_mode bench_update_pf_promisc_vlvf
           bench_rss_indir_tbl_entries dev_two 0%nat 0 msgbuf a' rc Hrun Hall).
Defined.

(** ** X7 *)

Lemma stored_multicast_count_is_bounded_witness :
  let msgbuf := request IXGBE_VF_SET_MULTICAST 40 :: replicate 15 0x01230456 in
  msginfo msgbuf = 40 /\
  (forall v r, vf_get dev_two v = Some r -> mc_ok r) /\
  exists a' rc,
    bench_rcv_msg dev_two 0 0 msgbuf = Some (a', rc) /\
    forall v r', vf_get a' v = Some r' -> mc_ok r'.
Proof.
  intros msgbuf. split; [reflexivity |].
  assert (Hall : forall v r, vf_get dev_two v = Some r -> mc_ok r).
  { apply dev_two_all; apply bench_vf_mc_ok. }
  split; [exact Hall |].
  destruct (bench_rcv_msg dev_two 0 0 msgbuf) as [[a' rc] |] eqn:Hrun;
    [| vm_compute in Hrun; discriminate Hrun].
  exists a', rc. split; [reflexivity |].
  apply (stored_multicast_count_is_bounded bench_ops bench_add_mac_filter
           bench_del_mac_filter bench_write_mc_addr_list bench_set_rx_mode
           bench_update_pf_promisc_vlvf bench_rss_indir_tbl_entries dev_two 0%nat 0 msgbuf
           a' rc Hrun Hall).
Defined.

(** ** X8, X9, X10, X11 *)

Definition mv_taken (vf : Z) (m : ether_addr) : vf_macvlans :=
  {| mv_vf := vf; mv_free := false; mv_is_macvlan := true; mv_vf_macvlan := m |}.
Definition mv_unused : vf_macvlans :=
  {| mv_vf := -1; mv_free := true; mv_is_macvlan := false; mv_vf_macvlan := zero_addr |}.

(* two VFs, [v] and a plain one; 20 receive-address entries leave
   20 - (15 + 1 + 2) = 2 entries for the MAC-VLAN list *)
Definition dev_macvlans (v : vf_data_storage) (l : list vf_macvlans) : @ixgbe_adapter rar_table :=
  set_mv_list
    (bench_adapter ixgbe_mac_X540 0 [v; vf_plain] [(mac_pf, 99%nat)] 20 [] 2 false)
    (Some l).

Lemma set_vf_macvlan_index0_releases_all_witness :
  let l := [mv_taken 0 mac_a; mv_taken 1 mac_b] in
  let a := dev_macvlans vf_plain l in
  mv_list a = Some l /\
  exists a',
    ixgbe_set_vf_macvlan bench_add_mac_filter bench_del_mac_filter a 0 0 zero_addr
      = Some (a', 0) /\
    mv_list a' =
      Some [{| mv_vf := -1; mv_free := true; mv_is_macvlan := false; mv_vf_macvlan := mac_a |};
            mv_taken 1 mac_b].
Proof.
  intros l a. split; [reflexivity |].
  destruct (set_vf_macvlan_index0_releases_all bench_add_mac_filter bench_del_mac_filter
              a 0%nat zero_addr l eq_refl) as (a' & H1 & H2 & _).
  exists a'. split; [exact H1 | exact H2].
Defined.

Lemma set_vf_macvlan_no_space_witness :
  let l := [mv_taken 1 mac_a; mv_taken 1 mac_b] in
  let a := dev_macvlans vf_plain l in
  1 <> 0 /\ mv_list a = Some l /\
  Forall (fun e => mv_free e = false /\ mv_vf e <> Z.of_nat 0) l /\
  ixgbe_set_vf_macvlan bench_add_mac_filter bench_del_mac_filter a 0 1 mac_b
    = Some (a, - ENOSPC).
Proof.
  intros l a.
  assert (Hfull : Forall (fun e => mv_free e = false /\ mv_vf e <> Z.of_nat 0) l).
  { repeat constructor; discriminate. }
  split; [discriminate |]. split; [reflexivity |]. split; [exact Hfull |].
  apply (set_vf_macvlan_no_space bench_add_mac_filter bench_del_mac_filter a 0%nat 1 mac_b l);
    [discriminate | reflexivity | exact Hfull].
Defined.

Lemma set_vf_macvlan_takes_first_free_witness :
  let l := [mv_taken 1 mac_a; mv_unused] in
  let a := dev_macvlans vf_plain l in
  1 < 2 /\ mv_list a = Some l /\
  list_find (fun e => mv_free e = true) l = Some (1%nat, mv_unused) /\
  exists a',
    ixgbe_set_vf_macvlan bench_add_mac_filter bench_del_mac_filter a 0 2 mac_b
      = Some (a', 0) /\
    mv_list a' = Some [mv_taken 1 mac_a; mv_taken 0 mac_b].
Proof.
  intros l a. split; [reflexivity |]. split; [reflexivity |]. split; [reflexivity |].
  destruct (set_vf_macvlan_takes_first_free bench_add_mac_filter bench_del_mac_filter
              a 0%nat 2 mac_b l 1%nat mv_unused eq_refl eq_refl eq_refl)
    as (a' & H1 & H2 & _).
  exists a'. split; [exact H1 | exact H2].
Defined.

Lemma set_vf_macvlan_msg_denies_additions_only_witness :
  let l := [mv_taken 0 mac_b; mv_unused] in
  let a := dev_macvlans vf_pinned l in
  let add := request IXGBE_VF_SET_MACVLAN 1 :: mac_words mac_b in
  let clear := request IXGBE_VF_SET_MACVLAN 0 :: mac_words zero_addr in
  vf_get a 0 = Some vf_pinned /\ pf_set_mac vf_pinned = true /\ trusted vf_pinned = false /\
  mv_list a = Some l /\ 0 < msginfo add /\ msginfo clear = 0 /\
  ixgbe_set_vf_macvlan_msg bench_ops bench_add_mac_filter bench_del_mac_filter a add 0
    = Some (a, add, -1) /\
  exists a',
    ixgbe_set_vf_macvlan_msg bench_ops bench_add_mac_filter bench_del_mac_filter a clear 0
      = Some (a', clear, 0) /\
    mv_list a' =
      Some [{| mv_vf := -1; mv_free := true; mv_is_macvlan := false; mv_vf_macvlan := mac_b |};
            mv_unused].
Proof.
  intros l a add clear.
  split; [reflexivity |]. split; [reflexivity |]. split; [reflexivity |].
  split; [reflexivity |]. split; [reflexivity |]. split; [reflexivity |].
  split.
  - apply (set_vf_macvlan_msg_denies_additions_only bench_ops bench_add_mac_filter
             bench_del_mac_filter a add 0%nat vf_pinned l eq_refl eq_refl eq_refl eq_refl).
    reflexivity.
  - destruct (set_vf_macvlan_msg_denies_additions_only bench_ops bench_add_mac_filter
                bench_del_mac_filter a clear 0%nat vf_pinned l eq_refl eq_refl eq_refl eq_refl)
      as [_ H].
    destruct (H eq_refl) as (a' & H1 & H2 & _).
    exists a'. split; [exact H1 | exact H2].
Defined.

(** ** X12, X13, X14 *)

Lemma fresh_vf_is_locked_down_witness :
  let a := dev_off 0 0 in
  let mbx_buf := IXGBE_VF_SET_MAC_ADDR :: mac_words mac_b in
  let a1 := fst (__ixgbe_enable_sriov bench_mem a 2) in
  xdp_prog a = false /\ kcalloc_vfinfo_ok bench_mem = true /\ Z.of_nat 1 < 2 /\
  already_tagged (word (rx_buffer mbx_buf) 0) = false /\
  word (rx_buffer mbx_buf) 0 <> IXGBE_VF_RESET /\
  vf_get a1 1 = Some vf_fresh /\
  exists a2,
    bench_rcv_msg a1 1 0 mbx_buf = Some (a2, 0) /\
    vfinfo a2 = vfinfo a1 /\
    mbx_out (hw a2) = [(1%nat, [Z.lor IXGBE_VF_SET_MAC_ADDR IXGBE_VT_MSGTYPE_FAILURE])].
Proof.
  intros a mbx_buf a1.
  assert (Hne : word (rx_buffer mbx_buf) 0 <> IXGBE_VF_RESET) by (vm_compute; discriminate).
  split; [reflexivity |]. split; [reflexivity |]. split; [reflexivity |].
  split; [reflexivity |]. split; [exact Hne |].
  destruct (fresh_vf_is_locked_down bench_ops bench_add_mac_filter bench_del_mac_filter
              bench_write_mc_addr_list bench_set_rx_mode bench_update_pf_promisc_vlvf
              bench_rss_indir_tbl_entries bench_mem a 2 1%nat mbx_buf
              eq_refl eq_refl eq_refl eq_refl Hne)
    as (_ & _ & Hrec & _ & a2 & H1 & H2 & _ & H4).
  split; [exact Hrec |]. exists a2. split; [exact H1 |]. split; [exact H2 | exact H4].
Defined.

Lemma enable_sriov_tc_limit_within_cap_witness :
  let a := dev_off 8 0 in
  let a' := fst (__ixgbe_enable_sriov bench_mem a 40) in
  xdp_prog a = false /\ kcalloc_vfinfo_ok bench_mem = true /\
  0 <= 40 <= IXGBE_MAX_VFS_DRV_LIMIT /\
  vt_mode a' = true /\ pfc_tcs a' = pg_tcs a' /\ tc_limit_exceeded (pg_tcs a') 40 = false.
Proof.
  intros a a'.
  assert (Hn : 0 <= 40 <= IXGBE_MAX_VFS_DRV_LIMIT) by (vm_compute; split; discriminate).
  split; [reflexivity |]. split; [reflexivity |]. split; [exact Hn |].
  apply (enable_sriov_tc_limit_within_cap bench_mem a 40 eq_refl eq_refl Hn).
Defined.

Lemma disable_after_enable_witness :
  let a := dev_off 0 0 in
  let a1 := fst (__ixgbe_enable_sriov bench_mem a 2) in
  xdp_prog a = false /\ kcalloc_vfinfo_ok bench_mem = true /\ 0 <= 2 /\
  vfs_assigned (pdev a) = false /\
  exists a2,
    ixgbe_disable_sriov bench_ops bench_pci_disable_sriov a1 = Some (a2, 0) /\
    num_vfs a2 = 0 /\ vfinfo a2 = None /\ mv_list a2 = None /\
    IXGBE_FLAG_SRIOV_ENABLED (flags a2) = false.
Proof.
  intros a a1.
  assert (Hn : 0 <= 2) by discriminate.
  split; [reflexivity |]. split; [reflexivity |]. split; [exact Hn |]. split; [reflexivity |].
  destruct (disable_after_enable bench_ops bench_pci_disable_sriov bench_mem a 2
              eq_refl eq_refl Hn eq_refl)
    as (a2 & H1 & H2 & H3 & H4 & H5 & _).
  exists a2. repeat split; assumption.
Defined.

(** ** X15, X16, X17 *)

(* the bus lists three VF devices; the second belongs to another PF *)
Definition dev_on_bus : @ixgbe_adapter rar_table :=
  set_pdev dev_two
    {| sriov_num_vfs := 2; vfs_assigned := false; sriov_cap := true;
       bus_vf_devices := [(10, true, true); (11, true, false); (12, true, true)] |}.

Lemma get_vfs_takes_own_vfs_in_bus_order_witness :
  vfinfo dev_on_bus = Some [vf_plain; vf_port_vlan] /\
  num_vfs dev_on_bus <= Z.of_nat (length [vf_plain; vf_port_vlan]) /\
  sriov_cap (pdev dev_on_bus) = true /\
  exists t',
    ixgbe_get_vfs dev_on_bus = Some (set_vfinfo dev_on_bus (Some t')) /\
    t' !! 0%nat = Some (vf_set_vfdev vf_plain (Some 10)) /\
    t' !! 1%nat = Some (vf_set_vfdev vf_port_vlan (Some 12)).
Proof.
  assert (Hn : num_vfs dev_on_bus <= Z.of_nat (length [vf_plain; vf_port_vlan]))
    by (vm_compute; discriminate).
  split; [reflexivity |]. split; [exact Hn |]. split; [reflexivity |].
  destruct (get_vfs_takes_own_vfs_in_bus_order dev_on_bus [vf_plain; vf_port_vlan]
              eq_refl Hn) as [_ H].
  destruct (H eq_refl) as (t' & H1 & _ & H3).
  exists t'. split; [exact H1 |]. split.
  - apply (H3 0%nat vf_plain eq_refl).
  - apply (H3 1%nat vf_port_vlan eq_refl).
Defined.

(* [a] with the module parameter max_vfs *)
Definition with_max_vfs (a : @ixgbe_adapter rar_table) (n : Z) : @ixgbe_adapter rar_table :=
  {| flags := flags a; flags2 := flags2 a; num_vfs := num_vfs a; max_vfs := n;
     vfinfo := vfinfo a; mv_list := mv_list a; vmdq := vmdq a; pg_tcs := pg_tcs a;
     pfc_tcs := pfc_tcs a; vt_mode := vt_mode a; netdev := netdev a;
     default_up := default_up a; xdp_prog := xdp_prog a; active_vlans := active_vlans a;
     rss_indir_tbl := rss_indir_tbl a; rss_key := rss_key a; hw := hw a; pdev := pdev a;
     mac_table := mac_table a |}.

Lemma enable_sriov_vf_count_witness :
  let a := with_max_vfs (dev_off 0 3) 7 in
  xdp_prog a = false /\ kcalloc_vfinfo_ok bench_mem = true /\
  0 < sriov_num_vfs (pdev a) < 2 ^ 31 /\
  exists a' t,
    ixgbe_enable_sriov bench_ops bench_pci_enable_sriov bench_pci_disable_sriov bench_mem a
      = Some a' /\
    num_vfs a' = 3 /\ pdev a' = pdev a /\ vfinfo a' = Some t /\ length t = 3%nat.
Proof.
  intros a.
  assert (Hpre : 0 < sriov_num_vfs (pdev a) < 2 ^ 31) by (vm_compute; split; reflexivity).
  split; [reflexivity |]. split; [reflexivity |]. split; [exact Hpre |].
  destruct (enable_sriov_vf_count bench_ops bench_pci_enable_sriov bench_pci_disable_sriov
              bench_mem a eq_refl eq_refl) as [H _].
  apply (H Hpre).
Defined.

Definition bench_mem_short : kmem := {| kcalloc_vfinfo_ok := false; kcalloc_mv_list_ok := true |}.

Lemma enable_sriov_failure_cleanup_witness :
  let a := with_max_vfs (dev_off 0 0) 4 in
  sriov_num_vfs (pdev a) = 0 /\ 0 < max_vfs a < 2 ^ 32 /\ num_vfs a = 0 /\
  snd (bench_pci_enable_sriov (pdev a) 4) = 0 /\
  xdp_prog a = false /\ kcalloc_vfinfo_ok bench_mem_short = false /\
  exists a',
    ixgbe_enable_sriov bench_ops bench_pci_enable_sriov bench_pci_disable_sriov
      bench_mem_short a = Some a' /\
    sriov_num_vfs (pdev a') = 0 /\
    IXGBE_FLAG_SRIOV_ENABLED (flags a') = false /\ num_vfs a' = 0 /\ vfinfo a' = None.
Proof.
  intros a.
  assert (Hmax : 0 < max_vfs a < 2 ^ 32) by (vm_compute; split; reflexivity).
  split; [reflexivity |]. split; [exact Hmax |]. split; [reflexivity |].
  split; [reflexivity |]. split; [reflexivity |]. split; [reflexivity |].
  destruct (enable_sriov_failure_cleanup bench_ops bench_pci_enable_sriov
              bench_pci_disable_sriov bench_mem_short a eq_refl Hmax eq_refl eq_refl)
    as [_ H].
  destruct (H eq_refl eq_refl eq_refl) as (a' & H1 & H2 & H3 & H4 & H5).
  exists a'. split; [exact H1 |]. split; [rewrite H2; reflexivity |].
  split; [exact H3 |]. split; [exact H4 | exact H5].
Defined.

(** ** X18, X19, X20 *)

Lemma ndo_set_vf_mac_pins_address_witness :
  let a := dev_with vf_plain 16 in
  let msgbuf := IXGBE_VF_SET_MAC_ADDR :: mac_words mac_a in
  0 <= 0 < num_vfs a /\ vf_get a 0 = Some vf_plain /\ is_valid_ether_addr mac_b = true /\
  0 <= snd (add_mac_filter bench_add_mac_filter
              (fst (del_mac_filter bench_del_mac_filter a (vf_mac_addresses vf_plain) 0%nat))
              mac_b 0%nat) /\
  trusted vf_plain = false /\
  mac_of_words (word msgbuf 1) (word msgbuf 2) <> mac_b /\
  exists a' rc,
    ixgbe_ndo_set_vf_mac bench_add_mac_filter bench_del_mac_filter a 0 mac_b = Some (a', rc) /\
    0 <= rc /\
    vf_get a' 0 = Some (vf_set_pf_set_mac (vf_set_mac vf_plain mac_b) true) /\
    ixgbe_set_vf_mac_addr bench_add_mac_filter bench_del_mac_filter a' msgbuf 0
      = Some (a', msgbuf, -1).
Proof.
  intros a msgbuf.
  assert (Hvf : 0 <= 0 < num_vfs a) by (vm_compute; split; [discriminate | reflexivity]).
  assert (Hadd : 0 <= snd (add_mac_filter bench_add_mac_filter
                    (fst (del_mac_filter bench_del_mac_filter a (vf_mac_addresses vf_plain)
                            0%nat)) mac_b 0%nat)) by (vm_compute; discriminate).
  assert (Hother : mac_of_words (word msgbuf 1) (word msgbuf 2) <> mac_b)
    by (vm_compute; discriminate).
  split; [exact Hvf |]. split; [reflexivity |]. split; [reflexivity |].
  split; [exact Hadd |]. split; [reflexivity |]. split; [exact Hother |].
  destruct (ndo_set_vf_mac_pins_address bench_add_mac_filter bench_del_mac_filter a 0 mac_b
              vf_plain Hvf eq_refl eq_refl Hadd) as (a' & rc & H1 & H2 & H3 & H4).
  exists a', rc. split; [exact H1 |]. split; [exact H2 |]. split; [exact H3 |].
  apply (H4 eq_refl msgbuf Hother).
Defined.

(* a backend whose removal of a filter fails *)
Definition bench_del_mac_filter_fails (a : @ixgbe_adapter rar_table) (m : ether_addr)
    (vf : nat) : rar_table * regfile * Z :=
  (mac_table a, regs (hw a), - ENOMEM).

Lemma ndo_set_vf_mac_zero_address_witness :
  let a := dev_with vf_pinned 16 in
  0 <= 0 < num_vfs a /\ vf_get a 0 = Some vf_pinned /\
  is_zero_ether_addr (vf_mac_addresses vf_pinned) = false /\
  0 <= snd (del_mac_filter bench_del_mac_filter a (vf_mac_addresses vf_pinned) 0%nat) /\
  snd (del_mac_filter bench_del_mac_filter_fails a (vf_mac_addresses vf_pinned) 0%nat) < 0 /\
  (exists a' rc,
     ixgbe_ndo_set_vf_mac bench_add_mac_filter bench_del_mac_filter a 0 zero_addr
       = Some (a', rc) /\
     0 <= rc /\
     vf_get a' 0 = Some (vf_set_mac (vf_set_pf_set_mac vf_pinned false) zero_addr)) /\
  (exists a',
     ixgbe_ndo_set_vf_mac bench_add_mac_filter bench_del_mac_filter_fails a 0 zero_addr
       = Some (a', - ENOMEM) /\
     vf_get a' 0 = Some vf_pinned) /\
  ixgbe_ndo_set_vf_mac bench_add_mac_filter bench_del_mac_filter a 1 mac_b
    = Some (a, - EINVAL).
Proof.
  intros a.
  assert (Hvf : 0 <= 0 < num_vfs a) by (vm_compute; split; [discriminate | reflexivity]).
  assert (Hdel : 0 <= snd (del_mac_filter bench_del_mac_filter a
                             (vf_mac_addresses vf_pinned) 0%nat))
    by (vm_compute; discriminate).
  assert (Hfail : snd (del_mac_filter bench_del_mac_filter_fails a
                         (vf_mac_addresses vf_pinned) 0%nat) < 0)
    by (vm_compute; reflexivity).
  split; [exact Hvf |]. split; [reflexivity |]. split; [reflexivity |]. split; [exact Hdel |].
  split; [exact Hfail |].
  destruct (ndo_set_vf_mac_zero_address bench_add_mac_filter bench_del_mac_filter a 0
              vf_pinned Hvf eq_refl) as (H1 & _ & _ & _ & H4).
  split; [apply (H1 eq_refl Hdel) |].
  split.
  - destruct (ndo_set_vf_mac_zero_address bench_add_mac_filter bench_del_mac_filter_fails
                a 0 vf_pinned Hvf eq_refl) as (_ & H2 & _).
    apply (H2 eq_refl Hfail).
  - apply (H4 1 mac_b). right. vm_compute. discriminate.
Defined.

Lemma ndo_set_vf_trust_forces_handshake_witness :
  let a := dev_with vf_plain 16 in
  0 <= 0 < num_vfs a /\ vf_get a 0 = Some vf_plain /\ trusted vf_plain <> true /\
  exists a',
    ixgbe_ndo_set_vf_trust a 0 true = Some (a', 0) /\
    vf_get a' 0 = Some (vf_set_cts (vf_set_trusted vf_plain true) false) /\
    mbx_out (hw a') = [(0%nat, [IXGBE_PF_CONTROL_MSG])].
Proof.
  intros a.
  assert (Hvf : 0 <= 0 < num_vfs a) by (vm_compute; split; [discriminate | reflexivity]).
  assert (Hne : trusted vf_plain <> true) by discriminate.
  split; [exact Hvf |]. split; [reflexivity |]. split; [exact Hne |].
  destruct (ndo_set_vf_trust_forces_handshake bench_ops bench_add_mac_filter
              bench_del_mac_filter bench_write_mc_addr_list bench_set_rx_mode
              bench_update_pf_promisc_vlvf bench_rss_indir_tbl_entries a 0 true vf_plain
              Hvf eq_refl) as (_ & H2 & _).
  destruct (H2 Hne) as (a' & H1 & H3 & _ & _ & H5 & _).
  exists a'. split; [exact H1 |]. split; [exact H3 | exact H5].
Defined.

(** ** X21, X22 *)

Lemma ndo_set_vf_vlan_sets_port_vlan_witness :
  let a := dev_with vf_plain 16 in
  let msgbuf := [request IXGBE_VF_SET_VLAN 1; 200] in
  0 <= 0 < num_vfs a /\ vf_get a 0 = Some vf_plain /\ pf_vlan vf_plain = 0 /\
  0 <= 100 <= 4094 /\ 0 <= 3 <= 7 /\
  snd (ixgbe_set_vf_vlan bench_ops bench_update_pf_promisc_vlvf a 1 100 0) = 0 /\
  exists a',
    ixgbe_ndo_set_vf_vlan bench_ops bench_update_pf_promisc_vlvf a 0 100 3 (htons ETH_P_8021Q)
      = Some (a', 0) /\
    vf_get a' 0 = Some (vf_set_pf_vlan vf_plain 100 3) /\
    IXGBE_READ_REG a' (IXGBE_VMVIR 0) = 0x40006064 /\
    ixgbe_set_vf_vlan_msg bench_ops bench_update_pf_promisc_vlvf a' msgbuf 0
      = Some (a', msgbuf, -1).
Proof.
  intros a msgbuf.
  assert (Hvf : 0 <= 0 < num_vfs a) by (vm_compute; split; [discriminate | reflexivity]).
  assert (Hvlan : 0 <= 100 <= 4094) by lia.
  assert (Hqos : 0 <= 3 <= 7) by lia.
  assert (Hnz : 100 <> 0 \/ 3 <> 0) by (left; discriminate).
  split; [exact Hvf |]. split; [reflexivity |]. split; [reflexivity |].
  split; [exact Hvlan |]. split; [exact Hqos |]. split; [reflexivity |].
  destruct (ndo_set_vf_vlan_sets_port_vlan bench_ops bench_update_pf_promisc_vlvf a 0 100 3
              vf_plain Hvf eq_refl eq_refl Hvlan Hqos Hnz eq_refl)
    as (a' & H1 & H2 & _ & _ & H5 & _ & _ & H8).
  exists a'. split; [exact H1 |]. split; [exact H2 |]. split; [exact H5 |].
  apply (H8 ltac:(discriminate) msgbuf).
Defined.

(* a MAC whose VLAN filter operation fails *)
Definition bench_ops_vfta_fails : ixgbe_mac_operations :=
  {| set_vfta := fun rf _ _ _ _ => (rf, -1);
     set_mac_anti_spoofing := fun rf _ _ => rf;
     set_vlan_anti_spoofing := fun rf _ _ => rf;
     disable_mdd := None |}.

Lemma ndo_set_vf_vlan_is_not_atomic_witness :
  let a := dev_with vf_port_vlan 16 in
  let err :=
    snd (ixgbe_set_vf_vlan bench_ops_vfta_fails bench_update_pf_promisc_vlvf a 0
           (pf_vlan vf_port_vlan) 0) in
  0 <= 0 < num_vfs a /\ vf_get a 0 = Some vf_port_vlan /\
  pf_vlan vf_port_vlan <> 0 /\ err <> 0 /\ 0 <= 200 <= 4094 /\ 0 <= 0 <= 7 /\
  exists a',
    ixgbe_ndo_set_vf_vlan bench_ops_vfta_fails bench_update_pf_promisc_vlvf a 0 200 0
      (htons ETH_P_8021Q) = Some (a', -1) /\
    vf_get a' 0 = Some (vf_set_pf_vlan vf_port_vlan 0 0).
Proof.
  intros a err.
  assert (Hvf : 0 <= 0 < num_vfs a) by (vm_compute; split; [discriminate | reflexivity]).
  assert (Hold : pf_vlan vf_port_vlan <> 0) by (vm_compute; discriminate).
  assert (Herr : err <> 0) by (vm_compute; discriminate).
  assert (Hvlan : 0 <= 200 <= 4094) by lia.
  assert (Hqos : 0 <= 0 <= 7) by lia.
  split; [exact Hvf |]. split; [reflexivity |]. split; [exact Hold |]. split; [exact Herr |].
  split; [exact Hvlan |]. split; [exact Hqos |].
  destruct (ndo_set_vf_vlan_is_not_atomic bench_ops_vfta_fails bench_update_pf_promisc_vlvf
              a 0 vf_port_vlan Hvf eq_refl) as (_ & H2 & _).
  apply (H2 200 0 Hold Herr Hvlan Hqos). left. discriminate.
Defined.

(** ** X23, X24 *)

Lemma set_vf_rx_tx_programs_own_bit_witness :
  let a := dev_with vf_plain 16 in
  vf_get a 0 = Some vf_plain /\
  exists a',
    ixgbe_set_vf_rx_tx a 0 = Some a' /\
    Z.testbit (IXGBE_READ_REG a' (IXGBE_VFTE 0)) 0 = true /\
    Z.testbit (IXGBE_READ_REG a' (IXGBE_VFRE 0)) 0 = true /\
    Z.testbit (IXGBE_READ_REG a' (IXGBE_VFTE 0)) 1 = false.
Proof.
  intros a. split; [reflexivity |].
  destruct (set_vf_rx_tx_programs_own_bit a 0%nat vf_plain eq_refl)
    as (a' & H1 & _ & H3 & H4 & H5 & _).
  exists a'. split; [exact H1 |]. split; [exact H3 |]. split; [exact H4 |].
  destruct (H5 1) as [H6 _]; [lia | discriminate |]. exact H6.
Defined.

Lemma ndo_set_vf_link_state_cases_witness :
  let a := dev_with vf_plain 16 in
  0 <= 0 < num_vfs a /\ vf_get a 0 = Some vf_plain /\
  ixgbe_ndo_set_vf_link_state false a 0 IFLA_VF_LINK_STATE_ENABLE = Some (a, 0) /\
  exists a',
    ixgbe_ndo_set_vf_link_state false a 0 IFLA_VF_LINK_STATE_DISABLE = Some (a', 0) /\
    vf_get a' 0 =
      Some (vf_set_cts (vf_set_link_enable
                          (vf_set_link_state vf_plain IFLA_VF_LINK_STATE_DISABLE) false) false) /\
    mbx_out (hw a') = [(0%nat, [IXGBE_PF_CONTROL_MSG])] /\
    Z.testbit (IXGBE_READ_REG a' (IXGBE_VFTE 0)) 0 = false.
Proof.
  intros a.
  assert (Hvf : 0 <= 0 < num_vfs a) by (vm_compute; split; [discriminate | reflexivity]).
  split; [exact Hvf |]. split; [reflexivity |].
  destruct (ndo_set_vf_link_state_cases false a 0 vf_plain Hvf eq_refl) as (H1 & H2 & _).
  split; [exact H1 |].
  destruct (H2 IFLA_VF_LINK_STATE_DISABLE false (or_intror (conj eq_refl eq_refl)))
    as (a' & K1 & K2 & _ & K4 & K5).
  exists a'. split; [exact K1 |]. split; [exact K2 |]. split; [exact K4 | exact K5].
Defined.

(** ** X25, X26, X27 *)

Definition link_10g : ixgbe_link :=
  {| link_up := true; link_speed := IXGBE_LINK_SPEED_10GB_FULL; vf_rate_link_speed := 0 |}.
(* the link came up at 1 Gb/s after the limits were set at 10 Gb/s *)
Definition link_1g_after_10g : ixgbe_link :=
  {| link_up := true; link_speed := IXGBE_LINK_SPEED_1GB_FULL; vf_rate_link_speed := 10000 |}.

Lemma ndo_set_vf_bw_rate_factor_witness :
  let a := dev_with vf_plain 16 in
  0 <= 0 < num_vfs a /\ vf_get a 0 = Some vf_plain /\
  ixgbe_ndo_set_vf_bw a link_10g [] 0 5 = Some (a, link_10g, [], - EINVAL) /\
  ixgbe_ndo_set_vf_bw a link_10g [] 0 1000
    = Some (vf_put a 0 (vf_set_tx_rate vf_plain 1000), set_vf_rate_link_speed link_10g 10000,
            [(IXGBE_RTTBCNRM, 20); (IXGBE_RTTDQSEL, 0); (IXGBE_RTTBCNRC, 0x80028000);
             (IXGBE_RTTDQSEL, 1); (IXGBE_RTTBCNRC, 0x80028000)], 0).
Proof.
  intros a.
  assert (Hvf : 0 <= 0 < num_vfs a) by (vm_compute; split; [discriminate | reflexivity]).
  split; [exact Hvf |]. split; [reflexivity |]. split.
  - pose proof (ndo_set_vf_bw_rate_factor a link_10g [] 0 5 vf_plain Hvf eq_refl) as H.
    cbv zeta in H. destruct H as [H _]. apply H. reflexivity.
  - pose proof (ndo_set_vf_bw_rate_factor a link_10g [] 0 1000 vf_plain Hvf eq_refl) as H.
    cbv zeta in H. destruct H as [_ H]. destruct (H eq_refl) as (H1 & _). exact H1.
Defined.

Lemma check_vf_rate_limit_on_speed_change_witness :
  vfinfo dev_two = Some [vf_plain; vf_port_vlan] /\
  num_vfs dev_two <= Z.of_nat (length [vf_plain; vf_port_vlan]) /\
  vf_rate_link_speed link_1g_after_10g <> 0 /\
  ixgbe_link_mbps link_1g_after_10g <> vf_rate_link_speed link_1g_after_10g /\
  exists w',
    ixgbe_check_vf_rate_limit dev_two link_1g_after_10g []
      = Some (set_vfinfo dev_two
                (Some [vf_set_tx_rate vf_plain 0; vf_set_tx_rate vf_port_vlan 0]),
              set_vf_rate_link_speed link_1g_after_10g 0, w') /\
    Forall (fun e => fst e = IXGBE_RTTBCNRC -> snd e = 0) w'.
Proof.
  assert (Hn : num_vfs dev_two <= Z.of_nat (length [vf_plain; vf_port_vlan]))
    by (vm_compute; discriminate).
  assert (Hset : vf_rate_link_speed link_1g_after_10g <> 0) by (vm_compute; discriminate).
  assert (Hchg : ixgbe_link_mbps link_1g_after_10g <> vf_rate_link_speed link_1g_after_10g)
    by (vm_compute; discriminate).
  split; [reflexivity |]. split; [exact Hn |]. split; [exact Hset |]. split; [exact Hchg |].
  destruct (check_vf_rate_limit_on_speed_change dev_two link_1g_after_10g []
              [vf_plain; vf_port_vlan] eq_refl Hn) as [_ H].
  destruct (H Hset Hchg) as (w' & H1 & H2).
  exists w'. split; [exact H1 | exact H2].
Defined.

(* the second VF has not completed its reset handshake *)
Definition dev_mixed : @ixgbe_adapter rar_table :=
  bench_adapter ixgbe_mac_X540 0 [vf_plain; vf_blocked] [(mac_pf, 99%nat)] 16 [] 2 false.

Lemma ping_all_vfs_pings_each_vf_once_witness :
  vfinfo dev_mixed = Some [vf_plain; vf_blocked] /\
  num_vfs dev_mixed <= Z.of_nat (length [vf_plain; vf_blocked]) /\
  exists a',
    ixgbe_ping_all_vfs dev_mixed = Some a' /\
    vfinfo a' = vfinfo dev_mixed /\
    mbx_out (hw a') =
      [(0%nat, [Z.lor IXGBE_PF_CONTROL_MSG IXGBE_VT_MSGTYPE_CTS]);
       (1%nat, [IXGBE_PF_CONTROL_MSG])].
Proof.
  assert (Hn : num_vfs dev_mixed <= Z.of_nat (length [vf_plain; vf_blocked]))
    by (vm_compute; discriminate).
  split; [reflexivity |]. split; [exact Hn |].
  destruct (ping_all_vfs_pings_each_vf_once dev_mixed [vf_plain; vf_blocked] eq_refl Hn)
    as (a' & H1 & H2 & _ & _ & H5).
  exists a'. split; [exact H1 |]. split; [exact H2 | exact H5].
Defined.

(** ** X28 *)

Definition bench_full_sync_mac_table (a : @ixgbe_adapter rar_table) : rar_table * regfile :=
  (mac_table a, regs (hw a)).

Definition mta_empty : mta_state :=
  {| mta_shadow := replicate (Z.to_nat IXGBE_MAX_MTA) 0; mta_in_use := 0 |}.

Lemma restore_vf_multicasts_covers_request_witness :
  let t := [vf_plain; vf_port_vlan] in
  let msgbuf := request IXGBE_VF_SET_MULTICAST 40 :: replicate 15 0x01230456 in
  vfinfo dev_two = Some t /\ num_vfs dev_two <= Z.of_nat (length t) /\
  Z.of_nat 0 < num_vfs dev_two /\ (forall i r, t !! i = Some r -> mc_ok r) /\
  exists a1 a2 m' r1,
    ixgbe_set_vf_multicasts bench_write_mc_addr_list dev_two msgbuf 0 = Some (a1, 0) /\
    vf_get a1 0 = Some r1 /\ num_vf_mc_hashes r1 = 30 /\
    ixgbe_restore_vf_multicasts bench_full_sync_mac_table a1 mta_empty = Some (a2, m') /\
    mta_has 0x0456 m' /\ mta_has 0x0123 m'.
Proof.
  intros t msgbuf.
  assert (Hn : num_vfs dev_two <= Z.of_nat (length t)) by (vm_compute; discriminate).
  assert (Hok : forall i r, t !! i = Some r -> mc_ok r).
  { intros i r Hi. apply (dev_two_all mc_ok (bench_vf_mc_ok _ _ _ _ _ _ _)
                            (bench_vf_mc_ok _ _ _ _ _ _ _) i r).
    exact Hi. }
  split; [reflexivity |]. split; [exact Hn |]. split; [reflexivity |]. split; [exact Hok |].
  destruct (restore_vf_multicasts_covers_request bench_write_mc_addr_list
              bench_full_sync_mac_table dev_two msgbuf 0%nat mta_empty t
              eq_refl Hn eq_refl Hok)
    as (a1 & a2 & m' & r1 & H1 & H2 & H3 & H4 & _ & H6).
  exists a1, a2, m', r1. split; [exact H1 |]. split; [exact H2 |]. split; [exact H3 |].
  split; [exact H4 |]. split.
  - apply (H6 0%nat). vm_compute. reflexivity.
  - apply (H6 1%nat). vm_compute. reflexivity.
Defined.

(** ** X29, X30 *)

(* the MAC reports a malicious event on VF 1 *)
Definition bench_ops2 : ixgbe_mac_operations_mdd :=
  {| mdd_event := Some (fun rf => (rf, (2, 0)));
     restore_mdd_vf := Some (fun rf _ => rf);
     set_ethertype_anti_spoofing := None |}.

(* a reset is pending for VF 1, a message and an acknowledgement for VF 0 *)
Definition bench_check_for_rst (a : @ixgbe_adapter rar_table) (vf : nat) : regfile * Z :=
  (regs (hw a), if (vf =? 1)%nat then 0 else IXGBE_ERR_MBX).
Definition bench_check_for_msg (a : @ixgbe_adapter rar_table) (vf : nat) : regfile * Z :=
  (regs (hw a), if (vf =? 0)%nat then 0 else IXGBE_ERR_MBX).
Definition bench_check_for_ack (a : @ixgbe_adapter rar_table) (vf : nat) : regfile * Z :=
  (regs (hw a), if (vf =? 0)%nat then 0 else IXGBE_ERR_MBX).
Definition bench_read_mbx (a : @ixgbe_adapter rar_table) (vf : nat)
  : regfile * (Z * list Z) :=
  (regs (hw a), (0, IXGBE_VF_SET_MAC_ADDR :: mac_words mac_b)).

(* two VFs, 20 receive-address entries and so 20 - (15 + 1 + 2) = 2 entries in
   the MAC-VLAN list, with malicious driver detection on *)
Definition dev_mdd : @ixgbe_adapter rar_table :=
  set_flags
    (set_mv_list
       (bench_adapter ixgbe_mac_X540 0 [vf_plain; vf_port_vlan] [(mac_pf, 99%nat)] 20 [] 2
          false)
       (Some (replicate 2 fresh_macvlan)))
    {| IXGBE_FLAG_SRIOV_CAPABLE := true; IXGBE_FLAG_SRIOV_ENABLED := true;
       IXGBE_FLAG_VMDQ_ENABLED := true; IXGBE_FLAG_SRIOV_L2SWITCH_ENABLE := true;
       IXGBE_FLAG_SRIOV_REPLICATION_ENABLE := true; IXGBE_FLAG_MDD_ENABLED := true |}.

Lemma msg_task_keeps_admin_settings_witness :
  vf_get dev_mdd 1 = Some vf_port_vlan /\
  exists a',
    ixgbe_msg_task bench_ops bench_add_mac_filter bench_del_mac_filter
      bench_write_mc_addr_list bench_set_rx_mode bench_update_pf_promisc_vlvf
      bench_rss_indir_tbl_entries bench_ops2 bench_check_for_rst bench_check_for_msg
      bench_check_for_ack bench_read_mbx dev_mdd = Some a' /\
    exists r', vf_get a' 1 = Some r' /\ admin_same vf_port_vlan r' /\
               (api_known vf_port_vlan -> api_known r') /\ (mc_ok vf_port_vlan -> mc_ok r').
Proof.
  split; [reflexivity |].
  assert (Hrun : exists a',
            ixgbe_msg_task bench_ops bench_add_mac_filter bench_del_mac_filter
              bench_write_mc_addr_list bench_set_rx_mode bench_update_pf_promisc_vlvf
              bench_rss_indir_tbl_entries bench_ops2 bench_check_for_rst bench_check_for_msg
              bench_check_for_ack bench_read_mbx dev_mdd = Some a')
    by (eexists; vm_compute; reflexivity).
  destruct Hrun as [a' Hrun].
  exists a'. split; [exact Hrun |].
  apply (msg_task_keeps_admin_settings bench_ops bench_add_mac_filter bench_del_mac_filter
           bench_write_mc_addr_list bench_set_rx_mode bench_update_pf_promisc_vlvf
           bench_rss_indir_tbl_entries bench_ops2 bench_check_for_rst bench_check_for_msg
           bench_check_for_ack bench_read_mbx dev_mdd a' Hrun 1%nat vf_port_vlan eq_refl).
Defined.

Lemma bench_flagged_in_table (v : nat) : mdd_flagged 2 0 v = true -> (v < 2)%nat.
Proof.
  intros Hv.
  assert (Hlt : (v < 64)%nat).
  { unfold mdd_flagged in Hv. apply andb_true_iff in Hv. apply Nat.ltb_lt, Hv. }
  do 64 (destruct v as [| v]; [vm_compute in Hv; first [discriminate Hv | lia] |]).
  lia.
Qed.

Lemma check_mdd_event_restarts_flagged_vfs_witness :
  let t := [vf_plain; vf_port_vlan] in
  mdd_event bench_ops2 = Some (fun rf => (rf, (2, 0))) /\
  restore_mdd_vf bench_ops2 = Some (fun rf _ => rf) /\
  vfinfo dev_mdd = Some t /\
  (forall v, mdd_flagged 2 0 v = true -> (v < length t)%nat) /\
  exists a',
    ixgbe_check_mdd_event bench_ops2 dev_mdd = Some (a', 1) /\
    vfinfo a' = Some [vf_plain; vf_set_cts vf_port_vlan false] /\
    mbx_out (hw a') = [(1%nat, [Z.lor IXGBE_PF_CONTROL_MSG IXGBE_VT_MSGTYPE_CTS])].
Proof.
  intros t. split; [reflexivity |]. split; [reflexivity |]. split; [reflexivity |].
  split; [exact bench_flagged_in_table |].
  destruct (check_mdd_event_restarts_flagged_vfs bench_ops2 dev_mdd
              (fun rf => (rf, (2, 0))) (fun rf _ => rf) (regs (hw dev_mdd)) 2 0 t
              eq_refl eq_refl eq_refl eq_refl bench_flagged_in_table)
    as (a' & H1 & H2 & H3).
  exists a'. split; [exact H1 |]. split; [exact H2 | exact H3].
Defined.
